(** * InsightEase behavioural analytics: funnels, path graphs, attribution
      and sequence mining

    A shallow embedding of the services under
    [insightease-backend/app/services]:

    - [path_analysis_service.py]   (funnel_analysis, path_analysis,
                                    key_path_analysis),
    - [attribution_service.py]     (_build_user_journeys, the six models,
                                    _normalize_attribution, the summary),
    - [sequence_mining_service.py] (_build_sequences, _prefixspan_mining,
                                    _mine_association_rules,
                                    _find_high_conversion_patterns,
                                    _calculate_sequence_stats,
                                    sequence_pattern_mining,
                                    sequence_classification),

    together with the path branch of execute_analysis_task and
    quick_path_analysis in [app/api/v1/endpoints/analysis.py].

    Conventions of the embedding.

    - A pandas DataFrame is a list of column names and a list of rows; a
      cell is an integer, a string or a float, and no cell is missing (so
      [groupby] has no row to leave out for want of a key).
      Python floats are exact rationals ([Q]): a statement about a sum of
      credits is a statement of exact arithmetic, and [round] is decimal
      rounding, half to even.  [math.log(2)] and [math.exp] are parameters.
      The one product that is truncated to an integer, the support threshold
      of the sequence mining, is rounded as binary64 rounds it ([Float]).
    - A string is the list of the bytes of its UTF-8 text.
    - Timestamps are instants counted in seconds ([VInt]); [pd.to_datetime]
      accepts them and rejects other cells (textual dates are parsed before
      the data reaches these services).
    - A Python [dict], [Counter] or [defaultdict] is an association list in
      insertion order.  A [set] is a list without duplicates in order of
      first insertion; Python leaves the iteration order of a set open, and
      no statement below depends on it.
    - Sorting is a stable insertion sort.  pandas promises stability for
      [sorted] and for a sort on several keys, not for [sort_values] on one
      key; no statement below depends on the order of rows with equal keys.
    - A raised exception is the [Err] case of [Result].
    - The optional additional event or touchpoint columns, the texts of
      the messages and of the printed rules, and the descriptive statistics
      of [analysis_service.py] are outside the embedding.  So is the
      clustering of paths (scikit-learn and scipy): where an endpoint calls
      it, it is a parameter. *)

From Stdlib Require Import List ZArith QArith Qround Qabs String Ascii Bool.
From Stdlib Require Import Lia Lqa Permutation Sorted OrderedTypeEx.
Import ListNotations.

Set Implicit Arguments.

(* ================================================================== *)
(** ** Exceptions and the error monad *)

Inductive PyError :=
| KeyError (key : string)
| TypeError
| ValueError (msg : string)
| ZeroDivisionError
| HTTPException (status : Z) (detail : string).

(** The class name an exception handler would see. *)
Definition exc_class (e : PyError) : string :=
  match e with
  | KeyError _ => "KeyError"
  | TypeError => "TypeError"
  | ValueError _ => "ValueError"
  | ZeroDivisionError => "ZeroDivisionError"
  | HTTPException _ _ => "HTTPException"
  end.

Inductive Result (A : Type) :=
| Ok (a : A)
| Err (e : PyError).

Arguments Ok {A} a.
Arguments Err {A} e.

Definition bind {A B} (r : Result A) (k : A -> Result B) : Result B :=
  match r with
  | Ok a => k a
  | Err e => Err e
  end.

Notation "x <- r ;; k" := (bind r (fun x => k))
  (at level 61, r at next level, right associativity).

Fixpoint mapM {A B} (f : A -> Result B) (l : list A) : Result (list B) :=
  match l with
  | [] => Ok []
  | a :: l' => b <- f a ;; bs <- mapM f l' ;; Ok (b :: bs)
  end.

(* ================================================================== *)
(** ** Cells and Python's comparisons on them *)

Inductive Cell :=
| VInt (z : Z)
| VStr (s : string)
| VFloat (q : Q).

Definition cell_num (c : Cell) : option Q :=
  match c with
  | VInt z => Some (inject_Z z)
  | VFloat q => Some q
  | VStr _ => None
  end.

(** Python's [==]: numbers compare by value, strings by content, a number is
    never equal to a string. *)
Definition cell_eqb (a b : Cell) : bool :=
  match cell_num a, cell_num b with
  | Some x, Some y => Qeq_bool x y
  | None, None =>
      match a, b with
      | VStr s, VStr t => String.eqb s t
      | _, _ => false
      end
  | _, _ => false
  end.

(** The order used for sorting and for group keys: numbers by value, strings
    lexicographically, numbers before strings (pandas orders the keys of a
    mixed column this way). *)
Definition cell_leb (a b : Cell) : bool :=
  match cell_num a, cell_num b with
  | Some x, Some y => Qle_bool x y
  | Some _, None => true
  | None, Some _ => false
  | None, None =>
      match a, b with
      | VStr s, VStr t => String.leb s t
      | _, _ => true
      end
  end.

(** [bool(x)] *)
Definition truthy (c : Cell) : bool :=
  match c with
  | VInt z => negb (Z.eqb z 0)
  | VFloat q => negb (Qeq_bool q 0)
  | VStr s => negb (String.eqb s EmptyString)
  end.

(** [float(x)]; a string cell is not a number. *)
Definition to_float (c : Cell) : Result Q :=
  match cell_num c with
  | Some q => Ok q
  | None => Err (ValueError "could not convert string to float")
  end.

(* ================================================================== *)
(** ** Python list helpers *)

Module Py.

(** [x in l] *)
Definition mem (x : Cell) (l : list Cell) : bool := existsb (cell_eqb x) l.

(** [l.index(x)]: position of the first element equal to [x]. *)
Fixpoint index (x : Cell) (l : list Cell) : option nat :=
  match l with
  | [] => None
  | y :: l' => if cell_eqb y x then Some 0%nat
               else option_map S (index x l')
  end.

(** [l[:n]] for an integer [n] of either sign. *)
Definition slice_to {A} (n : Z) (l : list A) : list A :=
  if (0 <=? n)%Z then firstn (Z.to_nat n) l
  else firstn (List.length l - Z.to_nat (- n)) l.

(** [l[n:]] for a natural [n]. *)
Definition slice_from {A} (n : nat) (l : list A) : list A := skipn n l.

(** [sum(l)] over floats. *)
Definition qsum (l : list Q) : Q := fold_right Qplus 0 l.

(** Decimal rounding, half to even: [round(x, n)]. *)
Definition round_half_even (x : Q) : Z :=
  let f := Qfloor x in
  match Qcompare (x - inject_Z f) (1 # 2) with
  | Lt => f
  | Gt => (f + 1)%Z
  | Eq => if Z.even f then f else (f + 1)%Z
  end.

Definition round (x : Q) (n : nat) : Q :=
  inject_Z (round_half_even (x * inject_Z (10 ^ Z.of_nat n)))
  / inject_Z (10 ^ Z.of_nat n).

(** [int(x)]: truncation toward zero. *)
Definition int (x : Q) : Z :=
  if Qle_bool 0 x then Qfloor x else Qceiling x.

(** Stable insertion sort; [sorted(l, key=..)] and, with the order reversed,
    [sorted(l, key=.., reverse=True)] (both keep ties in their original
    order). *)
Section Sorting.
Variable A : Type.
Variable leb : A -> A -> bool.

Fixpoint insert (x : A) (l : list A) : list A :=
  match l with
  | [] => [x]
  | y :: l' => if leb x y then x :: l else y :: insert x l'
  end.

Fixpoint sort (l : list A) : list A :=
  match l with
  | [] => []
  | x :: l' => insert x (sort l')
  end.
End Sorting.

(** [l[i:j]] for naturals [i] and [j]. *)
Definition slice {A} (i j : nat) (l : list A) : list A :=
  firstn (j - i) (skipn i l).

(** [min(x :: l, key=..)] with [ltb a b] for [key(a) < key(b)]: the first of
    the smallest elements. *)
Fixpoint min_by {A} (ltb : A -> A -> bool) (best : A) (l : list A) : A :=
  match l with
  | [] => best
  | x :: l' => min_by ltb (if ltb x best then x else best) l'
  end.

(** [max(l)] and [min(l)] over the integers of a non-empty list. *)
Definition max_of (l : list nat) : nat := fold_right Nat.max 0%nat l.

Definition min_of (l : list nat) : nat :=
  match l with
  | [] => 0%nat
  | x :: l' => fold_left Nat.min l' x
  end.

(** [repr(s)] of a string.  The quote is the apostrophe, or the double
    quote when the string holds an apostrophe and no double quote; the
    quote in use and the backslash are escaped with a backslash, tab,
    newline and carriage return are written [\t], [\n], [\r], and the other
    control characters of ASCII [\xNN].  A string is the list of the bytes of
    its UTF-8 text: the bytes of a character outside ASCII are copied, which
    is what Python does for a printable character. *)
Definition hex_digit (n : nat) : ascii :=
  nth n ["0"; "1"; "2"; "3"; "4"; "5"; "6"; "7"; "8"; "9";
         "a"; "b"; "c"; "d"; "e"; "f"]%char "0"%char.

Definition double_quote : ascii := ascii_of_nat 34.

Definition repr_char (quote c : ascii) : string :=
  let n := nat_of_ascii c in
  if Ascii.eqb c quote || Ascii.eqb c "\"%char
  then String "\" (String c EmptyString)
  else if (n =? 9)%nat then "\t"
  else if (n =? 10)%nat then "\n"
  else if (n =? 13)%nat then "\r"
  else if (n <? 32)%nat || (n =? 127)%nat
  then String "\" (String "x" (String (hex_digit (n / 16))
                                 (String (hex_digit (n mod 16)) EmptyString)))
  else String c EmptyString.

Fixpoint repr_body (quote : ascii) (s : string) : string :=
  match s with
  | EmptyString => EmptyString
  | String c s' => repr_char quote c ++ repr_body quote s'
  end.

Fixpoint has_char (c : ascii) (s : string) : bool :=
  match s with
  | EmptyString => false
  | String c' s' => Ascii.eqb c' c || has_char c s'
  end.

Definition repr (s : string) : string :=
  let quote := if has_char "'" s && negb (has_char double_quote s)
               then double_quote else "'"%char in
  String quote (repr_body quote s ++ String quote EmptyString).

End Py.

(** [str(e)]: a [KeyError] prints the [repr] of its key, a [ValueError] its
    message.  The messages of the exceptions raised inside pandas and by the
    interpreter are their own and are stood for by a short description. *)
Definition exc_str (e : PyError) : string :=
  match e with
  | KeyError k => Py.repr k
  | ValueError msg => msg
  | HTTPException _ d => d
  | _ => exc_class e
  end.

(* ================================================================== *)
(** ** Floating point: the product behind the support threshold *)

(** The services compute [int(min_support * total_sequences)] in binary64.
    A rational stands for a number as it is written ([0.58]); the float the
    code holds is the nearest number with a significand of 53 bits, ties
    going to the even significand, and the product of two floats is the
    nearest such number to their exact product.  The range of the exponent
    is not bounded here: a product below the normal range truncates to 0
    either way, and a product that overflows (a threshold far above 1, where
    the documented range of a support is 0 to 1) is outside the embedding. *)
Module Float.

(** [floor(log2(x))] for a positive [x]. *)
Definition ilog2 (x : Q) : Z :=
  let k := (Z.log2 (Qnum x) - Z.log2 (Zpos (Qden x)))%Z in
  if Qle_bool (Qpower 2 k) x then k else (k - 1)%Z.

Definition nearest_pos (x : Q) : Q :=
  let ulp := Qpower 2 (ilog2 x - 52) in
  inject_Z (Py.round_half_even (x / ulp)) * ulp.

(** The float nearest to [x]. *)
Definition nearest (x : Q) : Q :=
  match Qcompare x 0 with
  | Eq => 0
  | Gt => nearest_pos x
  | Lt => - nearest_pos (- x)
  end.

(** [x * y] on floats; an integer operand is converted first. *)
Definition mul (x y : Q) : Q := nearest (nearest x * nearest y).

End Float.

(* ================================================================== *)
(** ** Association lists: dict, defaultdict, Counter *)

Module Dict.

Section Dict.
Variables K V : Type.
Variable eqb : K -> K -> bool.

Definition t := list (K * V).

Fixpoint get (d : t) (k : K) : option V :=
  match d with
  | [] => None
  | (k', v) :: d' => if eqb k' k then Some v else get d' k
  end.

(** [d[k] = f(d.get(k, dflt))]: update in place, or append a new key. *)
Fixpoint upd (dflt : V) (f : V -> V) (k : K) (d : t) : t :=
  match d with
  | [] => [(k, f dflt)]
  | (k', v) :: d' =>
      if eqb k' k then (k', f v) :: d' else (k', v) :: upd dflt f k d'
  end.

Definition keys (d : t) : list K := map fst d.
Definition values (d : t) : list V := map snd d.
End Dict.

End Dict.

(** Equality of tuples of cells (a path used as a dictionary key). *)
Fixpoint path_eqb (p q : list Cell) : bool :=
  match p, q with
  | [], [] => true
  | a :: p', b :: q' => cell_eqb a b && path_eqb p' q'
  | _, _ => false
  end.

(* ================================================================== *)
(** ** The part of pandas the services use *)

Module Pandas.

Definition Row := list Cell.

Record DataFrame := { columns : list string; data : list Row }.

(** [df.columns.get_loc(c)] *)
Fixpoint get_loc (cols : list string) (c : string) : option nat :=
  match cols with
  | [] => None
  | c' :: cols' => if String.eqb c' c then Some 0%nat
                   else option_map S (get_loc cols' c)
  end.

(** [c in df.columns] *)
Definition has_column (df : DataFrame) (c : string) : bool :=
  existsb (String.eqb c) (columns df).

(** Selecting a column that is absent raises [KeyError] with its name. *)
Definition column_index (df : DataFrame) (c : string) : Result nat :=
  match get_loc (columns df) c with
  | Some i => Ok i
  | None => Err (KeyError c)
  end.

Definition cell (r : Row) (i : nat) : Cell := nth i r (VInt 0).

Definition column (df : DataFrame) (i : nat) : list Cell :=
  map (fun r => cell r i) (data df).

Definition is_instant (c : Cell) : bool :=
  match c with VInt _ => true | _ => false end.

Definition instant (c : Cell) : Z :=
  match c with VInt z => z | _ => 0%Z end.

(** [df[c] = pd.to_datetime(df[c])] *)
Definition to_datetime (df : DataFrame) (c : string) : Result DataFrame :=
  i <- column_index df c ;;
  if forallb is_instant (column df i) then Ok df
  else Err (ValueError "unable to parse the timestamps").

(** The cells of a column are mutually comparable when they are all numbers
    or all strings. *)
Definition comparable (cs : list Cell) : bool :=
  forallb (fun c => match c with VStr _ => false | _ => true end) cs
  || forallb (fun c => match c with VStr _ => true | _ => false end) cs.

(** Lexicographic comparison of two rows on the key columns. *)
Fixpoint row_leb (keys : list nat) (r1 r2 : Row) : bool :=
  match keys with
  | [] => true
  | k :: keys' =>
      if cell_leb (cell r1 k) (cell r2 k)
      then (if cell_leb (cell r2 k) (cell r1 k) then row_leb keys' r1 r2
            else true)
      else false
  end.

(** [df.sort_values(by)], ascending.  Rows with equal keys keep their
    order.  On one key pandas compares the cells of the column with each
    other, and a column that mixes numbers and strings raises [TypeError].
    On several keys it first ranks the values of every key column, numbers
    before strings, and sorts on the ranks: this never raises. *)
Definition sortable (df : DataFrame) (idx : list nat) : bool :=
  match idx with
  | [i] => comparable (column df i)
  | _ => true
  end.

Definition sort_values (df : DataFrame) (by_ : list string)
  : Result DataFrame :=
  idx <- mapM (column_index df) by_ ;;
  if sortable df idx
  then Ok {| columns := columns df;
             data := Py.sort (row_leb idx) (data df) |}
  else Err TypeError.

(** One more row for the group of key [k]; groups are kept in increasing
    key order and every group keeps its rows in arrival order. *)
Fixpoint group_insert (k : Cell) (r : Row) (gs : list (Cell * list Row))
  : list (Cell * list Row) :=
  match gs with
  | [] => [(k, [r])]
  | (k', rs) :: gs' =>
      if cell_eqb k' k then (k', rs ++ [r]) :: gs'
      else if cell_leb k k' then (k, [r]) :: gs
      else (k', rs) :: group_insert k r gs'
  end.

(** [df.groupby(c)]: the key of each group and its rows.  pandas leaves out
    the rows whose key is missing; a frame has no missing cell here, so every
    row falls in a group. *)
Definition groupby (df : DataFrame) (c : string)
  : Result (list (Cell * DataFrame)) :=
  i <- column_index df c ;;
  Ok (map (fun g => (fst g, {| columns := columns df; data := snd g |}))
          (fold_left (fun gs r => group_insert (cell r i) r gs)
                     (data df) [])).

(** [df.groupby(c)[e].apply(list).to_dict()]; selecting an absent column
    of a grouped frame raises [KeyError] with the name after a fixed text. *)
Definition groupby_lists (df : DataFrame) (c e : string)
  : Result (list (Cell * list Cell)) :=
  gs <- groupby df c ;;
  j <- match get_loc (columns df) e with
       | Some j => Ok j
       | None => Err (KeyError ("Column not found: " ++ e))
       end ;;
  Ok (map (fun g => (fst g, column (snd g) j)) gs).

(** [len(user_df)] *)
Definition len (df : DataFrame) : nat := List.length (data df).

(** [user_df[c].iloc[-1]] on a frame with at least one row. *)
Definition last_cell (df : DataFrame) (i : nat) : Cell :=
  last (column df i) (VInt 0).

End Pandas.

(** [enumerate(l)] *)
Definition enumerate {A} (l : list A) : list (nat * A) :=
  combine (seq 0 (List.length l)) l.

(* ================================================================== *)
(** ** path_analysis_service.py *)

Module PathAnalysisService.
Import Pandas.

(** *** funnel_analysis *)

(** [if time_window and ...]: a window of [None] or [0] is no window. *)
Definition window_on (time_window : option Z) : bool :=
  match time_window with
  | Some w => negb (w =? 0)%Z
  | None => false
  end.

(** [(ts[event_idx] - ts[prev_idx]).total_seconds() / 3600] *)
Definition hours_between (ts : list Cell) (event_idx prev_idx : nat) : Q :=
  inject_Z (instant (nth event_idx ts (VInt 0))
            - instant (nth prev_idx ts (VInt 0))) / inject_Z 3600.

(** The body of the inner loop for one user at step [i]: whether the user is
    added to [step_users[i]] and the time appended to [step_times[i]]. *)
Definition funnel_user (funnel_steps : list Cell) (time_window : option Z)
    (i : nat) (step : Cell) (events ts : list Cell) : bool * option Q :=
  match Py.index step events with
  | None => (false, None)
  | Some event_idx =>
      let prev_step := nth (i - 1) funnel_steps (VInt 0) in
      if window_on time_window && (0 <? i)%nat then
        match Py.index prev_step events, time_window with
        | Some prev_idx, Some w =>
            if (prev_idx <? event_idx)%nat then
              let time_diff := hours_between ts event_idx prev_idx in
              if Qle_bool time_diff (inject_Z w)
              then (true, Some time_diff)
              else (false, None)
            else (false, None)
        | _, _ => (false, None)
        end
      else
        (true,
         if (0 <? i)%nat then
           match Py.index prev_step events with
           | Some prev_idx =>
               if (prev_idx <? event_idx)%nat
               then Some (hours_between ts event_idx prev_idx)
               else None
           | None => None
           end
         else None)
  end.

(** One pass of the outer loop: the users added at step [i], each with the
    transition time recorded for them (if any). *)
Definition step_scan (funnel_steps : list Cell) (time_window : option Z)
    (user_paths user_timestamps : list (Cell * list Cell))
    (i : nat) (step : Cell) : list (Cell * option Q) :=
  flat_map
    (fun up =>
       let ts := match Dict.get cell_eqb user_timestamps (fst up) with
                 | Some l => l
                 | None => []
                 end in
       let r := funnel_user funnel_steps time_window i step (snd up) ts in
       if fst r then [(fst up, snd r)] else [])
    user_paths.

Definition step_users funnel_steps time_window user_paths user_timestamps
    (i : nat) : list Cell :=
  match nth_error funnel_steps i with
  | Some step =>
      map fst (step_scan funnel_steps time_window user_paths
                 user_timestamps i step)
  | None => []
  end.

Definition step_times funnel_steps time_window user_paths user_timestamps
    (i : nat) : list Q :=
  match nth_error funnel_steps i with
  | Some step =>
      flat_map (fun x => match snd x with Some t => [t] | None => [] end)
        (step_scan funnel_steps time_window user_paths user_timestamps
           i step)
  | None => []
  end.

Record FunnelStep := {
  fs_step : nat;
  fs_name : Cell;
  fs_users : nat;
  fs_conversion_rate : Q;
  fs_drop_off_rate : Q;
  fs_avg_time_from_prev : Q
}.

Record FunnelResult := {
  fr_funnel_steps : list FunnelStep;
  fr_total_users : nat;
  fr_overall_conversion_rate : option Q
}.

Definition qnat (n : nat) : Q := inject_Z (Z.of_nat n).

(** [np.mean(l)] on a non-empty list. *)
Definition mean (l : list Q) : Q := Py.qsum l / qnat (List.length l).

Definition funnel_step_result funnel_steps time_window user_paths
    user_timestamps (i : nat) (step : Cell) : FunnelStep :=
  let su := step_users funnel_steps time_window user_paths user_timestamps in
  let users := List.length (su i) in
  let prev_users := List.length (su (i - 1)%nat) in
  let conversion_rate :=
    if (i =? 0)%nat then 100
    else if (0 <? prev_users)%nat
         then (qnat users / qnat prev_users) * 100
         else 0 in
  let drop_off_rate :=
    if (i =? 0)%nat then 0
    else if (0 <? prev_users)%nat then 100 - conversion_rate
         else 100 in
  let times :=
    step_times funnel_steps time_window user_paths user_timestamps i in
  let avg_time := match times with [] => 0 | _ => mean times end in
  {| fs_step := i + 1;
     fs_name := step;
     fs_users := users;
     fs_conversion_rate := Py.round conversion_rate 2;
     fs_drop_off_rate := Py.round drop_off_rate 2;
     fs_avg_time_from_prev := Py.round avg_time 2 |}.

Definition funnel_of_paths (funnel_steps : list Cell)
    (time_window : option Z)
    (user_paths user_timestamps : list (Cell * list Cell)) : FunnelResult :=
  let steps :=
    map (fun s => funnel_step_result funnel_steps time_window user_paths
                    user_timestamps (fst s) (snd s))
        (enumerate funnel_steps) in
  {| fr_funnel_steps := steps;
     fr_total_users := List.length user_paths;
     fr_overall_conversion_rate :=
       match steps with
       | [] => None
       | first :: _ =>
           let last_users := fs_users (last steps first) in
           Some (if (0 <? fs_users first)%nat
                 then Py.round (qnat last_users / qnat (fs_users first) * 100)
                        2
                 else 0)
       end |}.

(** The preprocessing shared by funnel_analysis and path_analysis: parse the
    timestamps, sort by user and time, and list every user's events and
    timestamps (path_analysis reads the events only). *)
Definition user_lists (df : DataFrame)
    (user_id_col event_col timestamp_col : string)
  : Result (list (Cell * list Cell) * list (Cell * list Cell)) :=
  df1 <- to_datetime df timestamp_col ;;
  df2 <- sort_values df1 [user_id_col; timestamp_col] ;;
  user_paths <- groupby_lists df2 user_id_col event_col ;;
  user_timestamps <- groupby_lists df2 user_id_col timestamp_col ;;
  Ok (user_paths, user_timestamps).

Definition funnel_analysis (df : DataFrame)
    (user_id_col event_col timestamp_col : string)
    (funnel_steps : list Cell) (time_window : option Z)
  : Result FunnelResult :=
  ul <- user_lists df user_id_col event_col timestamp_col ;;
  Ok (funnel_of_paths funnel_steps time_window (fst ul) (snd ul)).

(** *** path_analysis *)

Definition PathCounter := list (list Cell * nat).

(** The first loop: count the truncated sequence of every user. *)
Definition count_paths (user_paths : list (Cell * list Cell))
    (max_path_length : Z) : PathCounter :=
  fold_left
    (fun pc up =>
       Dict.upd path_eqb 0%nat S (Py.slice_to max_path_length (snd up)) pc)
    user_paths [].

(** The nodes of a path that are met again after a first visit, each once. *)
Fixpoint cycle_nodes (seen acc : list Cell) (path : list Cell) : list Cell :=
  match path with
  | [] => acc
  | node :: rest =>
      let acc' := if Py.mem node seen && negb (Py.mem node acc)
                  then acc ++ [node] else acc in
      cycle_nodes (node :: seen) acc' rest
  end.

Record CycleDetail := {
  cd_path : list Cell;
  cd_user_count : nat;
  cd_cycle_nodes : list Cell
}.

Definition cycles_detected (pc : PathCounter) : list CycleDetail :=
  flat_map
    (fun p =>
       match cycle_nodes [] [] (fst p) with
       | [] => []
       | cn => [{| cd_path := fst p; cd_user_count := snd p;
                   cd_cycle_nodes := cn |}]
       end)
    pc.

(** [count >= min_user_count] *)
Definition frequent (min_user_count : Z) (count : nat) : bool :=
  (min_user_count <=? Z.of_nat count)%Z.

(** The node list: the events of the frequent paths in first-seen order;
    [node_map[event]] is the position of [event] in it. *)
Definition add_nodes (nodes : list Cell) (path : list Cell) : list Cell :=
  fold_left (fun ns ev => if Py.mem ev ns then ns else ns ++ [ev])
    path nodes.

Definition build_nodes (pc : PathCounter) (min_user_count : Z) : list Cell :=
  fold_left
    (fun ns p => if frequent min_user_count (snd p)
                 then add_nodes ns (fst p) else ns)
    pc [].

Definition LinkCounter := list ((nat * nat) * nat).

Definition link_eqb (a b : nat * nat) : bool :=
  ((fst a =? fst b) && (snd a =? snd b))%nat.

(** The flow links of one path: a transition whose target was already a
    source earlier in the path is skipped. *)
Fixpoint sankey_path (nodes : list Cell) (count : nat) (seen : list Cell)
    (path : list Cell) (lc : LinkCounter) : LinkCounter :=
  match path with
  | source_node :: ((target_node :: _) as rest) =>
      if Py.mem target_node seen
      then sankey_path nodes count seen rest lc
      else
        let lc' :=
          match Py.index source_node nodes, Py.index target_node nodes with
          | Some source, Some target =>
              if negb (source =? target)%nat
              then Dict.upd link_eqb 0%nat (fun v => (v + count)%nat)
                     (source, target) lc
              else lc
          | _, _ => lc
          end in
        sankey_path nodes count (source_node :: seen) rest lc'
  | _ => lc
  end.

Definition sankey_links (pc : PathCounter) (min_user_count : Z)
    (nodes : list Cell) : LinkCounter :=
  fold_left
    (fun lc p => if frequent min_user_count (snd p)
                 then sankey_path nodes (snd p) [] (fst p) lc else lc)
    pc [].

(** The links of the force-directed graph: every adjacent transition of a
    frequent path, self-transitions apart. *)
Fixpoint graph_path (count : nat) (path : list Cell)
  : list (Cell * Cell * nat) :=
  match path with
  | source :: ((target :: _) as rest) =>
      (if cell_eqb source target then [] else [(source, target, count)])
      ++ graph_path count rest
  | _ => []
  end.

Definition graph_links (pc : PathCounter) (min_user_count : Z)
  : list (Cell * Cell * nat) :=
  flat_map (fun p => if frequent min_user_count (snd p)
                     then graph_path (snd p) (fst p) else [])
    pc.

(** [path_counter.most_common(n)]: by count, largest first, ties in
    first-seen order. *)
Definition most_common (n : nat) (pc : PathCounter) : PathCounter :=
  firstn n (Py.sort (fun a b => (snd b <=? snd a)%nat) pc).

Record TopPath := {
  tp_path : list Cell;
  tp_user_count : nat;
  tp_percentage : Q
}.

Definition top_paths (pc : PathCounter) (min_user_count : Z)
    (n_users : nat) : list TopPath :=
  flat_map
    (fun p =>
       if frequent min_user_count (snd p)
       then [{| tp_path := fst p; tp_user_count := snd p;
                tp_percentage :=
                  Py.round (qnat (snd p) / qnat n_users * 100) 2 |}]
       else [])
    (most_common 20 pc).

(** The result of path_analysis, without the per-node statistics
    ([node_details] and the node sizes of the force graph). *)
Record PathResult := {
  pr_total_users : nat;
  pr_total_paths : nat;
  pr_has_cycle_in_data : bool;
  pr_cycle_details : list CycleDetail;
  pr_top_paths : list TopPath;
  pr_sankey_nodes : list Cell;
  pr_sankey_links : LinkCounter;
  pr_graph_nodes : list Cell;
  pr_graph_links : list (Cell * Cell * nat);
  pr_max_path_length : Z
}.

Definition path_of_paths (user_paths : list (Cell * list Cell))
    (max_path_length min_user_count : Z) : PathResult :=
  let path_counter := count_paths user_paths max_path_length in
  let cycles := cycles_detected path_counter in
  let nodes := build_nodes path_counter min_user_count in
  let has_cycle := (0 <? List.length cycles)%nat in
  {| pr_total_users := List.length user_paths;
     pr_total_paths := List.length path_counter;
     pr_has_cycle_in_data := has_cycle;
     pr_cycle_details := if has_cycle then firstn 10 cycles else [];
     pr_top_paths :=
       top_paths path_counter min_user_count (List.length user_paths);
     pr_sankey_nodes := nodes;
     pr_sankey_links := sankey_links path_counter min_user_count nodes;
     pr_graph_nodes := build_nodes path_counter min_user_count;
     pr_graph_links := graph_links path_counter min_user_count;
     pr_max_path_length := max_path_length |}.

Definition path_analysis (df : DataFrame)
    (user_id_col event_col timestamp_col : string)
    (max_path_length min_user_count : Z) : Result PathResult :=
  ul <- user_lists df user_id_col event_col timestamp_col ;;
  Ok (path_of_paths (fst ul) max_path_length min_user_count).

(** *** key_path_analysis *)

Record CompletePath := {
  cp_user_id : Cell;
  cp_path : list Cell;
  cp_steps : nat;
  cp_duration_seconds : Q
}.

(** The body of the loop for one user: the events from the first occurrence
    of [start_event] to the first occurrence of [end_event], when the second
    comes after the first and at most [max_steps] later. *)
Definition complete_path (start_event end_event : Cell) (max_steps : Z)
    (user_times : list (Cell * list Cell)) (up : Cell * list Cell)
  : option CompletePath :=
  let events := snd up in
  match Py.index start_event events, Py.index end_event events with
  | Some start_idx, Some end_idx =>
      if (start_idx <? end_idx)%nat
         && (Z.of_nat end_idx - Z.of_nat start_idx <=? max_steps)%Z
      then
        let times := match Dict.get cell_eqb user_times (fst up) with
                     | Some l => l
                     | None => []
                     end in
        let path_segment := Py.slice start_idx (end_idx + 1) events in
        let time_segment := Py.slice start_idx (end_idx + 1) times in
        Some {| cp_user_id := fst up;
                cp_path := path_segment;
                cp_steps := List.length path_segment - 1;
                cp_duration_seconds :=
                  inject_Z (instant (last time_segment (VInt 0))
                            - instant (hd (VInt 0) time_segment)) |}
      else None
  | _, _ => None
  end.

Definition complete_paths (start_event end_event : Cell) (max_steps : Z)
    (user_paths user_times : list (Cell * list Cell)) : list CompletePath :=
  flat_map
    (fun up =>
       match complete_path start_event end_event max_steps user_times up with
       | Some p => [p]
       | None => []
       end)
    user_paths.

(** An entry of [optimal_paths]. *)
Record OptimalPath := {
  op_path : list Cell;
  op_steps : nat;
  op_duration_seconds : Q
}.

Definition optimal (p : CompletePath) : OptimalPath :=
  {| op_path := cp_path p; op_steps := cp_steps p;
     op_duration_seconds := cp_duration_seconds p |}.

(** An entry of [top_paths]. *)
Record PathShare := {
  ps_path : list Cell;
  ps_count : nat;
  ps_percentage : Q
}.

Record KeyPathResult := {
  kr_complete_path_count : nat;
  kr_avg_duration_seconds : Q;
  kr_avg_steps : Q;
  kr_min_steps : OptimalPath;
  kr_min_duration : OptimalPath;
  kr_top_paths : list PathShare
}.

(** The result: the message with [complete_path_count = 0] when no user goes
    from the start to the end, the statistics otherwise. *)
Inductive KeyPathOutput :=
| NoCompletePath
| KeyPaths (r : KeyPathResult).

Definition key_path_of_paths (start_event end_event : Cell) (max_steps : Z)
    (user_paths user_times : list (Cell * list Cell)) : KeyPathOutput :=
  match complete_paths start_event end_event max_steps user_paths user_times
  with
  | [] => NoCompletePath
  | first :: rest =>
      let paths := first :: rest in
      let path_counter :=
        fold_left (fun pc p => Dict.upd path_eqb 0%nat S (cp_path p) pc)
          paths [] in
      KeyPaths
        {| kr_complete_path_count := List.length paths;
           kr_avg_duration_seconds :=
             Py.round (mean (map cp_duration_seconds paths)) 2;
           kr_avg_steps :=
             Py.round (mean (map (fun p => qnat (cp_steps p)) paths)) 2;
           kr_min_steps :=
             optimal
               (Py.min_by (fun a b => (cp_steps a <? cp_steps b)%nat)
                  first rest);
           kr_min_duration :=
             optimal
               (Py.min_by
                  (fun a b =>
                     negb (Qle_bool (cp_duration_seconds b)
                             (cp_duration_seconds a)))
                  first rest);
           kr_top_paths :=
             map (fun pc =>
                    {| ps_path := fst pc; ps_count := snd pc;
                       ps_percentage :=
                         Py.round (qnat (snd pc) / qnat (List.length paths)
                                   * 100) 2 |})
               (most_common 10 path_counter) |}
  end.

Definition key_path_analysis (df : DataFrame)
    (user_id_col event_col timestamp_col : string)
    (start_event end_event : Cell) (max_steps : Z) : Result KeyPathOutput :=
  ul <- user_lists df user_id_col event_col timestamp_col ;;
  Ok (key_path_of_paths start_event end_event max_steps (fst ul) (snd ul)).

End PathAnalysisService.

(* ================================================================== *)
(** ** attribution_service.py *)

Module AttributionService.
Import Pandas.

Record Journey := {
  user_id : Cell;
  touchpoints : list Cell;
  timestamps : list Cell;
  converted : bool;
  conversion_value : Q;
  touchpoint_count : nat
}.

(** [col and col in user_df.columns] *)
Definition column_given (df : DataFrame) (col : option string) : bool :=
  match col with
  | Some c => negb (String.eqb c EmptyString) && has_column df c
  | None => false
  end.

Definition loc_or_zero (df : DataFrame) (col : option string) : nat :=
  match col with
  | Some c => match get_loc (columns df) c with Some i => i | None => 0%nat end
  | None => 0%nat
  end.

(** The body of the loop of _build_user_journeys for one group: [None] when
    the group has no touchpoint. *)
Definition build_journey (touchpoint_col timestamp_col : string)
    (conversion_col conversion_value_col : option string)
    (g : Cell * DataFrame) : Result (option Journey) :=
  user_df <- sort_values (snd g) [timestamp_col] ;;
  tp <- column_index user_df touchpoint_col ;;
  ts <- column_index user_df timestamp_col ;;
  let touchpoints := column user_df tp in
  let timestamps := column user_df ts in
  let converted :=
    if column_given user_df conversion_col
    then (if (0 <? len user_df)%nat
          then truthy (last_cell user_df (loc_or_zero user_df conversion_col))
          else false)
    else true in
  conversion_value <-
    (if column_given user_df conversion_value_col
     then (if (0 <? len user_df)%nat
           then to_float
                  (last_cell user_df (loc_or_zero user_df conversion_value_col))
           else Ok 1)
     else Ok 1) ;;
  Ok (match touchpoints with
      | [] => None
      | _ => Some {| user_id := fst g;
                     touchpoints := touchpoints;
                     timestamps := timestamps;
                     converted := converted;
                     conversion_value :=
                       if converted then conversion_value else 0;
                     touchpoint_count := List.length touchpoints |}
      end).

Definition _build_user_journeys (df : DataFrame)
    (user_id_col touchpoint_col timestamp_col : string)
    (conversion_col conversion_value_col : option string)
  : Result (list Journey) :=
  gs <- groupby df user_id_col ;;
  js <- mapM (build_journey touchpoint_col timestamp_col
                conversion_col conversion_value_col) gs ;;
  Ok (flat_map (fun o => match o with Some j => [j] | None => [] end) js).

(** *** The models *)

Definition Attribution := list (Cell * Q).

(** [attribution[k] += v] on a [defaultdict(float)] *)
Definition credit (k : Cell) (v : Q) (a : Attribution) : Attribution :=
  Dict.upd cell_eqb 0 (fun x => x + v) k a.

(** [journey["converted"] and journey["touchpoints"]] *)
Definition eligible (j : Journey) : bool :=
  converted j && match touchpoints j with [] => false | _ => true end.

Definition first_touch_raw (user_journeys : list Journey) : Attribution :=
  fold_left
    (fun a j =>
       if eligible j
       then credit (hd (VInt 0) (touchpoints j)) (conversion_value j) a
       else a)
    user_journeys [].

Definition last_touch_raw (user_journeys : list Journey) : Attribution :=
  fold_left
    (fun a j =>
       if eligible j
       then credit (last (touchpoints j) (VInt 0)) (conversion_value j) a
       else a)
    user_journeys [].

Definition qlen {A} (l : list A) : Q := inject_Z (Z.of_nat (List.length l)).

Definition linear_raw (user_journeys : list Journey) : Attribution :=
  fold_left
    (fun a j =>
       if eligible j
       then
         let value_per_touch := conversion_value j / qlen (touchpoints j) in
         fold_left (fun a' t => credit t value_per_touch a')
           (touchpoints j) a
       else a)
    user_journeys [].

Section TimeDecay.
(** The two calls into the [math] module: the constant [math.log(2)] and
    the function [math.exp], as the floats they return. *)
Variable ln2 : Q.
Variable exp : Q -> Q.

(** [(conversion_time - ts).total_seconds() / (24 * 3600)] *)
Definition days_before (conversion_time ts : Cell) : Q :=
  inject_Z (instant conversion_time - instant ts) / inject_Z (24 * 3600).

Definition decay_weights (lambda_decay : Q) (timestamps : list Cell)
  : list Q :=
  let conversion_time := last timestamps (VInt 0) in
  map (fun ts => exp (- lambda_decay * days_before conversion_time ts))
    timestamps.

Definition time_decay_journey (lambda_decay : Q) (a : Attribution)
    (j : Journey) : Attribution :=
  if eligible j then
    let weights := decay_weights lambda_decay (timestamps j) in
    let total_weight := Py.qsum weights in
    if negb (Qle_bool total_weight 0) then
      fold_left
        (fun a' tw =>
           credit (fst tw) (conversion_value j * (snd tw / total_weight)) a')
        (combine (touchpoints j) weights) a
    else a
  else a.

Definition time_decay_raw (user_journeys : list Journey)
    (half_life_days : Z) : Result Attribution :=
  if (half_life_days =? 0)%Z then Err ZeroDivisionError
  else
    let lambda_decay := ln2 / inject_Z half_life_days in
    Ok (fold_left (time_decay_journey lambda_decay) user_journeys []).
End TimeDecay.

(** [touchpoints[1:-1]] *)
Definition middle {A} (l : list A) : list A := removelast (tl l).

Definition position_based_journey (a : Attribution) (j : Journey)
  : Attribution :=
  if eligible j then
    let tps := touchpoints j in
    let v := conversion_value j in
    match List.length tps with
    | 1%nat => credit (hd (VInt 0) tps) v a
    | 2%nat =>
        credit (nth 1 tps (VInt 0)) (v * (1 # 2))
          (credit (hd (VInt 0) tps) (v * (1 # 2)) a)
    | n =>
        let a1 := credit (hd (VInt 0) tps) (v * (4 # 10)) a in
        let a2 := credit (last tps (VInt 0)) (v * (4 # 10)) a1 in
        let middle_value :=
          v * (2 # 10) / inject_Z (Z.of_nat n - 2) in
        fold_left (fun a' t => credit t middle_value a') (middle tps) a2
    end
  else a.

Definition position_based_raw (user_journeys : list Journey) : Attribution :=
  fold_left position_based_journey user_journeys [].

(** [touchpoint_contributions[touchpoint].append(v)] on a
    [defaultdict(list)] *)
Definition contribute (k : Cell) (v : Q) (c : list (Cell * list Q))
  : list (Cell * list Q) :=
  Dict.upd cell_eqb [] (fun l => l ++ [v]) k c.

Definition shapley_contributions (user_journeys : list Journey)
    (max_touchpoints : Z) : list (Cell * list Q) :=
  fold_left
    (fun c j =>
       if eligible j then
         let tps := Py.slice_to max_touchpoints (touchpoints j) in
         match tps with
         | [] => c
         | _ =>
             let value_per_touch := conversion_value j / qlen tps in
             fold_left (fun c' t => contribute t value_per_touch c') tps c
         end
       else c)
    user_journeys [].

(** The loop after the comment [# 计算平均贡献] (compute the average
    contribution): every touchpoint gets the sum of its contributions. *)
Definition shapley_raw (user_journeys : list Journey) (max_touchpoints : Z)
  : Attribution :=
  map (fun kc => (fst kc, Py.qsum (snd kc)))
    (shapley_contributions user_journeys max_touchpoints).

Record Credit := { value : Q; percentage : Q }.

Definition AttributionResult := list (Cell * Credit).

Definition _normalize_attribution (attribution : Attribution)
  : AttributionResult :=
  let total := Py.qsum (Dict.values attribution) in
  if Qeq_bool total 0 then []
  else
    map (fun kv =>
           (fst kv,
            {| value := Py.round (snd kv) 4;
               percentage := Py.round (snd kv / total * 100) 2 |}))
      (Py.sort (fun a b : Cell * Q => Qle_bool (snd b) (snd a)) attribution).

Definition _first_touch_attribution js :=
  _normalize_attribution (first_touch_raw js).
Definition _last_touch_attribution js :=
  _normalize_attribution (last_touch_raw js).
Definition _linear_attribution js :=
  _normalize_attribution (linear_raw js).
Definition _position_based_attribution js :=
  _normalize_attribution (position_based_raw js).
Definition _shapley_attribution js (max_touchpoints : Z) :=
  _normalize_attribution (shapley_raw js max_touchpoints).
Definition _time_decay_attribution ln2 exp js (half_life_days : Z)
  : Result AttributionResult :=
  a <- time_decay_raw ln2 exp js half_life_days ;;
  Ok (_normalize_attribution a).

(** *** Summary and entry point *)

Definition count_converted (js : list Journey) : nat :=
  List.length (filter converted js).

Record Summary := {
  avg_touchpoints_per_journey : Q;
  conversion_rate : Q;
  model_comparison : list (string * list (Cell * Q))
}.

Definition _generate_summary (user_journeys : list Journey)
    (results : list (string * AttributionResult)) : Summary :=
  let n := qlen user_journeys in
  {| avg_touchpoints_per_journey :=
       match user_journeys with
       | [] => 0
       | _ => Py.round
                (inject_Z (Z.of_nat
                   (fold_right Nat.add 0%nat
                      (map touchpoint_count user_journeys))) / n) 2
       end;
     conversion_rate :=
       match user_journeys with
       | [] => 0
       | _ => Py.round
                (inject_Z (Z.of_nat (count_converted user_journeys)) / n
                 * 100) 2
       end;
     model_comparison :=
       map (fun mr =>
              (fst mr,
               map (fun tc => (fst tc, percentage (snd tc)))
                 (firstn 3 (snd mr))))
         results |}.

Inductive Output :=
| NoJourneys
| Analysis (models : list (string * AttributionResult))
           (summary : Summary)
           (user_journey_count : nat)
           (total_conversions : nat)
           (total_conversion_value : Q).

Definition requested (models : list string) (m : string) : bool :=
  existsb (String.eqb m) models.

Definition ATTRIBUTION_MODELS : list string :=
  ["first_touch"; "last_touch"; "linear"; "time_decay"; "position_based";
   "shapley"]%string.

(** One model by its name; [None] for a name that is not a model. *)
Definition run_model (ln2 : Q) (exp : Q -> Q) (time_decay_half_life : Z)
    (js : list Journey) (m : string) : Result (option AttributionResult) :=
  if String.eqb m "first_touch" then Ok (Some (_first_touch_attribution js))
  else if String.eqb m "last_touch"
  then Ok (Some (_last_touch_attribution js))
  else if String.eqb m "linear" then Ok (Some (_linear_attribution js))
  else if String.eqb m "time_decay"
  then r <- _time_decay_attribution ln2 exp js time_decay_half_life ;;
       Ok (Some r)
  else if String.eqb m "position_based"
  then Ok (Some (_position_based_attribution js))
  else if String.eqb m "shapley" then Ok (Some (_shapley_attribution js 5))
  else Ok None.

(** The chain of [if "..." in models] tests, in the order of the source. *)
Fixpoint run_models (ln2 : Q) (exp : Q -> Q) (time_decay_half_life : Z)
    (js : list Journey) (models names : list string)
  : Result (list (string * AttributionResult)) :=
  match names with
  | [] => Ok []
  | m :: names' =>
      if requested models m then
        r <- run_model ln2 exp time_decay_half_life js m ;;
        rs <- run_models ln2 exp time_decay_half_life js models names' ;;
        Ok (match r with Some a => (m, a) :: rs | None => rs end)
      else run_models ln2 exp time_decay_half_life js models names'
  end.

(** attribution_analysis without additional touchpoint columns. *)
Definition attribution_analysis (ln2 : Q) (exp : Q -> Q) (df : DataFrame)
    (user_id_col touchpoint_col timestamp_col : string)
    (conversion_col conversion_value_col : option string)
    (models : option (list string)) (time_decay_half_life : Z)
  : Result Output :=
  let models := match models with
                | Some ms => ms
                | None => ATTRIBUTION_MODELS
                end in
  df1 <- to_datetime df timestamp_col ;;
  user_journeys <- _build_user_journeys df1 user_id_col touchpoint_col
                     timestamp_col conversion_col conversion_value_col ;;
  match user_journeys with
  | [] => Ok NoJourneys
  | _ =>
      results <- run_models ln2 exp time_decay_half_life user_journeys
                   models ATTRIBUTION_MODELS ;;
      Ok (Analysis results
            (_generate_summary user_journeys results)
            (List.length user_journeys)
            (count_converted user_journeys)
            (Py.qsum (map conversion_value user_journeys)))
  end.

End AttributionService.

(* ================================================================== *)
(** ** sequence_mining_service.py *)

Module SequenceMiningService.
Import Pandas.

(** An entry of the sequence database.  The [length] key of the source is
    [len(events)] and is read by the statistics only. *)
Record Sequence := {
  user_id : Cell;
  events : list Cell;
  converted : bool
}.

(** The column _build_sequences sorts every group by: the column called
    [event_time] when there is one, the first column of the frame
    otherwise. *)
Definition sort_column (df : DataFrame) : string :=
  if has_column df "event_time" then "event_time"
  else nth 0 (columns df) EmptyString.

Definition build_sequence (df : DataFrame) (event_col : string)
    (conversion_col : option string) (g : Cell * DataFrame)
  : Result (option Sequence) :=
  user_df <- sort_values (snd g) [sort_column df] ;;
  e <- column_index user_df event_col ;;
  let events := column user_df e in
  let converted :=
    if AttributionService.column_given user_df conversion_col
    then (if (0 <? len user_df)%nat
          then truthy (last_cell user_df
                         (AttributionService.loc_or_zero user_df
                            conversion_col))
          else false)
    else false in
  Ok (match events with
      | [] => None
      | _ => Some {| user_id := fst g; events := events;
                     converted := converted |}
      end).

Definition _build_sequences (df : DataFrame) (user_id_col event_col : string)
    (conversion_col : option string) : Result (list Sequence) :=
  gs <- groupby df user_id_col ;;
  ss <- mapM (build_sequence df event_col conversion_col) gs ;;
  Ok (flat_map (fun o => match o with Some s => [s] | None => [] end) ss).

(** *** _prefixspan_mining *)

Record Pattern := {
  pattern : list Cell;
  support_count : nat;
  support : Q;
  length : nat;
  conversion : option (nat * Q)   (* conversion_count, conversion_rate *)
}.

(** [set(events)], listed in order of first occurrence. *)
Definition unique (l : list Cell) : list Cell :=
  fold_left (fun acc x => if Py.mem x acc then acc else acc ++ [x]) l [].

Definition bump (k : Cell) (c : list (Cell * nat)) : list (Cell * nat) :=
  Dict.upd cell_eqb 0%nat S k c.

(** The Counter of the items: in how many sequences each occurs. *)
Definition item_counts (sequences : list Sequence) : list (Cell * nat) :=
  fold_left (fun c s => fold_left (fun c' x => bump x c') (unique (events s)) c)
    sequences [].

(** [events[i:i+len(prefix)] == prefix] at [i = 0], with the rest. *)
Fixpoint starts_with (prefix evs : list Cell) : option (list Cell) :=
  match prefix, evs with
  | [], _ => Some evs
  | p :: prefix', e :: evs' =>
      if cell_eqb e p then starts_with prefix' evs' else None
  | _ :: _, [] => None
  end.

(** The suffix after the first contiguous occurrence of [prefix]. *)
Fixpoint suffix_after (prefix evs : list Cell) : option (list Cell) :=
  match starts_with prefix evs with
  | Some suffix => Some suffix
  | None =>
      match evs with
      | [] => None
      | _ :: evs' => suffix_after prefix evs'
      end
  end.

Definition project_database (sequences : list Sequence) (prefix : list Cell)
  : list Sequence :=
  flat_map
    (fun s =>
       match suffix_after prefix (events s) with
       | Some (e :: suffix) =>
           [{| user_id := user_id s; events := e :: suffix;
               converted := converted s |}]
       | _ => []
       end)
    sequences.

(** The Counter of the first elements of the projected sequences. *)
Definition suffix_counts (sequences : list Sequence) : list (Cell * nat) :=
  fold_left
    (fun c s => match events s with
                | [] => c
                | e :: _ => bump e c
                end)
    sequences [].

Definition conversion_info (converted_count count : nat)
  : option (nat * Q) :=
  if (0 <? converted_count)%nat
  then Some (converted_count,
             Py.round (inject_Z (Z.of_nat converted_count)
                       / inject_Z (Z.of_nat count)) 4)
  else None.

Definition ratio (count total : nat) : Q :=
  inject_Z (Z.of_nat count) / inject_Z (Z.of_nat total).

(** [int(min_support * total_sequences)]: the product of a float and an
    integer is a float, and [int] truncates it toward zero. *)
Definition min_count_of (min_support : Q) (total_sequences : nat) : Z :=
  Py.int (Float.mul min_support (inject_Z (Z.of_nat total_sequences))).

Section Mining.
Variable total_sequences : nat.
Variable min_count : Z.

(** [mine_recursive(sequences, prefix, length)]; [fuel] is
    [max_length + 1 - length], so that [fuel = 0] is the test
    [length > max_length]. *)
Fixpoint mine_recursive (fuel : nat) (sequences : list Sequence)
    (prefix : list Cell) : list Pattern :=
  match fuel with
  | O => []
  | S fuel' =>
      flat_map
        (fun ic =>
           let item := fst ic in
           let count := snd ic in
           if (min_count <=? Z.of_nat count)%Z then
             let new_prefix := prefix ++ [item] in
             let converted_count :=
               List.length
                 (filter (fun s => match events s with
                                   | e :: _ => cell_eqb e item && converted s
                                   | [] => false
                                   end)
                    sequences) in
             {| pattern := new_prefix;
                support_count := count;
                support := Py.round (ratio count total_sequences) 4;
                length := List.length new_prefix;
                conversion := conversion_info converted_count count |}
             :: match project_database sequences [item] with
                | [] => []
                | projected => mine_recursive fuel' projected new_prefix
                end
           else [])
        (suffix_counts sequences)
  end.

(** The projection of the top-level loop: what follows the first
    occurrence of [item], when something follows it. *)
Definition project_first (sequences : list Sequence) (item : Cell)
  : list Sequence :=
  flat_map
    (fun s =>
       match Py.index item (events s) with
       | Some idx =>
           if (idx + 1 <? List.length (events s))%nat
           then [{| user_id := user_id s;
                    events := Py.slice_from (idx + 1) (events s);
                    converted := converted s |}]
           else []
       | None => []
       end)
    sequences.

Definition mine_item (max_length : Z) (sequences : list Sequence)
    (ic : Cell * nat) : list Pattern :=
  let item := fst ic in
  let count := snd ic in
  let converted_count :=
    List.length
      (filter (fun s => Py.mem item (events s) && converted s) sequences) in
  {| pattern := [item];
     support_count := count;
     support := Py.round (ratio count total_sequences) 4;
     length := 1;
     conversion := conversion_info converted_count count |}
  :: match project_first sequences item with
     | [] => []
     | projected =>
         mine_recursive (Z.to_nat (max_length + 1 - 2)) projected [item]
     end.
End Mining.

(** The sort key [(support, conversion_rate or 0)] and its order. *)
Definition sort_key (p : Pattern) : Q * Q :=
  (support p, match conversion p with Some cr => snd cr | None => 0 end).

Definition key_leb (a b : Q * Q) : bool :=
  if Qle_bool (fst a) (fst b)
  then (if Qle_bool (fst b) (fst a) then Qle_bool (snd a) (snd b) else true)
  else false.

(** All the patterns found, in the order they are appended. *)
Definition mined_patterns (sequences : list Sequence) (min_support : Q)
    (max_length : Z) : list Pattern :=
  let total_sequences := List.length sequences in
  let min_count := min_count_of min_support total_sequences in
  let frequent_items :=
    filter (fun ic => (min_count <=? Z.of_nat (snd ic))%Z)
      (item_counts sequences) in
  flat_map (mine_item total_sequences min_count max_length sequences)
    frequent_items.

Definition _prefixspan_mining (sequences : list Sequence) (min_support : Q)
    (max_length : Z) : list Pattern :=
  match sequences with
  | [] => []
  | _ =>
      firstn 50
        (Py.sort (fun a b => key_leb (sort_key b) (sort_key a))
           (mined_patterns sequences min_support max_length))
  end.

(** The part of sequence_pattern_mining that leads to the frequent patterns
    (no additional event columns; the association rules and the statistics
    are computed from the same sequences and are left out). *)
Definition sequence_database (df : DataFrame)
    (user_id_col event_col timestamp_col : string)
    (conversion_col : option string) : Result (list Sequence) :=
  df1 <- to_datetime df timestamp_col ;;
  df2 <- sort_values df1 [user_id_col; timestamp_col] ;;
  _build_sequences df2 user_id_col event_col conversion_col.

Definition sequence_pattern_mining (df : DataFrame)
    (user_id_col event_col timestamp_col : string)
    (min_support : Q) (max_pattern_length : Z)
    (conversion_col : option string) : Result (list Pattern) :=
  sequences <- sequence_database df user_id_col event_col timestamp_col
                 conversion_col ;;
  Ok (_prefixspan_mining sequences min_support max_pattern_length).

(** *** _mine_association_rules *)

(** The rule [antecedent -> consequent]; the two strings that print it are
    left out, and [rule_type] is ["单前项"] for one antecedent and ["多前项"]
    for two. *)
Record Rule := {
  antecedent : list Cell;
  consequent : Cell;
  rule_support : Q;
  confidence : Q;
  lift : Q;
  count : nat;
  rule_type : string
}.

(** Equality of the tuples that key the two Counters. *)
Definition pair_eqb (p q : Cell * Cell) : bool :=
  cell_eqb (fst p) (fst q) && cell_eqb (snd p) (snd q).

Definition triple_eqb (p q : Cell * Cell * Cell) : bool :=
  pair_eqb (fst p) (fst q) && cell_eqb (snd p) (snd q).

(** [(l[i], l[j])] for [i < j], in the order of the two loops. *)
Fixpoint pairs (l : list Cell) : list (Cell * Cell) :=
  match l with
  | [] => []
  | a :: l' => map (fun b => (a, b)) l' ++ pairs l'
  end.

(** [(l[i], l[j], l[k])] for [i < j < k], in the order of the three loops. *)
Fixpoint triples (l : list Cell) : list (Cell * Cell * Cell) :=
  match l with
  | [] => []
  | a :: l' => map (fun bc => (a, fst bc, snd bc)) (pairs l') ++ triples l'
  end.

Definition pair_counts (sequences : list Sequence)
  : list (Cell * Cell * nat) :=
  fold_left
    (fun c s => fold_left (fun c' p => Dict.upd pair_eqb 0%nat S p c')
                  (pairs (unique (events s))) c)
    sequences [].

Definition triple_counts (sequences : list Sequence)
  : list (Cell * Cell * Cell * nat) :=
  fold_left
    (fun c s => fold_left (fun c' t => Dict.upd triple_eqb 0%nat S t c')
                  (triples (unique (events s))) c)
    sequences [].

(** [counter[k]] and [counter.get(k, 0)]: 0 for a key that was never
    counted. *)
Definition counted {K} (eqb : K -> K -> bool) (c : list (K * nat)) (k : K)
  : nat :=
  match Dict.get eqb c k with Some n => n | None => 0%nat end.

(** [x / y] on numbers: a zero divisor raises. *)
Definition divide (x y : Q) : Result Q :=
  if Qeq_bool y 0 then Err ZeroDivisionError else Ok (x / y).

(** The body of the two loops over the Counters: the rule for a tuple
    counted [n] times whose antecedent was counted [antecedent_count]
    times, if it passes the two thresholds. *)
Definition make_rule (total_sequences : nat) (min_count : Z)
    (min_confidence : Q) (items : list (Cell * nat))
    (antecedent : list Cell) (consequent : Cell) (type : string)
    (antecedent_count n : nat) : Result (list Rule) :=
  if (min_count <=? Z.of_nat n)%Z then
    support <- divide (PathAnalysisService.qnat n) (PathAnalysisService.qnat total_sequences) ;;
    confidence <-
      (if (0 <? antecedent_count)%nat
       then divide (PathAnalysisService.qnat n) (PathAnalysisService.qnat antecedent_count)
       else Ok 0) ;;
    if Qle_bool min_confidence confidence then
      lift <-
        (if (0 <? total_sequences)%nat
         then
           share <- divide (PathAnalysisService.qnat (counted cell_eqb items consequent))
                      (PathAnalysisService.qnat total_sequences) ;;
           divide confidence share
         else Ok 0) ;;
      Ok [{| antecedent := antecedent;
             consequent := consequent;
             rule_support := Py.round support 4;
             confidence := Py.round confidence 4;
             lift := Py.round lift 4;
             count := n;
             rule_type := type |}]
    else Ok []
  else Ok [].

Definition pair_rules (total_sequences : nat) (min_count : Z)
    (min_confidence : Q) (items : list (Cell * nat))
    (pc : list (Cell * Cell * nat)) : Result (list Rule) :=
  rs <- mapM (fun e =>
                let a := fst (fst e) in
                let b := snd (fst e) in
                make_rule total_sequences min_count min_confidence items
                  [a] b "单前项" (counted cell_eqb items a) (snd e))
          pc ;;
  Ok (List.concat rs).

Definition triple_rules (total_sequences : nat) (min_count : Z)
    (min_confidence : Q) (items : list (Cell * nat))
    (pc : list (Cell * Cell * nat)) (tc : list (Cell * Cell * Cell * nat))
  : Result (list Rule) :=
  rs <- mapM (fun e =>
                let a := fst (fst (fst e)) in
                let b := snd (fst (fst e)) in
                let c := snd (fst e) in
                make_rule total_sequences min_count min_confidence items
                  [a; b] c "多前项" (counted pair_eqb pc (a, b)) (snd e))
          tc ;;
  Ok (List.concat rs).

(** The sort key [(confidence, lift)]. *)
Definition rule_key (r : Rule) : Q * Q := (confidence r, lift r).

Definition _mine_association_rules (sequences : list Sequence)
    (min_support min_confidence : Q) (max_antecedent_len : Z)
  : Result (list Rule) :=
  let total_sequences := List.length sequences in
  let min_count := min_count_of min_support total_sequences in
  let items := item_counts sequences in
  let pc := pair_counts sequences in
  let tc := triple_counts sequences in
  single <- pair_rules total_sequences min_count min_confidence items pc ;;
  multi <-
    (if (2 <=? max_antecedent_len)%Z
     then triple_rules total_sequences min_count min_confidence items pc tc
     else Ok []) ;;
  Ok (firstn 40
        (Py.sort (fun a b => key_leb (rule_key b) (rule_key a))
           (single ++ multi))).

(** *** _find_high_conversion_patterns *)

(** [pattern["conversion_rate"]], 0 where the key is absent. *)
Definition rate (p : Pattern) : Q :=
  match conversion p with Some cr => snd cr | None => 0 end.

Definition _find_high_conversion_patterns (sequences : list Sequence)
    (frequent_patterns : list Pattern) (min_confidence : Q) : list Pattern :=
  firstn 20
    (Py.sort (fun a b => Qle_bool (rate b) (rate a))
       (filter
          (fun p => match conversion p with
                    | Some cr => Qle_bool min_confidence (snd cr)
                    | None => false
                    end)
          frequent_patterns)).

(** *** _calculate_sequence_stats *)

Record EventShare := {
  es_event : Cell;
  es_count : nat;
  es_percentage : Q
}.

Record SequenceStats := {
  st_total_sequences : nat;
  st_avg_length : Q;
  st_max_length : nat;
  st_min_length : nat;
  st_unique_events : nat;
  st_most_common_events : list EventShare;
  st_conversion_rate : Q
}.

(** The Counter of the events, every occurrence counted. *)
Definition event_freq (sequences : list Sequence) : list (Cell * nat) :=
  fold_left (fun c s => fold_left (fun c' x => bump x c') (events s) c)
    sequences [].

(** [None] is the empty dictionary returned for no sequences. *)
Definition _calculate_sequence_stats (sequences : list Sequence)
  : option SequenceStats :=
  match sequences with
  | [] => None
  | _ =>
      let lengths := map (fun s => List.length (events s)) sequences in
      let n := List.length sequences in
      let freq := event_freq sequences in
      let converted_count := List.length (filter converted sequences) in
      Some
        {| st_total_sequences := n;
           st_avg_length :=
             Py.round (PathAnalysisService.qnat (fold_right Nat.add 0%nat lengths)
                       / PathAnalysisService.qnat (List.length lengths)) 2;
           st_max_length := Py.max_of lengths;
           st_min_length := Py.min_of lengths;
           st_unique_events := List.length freq;
           st_most_common_events :=
             map (fun ec =>
                    {| es_event := fst ec; es_count := snd ec;
                       es_percentage :=
                         Py.round (PathAnalysisService.qnat (snd ec) / PathAnalysisService.qnat n * 100) 2 |})
               (firstn 10
                  (Py.sort (fun a b : Cell * nat => (snd b <=? snd a)%nat)
                     freq));
           st_conversion_rate :=
             Py.round (PathAnalysisService.qnat converted_count / PathAnalysisService.qnat n * 100) 2 |}
  end.

(** *** sequence_pattern_mining, with all it returns *)

Record MiningResult := {
  mr_frequent_patterns : list Pattern;
  mr_association_rules : list Rule;
  mr_high_conversion_patterns : list Pattern;
  mr_sequence_stats : option SequenceStats;
  mr_total_sequences : nat;
  mr_avg_sequence_length : Q
}.

(** The result: the message with empty lists when there is no sequence, the
    four analyses otherwise (no additional event columns). *)
Inductive MiningOutput :=
| NoSequences
| Mined (r : MiningResult).

Definition sequence_pattern_mining_all (df : DataFrame)
    (user_id_col event_col timestamp_col : string)
    (min_support : Q) (max_pattern_length : Z)
    (conversion_col : option string) (min_confidence : Q)
  : Result MiningOutput :=
  df1 <- to_datetime df timestamp_col ;;
  df2 <- sort_values df1 [user_id_col; timestamp_col] ;;
  sequences <- _build_sequences df2 user_id_col event_col conversion_col ;;
  match sequences with
  | [] => Ok NoSequences
  | _ =>
      let frequent_patterns :=
        _prefixspan_mining sequences min_support max_pattern_length in
      association_rules <-
        _mine_association_rules sequences min_support min_confidence 2 ;;
      let high_conversion_patterns :=
        if AttributionService.column_given df2 conversion_col
        then _find_high_conversion_patterns sequences frequent_patterns
               min_confidence
        else [] in
      Ok (Mined
            {| mr_frequent_patterns := frequent_patterns;
               mr_association_rules := association_rules;
               mr_high_conversion_patterns := high_conversion_patterns;
               mr_sequence_stats := _calculate_sequence_stats sequences;
               mr_total_sequences := List.length sequences;
               mr_avg_sequence_length :=
                 PathAnalysisService.qnat (fold_right Nat.add 0%nat
                          (map (fun s => List.length (events s)) sequences))
                 / PathAnalysisService.qnat (List.length sequences) |})
  end.

(** *** sequence_classification *)

Record ClassificationResult := {
  cl_total_samples : nat;
  cl_positive_samples : nat;
  cl_negative_samples : nat;
  cl_distinctive_positive_patterns : list Pattern;
  cl_distinctive_negative_patterns : list Pattern;
  cl_avg_length_positive : Q;
  cl_avg_length_negative : Q
}.

Inductive Classification :=
| NotEnoughData          (* "数据不足" *)
| NeedBothClasses        (* "需要同时存在正负样本" *)
| Classified (r : ClassificationResult).

(** [tuple(p["pattern"]) not in pattern_set] *)
Definition not_among (patterns : list Pattern) (p : Pattern) : bool :=
  negb (existsb (fun q => path_eqb (pattern q) (pattern p)) patterns).

Definition avg_length (sequences : list Sequence) : Q :=
  Py.round
    (PathAnalysisService.qnat (fold_right Nat.add 0%nat
              (map (fun s => List.length (events s)) sequences))
     / PathAnalysisService.qnat (List.length sequences)) 2.

Definition classify (sequences : list Sequence) : Classification :=
  match sequences with
  | [] => NotEnoughData
  | _ =>
      let positive_sequences := filter converted sequences in
      let negative_sequences :=
        filter (fun s => negb (converted s)) sequences in
      match positive_sequences, negative_sequences with
      | _ :: _, _ :: _ =>
          let positive_patterns :=
            _prefixspan_mining positive_sequences (1 # 10) 3 in
          let negative_patterns :=
            _prefixspan_mining negative_sequences (1 # 10) 3 in
          Classified
            {| cl_total_samples := List.length sequences;
               cl_positive_samples := List.length positive_sequences;
               cl_negative_samples := List.length negative_sequences;
               cl_distinctive_positive_patterns :=
                 firstn 10
                   (filter (not_among negative_patterns) positive_patterns);
               cl_distinctive_negative_patterns :=
                 firstn 10
                   (filter (not_among positive_patterns) negative_patterns);
               cl_avg_length_positive := avg_length positive_sequences;
               cl_avg_length_negative := avg_length negative_sequences |}
      | _, _ => NeedBothClasses
      end
  end.

Definition sequence_classification (df : DataFrame)
    (user_id_col event_col timestamp_col target_col : string)
  : Result Classification :=
  df1 <- to_datetime df timestamp_col ;;
  sequences <- _build_sequences df1 user_id_col event_col (Some target_col) ;;
  Ok (classify sequences).

End SequenceMiningService.

(* ================================================================== *)
(** ** The path endpoints (endpoints/analysis.py) *)

Module Endpoints.
Import Pandas.

(** The detail of the error raised for an absent column: the column name
    between the two fixed parts of the message. *)
Definition missing_detail (col : string) : string :=
  ("列 '" ++ col ++ "' 不存在于数据集中")%string.

(** [for col in [...]: if col not in df.columns: raise HTTPException(400,
    detail=...)] *)
Fixpoint check_columns (df : DataFrame) (cols : list string) : Result unit :=
  match cols with
  | [] => Ok tt
  | col :: cols' =>
      if has_column df col then check_columns df cols'
      else Err (HTTPException 400 (missing_detail col))
  end.

Section PathEndpoints.

(** path_clustering rests on scikit-learn and is outside the embedding.
    The type of its result and the function itself are parameters: what the
    service computes from the frame and the three columns, for the other
    arguments of the request. *)
Variable Clusters : Type.
Variable path_clustering :
  DataFrame -> string -> string -> string -> Result Clusters.

Inductive PathOutput :=
| FunnelOutput (r : PathAnalysisService.FunnelResult)
| PathOutput_ (r : PathAnalysisService.PathResult)
| ClusteringOutput (r : Clusters)
| KeyPathOutput_ (r : PathAnalysisService.KeyPathOutput).

(** [except HTTPException: raise; except Exception as e: raise
    HTTPException(500, detail=...)] *)
Definition reraise {A} (r : Result A) : Result A :=
  match r with
  | Ok a => Ok a
  | Err (HTTPException st d) => Err (HTTPException st d)
  | Err e => Err (HTTPException 500 ("分析失败: " ++ exc_str e))
  end.

(** The negation of [not start_event] for an optional string of the
    request: the string is given and not empty. *)
Definition given (s : option string) : bool :=
  match s with
  | Some (String _ _) => true
  | _ => false
  end.

Definition text (s : option string) : string :=
  match s with
  | Some x => x
  | None => EmptyString
  end.

(** quick_path_analysis, once the dataset is read. *)
Definition quick_path_analysis (df : DataFrame) (path_type : string)
    (user_id_col event_col timestamp_col : string)
    (funnel_steps : list Cell) (time_window : option Z)
    (max_path_length min_user_count : Z)
    (start_event end_event : option string) (max_steps : Z)
  : Result PathOutput :=
  reraise
    (_ <- check_columns df [user_id_col; event_col; timestamp_col] ;;
     if String.eqb path_type "funnel" then
       match funnel_steps with
       | [] => Err (HTTPException 400 "漏斗分析需要提供 funnel_steps")
       | _ =>
           r <- PathAnalysisService.funnel_analysis df user_id_col
                  event_col timestamp_col funnel_steps time_window ;;
           Ok (FunnelOutput r)
       end
     else if String.eqb path_type "path" then
       r <- PathAnalysisService.path_analysis df user_id_col event_col
              timestamp_col max_path_length min_user_count ;;
       Ok (PathOutput_ r)
     else if String.eqb path_type "clustering" then
       r <- path_clustering df user_id_col event_col timestamp_col ;;
       Ok (ClusteringOutput r)
     else if String.eqb path_type "key_path" then
       if given start_event && given end_event then
         r <- PathAnalysisService.key_path_analysis df user_id_col
                event_col timestamp_col (VStr (text start_event))
                (VStr (text end_event)) max_steps ;;
         Ok (KeyPathOutput_ r)
       else Err (HTTPException 400
                   "关键路径分析需要提供 start_event 和 end_event")
     else Err (HTTPException 400 ("未知的路径分析类型: " ++ path_type))).

(** The parameters of a path task, as [params.get] returns them (with the
    defaults "funnel" for the path type and 10, 5 and 10 for the three
    integers). *)
Record PathParams := {
  p_path_type : string;
  p_user_id_col : option string;
  p_event_col : option string;
  p_timestamp_col : option string;
  p_funnel_steps : list Cell;
  p_time_window : option Z;
  p_max_path_length : Z;
  p_min_user_count : Z;
  p_start_event : option Cell;
  p_end_event : option Cell;
  p_max_steps : Z
}.

(** The negation of [not x] for a value of the parameters. *)
Definition present (c : option Cell) : bool :=
  match c with
  | Some x => truthy x
  | None => false
  end.

Definition event_of (c : option Cell) : Cell :=
  match c with
  | Some x => x
  | None => VInt 0
  end.

(** The branch [analysis_type == "path"] of execute_analysis_task; the
    three column parameters must be given and not be empty strings. *)
Definition dispatch_path (df : DataFrame) (params : PathParams)
  : Result PathOutput :=
  match p_user_id_col params, p_event_col params, p_timestamp_col params with
  | Some (String _ _ as user_id_col), Some (String _ _ as event_col),
    Some (String _ _ as timestamp_col) =>
      let path_type := p_path_type params in
      if String.eqb path_type "funnel" then
        match p_funnel_steps params with
        | [] => Err (ValueError "漏斗分析需要指定漏斗步骤")
        | steps =>
            r <- PathAnalysisService.funnel_analysis df user_id_col
                   event_col timestamp_col steps (p_time_window params) ;;
            Ok (FunnelOutput r)
        end
      else if String.eqb path_type "path" then
        r <- PathAnalysisService.path_analysis df user_id_col event_col
               timestamp_col (p_max_path_length params)
               (p_min_user_count params) ;;
        Ok (PathOutput_ r)
      else if String.eqb path_type "clustering" then
        r <- path_clustering df user_id_col event_col timestamp_col ;;
        Ok (ClusteringOutput r)
      else if String.eqb path_type "key_path" then
        if present (p_start_event params) && present (p_end_event params)
        then
          r <- PathAnalysisService.key_path_analysis df user_id_col
                 event_col timestamp_col (event_of (p_start_event params))
                 (event_of (p_end_event params)) (p_max_steps params) ;;
          Ok (KeyPathOutput_ r)
        else Err (ValueError "关键路径分析需要指定起点和终点事件")
      else Err (ValueError ("未知的路径分析类型: " ++ path_type))
  | _, _, _ => Err (ValueError "路径分析需要指定用户ID列、事件列和时间戳列")
  end.

(** What execute_analysis_task records for the task: the result, or the
    status "failed" with a message that starts with the text of the
    exception (the traceback that follows it is left out). *)
Inductive TaskStatus :=
| completed (result_data : PathOutput)
| failed (error_msg : string).

Definition execute_analysis_task (df : DataFrame) (params : PathParams)
  : TaskStatus :=
  match dispatch_path df params with
  | Ok r => completed r
  | Err e => failed ("分析执行失败: " ++ exc_str e)
  end.

End PathEndpoints.

End Endpoints.

(* ================================================================== *)
(** ** Notions used to state the properties *)

Module Spec.
Import AttributionService.

(** The total of a dictionary of credits. *)
Definition total (a : Attribution) : Q := Py.qsum (Dict.values a).

(** The sum of the conversion values of the converted journeys. *)
Definition converted_value (js : list Journey) : Q :=
  Py.qsum (map conversion_value (filter converted js)).

(** The sums of the two fields a model reports per touchpoint. *)
Definition sum_values (r : AttributionResult) : Q :=
  Py.qsum (map (fun kc => value (snd kc)) r).

Definition sum_percentages (r : AttributionResult) : Q :=
  Py.qsum (map (fun kc => percentage (snd kc)) r).

(** The total of the contribution lists of the Shapley model. *)
Definition ctotal (c : list (Cell * list Q)) : Q :=
  Py.qsum (map (fun kc => Py.qsum (snd kc)) c).

(** The count a Counter returns for a key, 0 when the key is absent. *)
Definition value_of (o : option nat) : nat :=
  match o with Some n => n | None => 0%nat end.

(** What _build_user_journeys guarantees of every journey it returns. *)
Definition wf_journey (j : Journey) : Prop :=
  touchpoints j <> []
  /\ List.length (timestamps j) = List.length (touchpoints j)
  /\ (converted j = false -> conversion_value j = 0).

(** The first of the columns [cols] that the frame does not have. *)
Fixpoint first_missing (df : Pandas.DataFrame) (cols : list string)
  : option string :=
  match cols with
  | [] => None
  | c :: cols' =>
      if Pandas.has_column df c then first_missing df cols' else Some c
  end.

(** Non-decreasing for the order of the cells. *)
Definition sorted_cells (l : list Cell) : Prop :=
  Sorted (fun a b => cell_leb a b = true) l.

(** [p] occurs in [s] as an ordered subsequence. *)
Fixpoint is_subseq (p s : list Cell) : bool :=
  match p, s with
  | [], _ => true
  | _ :: _, [] => false
  | x :: p', y :: s' =>
      if cell_eqb y x then is_subseq p' s' else is_subseq p s'
  end.

(** The number of sequences that contain the pattern [p]. *)
Definition containing (p : list Cell)
    (sequences : list SequenceMiningService.Sequence) : nat :=
  List.length
    (filter (fun s => is_subseq p (SequenceMiningService.events s))
       sequences).

(** What is left of [evs] once the items of [prefix] have been matched one
    after the other, each at its first occurrence in what the items before
    it left. *)
Fixpoint rest_after (prefix evs : list Cell) : option (list Cell) :=
  match prefix with
  | [] => Some evs
  | x :: prefix' =>
      match SequenceMiningService.suffix_after [x] evs with
      | Some r => rest_after prefix' r
      | None => None
      end
  end.

(** [x] is the event that comes right after the match of [prefix]. *)
Definition followed_by (prefix : list Cell) (x : Cell) (evs : list Cell)
  : bool :=
  match rest_after prefix evs with
  | Some (y :: _) => cell_eqb y x
  | _ => false
  end.

(** The number of sequences in which [x] comes right after the match of
    [prefix]. *)
Definition immediate_count (prefix : list Cell) (x : Cell)
    (sequences : list SequenceMiningService.Sequence) : nat :=
  List.length
    (filter (fun s => followed_by prefix x (SequenceMiningService.events s))
       sequences).

(** The database projected along [prefix]. *)
Definition projected (prefix : list Cell)
    (sequences : list SequenceMiningService.Sequence)
  : list SequenceMiningService.Sequence :=
  flat_map
    (fun s =>
       match rest_after prefix (SequenceMiningService.events s) with
       | Some (e :: r) =>
           [{| SequenceMiningService.user_id :=
                 SequenceMiningService.user_id s;
               SequenceMiningService.events := e :: r;
               SequenceMiningService.converted :=
                 SequenceMiningService.converted s |}]
       | _ => []
       end)
    sequences.

(** The first events of the sequences of a database. *)
Definition heads (sequences : list SequenceMiningService.Sequence)
  : list Cell :=
  flat_map (fun s => match SequenceMiningService.events s with
                     | [] => []
                     | e :: _ => [e]
                     end)
    sequences.

(** How many elements of [l] are equal to [x]. *)
Definition count_of (x : Cell) (l : list Cell) : nat :=
  List.length (filter (fun e => cell_eqb e x) l).

(** The keys of a Counter are pairwise different. *)
Fixpoint distinct_keys (c : list (Cell * nat)) : Prop :=
  match c with
  | [] => True
  | kv :: c' =>
      (forall kv', In kv' c' -> cell_eqb (fst kv) (fst kv') = false)
      /\ distinct_keys c'
  end.


(** How many elements of [l] pass the test [f]. *)
Definition count_where {X} (f : X -> bool) (l : list X) : nat :=
  List.length (filter f l).

End Spec.

(* ================================================================== *)
(** ** Datasets used in the examples *)

Module Examples.
Import Pandas.
Local Open Scope string_scope.

(** Three users; two convert, with revenues 12.5 and 3. *)
Definition channels : DataFrame :=
  {| columns := ["user"; "channel"; "ts"; "converted"; "revenue"];
     data := [[VInt 1; VStr "ad"; VInt 0; VInt 0; VInt 0];
              [VInt 1; VStr "mail"; VInt 86400; VInt 1; VFloat (25 # 2)];
              [VInt 2; VStr "ad"; VInt 50; VInt 0; VInt 0];
              [VInt 3; VStr "seo"; VInt 70; VInt 1; VInt 3]] |}.

(** One user who converts with revenue 0. *)
Definition free_trial : DataFrame :=
  {| columns := ["user"; "channel"; "ts"; "converted"; "revenue"];
     data := [[VInt 1; VStr "ad"; VInt 0; VInt 1; VInt 0]] |}.

(** 260 users, each with a touchpoint of their own and revenue 0.00004. *)
Definition micro_payments : DataFrame :=
  {| columns := ["user"; "channel"; "ts"; "revenue"];
     data := map (fun i => [VInt (Z.of_nat i); VInt (Z.of_nat i); VInt 0;
                            VFloat (4 # 100000)])
               (seq 0 260) |}.

(** Two users who each meet the touchpoint "ad" once. *)
Definition two_visitors : DataFrame :=
  {| columns := ["user"; "channel"; "ts"];
     data := [[VInt 1; VStr "ad"; VInt 0];
              [VInt 2; VStr "ad"; VInt 5]] |}.

(** One user, one touchpoint, revenue 5, and no conversion flag. *)
Definition revenue_only : DataFrame :=
  {| columns := ["user"; "channel"; "ts"; "revenue"];
     data := [[VInt 1; VStr "ad"; VInt 0; VInt 5]] |}.

(** One user who pays first and views afterwards. *)
Definition out_of_order : DataFrame :=
  {| columns := ["user"; "event"; "ts"];
     data := [[VInt 1; VStr "pay"; VInt 0];
              [VInt 1; VStr "view"; VInt 60]] |}.

(** One user who goes from X to Y and back to X. *)
Definition round_trip : DataFrame :=
  {| columns := ["user"; "event"; "ts"];
     data := [[VInt 1; VStr "X"; VInt 0];
              [VInt 1; VStr "Y"; VInt 10];
              [VInt 1; VStr "X"; VInt 20]] |}.

(** The event column comes first; the only user does B at 10 and A at
    20. *)
Definition events_first : DataFrame :=
  {| columns := ["event"; "user"; "ts"];
     data := [[VStr "B"; VInt 1; VInt 10];
              [VStr "A"; VInt 1; VInt 20]] |}.

(** A sequence of the mining database with string events. *)
Definition seq_of (u : Z) (evs : list string)
  : SequenceMiningService.Sequence :=
  {| SequenceMiningService.user_id := VInt u;
     SequenceMiningService.events := map VStr evs;
     SequenceMiningService.converted := false |}.

(** One user goes from A straight to B, the other from A to B by way of
    C. *)
Definition detour : list SequenceMiningService.Sequence :=
  [seq_of 1 ["A"; "B"]; seq_of 2 ["A"; "C"; "B"]].

(** Two users with one event each, as a dataset. *)
Definition two_events : DataFrame :=
  {| columns := ["user"; "event"; "ts"];
     data := [[VInt 1; VStr "A"; VInt 0];
              [VInt 2; VStr "B"; VInt 0]] |}.

(** Fifty users; the first 28 do A, the others B. *)
Definition fifty_users : list SequenceMiningService.Sequence :=
  map (fun i => seq_of (Z.of_nat i) [if (i <=? 28)%nat then "A" else "B"])
    (seq 1 50).

(** Ten users; A appears in the sequences of exactly six of them. *)
Definition ten_users : list SequenceMiningService.Sequence :=
  [seq_of 1 ["A"]; seq_of 2 ["A"; "B"]; seq_of 3 ["B"; "A"];
   seq_of 4 ["A"]; seq_of 5 ["A"; "A"]; seq_of 6 ["C"; "A"];
   seq_of 7 ["B"]; seq_of 8 ["C"]; seq_of 9 ["B"]; seq_of 10 ["D"]].

(** A dataset without rows and without a touchpoint column. *)
Definition no_rows : DataFrame :=
  {| columns := ["user"; "ts"]; data := [] |}.

(** Three visitors: the first goes from A to C by way of B and converts,
    the second goes straight from A to C, the third does C before A and
    converts. *)
Definition visits : DataFrame :=
  {| columns := ["user"; "event"; "ts"; "conv"];
     data := [[VInt 1; VStr "A"; VInt 0; VInt 0];
              [VInt 1; VStr "B"; VInt 10; VInt 0];
              [VInt 1; VStr "C"; VInt 30; VInt 1];
              [VInt 2; VStr "A"; VInt 5; VInt 0];
              [VInt 2; VStr "C"; VInt 7; VInt 0];
              [VInt 3; VStr "C"; VInt 1; VInt 0];
              [VInt 3; VStr "A"; VInt 2; VInt 1]] |}.

(** One row whose timestamp is a word. *)
Definition spoken_time : DataFrame :=
  {| columns := ["user"; "event"; "ts"];
     data := [[VInt 1; VStr "view"; VStr "noon"]] |}.

(** The events and the instants of the three visitors, user by user. *)
Definition visit_paths : list (Cell * list Cell) :=
  [(VInt 1, [VStr "A"; VStr "B"; VStr "C"]);
   (VInt 2, [VStr "A"; VStr "C"]);
   (VInt 3, [VStr "C"; VStr "A"])].

Definition visit_times : list (Cell * list Cell) :=
  [(VInt 1, [VInt 0; VInt 10; VInt 30]);
   (VInt 2, [VInt 5; VInt 7]);
   (VInt 3, [VInt 1; VInt 2])].

(** The mining database of the three visitors. *)
Definition visit_sequences : list SequenceMiningService.Sequence :=
  [{| SequenceMiningService.user_id := VInt 1;
      SequenceMiningService.events := [VStr "A"; VStr "B"; VStr "C"];
      SequenceMiningService.converted := true |};
   {| SequenceMiningService.user_id := VInt 2;
      SequenceMiningService.events := [VStr "A"; VStr "C"];
      SequenceMiningService.converted := false |};
   {| SequenceMiningService.user_id := VInt 3;
      SequenceMiningService.events := [VStr "C"; VStr "A"];
      SequenceMiningService.converted := true |}].

End Examples.

(* ================================================================== *)
(** * Properties *)

(** ** Cells: [==] is an equivalence, the order is total *)

Lemma cell_eqb_refl (a : Cell) : cell_eqb a a = true.
Proof.
  destruct a; unfold cell_eqb; simpl.
  - apply Qeq_bool_iff. reflexivity.
  - apply String.eqb_refl.
  - apply Qeq_bool_iff. reflexivity.
Qed.

Lemma cell_eqb_sym (a b : Cell) : cell_eqb a b = cell_eqb b a.
Proof.
  assert (Hq : forall x y, Qeq_bool x y = Qeq_bool y x).
  { intros x y. destruct (Qeq_bool x y) eqn:E1, (Qeq_bool y x) eqn:E2;
      try reflexivity.
    - apply Qeq_bool_iff in E1. symmetry in E1.
      apply Qeq_bool_iff in E1. congruence.
    - apply Qeq_bool_iff in E2. symmetry in E2.
      apply Qeq_bool_iff in E2. congruence. }
  destruct a, b; unfold cell_eqb; simpl; auto using String.eqb_sym.
Qed.

Lemma cell_eqb_trans (a b c : Cell) :
  cell_eqb a b = true -> cell_eqb b c = true -> cell_eqb a c = true.
Proof.
  assert (Hq : forall x y z, Qeq_bool x y = true -> Qeq_bool y z = true ->
                             Qeq_bool x z = true).
  { intros x y z H1 H2. apply Qeq_bool_iff in H1, H2. apply Qeq_bool_iff.
    rewrite H1. exact H2. }
  destruct a, b, c; unfold cell_eqb; simpl; intros H1 H2;
    try discriminate; eauto.
  apply String.eqb_eq in H1, H2. subst. apply String.eqb_refl.
Qed.

Lemma cell_leb_total (a b : Cell) :
  cell_leb a b = false -> cell_leb b a = true.
Proof.
  assert (Hq : forall x y, Qle_bool x y = false -> Qle_bool y x = true).
  { intros x y H. apply Qle_bool_iff.
    destruct (Qlt_le_dec y x) as [Hlt | Hle].
    - apply Qlt_le_weak. exact Hlt.
    - apply Qle_bool_iff in Hle. congruence. }
  destruct a, b; unfold cell_leb; simpl; intros H;
    try discriminate; auto.
  destruct (String.leb_total s s0) as [H1 | H1]; congruence.
Qed.

(** ** The insertion sort: same elements, sorted for a total order *)

Section SortFacts.
Variable A : Type.
Variable leb : A -> A -> bool.

Lemma insert_perm (x : A) (l : list A) :
  Permutation (x :: l) (Py.insert leb x l).
Proof.
  induction l as [| y l IH]; simpl.
  - apply Permutation_refl.
  - destruct (leb x y).
    + apply Permutation_refl.
    + eapply perm_trans; [apply perm_swap |].
      apply perm_skip. exact IH.
Qed.

Lemma sort_perm (l : list A) : Permutation l (Py.sort leb l).
Proof.
  induction l as [| x l IH]; simpl.
  - apply perm_nil.
  - eapply perm_trans; [apply perm_skip; exact IH |].
    apply insert_perm.
Qed.

Lemma sort_In (l : list A) (x : A) : In x (Py.sort leb l) <-> In x l.
Proof.
  split; intros H.
  - eapply Permutation_in; [apply Permutation_sym, sort_perm | exact H].
  - eapply Permutation_in; [apply sort_perm | exact H].
Qed.

Lemma sort_length (l : list A) :
  List.length (Py.sort leb l) = List.length l.
Proof. symmetry. apply Permutation_length, sort_perm. Qed.

Hypothesis leb_total : forall a b, leb a b = false -> leb b a = true.

Lemma insert_sorted (x : A) (l : list A) :
  Sorted (fun a b => leb a b = true) l ->
  Sorted (fun a b => leb a b = true) (Py.insert leb x l).
Proof.
  induction l as [| y l IH]; simpl; intros Hs.
  - repeat constructor.
  - destruct (leb x y) eqn:E.
    + constructor; [exact Hs | constructor; exact E].
    + apply Sorted_inv in Hs. destruct Hs as [Hs Hhd].
      constructor; [apply IH; exact Hs |].
      destruct l as [| z l]; simpl.
      * constructor. apply leb_total. exact E.
      * destruct (leb x z).
        -- constructor. apply leb_total. exact E.
        -- inversion Hhd; subst. constructor. assumption.
Qed.

Lemma sort_sorted (l : list A) :
  Sorted (fun a b => leb a b = true) (Py.sort leb l).
Proof.
  induction l as [| x l IH]; simpl.
  - constructor.
  - apply insert_sorted. exact IH.
Qed.
End SortFacts.

(** ** Sums of floats *)

Lemma qsum_cons (x : Q) (l : list Q) : Py.qsum (x :: l) = x + Py.qsum l.
Proof. reflexivity. Qed.

Lemma qsum_app (l1 l2 : list Q) :
  Py.qsum (l1 ++ l2) == Py.qsum l1 + Py.qsum l2.
Proof.
  induction l1 as [| x l1 IH]; simpl.
  - ring.
  - rewrite IH. ring.
Qed.

Lemma qsum_perm (l1 l2 : list Q) :
  Permutation l1 l2 -> Py.qsum l1 == Py.qsum l2.
Proof.
  induction 1; simpl.
  - reflexivity.
  - rewrite IHPermutation. reflexivity.
  - ring.
  - rewrite IHPermutation1. exact IHPermutation2.
Qed.

(** ** Dictionaries *)

Section DictFacts.
Variables K V : Type.
Variable eqb : K -> K -> bool.

Lemma upd_length_le (dflt : V) (f : V -> V) (k : K) (d : Dict.t K V) :
  (List.length d <= List.length (Dict.upd eqb dflt f k d))%nat.
Proof.
  induction d as [| [k' v] d IH]; simpl.
  - lia.
  - destruct (eqb k' k); simpl; lia.
Qed.
End DictFacts.

(** Crediting [v] to a key adds exactly [v] to the total of the
    dictionary. *)
Lemma credit_total (k : Cell) (v : Q) (a : AttributionService.Attribution) :
  Py.qsum (Dict.values (AttributionService.credit k v a))
  == Py.qsum (Dict.values a) + v.
Proof.
  unfold AttributionService.credit, Dict.values.
  induction a as [| [k' x] a IH]; simpl.
  - ring.
  - destruct (cell_eqb k' k); simpl.
    + ring.
    + rewrite IH. ring.
Qed.

(** ** Rounding: [round(x, n)] is within half a unit of the last digit *)

Lemma round_half_even_err (y : Q) :
  Qabs (inject_Z (Py.round_half_even y) - y) <= 1 # 2.
Proof.
  unfold Py.round_half_even.
  pose proof (Qfloor_le y) as Hlo.
  pose proof (Qlt_floor y) as Hhi.
  rewrite inject_Z_plus in Hhi. change (inject_Z 1) with 1 in Hhi.
  apply Qabs_Qle_condition.
  destruct (Qcompare_spec (y - inject_Z (Qfloor y)) (1 # 2)) as [E | E | E].
  - destruct (Z.even (Qfloor y)).
    + split; lra.
    + rewrite inject_Z_plus. change (inject_Z 1) with 1. split; lra.
  - split; lra.
  - rewrite inject_Z_plus. change (inject_Z 1) with 1. split; lra.
Qed.

Lemma pow10_pos (n : nat) : 0 < inject_Z (10 ^ Z.of_nat n).
Proof.
  change 0 with (inject_Z 0). rewrite <- Zlt_Qlt.
  apply Z.pow_pos_nonneg; lia.
Qed.

Lemma round_err (x : Q) (n : nat) :
  Qabs (Py.round x n - x) <= (1 # 2) / inject_Z (10 ^ Z.of_nat n).
Proof.
  unfold Py.round.
  set (p := inject_Z (10 ^ Z.of_nat n)).
  assert (Hp : 0 < p) by apply pow10_pos.
  pose proof (round_half_even_err (x * p)) as H.
  set (r := inject_Z (Py.round_half_even (x * p))) in *.
  assert (E : r / p - x == (r - x * p) / p).
  { field. intro Hz. rewrite Hz in Hp. apply (Qlt_irrefl 0). exact Hp. }
  rewrite E. unfold Qdiv. rewrite Qabs_Qmult.
  rewrite (Qabs_pos (/ p)).
  - apply Qmult_le_compat_r; [exact H |].
    apply Qlt_le_weak, Qinv_lt_0_compat. exact Hp.
  - apply Qlt_le_weak, Qinv_lt_0_compat. exact Hp.
Qed.

Lemma round_comp (x y : Q) (n : nat) : x == y -> Py.round x n == Py.round y n.
Proof.
  intros E. unfold Py.round, Py.round_half_even.
  assert (E' : x * inject_Z (10 ^ Z.of_nat n) == y * inject_Z (10 ^ Z.of_nat n))
    by (rewrite E; reflexivity).
  rewrite (Qfloor_comp _ _ E').
  rewrite (Qcompare_comp _ _ (Qminus_comp _ _ E' _ _ (Qeq_refl _))
             _ _ (Qeq_refl (1 # 2))).
  reflexivity.
Qed.

(** The error of a sum of rounded terms grows with the number of terms. *)
Lemma qsum_round_err (eps : Q) (f : Q -> Q) (l : list Q) :
  (forall x, Qabs (f x - x) <= eps) ->
  Qabs (Py.qsum (map f l) - Py.qsum l)
  <= inject_Z (Z.of_nat (List.length l)) * eps.
Proof.
  intros Hf. induction l as [| x l IH].
  - cbn [map Py.qsum fold_right List.length].
    change (inject_Z (Z.of_nat 0)) with 0.
    apply Qabs_Qle_condition. split; lra.
  - cbn [map Py.qsum fold_right List.length].
    rewrite Nat2Z.inj_succ. unfold Z.succ. rewrite inject_Z_plus.
    change (inject_Z 1) with 1.
    fold (Py.qsum (map f l)). fold (Py.qsum l).
    specialize (Hf x).
    apply Qabs_Qle_condition in Hf. apply Qabs_Qle_condition in IH.
    apply Qabs_Qle_condition. split; lra.
Qed.

(* ================================================================== *)
(** ** Attribution: every model hands out exactly the converted value *)

Section Conservation.
Import AttributionService Spec.

Lemma total_credit (k : Cell) (v : Q) (a : Attribution) :
  total (credit k v a) == total a + v.
Proof. apply credit_total. Qed.

(** A loop of credits adds the sum of the credited amounts. *)
Lemma fold_credit (X : Type) (key : X -> Cell) (amt : X -> Q)
    (l : list X) (a : Attribution) :
  total (fold_left (fun a' x => credit (key x) (amt x) a') l a)
  == total a + Py.qsum (map amt l).
Proof.
  revert a. induction l as [| x l IH]; intros a; simpl.
  - ring.
  - rewrite IH, total_credit. ring.
Qed.

Lemma qsum_const (X : Type) (c : Q) (l : list X) :
  Py.qsum (map (fun _ => c) l) == qlen l * c.
Proof.
  unfold qlen. induction l as [| x l IH].
  - simpl. ring.
  - cbn [map Py.qsum fold_right List.length].
    fold (Py.qsum (map (fun _ : X => c) l)). rewrite IH.
    rewrite Nat2Z.inj_succ. unfold Z.succ. rewrite inject_Z_plus.
    change (inject_Z 1) with 1. ring.
Qed.

Lemma qlen_nonzero (X : Type) (l : list X) : l <> [] -> ~ qlen l == 0.
Proof.
  intros Hl E. unfold qlen in E.
  change 0 with (inject_Z 0) in E. apply inject_Z_injective in E.
  destruct l; [congruence | simpl in E; discriminate E].
Qed.

Lemma eligible_wf (j : Journey) :
  wf_journey j -> eligible j = converted j.
Proof.
  intros [Hne _]. unfold eligible.
  destruct (touchpoints j); [congruence |].
  apply andb_true_r.
Qed.

Lemma converted_value_cons (j : Journey) (js : list Journey) :
  converted_value (j :: js)
  == (if converted j then conversion_value j else 0) + converted_value js.
Proof.
  unfold converted_value. simpl. destruct (converted j); simpl; ring.
Qed.

(** A model that credits the value of each converted journey, journey by
    journey, hands out the converted value. *)
Lemma fold_conserves (step : Attribution -> Journey -> Attribution) :
  (forall a j, wf_journey j ->
     total (step a j)
     == total a + (if converted j then conversion_value j else 0)) ->
  forall js, Forall wf_journey js ->
  forall a, total (fold_left step js a) == total a + converted_value js.
Proof.
  intros Hstep js Hwf. induction Hwf as [| j js Hj Hjs IH]; intros a.
  - unfold converted_value. simpl. ring.
  - simpl. rewrite IH, (Hstep a j Hj), converted_value_cons. ring.
Qed.

Lemma first_touch_conserves (js : list Journey) :
  Forall wf_journey js -> total (first_touch_raw js) == converted_value js.
Proof.
  intros Hwf. unfold first_touch_raw.
  rewrite (fold_conserves
             (fun a j => if eligible j
                         then credit (hd (VInt 0) (touchpoints j))
                                (conversion_value j) a
                         else a)); [unfold total; simpl; ring | | exact Hwf].
  intros a j Hj. rewrite (eligible_wf Hj).
  destruct (converted j); [apply total_credit | ring].
Qed.

Lemma last_touch_conserves (js : list Journey) :
  Forall wf_journey js -> total (last_touch_raw js) == converted_value js.
Proof.
  intros Hwf. unfold last_touch_raw.
  rewrite (fold_conserves
             (fun a j => if eligible j
                         then credit (last (touchpoints j) (VInt 0))
                                (conversion_value j) a
                         else a)); [unfold total; simpl; ring | | exact Hwf].
  intros a j Hj. rewrite (eligible_wf Hj).
  destruct (converted j); [apply total_credit | ring].
Qed.

Lemma linear_conserves (js : list Journey) :
  Forall wf_journey js -> total (linear_raw js) == converted_value js.
Proof.
  intros Hwf. unfold linear_raw.
  rewrite fold_conserves; [unfold total; simpl; ring | | exact Hwf].
  intros a j Hj. rewrite (eligible_wf Hj).
  destruct (converted j); [| ring].
  rewrite (fold_credit (fun t => t)
             (fun _ => conversion_value j / qlen (touchpoints j))).
  rewrite qsum_const.
  destruct Hj as [Hne _]. apply qlen_nonzero in Hne.
  apply Qplus_inj_l. field. exact Hne.
Qed.
End Conservation.

Section ConservationDecay.
Import AttributionService Spec.
Variable ln2 : Q.
Variable exp : Q -> Q.
(** [math.exp] never returns a negative float (it may underflow to 0.0), and
    [math.exp(0)] is positive. *)
Hypothesis exp_nonneg : forall x, 0 <= exp x.
Hypothesis exp_zero : forall x, x == 0 -> 0 < exp x.

Lemma qsum_ge_member (l : list Q) (x : Q) :
  (forall y, In y l -> 0 <= y) -> In x l -> x <= Py.qsum l.
Proof.
  induction l as [| y l IH]; intros Hpos Hin; [destruct Hin |].
  rewrite qsum_cons.
  assert (Hl : 0 <= Py.qsum l).
  { clear IH Hin. induction l as [| z l IHl].
    - apply Qle_refl.
    - rewrite qsum_cons.
      assert (0 <= z) by (apply Hpos; right; left; reflexivity).
      assert (0 <= Py.qsum l).
      { apply IHl. intros y' [<- | Hy']; apply Hpos;
          [left | right; right]; auto. }
      lra. }
  assert (Hy : 0 <= y) by (apply Hpos; left; reflexivity).
  destruct Hin as [<- | Hin].
  - lra.
  - assert (x <= Py.qsum l).
    { apply IH; [| exact Hin]. intros y' Hy'. apply Hpos. right. exact Hy'. }
    lra.
Qed.

Lemma last_In (X : Type) (l : list X) (d : X) : l <> [] -> In (last l d) l.
Proof.
  induction l as [| x [| y l] IH]; intros Hne.
  - congruence.
  - left. reflexivity.
  - right. apply IH. discriminate.
Qed.

(** The weight of the last touchpoint is [exp(0)]: the weights of a journey
    add up to a positive number. *)
Lemma decay_weights_pos (lambda_decay : Q) (ts : list Cell) :
  ts <> [] -> 0 < Py.qsum (decay_weights exp lambda_decay ts).
Proof.
  intros Hne. unfold decay_weights.
  set (c := last ts (VInt 0)).
  set (w := fun ts0 => exp (- lambda_decay * days_before c ts0)).
  assert (Hw : 0 < w c).
  { unfold w. apply exp_zero. unfold days_before.
    rewrite Z.sub_diag. unfold Qdiv. change (inject_Z 0) with 0. ring. }
  assert (Hge : w c <= Py.qsum (map w ts)).
  { apply qsum_ge_member.
    - intros y Hy. apply in_map_iff in Hy. destruct Hy as (t & <- & _).
      apply exp_nonneg.
    - apply in_map. apply last_In. exact Hne. }
  lra.
Qed.

Lemma map_snd_combine (X Y : Type) (l1 : list X) (l2 : list Y) :
  List.length l1 = List.length l2 -> map snd (combine l1 l2) = l2.
Proof.
  revert l2. induction l1 as [| x l1 IH]; intros [| y l2]; simpl;
    intros H; try reflexivity; try discriminate.
  f_equal. apply IH. congruence.
Qed.

Lemma qsum_scaled (X : Type) (c w : Q) (l : list (X * Q)) :
  ~ w == 0 ->
  Py.qsum (map (fun tw => c * (snd tw / w)) l)
  == c * (Py.qsum (map snd l) / w).
Proof.
  intros Hw. induction l as [| x l IH].
  - simpl. field. exact Hw.
  - cbn [map Py.qsum fold_right].
    fold (Py.qsum (map (fun tw : X * Q => c * (snd tw / w)) l)).
    fold (Py.qsum (map snd l)).
    rewrite IH. field. exact Hw.
Qed.

Lemma time_decay_step (lambda_decay : Q) (a : Attribution) (j : Journey) :
  wf_journey j ->
  total (time_decay_journey exp lambda_decay a j)
  == total a + (if converted j then conversion_value j else 0).
Proof.
  intros Hj. unfold time_decay_journey. rewrite (eligible_wf Hj).
  destruct (converted j); [| ring].
  destruct Hj as (Hne & Hlen & _).
  assert (Hts : timestamps j <> []).
  { intros E. rewrite E in Hlen. destruct (touchpoints j);
      [congruence | discriminate]. }
  pose proof (decay_weights_pos lambda_decay Hts) as Hpos.
  set (ws := decay_weights exp lambda_decay (timestamps j)) in *.
  assert (Hle : Qle_bool (Py.qsum ws) 0 = false).
  { destruct (Qle_bool (Py.qsum ws) 0) eqn:E; [| reflexivity].
    apply Qle_bool_iff in E. lra. }
  rewrite Hle. simpl negb. cbv iota.
  rewrite (fold_credit fst
             (fun tw => conversion_value j * (snd tw / Py.qsum ws))).
  assert (Hnz : ~ Py.qsum ws == 0) by lra.
  rewrite (qsum_scaled _ _ Hnz).
  rewrite map_snd_combine.
  - apply Qplus_inj_l. field. exact Hnz.
  - unfold ws, decay_weights. rewrite length_map. symmetry. exact Hlen.
Qed.

Lemma time_decay_conserves (js : list Journey) (half_life_days : Z)
    (a : Attribution) :
  Forall wf_journey js ->
  time_decay_raw ln2 exp js half_life_days = Ok a ->
  total a == converted_value js.
Proof.
  intros Hwf. unfold time_decay_raw.
  destruct (half_life_days =? 0)%Z; [discriminate |].
  intros E. injection E as <-.
  rewrite fold_conserves; [unfold total; simpl; ring | | exact Hwf].
  intros a j Hj. apply time_decay_step. exact Hj.
Qed.
End ConservationDecay.

Section ConservationPosition.
Import AttributionService Spec.

Lemma removelast_length (X : Type) (l : list X) :
  List.length (removelast l) = (List.length l - 1)%nat.
Proof.
  induction l as [| x [| y l] IH]; simpl in *; try reflexivity.
  rewrite IH. lia.
Qed.

Lemma middle_length (X : Type) (l : list X) :
  List.length (middle l) = (List.length l - 2)%nat.
Proof.
  unfold middle. rewrite removelast_length.
  destruct l; simpl; lia.
Qed.

Lemma position_based_step (a : Attribution) (j : Journey) :
  wf_journey j ->
  total (position_based_journey a j)
  == total a + (if converted j then conversion_value j else 0).
Proof.
  intros Hj. unfold position_based_journey. rewrite (eligible_wf Hj).
  destruct (converted j); [| ring].
  destruct Hj as (Hne & _).
  pose proof (middle_length (touchpoints j)) as Hmid.
  destruct (List.length (touchpoints j)) as [| [| [| m]]] eqn:Hlen.
  - destruct (touchpoints j); [congruence | discriminate].
  - apply total_credit.
  - rewrite !total_credit. ring.
  - rewrite (fold_credit (fun t => t)
               (fun _ => conversion_value j * (2 # 10)
                         / inject_Z (Z.of_nat (S (S (S m))) - 2))).
    rewrite qsum_const, !total_credit.
    unfold qlen. rewrite Hmid.
    replace (Z.of_nat (S (S (S m))) - 2)%Z
      with (Z.of_nat (S (S (S m)) - 2)) by lia.
    assert (Hnz : ~ inject_Z (Z.of_nat (S (S (S m)) - 2)) == 0).
    { intros E. change 0 with (inject_Z 0) in E.
      apply inject_Z_injective in E. simpl in E. discriminate E. }
    set (d := inject_Z (Z.of_nat (S (S (S m)) - 2))) in *.
    field. exact Hnz.
Qed.

Lemma position_based_conserves (js : list Journey) :
  Forall wf_journey js ->
  total (position_based_raw js) == converted_value js.
Proof.
  intros Hwf. unfold position_based_raw.
  rewrite fold_conserves; [unfold total; simpl; ring | | exact Hwf].
  intros a j Hj. apply position_based_step. exact Hj.
Qed.

Lemma ctotal_contribute (k : Cell) (v : Q) (c : list (Cell * list Q)) :
  ctotal (contribute k v c) == ctotal c + v.
Proof.
  unfold ctotal, contribute.
  induction c as [| [k' l] c IH]; cbn [Dict.upd map snd].
  - rewrite !qsum_cons. simpl. ring.
  - destruct (cell_eqb k' k); cbn [map snd]; rewrite !qsum_cons.
    + rewrite qsum_app, qsum_cons. simpl (Py.qsum []). ring.
    + rewrite IH. ring.
Qed.

Lemma fold_contribute (v : Q) (l : list Cell) (c : list (Cell * list Q)) :
  ctotal (fold_left (fun c' t => contribute t v c') l c)
  == ctotal c + qlen l * v.
Proof.
  revert c. unfold qlen. induction l as [| t l IH]; intros c.
  - simpl. ring.
  - cbn [fold_left List.length]. rewrite IH, ctotal_contribute.
    rewrite Nat2Z.inj_succ. unfold Z.succ. rewrite inject_Z_plus.
    change (inject_Z 1) with 1. ring.
Qed.

Lemma slice_to_nonempty (X : Type) (n : Z) (l : list X) :
  (1 <= n)%Z -> l <> [] -> Py.slice_to n l <> [].
Proof.
  intros Hn Hl. unfold Py.slice_to.
  destruct (0 <=? n)%Z eqn:E; [| apply Z.leb_gt in E; lia].
  destruct (Z.to_nat n) eqn:En; [lia |].
  destruct l; [congruence | simpl; discriminate].
Qed.

Lemma shapley_conserves (js : list Journey) (max_touchpoints : Z) :
  (1 <= max_touchpoints)%Z ->
  Forall wf_journey js ->
  total (shapley_raw js max_touchpoints) == converted_value js.
Proof.
  intros Hmax Hwf. unfold shapley_raw, total, Dict.values.
  rewrite map_map. cbn [snd]. fold (ctotal (shapley_contributions js max_touchpoints)).
  unfold shapley_contributions.
  assert (G : forall c,
             ctotal
               (fold_left
                  (fun c0 j =>
                     if eligible j then
                       match Py.slice_to max_touchpoints (touchpoints j) with
                       | [] => c0
                       | _ :: _ =>
                           fold_left
                             (fun c' t =>
                                contribute t
                                  (conversion_value j
                                   / qlen (Py.slice_to max_touchpoints
                                             (touchpoints j))) c')
                             (Py.slice_to max_touchpoints (touchpoints j)) c0
                       end
                     else c0) js c)
             == ctotal c + converted_value js).
  { induction Hwf as [| j js Hj Hjs IH]; intros c.
    - unfold converted_value. simpl. ring.
    - cbn [fold_left]. rewrite IH, converted_value_cons.
      rewrite (eligible_wf Hj).
      destruct (converted j); [| ring].
      destruct Hj as (Hne & _).
      pose proof (slice_to_nonempty Hmax Hne) as Hs.
      destruct (Py.slice_to max_touchpoints (touchpoints j)) as [| t tps]
        eqn:Es; [congruence |].
      rewrite fold_contribute.
      apply qlen_nonzero in Hs.
      assert (E : qlen (t :: tps) * (conversion_value j / qlen (t :: tps))
                  == conversion_value j) by (field; exact Hs).
      rewrite E. ring. }
  rewrite G. unfold ctotal. simpl. ring.
Qed.
End ConservationPosition.

(** ** The error monad *)

(** A successful [bind] had a successful first part. *)
Ltac inv_bind H :=
  match type of H with
  | bind ?r _ = Ok _ =>
      let E := fresh "E" in
      destruct r eqn:E; [cbn [bind] in H | discriminate H]
  end.

Lemma mapM_Forall (A B : Type) (f : A -> Result B) (P : B -> Prop)
    (l : list A) (l' : list B) :
  mapM f l = Ok l' ->
  (forall a b, In a l -> f a = Ok b -> P b) ->
  Forall P l'.
Proof.
  revert l'. induction l as [| a l IH]; intros l' H HP; simpl in H.
  - injection H as <-. constructor.
  - inv_bind H. inv_bind H. injection H as <-.
    constructor.
    + apply (HP a); [left; reflexivity | assumption].
    + apply IH; [reflexivity |]. intros a' b' Hin. apply HP. right. exact Hin.
Qed.

Lemma mapM_length (A B : Type) (f : A -> Result B) (l : list A)
    (l' : list B) :
  mapM f l = Ok l' -> List.length l' = List.length l.
Proof.
  revert l'. induction l as [| a l IH]; intros l' H; simpl in H.
  - injection H as <-. reflexivity.
  - inv_bind H. inv_bind H. injection H as <-. simpl. f_equal.
    apply IH. reflexivity.
Qed.

(** ** Journeys as _build_user_journeys makes them *)

Section Journeys.
Import Pandas AttributionService Spec.

Lemma build_journey_wf touchpoint_col timestamp_col conversion_col
    conversion_value_col (g : Cell * DataFrame) (j : Journey) :
  build_journey touchpoint_col timestamp_col conversion_col
    conversion_value_col g = Ok (Some j) ->
  wf_journey j.
Proof.
  unfold build_journey. intros H.
  inv_bind H. inv_bind H. inv_bind H. inv_bind H.
  destruct (column a a0) as [| c cs] eqn:Ec; [discriminate |].
  injection H as <-. unfold wf_journey.
  cbn [touchpoints timestamps converted conversion_value].
  split; [discriminate |]. split.
  - rewrite <- Ec. unfold column. rewrite !length_map. reflexivity.
  - intros Hc. rewrite Hc. reflexivity.
Qed.

Lemma flat_map_some_Forall (X : Type) (P : X -> Prop)
    (l : list (option X)) :
  Forall (fun o => match o with Some x => P x | None => True end) l ->
  Forall P (flat_map (fun o => match o with Some x => [x] | None => [] end)
              l).
Proof.
  induction 1 as [| o l Ho Hl IH]; simpl.
  - constructor.
  - destruct o; simpl; [constructor |]; assumption.
Qed.

Lemma build_user_journeys_wf (df : DataFrame)
    user_id_col touchpoint_col timestamp_col conversion_col
    conversion_value_col (js : list Journey) :
  _build_user_journeys df user_id_col touchpoint_col timestamp_col
    conversion_col conversion_value_col = Ok js ->
  Forall wf_journey js.
Proof.
  unfold _build_user_journeys. intros H.
  inv_bind H. inv_bind H. injection H as <-.
  apply flat_map_some_Forall.
  eapply mapM_Forall; [eassumption |].
  intros g [j |] _ Hg; [| exact I].
  eapply build_journey_wf. exact Hg.
Qed.
End Journeys.

(** ** Normalisation: what the rounded figures add up to *)

Section Normalisation.
Import AttributionService Spec.

Lemma normalize_zero (a : Attribution) :
  total a == 0 -> _normalize_attribution a = [].
Proof.
  intros H. unfold _normalize_attribution. fold (total a).
  apply Qeq_bool_iff in H. rewrite H. reflexivity.
Qed.

Lemma normalize_nonzero (a : Attribution) :
  ~ total a == 0 ->
  _normalize_attribution a
  = map (fun kv =>
           (fst kv,
            {| value := Py.round (snd kv) 4;
               percentage := Py.round (snd kv / total a * 100) 2 |}))
      (Py.sort (fun x y : Cell * Q => Qle_bool (snd y) (snd x)) a).
Proof.
  intros H. unfold _normalize_attribution. fold (total a).
  destruct (Qeq_bool (total a) 0) eqn:E; [| reflexivity].
  apply Qeq_bool_iff in E. contradiction.
Qed.

Lemma qsum_times (c : Q) (l : list Q) :
  Py.qsum (map (fun x => x * c) l) == Py.qsum l * c.
Proof.
  induction l as [| x l IH]; cbn [map].
  - simpl. ring.
  - rewrite !qsum_cons, IH. ring.
Qed.

(** The figures of one model: the values add up to the total credit up to
    0.00005 per touchpoint, the percentages to 100 up to 0.005 per
    touchpoint. *)
Lemma normalize_sums (a : Attribution) :
  ~ total a == 0 ->
  Qabs (sum_values (_normalize_attribution a) - total a)
  <= qlen (_normalize_attribution a) * (1 # 20000)
  /\ Qabs (sum_percentages (_normalize_attribution a) - 100)
     <= qlen (_normalize_attribution a) * (1 # 200).
Proof.
  intros Hnz. rewrite (@normalize_nonzero a Hnz).
  set (sorted := Py.sort (fun x y : Cell * Q => Qle_bool (snd y) (snd x)) a).
  assert (Hperm : Permutation (Dict.values a) (map snd sorted)).
  { unfold Dict.values. apply Permutation_map. apply sort_perm. }
  assert (Htot : Py.qsum (map snd sorted) == total a).
  { unfold total. symmetry. apply qsum_perm. exact Hperm. }
  unfold sum_values, sum_percentages, qlen.
  rewrite !map_map, !length_map. cbn [snd value percentage].
  split.
  - pose proof (@qsum_round_err ((1 # 2) / inject_Z (10 ^ Z.of_nat 4))
                  (fun x => Py.round x 4) (map snd sorted)
                  (fun x => round_err x 4)) as H.
    rewrite map_map, length_map in H.
    rewrite Htot in H.
    assert (E : (1 # 2) / inject_Z (10 ^ Z.of_nat 4) == 1 # 20000)
      by reflexivity.
    rewrite E in H. exact H.
  - pose proof (@qsum_round_err ((1 # 2) / inject_Z (10 ^ Z.of_nat 2))
                  (fun x => Py.round x 2)
                  (map (fun x => x * (/ total a * 100)) (map snd sorted))
                  (fun x => round_err x 2)) as H.
    rewrite qsum_times, Htot in H.
    rewrite !map_map, !length_map in H.
    assert (E : (1 # 2) / inject_Z (10 ^ Z.of_nat 2) == 1 # 200)
      by reflexivity.
    rewrite E in H.
    assert (E100 : total a * (/ total a * 100) == 100) by (field; exact Hnz).
    rewrite E100 in H.
    assert (Emap :
             Py.qsum (map (fun x : Cell * Q =>
                             Py.round (snd x / total a * 100) 2) sorted)
             == Py.qsum (map (fun x : Cell * Q =>
                                Py.round (snd x * (/ total a * 100)) 2)
                           sorted)).
    { clear. induction sorted as [| x l IH]; cbn [map].
      - reflexivity.
      - rewrite !qsum_cons, IH.
        apply Qplus_comp; [| reflexivity].
        apply round_comp. unfold Qdiv. ring. }
    rewrite Emap. exact H.
Qed.
End Normalisation.

(** ** Attribution results *)

Section AttributionTheorems.
Import Pandas AttributionService Spec.

(** Each model normalises a dictionary of credits whose total is the
    converted value. *)
Lemma run_model_raw (ln2 : Q) (exp : Q -> Q) (half_life : Z)
    (js : list Journey) (m : string) (res : AttributionResult) :
  (forall x, 0 <= exp x) ->
  (forall x, x == 0 -> 0 < exp x) ->
  Forall wf_journey js ->
  run_model ln2 exp half_life js m = Ok (Some res) ->
  exists raw, res = _normalize_attribution raw
              /\ total raw == converted_value js.
Proof.
  intros Hexp Hexp0 Hwf. unfold run_model.
  destruct (String.eqb m "first_touch");
    [intros H; injection H as <-; eexists; split;
     [reflexivity | apply first_touch_conserves; exact Hwf] |].
  destruct (String.eqb m "last_touch");
    [intros H; injection H as <-; eexists; split;
     [reflexivity | apply last_touch_conserves; exact Hwf] |].
  destruct (String.eqb m "linear");
    [intros H; injection H as <-; eexists; split;
     [reflexivity | apply linear_conserves; exact Hwf] |].
  destruct (String.eqb m "time_decay").
  { unfold _time_decay_attribution. intros H.
    destruct (time_decay_raw ln2 exp js half_life) as [raw | e] eqn:E;
      [| discriminate H].
    cbn [bind] in H. injection H as <-.
    exists raw. split; [reflexivity |].
    eapply time_decay_conserves; eassumption. }
  destruct (String.eqb m "position_based");
    [intros H; injection H as <-; eexists; split;
     [reflexivity | apply position_based_conserves; exact Hwf] |].
  destruct (String.eqb m "shapley");
    [intros H; injection H as <-; eexists; split;
     [reflexivity | apply shapley_conserves; [lia | exact Hwf]] |].
  discriminate.
Qed.
End AttributionTheorems.

(** C2, as amended.  For each of the six attribution models and every
    dataset, with floats read as exact rationals and a [math.exp] that is
    never negative and positive at 0:
    when the conversion values of the converted journeys add up to zero the
    model reports no touchpoint at all; otherwise the reported [value]
    fields add up to that sum within 0.00005 per reported touchpoint, and
    the [percentage] fields add up to 100 within 0.005 per reported
    touchpoint. *)
Theorem attribution_conservation
    (ln2 : Q) (exp : Q -> Q) (df : Pandas.DataFrame)
    (user_id_col touchpoint_col timestamp_col : string)
    (conversion_col conversion_value_col : option string)
    (half_life : Z) (js : list AttributionService.Journey)
    (m : string) (res : AttributionService.AttributionResult) :
  (forall x, 0 <= exp x) ->
  (forall x, x == 0 -> 0 < exp x) ->
  AttributionService._build_user_journeys df user_id_col touchpoint_col
    timestamp_col conversion_col conversion_value_col = Ok js ->
  AttributionService.run_model ln2 exp half_life js m = Ok (Some res) ->
  (Spec.converted_value js == 0 -> res = [])
  /\ (~ Spec.converted_value js == 0 ->
      Qabs (Spec.sum_values res - Spec.converted_value js)
      <= AttributionService.qlen res * (1 # 20000)
      /\ Qabs (Spec.sum_percentages res - 100)
         <= AttributionService.qlen res * (1 # 200)).
Proof.
  intros Hexp Hexp0 Hjs Hm.
  pose proof (@build_user_journeys_wf _ _ _ _ _ _ _ Hjs) as Hwf.
  destruct (@run_model_raw ln2 exp half_life js m res Hexp Hexp0 Hwf Hm)
    as (raw & -> & Htot).
  split.
  - intros Hz. apply normalize_zero. rewrite Htot. exact Hz.
  - intros Hnz.
    assert (Hnz' : ~ Spec.total raw == 0) by (rewrite Htot; exact Hnz).
    destruct (@normalize_sums raw Hnz') as [H1 H2].
    split; [| exact H2].
    rewrite <- Htot. exact H1.
Qed.

(** The hypotheses of [attribution_conservation] hold of the [channels]
    dataset and the time-decay model. *)
Lemma attribution_conservation_witness :
  exists js res,
    AttributionService._build_user_journeys Examples.channels
      "user" "channel" "ts" (Some "converted"%string) (Some "revenue"%string)
    = Ok js
    /\ AttributionService.run_model (7 # 10) (fun _ => 1) 7 js "time_decay"
       = Ok (Some res)
    /\ ((Spec.converted_value js == 0 -> res = [])
        /\ (~ Spec.converted_value js == 0 ->
            Qabs (Spec.sum_values res - Spec.converted_value js)
            <= AttributionService.qlen res * (1 # 20000)
            /\ Qabs (Spec.sum_percentages res - 100)
               <= AttributionService.qlen res * (1 # 200))).
Proof.
  eexists. eexists.
  split; [vm_compute; reflexivity |].
  split; [vm_compute; reflexivity |].
  eapply (@attribution_conservation (7 # 10) (fun _ => 1) Examples.channels
            "user" "channel" "ts" (Some "converted"%string)
            (Some "revenue"%string) 7 _ "time_decay" _).
  - intros x. discriminate.
  - intros x _. reflexivity.
  - vm_compute; reflexivity.
  - vm_compute; reflexivity.
Defined.

(** Values that all round to zero are reported as zeros. *)
Lemma normalize_all_rounded_away (a : AttributionService.Attribution) :
  ~ Spec.total a == 0 ->
  forallb (fun kv => Qeq_bool (Py.round (snd kv) 4) 0) a = true ->
  Spec.sum_values (AttributionService._normalize_attribution a) == 0.
Proof.
  intros Hnz Hall. rewrite (@normalize_nonzero a Hnz).
  unfold Spec.sum_values. rewrite map_map. cbn [snd AttributionService.value].
  assert (Hs : forall kv,
             In kv (Py.sort (fun x y : Cell * Q => Qle_bool (snd y) (snd x)) a)
             -> Py.round (snd kv) 4 == 0).
  { intros kv Hin. apply sort_In in Hin.
    rewrite forallb_forall in Hall. apply Qeq_bool_iff. apply Hall. exact Hin. }
  induction (Py.sort (fun x y : Cell * Q => Qle_bool (snd y) (snd x)) a)
    as [| kv l IH]; cbn [map].
  - reflexivity.
  - rewrite qsum_cons, IH.
    + rewrite (Hs kv); [ring | left; reflexivity].
    + intros kv' Hin. apply Hs. right. exact Hin.
Qed.

(** C2 as stated fails in two ways.  (a) A user who converts with value 0:
    there is a converted journey, and every model reports no touchpoint, so
    the percentages add up to 0, not to 100.  (b) 260 users who each convert
    with value 0.00004 through a touchpoint of their own: every credit
    rounds to 0.0000, and the reported values add up to 0 where the
    conversion values add up to 0.0104, more than 0.01 away. *)
Lemma attribution_conservation_counterexample :
  (exists js,
     AttributionService._build_user_journeys Examples.free_trial
       "user" "channel" "ts" (Some "converted"%string)
       (Some "revenue"%string) = Ok js
     /\ AttributionService.count_converted js = 1%nat
     /\ forall m res,
          AttributionService.run_model (7 # 10) (fun _ => 1) 7 js m
          = Ok (Some res) ->
          ~ Qabs (Spec.sum_percentages res - 100) <= 1 # 100)
  /\ (exists js,
        AttributionService._build_user_journeys Examples.micro_payments
          "user" "channel" "ts" None (Some "revenue"%string) = Ok js
        /\ AttributionService.count_converted js = 260%nat
        /\ ~ Qabs (Spec.sum_values
                     (AttributionService._first_touch_attribution js)
                   - Spec.converted_value js) <= 1 # 100).
Proof.
  split.
  - eexists. split; [vm_compute; reflexivity |].
    split; [reflexivity |].
    intros m res Hm.
    assert (Hres : res = []).
    { match type of Hm with
      | AttributionService.run_model _ _ _ ?js _ = _ =>
          assert (Hwf : Forall Spec.wf_journey js)
      end.
      { constructor; [| constructor].
        split; [discriminate |]. split; [reflexivity | discriminate]. }
      destruct (@run_model_raw (7 # 10) (fun _ => 1) 7 _ m res
                  ltac:(intros x; discriminate)
                  ltac:(intros x _; reflexivity) Hwf Hm)
        as (raw & -> & Htot).
      apply normalize_zero. rewrite Htot. reflexivity. }
    subst res. vm_compute. intros H. apply H. reflexivity.
  - eexists. split; [vm_compute; reflexivity |].
    split; [vm_compute; reflexivity |].
    match goal with
    | |- ~ Qabs (Spec.sum_values (AttributionService._first_touch_attribution ?js)
                 - _) <= _ => set (js0 := js)
    end.
    assert (Hraw : Qle_bool (Spec.total (AttributionService.first_touch_raw js0))
                     (1 # 100) = false) by (vm_compute; reflexivity).
    assert (Hcv : Qle_bool (Spec.converted_value js0) (1 # 100) = false)
      by (vm_compute; reflexivity).
    assert (Hall : forallb (fun kv => Qeq_bool (Py.round (snd kv) 4) 0)
                     (AttributionService.first_touch_raw js0) = true)
      by (vm_compute; reflexivity).
    assert (Hnz : ~ Spec.total (AttributionService.first_touch_raw js0) == 0).
    { intros E. rewrite E in Hraw. discriminate Hraw. }
    unfold AttributionService._first_touch_attribution.
    rewrite (@normalize_all_rounded_away _ Hnz Hall).
    intros Habs. apply Qabs_Qle_condition in Habs.
    destruct (Qle_bool (Spec.converted_value js0) (1 # 100)) eqn:E;
      [discriminate Hcv |].
    assert (Hle : Spec.converted_value js0 <= 1 # 100) by lra.
    apply Qle_bool_iff in Hle. congruence.
Qed.

(** ** Attribution without a conversion column *)

Section NoConversionColumn.
Import Pandas AttributionService Spec.

Lemma build_journey_defaults touchpoint_col timestamp_col
    (g : Cell * DataFrame) (j : Journey) :
  build_journey touchpoint_col timestamp_col None None g = Ok (Some j) ->
  converted j = true /\ conversion_value j = 1.
Proof.
  unfold build_journey. intros H.
  inv_bind H. inv_bind H. inv_bind H.
  cbn [column_given bind] in H.
  destruct (column a a0); [discriminate |].
  injection H as <-. split; reflexivity.
Qed.

Lemma build_user_journeys_defaults (df : DataFrame)
    user_id_col touchpoint_col timestamp_col (js : list Journey) :
  _build_user_journeys df user_id_col touchpoint_col timestamp_col
    None None = Ok js ->
  Forall (fun j => converted j = true /\ conversion_value j = 1) js.
Proof.
  unfold _build_user_journeys. intros H.
  inv_bind H. inv_bind H. injection H as <-.
  apply flat_map_some_Forall.
  eapply mapM_Forall; [eassumption |].
  intros g [j |] _ Hg; [| exact I].
  eapply build_journey_defaults. exact Hg.
Qed.

Lemma filter_all_converted (js : list Journey) :
  Forall (fun j => converted j = true /\ conversion_value j = 1) js ->
  filter converted js = js.
Proof.
  induction 1 as [| j js [Hc _] _ IH]; simpl.
  - reflexivity.
  - rewrite Hc, IH. reflexivity.
Qed.

Lemma converted_value_defaults (js : list Journey) :
  Forall (fun j => converted j = true /\ conversion_value j = 1) js ->
  converted_value js == qlen js.
Proof.
  intros H. unfold converted_value. rewrite (filter_all_converted H).
  unfold qlen. induction H as [| j js [_ Hv] _ IH]; cbn [map List.length].
  - reflexivity.
  - rewrite qsum_cons, IH, Hv, Nat2Z.inj_succ. unfold Z.succ.
    rewrite inject_Z_plus. change (inject_Z 1) with 1. ring.
Qed.
End NoConversionColumn.

(** C10, as amended.  When attribution_analysis is given neither a
    conversion column nor a conversion value column, every journey is marked
    converted with the default value 1.0; every model then hands out a
    total credit equal to the number of journeys, and the conversion rate of
    the summary is 100 whenever there is a journey. *)
Theorem no_conversion_column_defaults
    (ln2 : Q) (exp : Q -> Q) (df : Pandas.DataFrame)
    (user_id_col touchpoint_col timestamp_col : string)
    (js : list AttributionService.Journey) :
  (forall x, 0 <= exp x) ->
  (forall x, x == 0 -> 0 < exp x) ->
  AttributionService._build_user_journeys df user_id_col touchpoint_col
    timestamp_col None None = Ok js ->
  (forall j, In j js ->
     AttributionService.converted j = true
     /\ AttributionService.conversion_value j = 1)
  /\ (forall half_life m res,
        AttributionService.run_model ln2 exp half_life js m = Ok (Some res) ->
        exists raw,
          res = AttributionService._normalize_attribution raw
          /\ Spec.total raw == AttributionService.qlen js)
  /\ (js <> [] ->
      forall results,
        AttributionService.conversion_rate
          (AttributionService._generate_summary js results) == 100).
Proof.
  intros Hexp Hexp0 Hjs.
  pose proof (@build_user_journeys_defaults _ _ _ _ _ Hjs) as Hdef.
  pose proof (@build_user_journeys_wf _ _ _ _ _ _ _ Hjs) as Hwf.
  split; [| split].
  - intros j Hin. rewrite Forall_forall in Hdef. apply Hdef. exact Hin.
  - intros half_life m res Hm.
    destruct (@run_model_raw ln2 exp half_life js m res Hexp Hexp0 Hwf Hm)
      as (raw & -> & Htot).
    exists raw. split; [reflexivity |].
    rewrite Htot. apply converted_value_defaults. exact Hdef.
  - intros Hne results.
    unfold AttributionService._generate_summary.
    cbn [AttributionService.conversion_rate].
    destruct js as [| j js']; [congruence |].
    unfold AttributionService.count_converted.
    rewrite (filter_all_converted Hdef).
    set (n := AttributionService.qlen (j :: js')).
    assert (Hn : ~ n == 0) by (apply qlen_nonzero; discriminate).
    assert (E : inject_Z (Z.of_nat (List.length (j :: js'))) / n * 100 == 100).
    { unfold n, AttributionService.qlen in *.
      set (d := inject_Z (Z.of_nat (List.length (j :: js')))) in *.
      field. exact Hn. }
    rewrite (round_comp 2 E). reflexivity.
Qed.

(** The hypotheses of [no_conversion_column_defaults] hold of the
    [channels] dataset read without its two conversion columns. *)
Lemma no_conversion_column_defaults_witness :
  exists js,
    AttributionService._build_user_journeys Examples.channels
      "user" "channel" "ts" None None = Ok js
    /\ (forall j, In j js ->
          AttributionService.converted j = true
          /\ AttributionService.conversion_value j = 1)
    /\ (forall half_life m res,
          AttributionService.run_model (7 # 10) (fun _ => 1) half_life js m
          = Ok (Some res) ->
          exists raw,
            res = AttributionService._normalize_attribution raw
            /\ Spec.total raw == AttributionService.qlen js)
    /\ (js <> [] ->
        forall results,
          AttributionService.conversion_rate
            (AttributionService._generate_summary js results) == 100).
Proof.
  eexists. split; [vm_compute; reflexivity |].
  eapply (@no_conversion_column_defaults (7 # 10) (fun _ => 1)
            Examples.channels "user" "channel" "ts" _).
  - intros x. discriminate.
  - intros x _. reflexivity.
  - vm_compute; reflexivity.
Defined.

(** C10 as stated fails: with no conversion column but a conversion value
    column, the journey is marked converted with the value of the column
    (here 5), not with the default 1.0. *)
Lemma no_conversion_column_counterexample :
  exists j,
    AttributionService._build_user_journeys Examples.revenue_only
      "user" "channel" "ts" None (Some "revenue"%string) = Ok [j]
    /\ AttributionService.converted j = true
    /\ AttributionService.conversion_value j == 5
    /\ ~ AttributionService.conversion_value j == 1.
Proof.
  eexists. split; [vm_compute; reflexivity |].
  split; [reflexivity |].
  split; [reflexivity |].
  intros H. discriminate H.
Qed.

Unset Implicit Arguments.

(* ================================================================== *)
(** ** Funnels *)

Section Funnel.
Import PathAnalysisService.

(** The users of a step are the users the inner loop accepts. *)
Lemma step_users_In funnel_steps time_window user_paths user_timestamps
    (i : nat) (u : Cell) :
  In u (step_users funnel_steps time_window user_paths user_timestamps i) ->
  exists step events ts,
    nth_error funnel_steps i = Some step
    /\ In (u, events) user_paths
    /\ fst (funnel_user funnel_steps time_window i step events ts) = true.
Proof.
  unfold step_users.
  destruct (nth_error funnel_steps i) as [step |] eqn:Es; [| intros []].
  intros H. apply in_map_iff in H. destruct H as ([u' t] & Hu & Hin).
  simpl in Hu. subst u'.
  unfold step_scan in Hin. apply in_flat_map in Hin.
  destruct Hin as ([u' events] & Hup & Hin). cbn [fst snd] in Hin.
  match type of Hin with
  | In _ (if fst (funnel_user _ _ _ _ _ ?ts) then _ else _) =>
      destruct (fst (funnel_user funnel_steps time_window i step events ts))
        eqn:Ef; [| destruct Hin];
      exists step, events, ts
  end.
  destruct Hin as [Hin | []]. injection Hin as -> _.
  repeat split; assumption.
Qed.

(** With a time window, a user enters step [i > 0] only when the first
    occurrence of the step's label comes after the first occurrence of the
    label of the step before. *)
Lemma funnel_user_window_ordered funnel_steps time_window (i : nat)
    (step : Cell) (events ts : list Cell) :
  window_on time_window = true -> (0 < i)%nat ->
  fst (funnel_user funnel_steps time_window i step events ts) = true ->
  exists event_idx prev_idx,
    Py.index step events = Some event_idx
    /\ Py.index (nth (i - 1) funnel_steps (VInt 0)) events = Some prev_idx
    /\ (prev_idx < event_idx)%nat.
Proof.
  intros Hw Hi. unfold funnel_user.
  destruct (Py.index step events) as [event_idx |]; [| discriminate].
  rewrite Hw. apply Nat.ltb_lt in Hi. rewrite Hi. cbn [andb].
  destruct (Py.index (nth (i - 1) funnel_steps (VInt 0)) events)
    as [prev_idx |]; [| discriminate].
  destruct time_window as [w |]; [| discriminate].
  destruct (prev_idx <? event_idx)%nat eqn:El; [| discriminate].
  intros _. exists event_idx, prev_idx.
  apply Nat.ltb_lt in El. auto.
Qed.

Lemma step_users_window_ordered funnel_steps time_window user_paths
    user_timestamps (i : nat) (u : Cell) :
  window_on time_window = true -> (0 < i)%nat ->
  In u (step_users funnel_steps time_window user_paths user_timestamps i) ->
  exists step events event_idx prev_idx,
    nth_error funnel_steps i = Some step
    /\ In (u, events) user_paths
    /\ Py.index step events = Some event_idx
    /\ Py.index (nth (i - 1) funnel_steps (VInt 0)) events = Some prev_idx
    /\ (prev_idx < event_idx)%nat.
Proof.
  intros Hw Hi Hin.
  destruct (step_users_In _ _ _ _ _ _ Hin) as (step & events & ts & Hs & Hup & Hf).
  destruct (funnel_user_window_ordered _ _ _ _ _ _ Hw Hi Hf)
    as (e & p & He & Hp & Hlt).
  exists step, events, e, p. auto.
Qed.

(** Without a time window the inner loop accepts every user whose events
    contain the label, whatever came before. *)
Lemma funnel_user_no_window funnel_steps time_window (i : nat)
    (step : Cell) (events ts : list Cell) :
  window_on time_window = false ->
  fst (funnel_user funnel_steps time_window i step events ts)
  = match Py.index step events with Some _ => true | None => false end.
Proof.
  intros Hw. unfold funnel_user. rewrite Hw.
  destruct (Py.index step events); reflexivity.
Qed.
End Funnel.

(** C1 does not hold of the code.  The [out_of_order] user pays at time 0
    and views at time 60.  In the funnel view, pay without a time window the
    user is counted at step 1 (pay) although pay never occurs after the
    first view; with a window of 24 hours the same user is not counted. *)
Theorem funnel_counts_out_of_order_user :
  (exists r,
     PathAnalysisService.funnel_analysis Examples.out_of_order
       "user" "event" "ts" [VStr "view"; VStr "pay"] None = Ok r
     /\ map PathAnalysisService.fs_users
          (PathAnalysisService.fr_funnel_steps r) = [1; 1]%nat)
  /\ PathAnalysisService.user_lists Examples.out_of_order
       "user" "event" "ts"
     = Ok ([(VInt 1, [VStr "pay"; VStr "view"])],
           [(VInt 1, [VInt 0; VInt 60])])
  /\ PathAnalysisService.step_users [VStr "view"; VStr "pay"] None
       [(VInt 1, [VStr "pay"; VStr "view"])] [(VInt 1, [VInt 0; VInt 60])] 1
     = [VInt 1]
  /\ PathAnalysisService.step_users [VStr "view"; VStr "pay"] (Some 24%Z)
       [(VInt 1, [VStr "pay"; VStr "view"])] [(VInt 1, [VInt 0; VInt 60])] 1
     = [].
Proof.
  split; [eexists; split; vm_compute; reflexivity |].
  repeat split; vm_compute; reflexivity.
Qed.

(* ================================================================== *)
(** ** Path analysis *)

Section TopPaths.
Import PathAnalysisService.

Lemma top_paths_In (pc : PathCounter) (min_user_count : Z) (n_users : nat)
    (p : list Cell) (c : nat) :
  (exists t, In t (top_paths pc min_user_count n_users)
             /\ tp_path t = p /\ tp_user_count t = c)
  <-> In (p, c) (most_common 20 pc) /\ (min_user_count <= Z.of_nat c)%Z.
Proof.
  unfold top_paths. split.
  - intros (t & Hin & Hp & Hc). apply in_flat_map in Hin.
    destruct Hin as ([p' c'] & Hmc & Hin). cbn [fst snd] in Hin.
    unfold frequent in Hin.
    destruct (min_user_count <=? Z.of_nat c')%Z eqn:E; [| destruct Hin].
    destruct Hin as [<- | []]. cbn in Hp, Hc. subst.
    split; [exact Hmc | apply Z.leb_le; exact E].
  - intros [Hmc Hle]. eexists. split.
    + apply in_flat_map. exists (p, c). split; [exact Hmc |].
      cbn [fst snd]. unfold frequent.
      apply Z.leb_le in Hle. rewrite Hle. left. reflexivity.
    + split; reflexivity.
Qed.
End TopPaths.

(** C6, as amended.  The top paths are the paths that are both among the 20
    most common truncated sequences and shared by at least
    [min_user_count] users: a path of fewer users never appears among
    them. *)
Theorem top_paths_respect_min_user_count
    (user_paths : list (Cell * list Cell))
    (max_path_length min_user_count : Z) (p : list Cell) (c : nat) :
  (exists t,
     In t (PathAnalysisService.pr_top_paths
             (PathAnalysisService.path_of_paths user_paths max_path_length
                min_user_count))
     /\ PathAnalysisService.tp_path t = p
     /\ PathAnalysisService.tp_user_count t = c)
  <-> In (p, c)
        (PathAnalysisService.most_common 20
           (PathAnalysisService.count_paths user_paths max_path_length))
      /\ (min_user_count <= Z.of_nat c)%Z.
Proof.
  unfold PathAnalysisService.path_of_paths.
  cbn [PathAnalysisService.pr_top_paths]. apply top_paths_In.
Qed.

(** C6 as stated fails: with one user and the default [min_user_count] of
    5, the only path is the most common one and yet the list of top paths is
    empty. *)
Lemma top_paths_counterexample :
  PathAnalysisService.most_common 20
    (PathAnalysisService.count_paths [(VInt 1, [VStr "X"; VStr "Y"])] 10)
  = [([VStr "X"; VStr "Y"], 1%nat)]
  /\ PathAnalysisService.pr_top_paths
       (PathAnalysisService.path_of_paths [(VInt 1, [VStr "X"; VStr "Y"])]
          10 5) = [].
Proof. split; vm_compute; reflexivity. Qed.

Section CycleFlag.
Import PathAnalysisService.

Lemma slice_to_all (X : Type) (n : Z) (l : list X) :
  (Z.of_nat (List.length l) <= n)%Z -> Py.slice_to n l = l.
Proof.
  intros H. unfold Py.slice_to.
  destruct (0 <=? n)%Z eqn:E; [| apply Z.leb_gt in E; lia].
  apply firstn_all2. lia.
Qed.

Lemma count_single_path (u : Cell) (events : list Cell) (n : Z) :
  (Z.of_nat (List.length events) <= n)%Z ->
  count_paths [(u, events)] n = [(events, 1%nat)].
Proof.
  intros H. unfold count_paths. cbn [fold_left snd Dict.upd].
  rewrite slice_to_all by exact H. reflexivity.
Qed.
End CycleFlag.

(** C7, as amended.  For a single user with the events X, Y, X (X and Y
    distinct) and a maximal path length of at least 3, path_analysis flags a
    cycle; when [min_user_count] is at most 1 the flow graph has the nodes X
    and Y and the single link X -> Y (no link Y -> X); when
    [min_user_count] is larger, as the default 5 is, the flow graph has no
    link at all. *)
Theorem cycle_flag_and_flow_links (u X Y : Cell)
    (max_path_length min_user_count : Z) :
  cell_eqb X Y = false ->
  (3 <= max_path_length)%Z ->
  let r := PathAnalysisService.path_of_paths [(u, [X; Y; X])]
             max_path_length min_user_count in
  PathAnalysisService.pr_has_cycle_in_data r = true
  /\ ((min_user_count <= 1)%Z ->
      PathAnalysisService.pr_sankey_nodes r = [X; Y]
      /\ PathAnalysisService.pr_sankey_links r = [((0, 1), 1)]%nat)
  /\ ((1 < min_user_count)%Z ->
      PathAnalysisService.pr_sankey_nodes r = []
      /\ PathAnalysisService.pr_sankey_links r = []).
Proof.
  intros Hxy Hlen r. subst r.
  assert (Hyx : cell_eqb Y X = false) by (rewrite cell_eqb_sym; exact Hxy).
  unfold PathAnalysisService.path_of_paths.
  rewrite count_single_path by (simpl; lia).
  cbn [PathAnalysisService.pr_has_cycle_in_data
         PathAnalysisService.pr_sankey_nodes
         PathAnalysisService.pr_sankey_links].
  split; [| split].
  - unfold PathAnalysisService.cycles_detected. cbn [flat_map fst snd].
    unfold PathAnalysisService.cycle_nodes, Py.mem. cbn [existsb].
    rewrite Hxy, Hyx, cell_eqb_refl. reflexivity.
  - intros Hmin.
    unfold PathAnalysisService.build_nodes, PathAnalysisService.sankey_links,
      PathAnalysisService.frequent.
    cbn [fold_left snd fst].
    apply Z.leb_le in Hmin. change (Z.of_nat 1) with 1%Z. rewrite Hmin.
    assert (Hnodes : PathAnalysisService.add_nodes [] [X; Y; X] = [X; Y]).
    { unfold PathAnalysisService.add_nodes, Py.mem.
      cbn [fold_left existsb app].
      rewrite Hyx. cbn [orb app existsb]. rewrite cell_eqb_refl. reflexivity. }
    rewrite Hnodes. split; [reflexivity |].
    cbn [PathAnalysisService.sankey_path Py.mem existsb Py.index].
    repeat first [ rewrite cell_eqb_refl | rewrite Hxy | rewrite Hyx
                 | progress cbn [orb negb option_map Nat.eqb Dict.upd] ].
    reflexivity.
  - intros Hmin.
    unfold PathAnalysisService.build_nodes, PathAnalysisService.sankey_links,
      PathAnalysisService.frequent.
    cbn [fold_left snd fst].
    apply Z.leb_gt in Hmin. change (Z.of_nat 1) with 1%Z. rewrite Hmin.
    split; reflexivity.
Qed.

(** The hypotheses of [cycle_flag_and_flow_links] hold of the labels "X"
    and "Y", a path length of 10 and a minimum of 1 user. *)
Lemma cycle_flag_and_flow_links_witness :
  PathAnalysisService.pr_has_cycle_in_data
    (PathAnalysisService.path_of_paths
       [(VInt 1, [VStr "X"; VStr "Y"; VStr "X"])] 10 1) = true
  /\ PathAnalysisService.pr_sankey_links
       (PathAnalysisService.path_of_paths
          [(VInt 1, [VStr "X"; VStr "Y"; VStr "X"])] 10 1)
     = [((0, 1), 1)]%nat.
Proof.
  pose proof (cycle_flag_and_flow_links (VInt 1) (VStr "X") (VStr "Y") 10 1
                eq_refl ltac:(lia)) as H.
  cbv zeta in H. destruct H as (Hc & Hlinks & _).
  split; [exact Hc |].
  apply Hlinks. lia.
Defined.

(** C7 as stated fails when path_analysis is called with its default
    [min_user_count] of 5: the cycle is flagged, but the flow graph of the
    single [round_trip] user has no node and no link, so no link X -> Y. *)
Lemma cycle_flag_counterexample :
  exists r,
    PathAnalysisService.path_analysis Examples.round_trip
      "user" "event" "ts" 10 5 = Ok r
    /\ PathAnalysisService.pr_has_cycle_in_data r = true
    /\ PathAnalysisService.pr_sankey_nodes r = []
    /\ PathAnalysisService.pr_sankey_links r = [].
Proof.
  eexists. split; [vm_compute; reflexivity |].
  repeat split; reflexivity.
Qed.

(* ================================================================== *)
(** ** Absent columns *)

Section MissingColumns.
Import Pandas PathAnalysisService Spec.

Lemma get_loc_has (cols : list string) (c : string) :
  existsb (String.eqb c) cols = true ->
  exists i, get_loc cols c = Some i.
Proof.
  induction cols as [| c' cols IH]; simpl; [discriminate |].
  rewrite (String.eqb_sym c c').
  destruct (String.eqb c' c); [eauto |].
  intros H. destruct (IH H) as [i Hi]. rewrite Hi. simpl. eauto.
Qed.

Lemma get_loc_missing (cols : list string) (c : string) :
  existsb (String.eqb c) cols = false -> get_loc cols c = None.
Proof.
  induction cols as [| c' cols IH]; simpl; [reflexivity |].
  rewrite (String.eqb_sym c c').
  destruct (String.eqb c' c); [discriminate |].
  intros H. rewrite (IH H). reflexivity.
Qed.

Lemma column_index_missing (df : DataFrame) (c : string) :
  has_column df c = false -> column_index df c = Err (KeyError c).
Proof.
  unfold has_column, column_index. intros H.
  rewrite (get_loc_missing _ _ H). reflexivity.
Qed.

Lemma column_index_present (df : DataFrame) (c : string) :
  has_column df c = true -> exists i, column_index df c = Ok i.
Proof.
  unfold has_column, column_index. intros H.
  destruct (get_loc_has _ _ H) as [i Hi]. rewrite Hi. eauto.
Qed.

(** What sorting and parsing leave alone. *)
Lemma to_datetime_columns (df df' : DataFrame) (c : string) :
  to_datetime df c = Ok df' -> df' = df.
Proof.
  unfold to_datetime. intros H. inv_bind H.
  destruct (forallb is_instant (column df a)); [| discriminate].
  injection H as <-. reflexivity.
Qed.

Lemma sort_values_columns (df df' : DataFrame) (by_ : list string) :
  sort_values df by_ = Ok df' -> columns df' = columns df.
Proof.
  unfold sort_values. intros H. inv_bind H.
  destruct (sortable df a); [| discriminate].
  injection H as <-. reflexivity.
Qed.

End MissingColumns.

(* ================================================================== *)
(** ** The order of the events of a journey *)

Section JourneyOrder.
Import Pandas Spec.

Lemma row_leb_total (keys : list nat) (r1 r2 : Row) :
  row_leb keys r1 r2 = false -> row_leb keys r2 r1 = true.
Proof.
  induction keys as [| k keys IH]; simpl; [discriminate |].
  destruct (cell_leb (cell r1 k) (cell r2 k)) eqn:E12,
           (cell_leb (cell r2 k) (cell r1 k)) eqn:E21;
    try discriminate; try reflexivity.
  - exact IH.
  - apply cell_leb_total in E12. congruence.
Qed.

Lemma Sorted_map (X Y : Type) (f : X -> Y) (R : Y -> Y -> Prop)
    (l : list X) :
  Sorted (fun a b => R (f a) (f b)) l -> Sorted R (map f l).
Proof.
  induction 1 as [| a l Hs IH Hhd]; simpl; constructor.
  - exact IH.
  - destruct Hhd; simpl; constructor. assumption.
Qed.

Lemma Sorted_weaken (X : Type) (R R' : X -> X -> Prop) (l : list X) :
  (forall a b, R a b -> R' a b) -> Sorted R l -> Sorted R' l.
Proof.
  intros HR. induction 1 as [| a l Hs IH Hhd]; constructor.
  - exact IH.
  - destruct Hhd; constructor. apply HR. assumption.
Qed.

(** After [sort_values] on one column, that column is non-decreasing. *)
Lemma sort_values_sorted (df df' : DataFrame) (c : string) (i : nat) :
  sort_values df [c] = Ok df' ->
  column_index df' c = Ok i ->
  sorted_cells (column df' i).
Proof.
  unfold sort_values. cbn [mapM]. intros H Hi.
  destruct (column_index df c) as [i0 |] eqn:E0; [| discriminate H].
  cbn [bind] in H.
  destruct (sortable _ [i0]); [| discriminate H].
  injection H as <-.
  unfold column_index in *. cbn [columns] in Hi.
  destruct (get_loc (columns df) c); [| discriminate].
  injection E0 as ->. injection Hi as ->.
  unfold sorted_cells, column. cbn [data].
  apply Sorted_map.
  pose proof (sort_sorted (row_leb [i]) (row_leb_total [i]) (data df)) as Hs.
  revert Hs. apply Sorted_weaken.
  intros r1 r2. cbn [row_leb].
  destruct (cell_leb (cell r1 i) (cell r2 i)); [reflexivity | discriminate].
Qed.

(** The journeys of the attribution analysis are in time order. *)
Lemma build_journey_sorted touchpoint_col timestamp_col conversion_col
    conversion_value_col (g : Cell * DataFrame)
    (j : AttributionService.Journey) :
  AttributionService.build_journey touchpoint_col timestamp_col
    conversion_col conversion_value_col g = Ok (Some j) ->
  sorted_cells (AttributionService.timestamps j).
Proof.
  unfold AttributionService.build_journey. intros H.
  inv_bind H. inv_bind H. inv_bind H. inv_bind H.
  destruct (column a a0); [discriminate |].
  injection H as <-. cbn [AttributionService.timestamps].
  eapply sort_values_sorted; eassumption.
Qed.

(** X26.  Every journey _build_user_journeys returns lists its touchpoints
    in time order, the timestamps next to them never decreasing, and has
    at least one touchpoint. *)
Lemma journeys_sorted_by_time (df : DataFrame)
    user_id_col touchpoint_col timestamp_col conversion_col
    conversion_value_col (js : list AttributionService.Journey) :
  AttributionService._build_user_journeys df user_id_col touchpoint_col
    timestamp_col conversion_col conversion_value_col = Ok js ->
  Forall (fun j => sorted_cells (AttributionService.timestamps j)
                   /\ AttributionService.touchpoints j <> []) js.
Proof.
  intros Hjs.
  pose proof (@build_user_journeys_wf _ _ _ _ _ _ _ Hjs) as Hwf.
  unfold AttributionService._build_user_journeys in Hjs.
  inv_bind Hjs. inv_bind Hjs. injection Hjs as <-.
  assert (Hs : Forall (fun j => sorted_cells (AttributionService.timestamps j))
                 (flat_map (fun o => match o with
                                     | Some j => [j]
                                     | None => []
                                     end) a0)).
  { apply flat_map_some_Forall.
    eapply mapM_Forall; [eassumption |].
    intros g [j |] _ Hg; [| exact I].
    eapply build_journey_sorted. exact Hg. }
  rewrite Forall_forall in *. intros j Hin. split.
  - apply Hs. exact Hin.
  - destruct (Hwf j Hin) as [Hne _]. exact Hne.
Qed.

(** The sequences of the miner are never empty. *)
Lemma sequences_nonempty (df : DataFrame) user_id_col event_col
    conversion_col (ss : list SequenceMiningService.Sequence) :
  SequenceMiningService._build_sequences df user_id_col event_col
    conversion_col = Ok ss ->
  Forall (fun s => SequenceMiningService.events s <> []) ss.
Proof.
  unfold SequenceMiningService._build_sequences. intros H.
  inv_bind H. inv_bind H. injection H as <-.
  apply flat_map_some_Forall.
  eapply mapM_Forall; [eassumption |].
  intros g [s |] _ Hg; [| exact I].
  unfold SequenceMiningService.build_sequence in Hg.
  inv_bind Hg. inv_bind Hg.
  destruct (column a1 a2); [discriminate |].
  injection Hg as <-. discriminate.
Qed.
End JourneyOrder.

(** C9 does not hold of the code.  In the [events_first] dataset the only
    user does B at time 10 and A at time 20, and the first column is the
    event column.  The attribution journey and the path of path analysis
    are in time order (B, A); the sequence of the miner is (A, B), in the
    order of the first column, because _build_sequences sorts every group
    again by the column named [event_time] or, without one, by the first
    column of the frame. *)
Theorem sequences_sorted_by_first_column :
  SequenceMiningService.sort_column Examples.events_first = "event"%string
  /\ SequenceMiningService.sequence_database Examples.events_first
       "user" "event" "ts" None
     = Ok [{| SequenceMiningService.user_id := VInt 1;
              SequenceMiningService.events := [VStr "A"; VStr "B"];
              SequenceMiningService.converted := false |}]
  /\ PathAnalysisService.user_lists Examples.events_first
       "user" "event" "ts"
     = Ok ([(VInt 1, [VStr "B"; VStr "A"])], [(VInt 1, [VInt 10; VInt 20])])
  /\ (exists j,
        AttributionService._build_user_journeys Examples.events_first
          "user" "event" "ts" None None = Ok [j]
        /\ AttributionService.touchpoints j = [VStr "B"; VStr "A"]
        /\ AttributionService.timestamps j = [VInt 10; VInt 20]).
Proof.
  split; [reflexivity |].
  split; [vm_compute; reflexivity |].
  split; [vm_compute; reflexivity |].
  eexists. split; [vm_compute; reflexivity |].
  split; reflexivity.
Qed.

(* ================================================================== *)
(** ** Shapley: sums, not means *)

Lemma shapley_raw_is_sum (js : list AttributionService.Journey)
    (max_touchpoints : Z) (k : Cell) (v : Q) :
  In (k, v) (AttributionService.shapley_raw js max_touchpoints) ->
  exists contributions,
    In (k, contributions)
       (AttributionService.shapley_contributions js max_touchpoints)
    /\ v = Py.qsum contributions.
Proof.
  unfold AttributionService.shapley_raw. intros H.
  apply in_map_iff in H. destruct H as ([k' l] & E & Hin).
  injection E as <- <-. exists l. split; [exact Hin | reflexivity].
Qed.

(** C3 does not hold of the code.  Two users meet the touchpoint "ad" once
    each and both convert with value 1: the contributions of "ad" are 1 and
    1, their mean is 1, and the credit of "ad" before normalisation is their
    sum 2, which is also the value reported. *)
Theorem shapley_credits_the_sum :
  exists js q,
    AttributionService._build_user_journeys Examples.two_visitors
      "user" "channel" "ts" None None = Ok js
    /\ AttributionService.shapley_contributions js 5
       = [(VStr "ad", [1 / 1; 1 / 1])]
    /\ PathAnalysisService.mean [1 / 1; 1 / 1] == 1
    /\ AttributionService.shapley_raw js 5 = [(VStr "ad", q)]
    /\ q == 2
    /\ map (fun kc => AttributionService.value (snd kc))
         (AttributionService._shapley_attribution js 5)
       = [Py.round 2 4].
Proof.
  eexists. eexists.
  split; [vm_compute; reflexivity |].
  split; [vm_compute; reflexivity |].
  split; [reflexivity |].
  split; [vm_compute; reflexivity |].
  split; [reflexivity |].
  vm_compute. reflexivity.
Qed.

(* ================================================================== *)
(** ** Sequence mining *)

(** *** Counters *)

Section Counters.
Import SequenceMiningService Spec.

(** Reading a Counter after one more occurrence of [e]. *)
Lemma get_bump (e x : Cell) (c : list (Cell * nat)) :
  Dict.get cell_eqb (bump e c) x
  = if cell_eqb e x
    then Some (S (value_of (Dict.get cell_eqb c x)))
    else Dict.get cell_eqb c x.
Proof.
  unfold bump. induction c as [| [k v] c IH]; cbn [Dict.upd Dict.get].
  - destruct (cell_eqb e x); reflexivity.
  - destruct (cell_eqb k e) eqn:Eke; cbn [Dict.get];
      destruct (cell_eqb k x) eqn:Ekx.
    + assert (Eex : cell_eqb e x = true).
      { apply cell_eqb_trans with k; [rewrite cell_eqb_sym |]; assumption. }
      rewrite Eex. reflexivity.
    + destruct (cell_eqb e x) eqn:Eex; [| reflexivity].
      assert (cell_eqb k x = true)
        by (apply cell_eqb_trans with e; assumption).
      congruence.
    + destruct (cell_eqb e x) eqn:Eex; [| reflexivity].
      assert (cell_eqb k e = true).
      { apply cell_eqb_trans with x; [| rewrite cell_eqb_sym]; assumption. }
      congruence.
    + exact IH.
Qed.

Lemma fold_bump_get (l : list Cell) (c : list (Cell * nat)) (x : Cell) :
  value_of (Dict.get cell_eqb (fold_left (fun c' e => bump e c') l c) x)
  = (value_of (Dict.get cell_eqb c x) + count_of x l)%nat.
Proof.
  revert c. unfold count_of.
  induction l as [| e l IH]; intros c; cbn [fold_left filter].
  - simpl. lia.
  - rewrite IH, get_bump.
    destruct (cell_eqb e x); cbn [value_of List.length]; lia.
Qed.

Lemma bump_keys (e : Cell) (c : list (Cell * nat)) (kv : Cell * nat) :
  In kv (bump e c) ->
  fst kv = e \/ exists kv', In kv' c /\ fst kv' = fst kv.
Proof.
  unfold bump. induction c as [| [k v] c IH]; cbn [Dict.upd].
  - intros [<- | []]. left. reflexivity.
  - destruct (cell_eqb k e).
    + intros [<- | Hin]; right.
      * exists (k, v). split; [left |]; reflexivity.
      * exists kv. split; [right; exact Hin | reflexivity].
    + intros [<- | Hin].
      * right. exists (k, v). split; [left |]; reflexivity.
      * destruct (IH Hin) as [He | (kv' & Hin' & Hk)]; [left; exact He |].
        right. exists kv'. split; [right; exact Hin' | exact Hk].
Qed.

Lemma distinct_bump (e : Cell) (c : list (Cell * nat)) :
  distinct_keys c -> distinct_keys (bump e c).
Proof.
  unfold bump. induction c as [| [k v] c IH]; cbn [Dict.upd distinct_keys].
  - intros _. split; [intros kv' [] | exact I].
  - intros [Hk Hc]. destruct (cell_eqb k e) eqn:Eke; cbn [distinct_keys].
    + split; assumption.
    + split; [| apply IH; exact Hc].
      intros kv' Hin. cbn [fst].
      destruct (bump_keys e c kv' Hin) as [-> | (kv'' & Hin'' & <-)].
      * exact Eke.
      * apply (Hk kv'' Hin'').
Qed.

Lemma distinct_fold_bump (l : list Cell) (c : list (Cell * nat)) :
  distinct_keys c -> distinct_keys (fold_left (fun c' e => bump e c') l c).
Proof.
  revert c. induction l as [| e l IH]; intros c Hc; cbn [fold_left].
  - exact Hc.
  - apply IH, distinct_bump, Hc.
Qed.

Lemma distinct_get (c : list (Cell * nat)) (k : Cell) (n : nat) :
  distinct_keys c -> In (k, n) c -> Dict.get cell_eqb c k = Some n.
Proof.
  induction c as [| [k' v] c IH]; cbn [distinct_keys Dict.get].
  - intros _ [].
  - intros [Hk Hc] [E | Hin].
    + injection E as -> ->. rewrite cell_eqb_refl. reflexivity.
    + pose proof (Hk (k, n) Hin) as Hkn. cbn [fst] in Hkn.
      rewrite Hkn. apply IH; assumption.
Qed.

(** An entry of a Counter built from a list holds the number of elements of
    the list equal to its key. *)
Lemma counter_entry (l : list Cell) (k : Cell) (n : nat) :
  In (k, n) (fold_left (fun c' e => bump e c') l []) -> n = count_of k l.
Proof.
  intros Hin.
  pose proof (distinct_fold_bump l [] I) as Hd.
  pose proof (fold_bump_get l [] k) as Hg.
  rewrite (distinct_get _ k n Hd Hin) in Hg. exact Hg.
Qed.

Lemma suffix_counts_heads (sequences : list Sequence) :
  suffix_counts sequences
  = fold_left (fun c' e => bump e c') (heads sequences) [].
Proof.
  unfold suffix_counts, heads. generalize (@nil (Cell * nat)).
  induction sequences as [| s ss IH]; intros c; cbn [fold_left flat_map].
  - reflexivity.
  - rewrite fold_left_app, IH. destruct (events s); reflexivity.
Qed.

Lemma suffix_counts_entry (sequences : list Sequence) (k : Cell) (n : nat) :
  In (k, n) (suffix_counts sequences) -> n = count_of k (heads sequences).
Proof. rewrite suffix_counts_heads. apply counter_entry. Qed.
End Counters.

(** *** Projections *)

Section Projections.
Import SequenceMiningService Spec.

Lemma suffix_after_single (x : Cell) (evs : list Cell) :
  suffix_after [x] evs
  = match Py.index x evs with
    | Some idx => Some (skipn (S idx) evs)
    | None => None
    end.
Proof.
  induction evs as [| y evs IH]; cbn [suffix_after starts_with Py.index].
  - reflexivity.
  - destruct (cell_eqb y x); [reflexivity |].
    rewrite IH. destruct (Py.index x evs); reflexivity.
Qed.

Lemma rest_after_app (p q evs : list Cell) :
  rest_after (p ++ q) evs
  = match rest_after p evs with
    | Some r => rest_after q r
    | None => None
    end.
Proof.
  revert evs. induction p as [| x p IH]; intros evs; cbn [app rest_after].
  - reflexivity.
  - destruct (suffix_after [x] evs); [apply IH | reflexivity].
Qed.

Lemma project_first_projected (sequences : list Sequence) (item : Cell) :
  project_first sequences item = projected [item] sequences.
Proof.
  unfold project_first, projected.
  induction sequences as [| s ss IH]; cbn [flat_map]; [reflexivity |].
  rewrite IH. f_equal.
  cbn [rest_after]. rewrite suffix_after_single.
  destruct (Py.index item (events s)) as [idx |]; [| reflexivity].
  unfold Py.slice_from. rewrite Nat.add_1_r.
  pose proof (length_skipn (S idx) (events s)) as Hl.
  destruct (S idx <? List.length (events s))%nat eqn:E.
  - apply Nat.ltb_lt in E.
    destruct (skipn (S idx) (events s)); [simpl in Hl; lia | reflexivity].
  - apply Nat.ltb_ge in E.
    destruct (skipn (S idx) (events s)); [reflexivity | simpl in Hl; lia].
Qed.

Lemma project_database_projected (prefix : list Cell) (item : Cell)
    (sequences : list Sequence) :
  project_database (projected prefix sequences) [item]
  = projected (prefix ++ [item]) sequences.
Proof.
  unfold project_database, projected.
  induction sequences as [| s ss IH]; cbn [flat_map]; [reflexivity |].
  rewrite flat_map_app, IH. f_equal.
  rewrite rest_after_app.
  destruct (rest_after prefix (events s)) as [[| e r] |];
    cbn [flat_map rest_after events user_id converted];
    try reflexivity.
  rewrite app_nil_r.
  destruct (suffix_after [item] (e :: r)) as [[| e' r'] |]; reflexivity.
Qed.

Lemma heads_projected (prefix : list Cell) (x : Cell)
    (sequences : list Sequence) :
  count_of x (heads (projected prefix sequences))
  = immediate_count prefix x sequences.
Proof.
  unfold count_of, heads, projected, immediate_count, followed_by.
  induction sequences as [| s ss IH]; cbn [flat_map filter]; [reflexivity |].
  rewrite flat_map_app, filter_app, length_app, IH.
  destruct (rest_after prefix (events s)) as [[| e r] |];
    cbn [flat_map events app filter List.length]; try reflexivity.
  destruct (cell_eqb e x); reflexivity.
Qed.

(** The greedy match of a prefix followed by [x] is one way of finding the
    pattern in the sequence. *)
Lemma is_subseq_cons (x : Cell) (p evs : list Cell) :
  is_subseq (x :: p) evs
  = match suffix_after [x] evs with
    | Some r => is_subseq p r
    | None => false
    end.
Proof.
  induction evs as [| y evs IH]; cbn [is_subseq suffix_after starts_with].
  - reflexivity.
  - destruct (cell_eqb y x); [reflexivity | exact IH].
Qed.

Lemma followed_by_subseq (prefix : list Cell) (x : Cell) (evs : list Cell) :
  followed_by prefix x evs = true -> is_subseq (prefix ++ [x]) evs = true.
Proof.
  unfold followed_by. revert evs.
  induction prefix as [| p prefix IH]; intros evs; cbn [app rest_after].
  - destruct evs as [| y evs]; [discriminate |].
    intros E. cbn [is_subseq]. rewrite E. destruct evs; reflexivity.
  - rewrite is_subseq_cons.
    destruct (suffix_after [p] evs); [apply IH | discriminate].
Qed.

Lemma immediate_le_containing (prefix : list Cell) (x : Cell)
    (sequences : list Sequence) :
  (immediate_count prefix x sequences
   <= containing (prefix ++ [x]) sequences)%nat.
Proof.
  unfold immediate_count, containing.
  induction sequences as [| s ss IH]; cbn [filter]; [lia |].
  destruct (followed_by prefix x (events s)) eqn:E.
  - rewrite (followed_by_subseq _ _ _ E). simpl. lia.
  - destruct (is_subseq (prefix ++ [x]) (events s)); simpl; lia.
Qed.
End Projections.

(** *** The patterns that are emitted *)

Section Mining.
Import SequenceMiningService Spec.

(** Every pattern grown by [mine_recursive] from the database projected
    along [prefix] meets the threshold, and its count is the number of
    sequences in which its last item comes right after the match of the
    items before it. *)
Lemma mine_recursive_support (total : nat) (min_count : Z) (fuel : nat)
    (orig : list Sequence) :
  forall (prefix : list Cell) (P : Pattern),
    In P (mine_recursive total min_count fuel (projected prefix orig) prefix) ->
    (min_count <= Z.of_nat (support_count P))%Z
    /\ support P = Py.round (ratio (support_count P) total) 4
    /\ exists q x,
         pattern P = prefix ++ q ++ [x]
         /\ support_count P = immediate_count (prefix ++ q) x orig.
Proof.
  induction fuel as [| fuel IH]; intros prefix P; cbn [mine_recursive].
  - intros [].
  - intros Hin. apply in_flat_map in Hin.
    destruct Hin as ([item count] & Hic & Hin). cbn [fst snd] in Hin.
    destruct (min_count <=? Z.of_nat count)%Z eqn:Emin; [| destruct Hin].
    destruct Hin as [<- | Hin].
    + cbn [support_count support pattern].
      split; [apply Z.leb_le; exact Emin |]. split; [reflexivity |].
      exists [], item. rewrite app_nil_r. split; [reflexivity |].
      rewrite <- heads_projected. apply suffix_counts_entry. exact Hic.
    + rewrite project_database_projected in Hin.
      destruct (projected (prefix ++ [item]) orig) as [| s ss] eqn:Ep;
        [destruct Hin |].
      rewrite <- Ep in Hin.
      destruct (IH _ _ Hin) as (H1 & H2 & q & x & Hp & Hc).
      split; [exact H1 |]. split; [exact H2 |].
      exists (item :: q), x.
      rewrite <- app_assoc in Hp, Hc. cbn [app] in Hp, Hc.
      split; assumption.
Qed.

(** [unique] keeps one element of each kind. *)
Lemma unique_count (k : Cell) (l : list Cell) :
  count_of k (unique l)
  = if existsb (fun e => cell_eqb e k) l then 1%nat else 0%nat.
Proof.
  unfold unique.
  assert (G : forall acc,
             count_of k acc
             = (if existsb (fun e => cell_eqb e k) acc then 1 else 0)%nat ->
             count_of k
               (fold_left
                  (fun acc0 x => if Py.mem x acc0 then acc0 else acc0 ++ [x])
                  l acc)
             = (if existsb (fun e => cell_eqb e k) (acc ++ l)
                then 1 else 0)%nat).
  { induction l as [| x l IH]; intros acc Hacc; cbn [fold_left].
    - rewrite app_nil_r. exact Hacc.
    - replace (acc ++ x :: l) with ((acc ++ [x]) ++ l)
        by (rewrite <- app_assoc; reflexivity).
      destruct (Py.mem x acc) eqn:Em.
      + rewrite (IH acc Hacc).
        rewrite !existsb_app. cbn [existsb].
        destruct (cell_eqb x k) eqn:Exk; [| rewrite !orb_false_r; reflexivity].
        unfold Py.mem in Em. apply existsb_exists in Em.
        destruct Em as (a & Ha & Exa).
        assert (Hex : existsb (fun e => cell_eqb e k) acc = true).
        { apply existsb_exists. exists a. split; [exact Ha |].
          apply cell_eqb_trans with x; [| exact Exk].
          rewrite cell_eqb_sym. exact Exa. }
        rewrite Hex. reflexivity.
      + apply IH. unfold count_of in *.
        rewrite filter_app, length_app, existsb_app, Hacc.
        cbn [filter existsb].
        destruct (cell_eqb x k) eqn:Exk;
          [| cbn [List.length]; rewrite !orb_false_r;
             destruct (existsb _ acc); reflexivity].
        destruct (existsb (fun e => cell_eqb e k) acc) eqn:Hex;
          [| reflexivity].
        apply existsb_exists in Hex. destruct Hex as (a & Ha & Eak).
        assert (Hm : Py.mem x acc = true).
        { unfold Py.mem. apply existsb_exists. exists a.
          split; [exact Ha |].
          apply cell_eqb_trans with k; [exact Exk |].
          rewrite cell_eqb_sym. exact Eak. }
        congruence. }
  apply (G []). reflexivity.
Qed.

Lemma is_subseq_single (k : Cell) (evs : list Cell) :
  is_subseq [k] evs = existsb (fun e => cell_eqb e k) evs.
Proof.
  induction evs as [| e evs IH]; cbn [is_subseq existsb]; [reflexivity |].
  destruct (cell_eqb e k); [destruct evs; reflexivity | exact IH].
Qed.

(** The Counter of the items holds, for each item, the number of sequences
    that contain it. *)
Lemma item_counts_get (sequences : list Sequence) (k : Cell) :
  value_of (Dict.get cell_eqb (item_counts sequences) k)
  = containing [k] sequences.
Proof.
  unfold item_counts, containing.
  assert (G : forall c,
             value_of
               (Dict.get cell_eqb
                  (fold_left
                     (fun c0 s => fold_left (fun c' x => bump x c')
                                    (unique (events s)) c0)
                     sequences c) k)
             = (value_of (Dict.get cell_eqb c k)
                + List.length (filter (fun s => is_subseq [k] (events s))
                                 sequences))%nat).
  { induction sequences as [| s ss IH]; intros c; cbn [fold_left filter].
    - simpl. lia.
    - rewrite IH, fold_bump_get, unique_count, is_subseq_single.
      destruct (existsb (fun e => cell_eqb e k) (events s));
        cbn [List.length]; lia. }
  rewrite G. reflexivity.
Qed.

Lemma distinct_item_counts (sequences : list Sequence) :
  distinct_keys (item_counts sequences).
Proof.
  unfold item_counts. generalize (I : distinct_keys []).
  generalize (@nil (Cell * nat)).
  induction sequences as [| s ss IH]; intros c Hc; cbn [fold_left].
  - exact Hc.
  - apply IH, distinct_fold_bump, Hc.
Qed.

Lemma item_counts_entry (sequences : list Sequence) (k : Cell) (n : nat) :
  In (k, n) (item_counts sequences) -> n = containing [k] sequences.
Proof.
  intros Hin. rewrite <- item_counts_get.
  rewrite (distinct_get _ k n (distinct_item_counts sequences) Hin).
  reflexivity.
Qed.

Lemma get_In (c : list (Cell * nat)) (x : Cell) (n : nat) :
  Dict.get cell_eqb c x = Some n ->
  exists k, In (k, n) c /\ cell_eqb k x = true.
Proof.
  induction c as [| [k v] c IH]; cbn [Dict.get]; [discriminate |].
  destruct (cell_eqb k x) eqn:E.
  - intros H. injection H as ->. exists k. split; [left; reflexivity | exact E].
  - intros H. destruct (IH H) as (k' & Hin & Hk).
    exists k'. split; [right; exact Hin | exact Hk].
Qed.

(** What [mined_patterns] holds: patterns of one item with the number of
    sequences that contain the item, and longer patterns with the number of
    sequences in which the last item comes right after the match of the
    others; all of them at or above the truncated threshold. *)
Lemma mined_patterns_spec (sequences : list Sequence) (min_support : Q)
    (max_length : Z) (P : Pattern) :
  In P (mined_patterns sequences min_support max_length) ->
  (min_count_of min_support (List.length sequences)
   <= Z.of_nat (support_count P))%Z
  /\ support P
     = Py.round (ratio (support_count P) (List.length sequences)) 4
  /\ ((exists item, pattern P = [item]
                    /\ support_count P = containing [item] sequences)
      \/ (exists prefix x,
            prefix <> [] /\ pattern P = prefix ++ [x]
            /\ support_count P = immediate_count prefix x sequences)).
Proof.
  unfold mined_patterns. intros Hin. apply in_flat_map in Hin.
  destruct Hin as ([item count] & Hf & Hin).
  apply filter_In in Hf. destruct Hf as [Hic Hmin]. cbn [snd] in Hmin.
  unfold mine_item in Hin. cbn [fst snd] in Hin.
  destruct Hin as [<- | Hin].
  - cbn [support_count support pattern].
    split; [apply Z.leb_le; exact Hmin |]. split; [reflexivity |].
    left. exists item. split; [reflexivity |].
    apply item_counts_entry. exact Hic.
  - rewrite project_first_projected in Hin.
    destruct (projected [item] sequences) as [| s ss] eqn:Ep;
      [destruct Hin |].
    rewrite <- Ep in Hin.
    destruct (mine_recursive_support _ _ _ _ _ _ Hin)
      as (H1 & H2 & q & x & Hp & Hc).
    split; [exact H1 |]. split; [exact H2 |].
    right. exists ([item] ++ q), x.
    split; [discriminate |].
    rewrite <- app_assoc. split; assumption.
Qed.

Lemma firstn_In (X : Type) (n : nat) (l : list X) (x : X) :
  In x (firstn n l) -> In x l.
Proof.
  intros H. rewrite <- (firstn_skipn n l). apply in_or_app. left. exact H.
Qed.

Lemma prefixspan_mined (sequences : list Sequence) (min_support : Q)
    (max_length : Z) (P : Pattern) :
  In P (_prefixspan_mining sequences min_support max_length) ->
  In P (mined_patterns sequences min_support max_length).
Proof.
  unfold _prefixspan_mining. destruct sequences as [| s ss]; [intros [] |].
  intros H. apply firstn_In in H. apply sort_In in H. exact H.
Qed.
End Mining.

(** C4, as amended.  For every emitted pattern of length at least 2, the
    reported support count is the number of user sequences in which the
    last item of the pattern occurs immediately after the match of the
    items before it, each of these matched at its first occurrence after
    the one before; this number is at most the number of sequences that
    contain the pattern as an ordered subsequence, and a sequence in which
    the last item comes later, but not immediately, is not counted. *)
Theorem pattern_support_counts_immediate_followers
    (sequences : list SequenceMiningService.Sequence) (min_support : Q)
    (max_length : Z) (P : SequenceMiningService.Pattern) :
  In P (SequenceMiningService._prefixspan_mining sequences min_support
          max_length) ->
  (2 <= List.length (SequenceMiningService.pattern P))%nat ->
  exists prefix x,
    prefix <> []
    /\ SequenceMiningService.pattern P = prefix ++ [x]
    /\ SequenceMiningService.support_count P
       = Spec.immediate_count prefix x sequences
    /\ (SequenceMiningService.support_count P
        <= Spec.containing (SequenceMiningService.pattern P) sequences)%nat.
Proof.
  intros Hin Hlen. apply prefixspan_mined in Hin.
  destruct (mined_patterns_spec _ _ _ _ Hin)
    as (_ & _ & [(item & Hp & _) | (prefix & x & Hne & Hp & Hc)]).
  - rewrite Hp in Hlen. simpl in Hlen. lia.
  - exists prefix, x. repeat split; try assumption.
    rewrite Hp, Hc. apply immediate_le_containing.
Qed.

(** The hypotheses of [pattern_support_counts_immediate_followers] hold of
    the pattern (A, B) mined from the [detour] sequences. *)
Lemma pattern_support_counts_immediate_followers_witness :
  exists P,
    In P (SequenceMiningService._prefixspan_mining Examples.detour (1 # 2) 5)
    /\ SequenceMiningService.pattern P = [VStr "A"; VStr "B"]
    /\ exists prefix x,
         prefix <> []
         /\ SequenceMiningService.pattern P = prefix ++ [x]
         /\ SequenceMiningService.support_count P
            = Spec.immediate_count prefix x Examples.detour
         /\ (SequenceMiningService.support_count P
             <= Spec.containing (SequenceMiningService.pattern P)
                  Examples.detour)%nat.
Proof.
  eexists. split; [vm_compute; right; right; left; reflexivity |].
  split; [reflexivity |].
  eapply (pattern_support_counts_immediate_followers Examples.detour
            (1 # 2) 5 _).
  - vm_compute. right. right. left. reflexivity.
  - simpl. lia.
Defined.

(** C4 as stated fails: both [detour] users have A and later B, so two
    sequences contain the pattern (A, B), but the pattern is emitted with
    support count 1, the second user's B not coming right after A. *)
Lemma pattern_support_counterexample :
  exists P,
    In P (SequenceMiningService._prefixspan_mining Examples.detour (1 # 2) 5)
    /\ SequenceMiningService.pattern P = [VStr "A"; VStr "B"]
    /\ SequenceMiningService.support_count P = 1%nat
    /\ Spec.containing [VStr "A"; VStr "B"] Examples.detour = 2%nat.
Proof.
  eexists. split; [vm_compute; right; right; left; reflexivity |].
  repeat split; reflexivity.
Qed.

(** What the float product truncates to. *)
Lemma min_count_of_examples :
  SequenceMiningService.min_count_of (9 # 10) 2 = 1%Z
  /\ SequenceMiningService.min_count_of (58 # 100) 50 = 28%Z
  /\ Float.mul (58 # 100) 50 == 8162774324609023 # 281474976710656
  /\ SequenceMiningService.min_count_of (1 # 2) 10 = 5%Z
  /\ SequenceMiningService.min_count_of (7 # 10) 10 = 7%Z.
Proof. repeat split; vm_compute; reflexivity. Qed.

(** C5 does not hold of the code.  The threshold [min_count] is the product
    [min_support * N] truncated to an integer, so a pattern is emitted whose
    support is below [min_support].  With the two users of [two_events] and
    [min_support = 0.9] the threshold is [int(1.8) = 1], and the pattern
    (A), found in the sequence of one user of two, is reported with support
    0.5.  The product is moreover a float: [0.58 * 50] is
    28.999999999999996, the threshold is 28, and the pattern (A), found in
    28 of the 50 sequences of [fifty_users], is reported with support 0.56.
    On the example of the claim the code does what the claim says: for the
    ten users of whom six have A, [min_support = 0.5] returns the pattern
    (A) with support 0.6 and [min_support = 0.7] returns nothing. *)
Theorem support_threshold_is_truncated :
  (exists ps P,
     SequenceMiningService.sequence_pattern_mining Examples.two_events
       "user" "event" "ts" (9 # 10) 5 None = Ok ps
     /\ In P ps
     /\ SequenceMiningService.pattern P = [VStr "A"]
     /\ SequenceMiningService.support_count P = 1%nat
     /\ SequenceMiningService.support P == 1 # 2
     /\ SequenceMiningService.support P < 9 # 10
     /\ inject_Z (Z.of_nat (SequenceMiningService.support_count P))
        < (9 # 10) * inject_Z 2)
  /\ (exists P,
        In P (SequenceMiningService._prefixspan_mining Examples.fifty_users
                (58 # 100) 5)
        /\ SequenceMiningService.pattern P = [VStr "A"]
        /\ SequenceMiningService.support_count P = 28%nat
        /\ SequenceMiningService.support P == 56 # 100
        /\ List.length Examples.fifty_users = 50%nat
        /\ inject_Z (Z.of_nat (SequenceMiningService.support_count P))
           < (58 # 100) * inject_Z 50)
  /\ map (fun P => (SequenceMiningService.pattern P,
                    SequenceMiningService.support_count P,
                    Qred (SequenceMiningService.support P)))
       (SequenceMiningService._prefixspan_mining Examples.ten_users (1 # 2) 5)
     = [([VStr "A"], 6%nat, 3 # 5)]
  /\ SequenceMiningService._prefixspan_mining Examples.ten_users (7 # 10) 5
     = [].
Proof.
  split.
  - do 2 eexists. split; [vm_compute; reflexivity |].
    split; [left; reflexivity |].
    repeat split; vm_compute; reflexivity.
  - split.
    + eexists. split; [vm_compute; left; reflexivity |].
      repeat split; vm_compute; reflexivity.
    + split; vm_compute; reflexivity.
Qed.

(* ================================================================== *)
(** ** The paths of path analysis are in time order *)

Section PathOrder.
Import Pandas Spec.

Lemma string_leb_iff (a b : string) :
  String.leb a b = true <-> a = b \/ String_as_OT.lt a b.
Proof.
  unfold String.leb.
  pose proof (String_as_OT.cmp_eq a b) as He.
  pose proof (String_as_OT.cmp_lt a b) as Hl.
  unfold String_as_OT.cmp in *.
  destruct (String.compare a b) eqn:E.
  - split; [intros _; left; apply He; reflexivity | reflexivity].
  - split; [intros _; right; apply Hl; reflexivity | reflexivity].
  - split; [discriminate |].
    intros [H | H]; [apply He in H | apply Hl in H]; discriminate.
Qed.

Lemma string_leb_trans (a b c : string) :
  String.leb a b = true -> String.leb b c = true -> String.leb a c = true.
Proof.
  rewrite !string_leb_iff. intros [-> | H1] [-> | H2]; auto.
  right. eapply String_as_OT.lt_trans; eassumption.
Qed.

Lemma cell_leb_trans (a b c : Cell) :
  cell_leb a b = true -> cell_leb b c = true -> cell_leb a c = true.
Proof.
  assert (Hq : forall x y z, Qle_bool x y = true -> Qle_bool y z = true ->
                             Qle_bool x z = true).
  { intros x y z H1 H2. apply Qle_bool_iff in H1, H2. apply Qle_bool_iff.
    eapply Qle_trans; eassumption. }
  destruct a, b, c; unfold cell_leb; cbn [cell_num]; intros H1 H2;
    try discriminate; try reflexivity; eauto using string_leb_trans.
Qed.

Lemma cell_eqb_leb (a b : Cell) : cell_eqb a b = true -> cell_leb a b = true.
Proof.
  destruct a, b; unfold cell_eqb, cell_leb; cbn [cell_num]; intros H;
    try discriminate;
    try (apply Qeq_bool_iff in H; apply Qle_bool_iff; rewrite H;
         apply Qle_refl).
  apply String.eqb_eq in H. subst. apply string_leb_iff. left. reflexivity.
Qed.

Lemma row_leb_trans (keys : list nat) (r1 r2 r3 : Row) :
  row_leb keys r1 r2 = true -> row_leb keys r2 r3 = true ->
  row_leb keys r1 r3 = true.
Proof.
  induction keys as [| k keys IH]; cbn [row_leb]; [reflexivity |].
  destruct (cell_leb (cell r1 k) (cell r2 k)) eqn:E12; [| discriminate].
  destruct (cell_leb (cell r2 k) (cell r3 k)) eqn:E23;
    [| intros _; discriminate].
  rewrite (cell_leb_trans _ _ _ E12 E23).
  destruct (cell_leb (cell r3 k) (cell r1 k)) eqn:E31; [| reflexivity].
  rewrite (cell_leb_trans _ _ _ E23 E31), (cell_leb_trans _ _ _ E31 E12).
  exact IH.
Qed.

Lemma StronglySorted_app_cross (X : Type) (R : X -> X -> Prop)
    (l1 l2 : list X) (a b : X) :
  StronglySorted R (l1 ++ l2) -> In a l1 -> In b l2 -> R a b.
Proof.
  induction l1 as [| x l1 IH]; intros Hs Ha Hb; [destruct Ha |].
  cbn [app] in Hs. apply StronglySorted_inv in Hs. destruct Hs as [Hs Hx].
  destruct Ha as [<- | Ha].
  - rewrite Forall_forall in Hx. apply Hx. apply in_or_app. right. exact Hb.
  - apply IH; assumption.
Qed.

Lemma StronglySorted_snoc (X : Type) (R : X -> X -> Prop) (l : list X)
    (r : X) :
  StronglySorted R l -> (forall a, In a l -> R a r) ->
  StronglySorted R (l ++ [r]).
Proof.
  induction l as [| x l IH]; intros Hs Hr; cbn [app].
  - constructor; constructor.
  - apply StronglySorted_inv in Hs. destruct Hs as [Hs Hx].
    constructor.
    + apply IH; [exact Hs |]. intros a Ha. apply Hr. right. exact Ha.
    + apply Forall_app. split; [exact Hx |].
      constructor; [| constructor]. apply Hr. left. reflexivity.
Qed.

(** The state of the grouping once the rows [seen] have been dealt with:
    every group is sorted and holds rows of [seen] whose key is the key of
    the group. *)
Lemma group_insert_sorted (R : Row -> Row -> Prop) (i : nat)
    (seen : list Row) (r : Row) (gs : list (Cell * list Row)) :
  (forall a, In a seen -> R a r) ->
  Forall (fun g => StronglySorted R (snd g)
                   /\ forall x, In x (snd g) ->
                        In x seen /\ cell_eqb (fst g) (cell x i) = true) gs ->
  Forall (fun g => StronglySorted R (snd g)
                   /\ forall x, In x (snd g) ->
                        In x (seen ++ [r])
                        /\ cell_eqb (fst g) (cell x i) = true)
    (group_insert (cell r i) r gs).
Proof.
  intros Hr. induction 1 as [| [k rs] gs [Hs Hm] Hgs IH];
    cbn [group_insert].
  - constructor; [| constructor]. cbn [fst snd]. split.
    + constructor; constructor.
    + intros x [<- | []]. split; [apply in_or_app; right; left; reflexivity |].
      apply cell_eqb_refl.
  - cbn [fst snd] in Hs, Hm.
    assert (Hold : Forall
                     (fun g => StronglySorted R (snd g)
                               /\ forall x, In x (snd g) ->
                                    In x (seen ++ [r])
                                    /\ cell_eqb (fst g) (cell x i) = true)
                     gs).
    { eapply Forall_impl; [| exact Hgs]. intros g [Hg1 Hg2].
      split; [exact Hg1 |]. intros x Hx. destruct (Hg2 x Hx) as [H1 H2].
      split; [apply in_or_app; left; exact H1 | exact H2]. }
    assert (Hhead : StronglySorted R rs
                    /\ forall x, In x rs ->
                         In x (seen ++ [r]) /\ cell_eqb k (cell x i) = true).
    { split; [exact Hs |]. intros x Hx. destruct (Hm x Hx) as [H1 H2].
      split; [apply in_or_app; left; exact H1 | exact H2]. }
    destruct (cell_eqb k (cell r i)) eqn:Ek.
    + constructor; [| exact Hold]. cbn [fst snd]. split.
      * apply StronglySorted_snoc; [exact Hs |].
        intros a Ha. apply Hr. apply (Hm a Ha).
      * intros x Hx. apply in_app_or in Hx. destruct Hx as [Hx | [<- | []]].
        -- apply Hhead. exact Hx.
        -- split; [apply in_or_app; right; left; reflexivity | exact Ek].
    + destruct (cell_leb (cell r i) k).
      * constructor; [| constructor; [exact Hhead | exact Hold]].
        cbn [fst snd]. split; [constructor; constructor |].
        intros x [<- | []].
        split; [apply in_or_app; right; left; reflexivity |].
        apply cell_eqb_refl.
      * constructor; [exact Hhead | exact IH].
Qed.

Lemma groups_sorted (R : Row -> Row -> Prop) (i : nat) (rows : list Row) :
  StronglySorted R rows ->
  Forall (fun g => StronglySorted R (snd g)
                   /\ forall x, In x (snd g) ->
                        In x rows /\ cell_eqb (fst g) (cell x i) = true)
    (fold_left (fun gs r => group_insert (cell r i) r gs) rows []).
Proof.
  intros Hs.
  assert (G : forall todo seen gs,
             StronglySorted R (seen ++ todo) ->
             Forall (fun g => StronglySorted R (snd g)
                              /\ forall x, In x (snd g) ->
                                   In x seen
                                   /\ cell_eqb (fst g) (cell x i) = true) gs ->
             Forall (fun g => StronglySorted R (snd g)
                              /\ forall x, In x (snd g) ->
                                   In x (seen ++ todo)
                                   /\ cell_eqb (fst g) (cell x i) = true)
               (fold_left (fun gs0 r => group_insert (cell r i) r gs0)
                  todo gs)).
  { induction todo as [| r todo IH]; intros seen gs Hsorted Hgs;
      cbn [fold_left].
    - rewrite app_nil_r. exact Hgs.
    - assert (Hr : forall a, In a seen -> R a r).
      { intros a Ha.
        apply (StronglySorted_app_cross _ R seen (r :: todo));
          [exact Hsorted | exact Ha | left; reflexivity]. }
      replace (seen ++ r :: todo) with ((seen ++ [r]) ++ todo) in *
        by (rewrite <- app_assoc; reflexivity).
      apply IH; [exact Hsorted |].
      apply group_insert_sorted; assumption. }
  apply (G rows [] []); [exact Hs | constructor].
Qed.

(** Two rows of one group, in the order of user and time, are in the order
    of time. *)
Lemma same_user_time_order (iu it : nat) (k : Cell) (r1 r2 : Row) :
  row_leb [iu; it] r1 r2 = true ->
  cell_eqb k (cell r1 iu) = true -> cell_eqb k (cell r2 iu) = true ->
  cell_leb (cell r1 it) (cell r2 it) = true.
Proof.
  cbn [row_leb]. intros H H1 H2.
  assert (E21 : cell_leb (cell r2 iu) (cell r1 iu) = true).
  { apply cell_eqb_leb. apply cell_eqb_trans with k; [| exact H1].
    rewrite cell_eqb_sym. exact H2. }
  rewrite E21 in H.
  destruct (cell_leb (cell r1 iu) (cell r2 iu)); [| discriminate].
  destruct (cell_leb (cell r1 it) (cell r2 it)); [reflexivity | discriminate].
Qed.

Lemma group_times_sorted (iu it : nat) (g : Cell * list Row) :
  StronglySorted (fun a b => row_leb [iu; it] a b = true) (snd g) ->
  (forall x, In x (snd g) -> cell_eqb (fst g) (cell x iu) = true) ->
  sorted_cells (map (fun r => cell r it) (snd g)).
Proof.
  destruct g as [k rs]. cbn [fst snd]. intros Hs Hk.
  unfold sorted_cells. apply Sorted_map.
  induction Hs as [| r rs Hs IH Hr]; constructor.
  - apply IH. intros x Hx. apply Hk. right. exact Hx.
  - destruct rs as [| r' rs]; constructor.
    apply same_user_time_order with (iu := iu) (k := k).
    + rewrite Forall_forall in Hr. apply Hr. left. reflexivity.
    + apply Hk. left. reflexivity.
    + apply Hk. right. left. reflexivity.
Qed.

(** X27.  In funnel analysis and path analysis every user's timestamps are
    non-decreasing, so the events next to them are in time order; the two
    dictionaries list the same users in the same order. *)
Lemma user_lists_sorted (df : DataFrame)
    (user_id_col event_col timestamp_col : string)
    (user_paths user_timestamps : list (Cell * list Cell)) :
  PathAnalysisService.user_lists df user_id_col event_col timestamp_col
  = Ok (user_paths, user_timestamps) ->
  Forall (fun ut => sorted_cells (snd ut)) user_timestamps
  /\ map fst user_paths = map fst user_timestamps.
Proof.
  unfold PathAnalysisService.user_lists. intros H.
  inv_bind H. apply to_datetime_columns in E. subst a.
  inv_bind H. rename a into df2, E into Esort.
  inv_bind H. rename a into ups, E into Eup.
  inv_bind H. rename a into uts, E into Eut.
  injection H as <- <-.
  unfold sort_values in Esort. cbn [mapM] in Esort.
  destruct (column_index df user_id_col) as [iu |] eqn:Eiu;
    [| discriminate Esort].
  destruct (column_index df timestamp_col) as [it |] eqn:Eit;
    [| discriminate Esort].
  cbn [bind] in Esort.
  destruct (sortable _ [iu; it]); [| discriminate Esort].
  injection Esort as <-.
  unfold groupby_lists, groupby in Eup, Eut.
  unfold column_index in *. cbn [columns data] in Eup, Eut.
  destruct (get_loc (columns df) user_id_col) as [iu' |];
    [| discriminate Eiu].
  injection Eiu as ->.
  destruct (get_loc (columns df) timestamp_col) as [it' |];
    [| discriminate Eit].
  injection Eit as ->.
  cbn [bind] in Eup, Eut. injection Eut as <-.
  destruct (get_loc (columns df) event_col) as [ie |]; [| discriminate Eup].
  cbn [bind] in Eup. injection Eup as <-.
  split.
  - rewrite !Forall_map. cbn [fst snd column data].
    pose proof (sort_sorted (row_leb [iu; it]) (row_leb_total [iu; it])
                  (data df)) as Hsorted.
    apply Sorted_StronglySorted in Hsorted.
    2:{ intros r1 r2 r3. apply row_leb_trans. }
    pose proof (groups_sorted _ iu _ Hsorted) as Hg.
    eapply Forall_impl; [| exact Hg].
    intros g [Hs Hm]. apply group_times_sorted with (iu := iu).
    + exact Hs.
    + intros x Hx. apply (Hm x Hx).
  - rewrite !map_map. reflexivity.
Qed.
End PathOrder.

(* ================================================================== *)
(** ** The entry point of the attribution analysis *)

Section AttributionEntry.
Import Pandas AttributionService Spec.

Lemma run_models_In (ln2 : Q) (exp : Q -> Q) (half_life : Z)
    (js : list Journey) (models names : list string)
    (out : list (string * AttributionResult)) :
  run_models ln2 exp half_life js models names = Ok out ->
  forall m res, In (m, res) out ->
    run_model ln2 exp half_life js m = Ok (Some res).
Proof.
  revert out. induction names as [| n names IH]; intros out H m res Hin;
    cbn [run_models] in H.
  - injection H as <-. destruct Hin.
  - destruct (requested models n); [| eapply IH; eassumption].
    destruct (run_model ln2 exp half_life js n) as [r |] eqn:Er;
      [| discriminate H].
    cbn [bind] in H.
    destruct (run_models ln2 exp half_life js models names) as [rs |] eqn:Ers;
      [| discriminate H].
    cbn [bind] in H. injection H as <-.
    destruct r as [a |].
    + destruct Hin as [E | Hin].
      * injection E as <- <-. exact Er.
      * eapply IH; [reflexivity | exact Hin].
    + eapply IH; [reflexivity | exact Hin].
Qed.

Lemma qsum_all_journeys (js : list Journey) :
  Forall wf_journey js ->
  Py.qsum (map conversion_value js) == converted_value js.
Proof.
  unfold converted_value.
  induction 1 as [| j js (_ & _ & Hz) _ IH]; cbn [map filter].
  - reflexivity.
  - rewrite qsum_cons, IH.
    destruct (converted j); [cbn [map]; rewrite qsum_cons; reflexivity |].
    rewrite (Hz eq_refl). ring.
Qed.

(** What attribution_analysis returns is what the models return on the
    journeys of the dataset, and the total conversion value it reports is
    the sum of the conversion values of the converted journeys. *)
Lemma attribution_analysis_models (ln2 : Q) (exp : Q -> Q) (df : DataFrame)
    (user_id_col touchpoint_col timestamp_col : string)
    (conversion_col conversion_value_col : option string)
    (models : option (list string)) (half_life : Z)
    (out : list (string * AttributionResult)) (summary : Summary)
    (n conversions : nat) (value : Q) :
  attribution_analysis ln2 exp df user_id_col touchpoint_col timestamp_col
    conversion_col conversion_value_col models half_life
  = Ok (Analysis out summary n conversions value) ->
  exists js,
    _build_user_journeys df user_id_col touchpoint_col timestamp_col
      conversion_col conversion_value_col = Ok js
    /\ value == converted_value js
    /\ forall m res, In (m, res) out ->
         run_model ln2 exp half_life js m = Ok (Some res).
Proof.
  unfold attribution_analysis. intros H.
  inv_bind H. apply to_datetime_columns in E. subst a.
  inv_bind H. rename a into js.
  destruct js as [| j js']; [discriminate H |].
  inv_bind H. injection H as <- _ _ _ <-.
  exists (j :: js'). split; [reflexivity |]. split.
  - apply (qsum_all_journeys (j :: js')).
    eapply build_user_journeys_wf. eassumption.
  - eapply run_models_In. eassumption.
Qed.
End AttributionEntry.

(* ================================================================== *)
(** * Further properties of the services *)

(* ================================================================== *)
(** ** Positions and slices *)

Section Positions.

Lemma index_lt (x : Cell) (l : list Cell) (i : nat) :
  Py.index x l = Some i -> (i < List.length l)%nat.
Proof.
  revert i. induction l as [| y l IH]; intros i; cbn [Py.index List.length].
  - discriminate.
  - destruct (cell_eqb y x).
    + intros H. injection H as <-. lia.
    + destruct (Py.index x l) as [j |]; cbn [option_map]; [| discriminate].
      intros H. injection H as <-. specialize (IH j eq_refl). lia.
Qed.

Lemma index_nth (x : Cell) (l : list Cell) (i : nat) (d : Cell) :
  Py.index x l = Some i -> cell_eqb (nth i l d) x = true.
Proof.
  revert i. induction l as [| y l IH]; intros i; cbn [Py.index].
  - discriminate.
  - destruct (cell_eqb y x) eqn:E.
    + intros H. injection H as <-. exact E.
    + destruct (Py.index x l) as [j |]; cbn [option_map]; [| discriminate].
      intros H. injection H as <-. cbn [nth]. apply IH. reflexivity.
Qed.

Lemma index_first (x : Cell) (l : list Cell) (i j : nat) (d : Cell) :
  Py.index x l = Some i -> (j < i)%nat -> cell_eqb (nth j l d) x = false.
Proof.
  revert i j. induction l as [| y l IH]; intros i j; cbn [Py.index].
  - discriminate.
  - destruct (cell_eqb y x) eqn:E.
    + intros H. injection H as <-. lia.
    + destruct (Py.index x l) as [k |]; cbn [option_map]; [| discriminate].
      intros H Hj. injection H as <-.
      destruct j as [| j]; cbn [nth]; [exact E |].
      apply (IH k); [reflexivity | lia].
Qed.

(** Equal values are found at the same place. *)
Lemma index_eqb (x y : Cell) (l : list Cell) :
  cell_eqb x y = true -> Py.index x l = Py.index y l.
Proof.
  intros Hxy. induction l as [| z l IH]; cbn [Py.index]; [reflexivity |].
  rewrite IH.
  destruct (cell_eqb z x) eqn:Ezx, (cell_eqb z y) eqn:Ezy; try reflexivity.
  - assert (cell_eqb z y = true) by (apply cell_eqb_trans with x; assumption).
    congruence.
  - assert (cell_eqb z x = true).
    { apply cell_eqb_trans with y; [| rewrite cell_eqb_sym]; assumption. }
    congruence.
Qed.

Lemma slice_length (X : Type) (i j : nat) (l : list X) :
  (j <= List.length l)%nat -> List.length (Py.slice i j l) = (j - i)%nat.
Proof.
  intros H. unfold Py.slice. rewrite length_firstn, length_skipn. lia.
Qed.

Lemma slice_nth (X : Type) (i j k : nat) (l : list X) (d : X) :
  (k < j - i)%nat -> nth k (Py.slice i j l) d = nth (i + k) l d.
Proof.
  intros H. unfold Py.slice.
  rewrite nth_firstn.
  assert (E : (k <? j - i)%nat = true) by (apply Nat.ltb_lt; exact H).
  rewrite E. apply nth_skipn.
Qed.

Lemma hd_nth (X : Type) (l : list X) (d : X) : hd d l = nth 0 l d.
Proof. destruct l; reflexivity. Qed.

Lemma last_nth (X : Type) (l : list X) (d : X) :
  last l d = nth (List.length l - 1) l d.
Proof.
  induction l as [| x l IH]; [reflexivity |].
  destruct l as [| y l]; [reflexivity |].
  change (last (x :: y :: l) d) with (last (y :: l) d).
  rewrite IH. cbn [List.length nth]. 
  replace (S (S (List.length l)) - 1)%nat with (S (List.length l)) by lia.
  cbn [nth]. replace (S (List.length l) - 1)%nat with (List.length l) by lia.
  reflexivity.
Qed.

Lemma removelast_nth (X : Type) (l : list X) (k : nat) (d : X) :
  (k < List.length l - 1)%nat -> nth k (removelast l) d = nth k l d.
Proof.
  revert k. induction l as [| x l IH]; intros k H; [reflexivity |].
  destruct l as [| y l]; [cbn in H; lia |].
  change (removelast (x :: y :: l)) with (x :: removelast (y :: l)).
  destruct k as [| k]; [reflexivity |].
  cbn [nth]. apply IH. cbn [List.length] in *. lia.
Qed.

Lemma mem_false_nth (x : Cell) (l : list Cell) (d : Cell) :
  (forall k, (k < List.length l)%nat -> cell_eqb (nth k l d) x = false) ->
  Py.mem x l = false.
Proof.
  unfold Py.mem. induction l as [| y l IH]; intros H; [reflexivity |].
  cbn [existsb]. rewrite cell_eqb_sym.
  pose proof (H 0%nat) as H0. cbn [nth List.length] in H0.
  rewrite H0 by lia. cbn [orb].
  apply IH. intros k Hk. apply (H (S k)). cbn [List.length]. lia.
Qed.

(** Nothing equal to [x] comes before the position [l.index(x)]. *)
Lemma index_prefix (x : Cell) (l : list Cell) (i k : nat) :
  Py.index x l = Some i -> (k <= i)%nat -> Py.mem x (firstn k l) = false.
Proof.
  intros Hi Hk. apply mem_false_nth with (d := VInt 0).
  intros j Hj. rewrite length_firstn in Hj.
  rewrite nth_firstn.
  assert (E : (j <? k)%nat = true) by (apply Nat.ltb_lt; lia).
  rewrite E. apply (index_first x l i); [exact Hi | lia].
Qed.

Lemma slice_split (X : Type) (i j : nat) (l : list X) :
  (i <= j)%nat -> l = firstn i l ++ Py.slice i j l ++ skipn j l.
Proof.
  intros H. unfold Py.slice.
  rewrite <- (firstn_skipn i l) at 1. f_equal.
  rewrite <- (firstn_skipn (j - i) (skipn i l)) at 1. f_equal.
  rewrite skipn_skipn. f_equal. lia.
Qed.

End Positions.

(* ================================================================== *)
(** ** Key paths *)

Section KeyPaths.
Import PathAnalysisService.

(** What the loop keeps for one user. *)
Lemma complete_path_spec (start_event end_event : Cell) (max_steps : Z)
    (user_times : list (Cell * list Cell)) (up : Cell * list Cell)
    (p : CompletePath) :
  complete_path start_event end_event max_steps user_times up = Some p ->
  exists start_idx end_idx,
    Py.index start_event (snd up) = Some start_idx
    /\ Py.index end_event (snd up) = Some end_idx
    /\ (start_idx < end_idx)%nat
    /\ (Z.of_nat (end_idx - start_idx) <= max_steps)%Z
    /\ cp_user_id p = fst up
    /\ cp_path p = Py.slice start_idx (end_idx + 1) (snd up)
    /\ cp_steps p = (end_idx - start_idx)%nat.
Proof.
  unfold complete_path.
  destruct (Py.index start_event (snd up)) as [s |] eqn:Es; [| discriminate].
  destruct (Py.index end_event (snd up)) as [e |] eqn:Ee; [| discriminate].
  destruct (s <? e)%nat eqn:Elt; [| discriminate]. cbn [andb].
  destruct (Z.of_nat e - Z.of_nat s <=? max_steps)%Z eqn:Ems;
    [| discriminate].
  intros H. injection H as <-. cbn [cp_user_id cp_path cp_steps].
  apply Nat.ltb_lt in Elt. apply Z.leb_le in Ems.
  pose proof (index_lt _ _ _ Ee) as Hlt.
  exists s, e. repeat split; try reflexivity; try assumption; try lia.
  rewrite slice_length by lia. lia.
Qed.

Lemma complete_paths_In (start_event end_event : Cell) (max_steps : Z)
    (user_paths user_times : list (Cell * list Cell)) (p : CompletePath) :
  In p (complete_paths start_event end_event max_steps user_paths user_times)
  <-> exists up, In up user_paths
                 /\ complete_path start_event end_event max_steps
                      user_times up = Some p.
Proof.
  unfold complete_paths. rewrite in_flat_map. split.
  - intros (up & Hin & Hp). exists up. split; [exact Hin |].
    destruct (complete_path _ _ _ _ up) as [q |]; [| destruct Hp].
    destruct Hp as [<- | []]. reflexivity.
  - intros (up & Hin & Hp). exists up. split; [exact Hin |].
    rewrite Hp. left. reflexivity.
Qed.

End KeyPaths.

(** X1.  Every complete path of key_path_analysis is a stretch of one user's
    events that begins with the start event and ends with the end event,
    holds the end event nowhere before its last position, and takes between
    1 and [max_steps] steps, the number of steps being the number of events
    less one. *)
Theorem key_paths_run_from_start_to_end
    (start_event end_event : Cell) (max_steps : Z)
    (user_paths user_times : list (Cell * list Cell)) :
  Forall
    (fun p =>
       (exists events before after,
          In (PathAnalysisService.cp_user_id p, events) user_paths
          /\ events = before ++ PathAnalysisService.cp_path p ++ after
          /\ Py.mem start_event before = false
          /\ Py.mem end_event before = false)
       /\ cell_eqb (hd (VInt 0) (PathAnalysisService.cp_path p)) start_event
          = true
       /\ cell_eqb (last (PathAnalysisService.cp_path p) (VInt 0)) end_event
          = true
       /\ Py.mem end_event (removelast (PathAnalysisService.cp_path p))
          = false
       /\ List.length (PathAnalysisService.cp_path p)
          = (PathAnalysisService.cp_steps p + 1)%nat
       /\ (1 <= PathAnalysisService.cp_steps p)%nat
       /\ (Z.of_nat (PathAnalysisService.cp_steps p) <= max_steps)%Z)
    (PathAnalysisService.complete_paths start_event end_event max_steps
       user_paths user_times).
Proof.
  apply Forall_forall. intros p Hin.
  apply complete_paths_In in Hin. destruct Hin as ([u events] & Hup & Hp).
  apply complete_path_spec in Hp. cbn [fst snd] in Hp.
  destruct Hp as (s & e & Hs & He & Hlt & Hms & Hu & Hpath & Hsteps).
  pose proof (index_lt _ _ _ He) as Hlen.
  assert (Hl : List.length (PathAnalysisService.cp_path p)
               = (e + 1 - s)%nat).
  { rewrite Hpath. apply slice_length. lia. }
  split; [| split; [| split; [| split; [| split; [| split]]]]].
  - exists events, (firstn s events), (skipn (e + 1) events).
    rewrite Hu, Hpath.
    split; [exact Hup |].
    split; [apply slice_split; lia |].
    split; [apply (index_prefix _ _ s); [exact Hs | lia] |].
    apply (index_prefix _ _ e); [exact He | lia].
  - rewrite hd_nth, Hpath, slice_nth by lia.
    rewrite Nat.add_0_r. apply index_nth. exact Hs.
  - rewrite last_nth, Hl, Hpath, slice_nth by lia.
    replace (s + (e + 1 - s - 1))%nat with e by lia.
    apply index_nth. exact He.
  - apply mem_false_nth with (d := VInt 0). intros k Hk.
    assert (Hk' : (k < e - s)%nat).
    { pose proof (@removelast_length _ (PathAnalysisService.cp_path p)) as Hr.
      rewrite Hl in Hr. lia. }
    rewrite removelast_nth by lia.
    rewrite Hpath, slice_nth by lia.
    apply (index_first end_event events e); [exact He | lia].
  - rewrite Hl, Hsteps. lia.
  - rewrite Hsteps. lia.
  - rewrite Hsteps. exact Hms.
Qed.

(** X2.  Without two different events at least one step apart there is nothing
    to report: when the end event equals the start event, or [max_steps] is
    less than 1, key_path_analysis finds no complete path, whatever the
    data. *)
Theorem key_path_needs_a_step (start_event end_event : Cell) (max_steps : Z)
    (user_paths user_times : list (Cell * list Cell)) :
  cell_eqb start_event end_event = true \/ (max_steps < 1)%Z ->
  PathAnalysisService.key_path_of_paths start_event end_event max_steps
    user_paths user_times
  = PathAnalysisService.NoCompletePath.
Proof.
  intros H. unfold PathAnalysisService.key_path_of_paths.
  destruct (PathAnalysisService.complete_paths start_event end_event
              max_steps user_paths user_times) as [| p ps] eqn:E;
    [reflexivity | exfalso].
  assert (Hin : In p (PathAnalysisService.complete_paths start_event
                        end_event max_steps user_paths user_times))
    by (rewrite E; left; reflexivity).
  apply complete_paths_In in Hin. destruct Hin as (up & _ & Hp).
  apply complete_path_spec in Hp.
  destruct Hp as (s & e & Hs & He & Hlt & Hms & _).
  destruct H as [Heq | Hmax]; [| lia].
  rewrite (index_eqb _ _ _ Heq), He in Hs. injection Hs as ->. lia.
Qed.

Lemma key_path_needs_a_step_witness :
  PathAnalysisService.key_path_of_paths (VStr "A") (VStr "A") 10
    [(VInt 1, [VStr "A"; VStr "B"; VStr "A"])]
    [(VInt 1, [VInt 0; VInt 5; VInt 9])]
  = PathAnalysisService.NoCompletePath.
Proof.
  apply (key_path_needs_a_step (VStr "A") (VStr "A") 10).
  left. reflexivity.
Defined.

Section Minimum.
Variable A : Type.
Variable ltb : A -> A -> bool.

Lemma min_by_In (l : list A) (best : A) :
  In (Py.min_by ltb best l) (best :: l).
Proof.
  revert best. induction l as [| y l IH]; intros best; cbn [Py.min_by].
  - left. reflexivity.
  - destruct (IH (if ltb y best then y else best)) as [H | H].
    + rewrite <- H. destruct (ltb y best); [right; left | left]; reflexivity.
    + right. right. exact H.
Qed.

Variable le : A -> A -> Prop.
Hypothesis le_refl : forall a, le a a.
Hypothesis le_trans : forall a b c, le a b -> le b c -> le a c.
Hypothesis ltb_le : forall a b, ltb a b = true -> le a b.
Hypothesis nltb_le : forall a b, ltb a b = false -> le b a.

Lemma min_by_least (l : list A) (best x : A) :
  In x (best :: l) -> le (Py.min_by ltb best l) x.
Proof.
  revert best x. induction l as [| y l IH]; intros best x; cbn [Py.min_by].
  - intros [<- | []]. apply le_refl.
  - intros [<- | [<- | Hin]].
    + apply le_trans with (if ltb y best then y else best).
      * apply IH. left. reflexivity.
      * destruct (ltb y best) eqn:E; [apply ltb_le; exact E | apply le_refl].
    + apply le_trans with (if ltb y best then y else best).
      * apply IH. left. reflexivity.
      * destruct (ltb y best) eqn:E; [apply le_refl | apply nltb_le; exact E].
    + apply IH. right. exact Hin.
Qed.
End Minimum.

(** X3.  The two optimal paths of key_path_analysis are complete paths, the
    first with the fewest steps and the second with the shortest duration
    among all complete paths; so the first has no more steps than the
    second, and the second takes no longer than the first. *)
Theorem key_path_optimal_paths (start_event end_event : Cell) (max_steps : Z)
    (user_paths user_times : list (Cell * list Cell))
    (r : PathAnalysisService.KeyPathResult) :
  PathAnalysisService.key_path_of_paths start_event end_event max_steps
    user_paths user_times = PathAnalysisService.KeyPaths r ->
  let paths := PathAnalysisService.complete_paths start_event end_event
                 max_steps user_paths user_times in
  (exists p, In p paths
             /\ PathAnalysisService.kr_min_steps r
                = PathAnalysisService.optimal p)
  /\ (exists p, In p paths
                /\ PathAnalysisService.kr_min_duration r
                   = PathAnalysisService.optimal p)
  /\ Forall
       (fun p =>
          (PathAnalysisService.op_steps (PathAnalysisService.kr_min_steps r)
           <= PathAnalysisService.cp_steps p)%nat
          /\ PathAnalysisService.op_duration_seconds
               (PathAnalysisService.kr_min_duration r)
             <= PathAnalysisService.cp_duration_seconds p)
       paths
  /\ (PathAnalysisService.op_steps (PathAnalysisService.kr_min_steps r)
      <= PathAnalysisService.op_steps
           (PathAnalysisService.kr_min_duration r))%nat
  /\ PathAnalysisService.op_duration_seconds
       (PathAnalysisService.kr_min_duration r)
     <= PathAnalysisService.op_duration_seconds
          (PathAnalysisService.kr_min_steps r).
Proof.
  unfold PathAnalysisService.key_path_of_paths. cbv zeta.
  destruct (PathAnalysisService.complete_paths start_event end_event
              max_steps user_paths user_times) as [| first rest];
    [discriminate |].
  intros H. injection H as <-.
  cbn [PathAnalysisService.kr_min_steps PathAnalysisService.kr_min_duration].
  set (lts := fun a b : PathAnalysisService.CompletePath =>
                (PathAnalysisService.cp_steps a
                 <? PathAnalysisService.cp_steps b)%nat).
  set (ltd := fun a b : PathAnalysisService.CompletePath =>
                negb (Qle_bool (PathAnalysisService.cp_duration_seconds b)
                        (PathAnalysisService.cp_duration_seconds a))).
  assert (Hs : forall x, In x (first :: rest) ->
                 (PathAnalysisService.cp_steps (Py.min_by lts first rest)
                  <= PathAnalysisService.cp_steps x)%nat).
  { intros x Hx.
    apply (min_by_least _ lts
             (fun a b => (PathAnalysisService.cp_steps a
                          <= PathAnalysisService.cp_steps b)%nat));
      try exact Hx; unfold lts.
    - intros a. lia.
    - intros a b c. lia.
    - intros a b E. apply Nat.ltb_lt in E. lia.
    - intros a b E. apply Nat.ltb_ge in E. lia. }
  assert (Hd : forall x, In x (first :: rest) ->
                 PathAnalysisService.cp_duration_seconds
                   (Py.min_by ltd first rest)
                 <= PathAnalysisService.cp_duration_seconds x).
  { intros x Hx.
    apply (min_by_least _ ltd
             (fun a b => PathAnalysisService.cp_duration_seconds a
                         <= PathAnalysisService.cp_duration_seconds b));
      try exact Hx; unfold ltd.
    - intros a. apply Qle_refl.
    - intros a b c. apply Qle_trans.
    - intros a b E. apply negb_true_iff in E.
      destruct (Qlt_le_dec (PathAnalysisService.cp_duration_seconds a)
                  (PathAnalysisService.cp_duration_seconds b)) as [Hl | Hl].
      + apply Qlt_le_weak. exact Hl.
      + apply Qle_bool_iff in Hl. congruence.
    - intros a b E. apply negb_false_iff in E.
      apply Qle_bool_iff. exact E. }
  pose proof (min_by_In _ lts rest first) as Is.
  pose proof (min_by_In _ ltd rest first) as Id.
  split; [eexists; split; [exact Is | reflexivity] |].
  split; [eexists; split; [exact Id | reflexivity] |].
  split; [| split].
  - apply Forall_forall. intros p Hp.
    cbn [PathAnalysisService.optimal PathAnalysisService.op_steps
         PathAnalysisService.op_duration_seconds].
    split; [apply Hs | apply Hd]; exact Hp.
  - apply (Hs _ Id).
  - apply (Hd _ Is).
Qed.

(** Among the three visitors, two go from A to C; the shorter path is also
    the quicker one. *)
Lemma key_path_optimal_paths_witness :
  exists r,
    PathAnalysisService.key_path_of_paths (VStr "A") (VStr "C") 10
      Examples.visit_paths Examples.visit_times
    = PathAnalysisService.KeyPaths r
    /\ (PathAnalysisService.op_steps (PathAnalysisService.kr_min_steps r)
        <= PathAnalysisService.op_steps
             (PathAnalysisService.kr_min_duration r))%nat
    /\ PathAnalysisService.op_duration_seconds
         (PathAnalysisService.kr_min_duration r)
       <= PathAnalysisService.op_duration_seconds
            (PathAnalysisService.kr_min_steps r).
Proof.
  assert (H : PathAnalysisService.key_path_of_paths (VStr "A") (VStr "C") 10
                Examples.visit_paths Examples.visit_times
              = PathAnalysisService.KeyPaths _) by (vm_compute; reflexivity).
  eexists. split; [exact H |].
  exact (proj2 (proj2 (proj2
           (key_path_optimal_paths _ _ _ _ _ _ H)))).
Defined.

(* ================================================================== *)
(** ** Counters over any kind of key *)

Lemma list_sum_cons (x : nat) (l : list nat) :
  list_sum (x :: l) = (x + list_sum l)%nat.
Proof. reflexivity. Qed.

Lemma list_sum_perm (l1 l2 : list nat) :
  Permutation l1 l2 -> list_sum l1 = list_sum l2.
Proof.
  induction 1; rewrite ?list_sum_cons; lia.
Qed.

Lemma list_sum_firstn (n : nat) (l : list nat) :
  (list_sum (firstn n l) <= list_sum l)%nat.
Proof.
  rewrite <- (firstn_skipn n l) at 2. rewrite list_sum_app. lia.
Qed.

Section CounterFacts.
Variable K : Type.
Variable eqb : K -> K -> bool.

Lemma upd_sum (k : K) (c : list (K * nat)) :
  list_sum (map snd (Dict.upd eqb 0%nat S k c))
  = S (list_sum (map snd c)).
Proof.
  induction c as [| [k' v] c IH]; cbn [Dict.upd map snd].
  - reflexivity.
  - destruct (eqb k' k); cbn [map snd]; rewrite !list_sum_cons;
      [lia | rewrite IH; lia].
Qed.

Lemma fold_upd_sum (X : Type) (key : X -> K) (l : list X)
    (c : list (K * nat)) :
  list_sum
    (map snd (fold_left (fun c' x => Dict.upd eqb 0%nat S (key x) c') l c))
  = (list_sum (map snd c) + List.length l)%nat.
Proof.
  revert c. induction l as [| x l IH]; intros c; cbn [fold_left List.length].
  - lia.
  - rewrite IH, upd_sum. lia.
Qed.

Lemma upd_keys (k : K) (c : list (K * nat)) (kv : K * nat) :
  In kv (Dict.upd eqb 0%nat S k c) ->
  fst kv = k \/ exists v, In (fst kv, v) c.
Proof.
  induction c as [| [k' v] c IH]; cbn [Dict.upd].
  - intros [<- | []]. left. reflexivity.
  - destruct (eqb k' k).
    + intros [<- | Hin]; right; cbn [fst].
      * exists v. left. reflexivity.
      * exists (snd kv). right. destruct kv; exact Hin.
    + intros [<- | Hin].
      * right. exists v. left. reflexivity.
      * destruct (IH Hin) as [H | (v' & H)]; [left; exact H |].
        right. exists v'. right. exact H.
Qed.

Lemma fold_upd_keys (X : Type) (key : X -> K) (l : list X)
    (c : list (K * nat)) (kv : K * nat) :
  In kv (fold_left (fun c' x => Dict.upd eqb 0%nat S (key x) c') l c) ->
  (exists x, In x l /\ fst kv = key x) \/ exists v, In (fst kv, v) c.
Proof.
  revert c. induction l as [| x l IH]; intros c; cbn [fold_left].
  - intros H. right. exists (snd kv). destruct kv; exact H.
  - intros H. destruct (IH _ H) as [(y & Hy & E) | (v & Hv)].
    + left. exists y. split; [right; exact Hy | exact E].
    + destruct (upd_keys _ _ _ Hv) as [E | Hc].
      * left. exists x. split; [left; reflexivity | exact E].
      * right. exact Hc.
Qed.

Lemma upd_positive (k : K) (c : list (K * nat)) :
  Forall (fun kv => (1 <= snd kv)%nat) c ->
  Forall (fun kv => (1 <= snd kv)%nat) (Dict.upd eqb 0%nat S k c).
Proof.
  induction 1 as [| [k' v] c Hv Hc IH]; cbn [Dict.upd].
  - constructor; [cbn; lia | constructor].
  - destruct (eqb k' k); constructor; try assumption. cbn. lia.
Qed.

Lemma fold_upd_positive (X : Type) (key : X -> K) (l : list X)
    (c : list (K * nat)) :
  Forall (fun kv => (1 <= snd kv)%nat) c ->
  Forall (fun kv => (1 <= snd kv)%nat)
    (fold_left (fun c' x => Dict.upd eqb 0%nat S (key x) c') l c).
Proof.
  revert c. induction l as [| x l IH]; intros c Hc; cbn [fold_left].
  - exact Hc.
  - apply IH, upd_positive, Hc.
Qed.
End CounterFacts.

(** The order of [most_common] and of the other sorts by decreasing key. *)
Lemma Sorted_firstn (X : Type) (R : X -> X -> Prop) (n : nat) (l : list X) :
  Sorted R l -> Sorted R (firstn n l).
Proof.
  intros H. revert n. induction H as [| a l Hs IH Hhd]; intros n.
  - rewrite firstn_nil. constructor.
  - destruct n as [| n]; cbn [firstn]; constructor.
    + apply IH.
    + destruct Hhd as [| b l Hab]; [rewrite firstn_nil; constructor |].
      destruct n; cbn [firstn]; constructor. exact Hab.
Qed.

Lemma sort_desc_sorted (X : Type) (key : X -> nat) (l : list X) :
  Sorted (fun a b => (key b <= key a)%nat)
    (Py.sort (fun a b => (key b <=? key a)%nat) l).
Proof.
  pose proof (@sort_sorted X (fun a b => (key b <=? key a)%nat)) as H.
  assert (Ht : forall a b, (key b <=? key a)%nat = false ->
                           (key a <=? key b)%nat = true).
  { intros a b E. apply Nat.leb_gt in E. apply Nat.leb_le. lia. }
  specialize (H Ht l). revert H. apply Sorted_weaken.
  intros a b E. apply Nat.leb_le. exact E.
Qed.

Section KeyPathCounts.
Import PathAnalysisService.

(** X4.  key_path_analysis counts every complete path once: there are at most
    as many complete paths as users, at most ten top paths, listed by
    decreasing count, each followed at least once, and their counts add up
    to no more than the number of complete paths. *)
Theorem key_path_counts (start_event end_event : Cell) (max_steps : Z)
    (user_paths user_times : list (Cell * list Cell)) (r : KeyPathResult) :
  key_path_of_paths start_event end_event max_steps user_paths user_times
  = KeyPaths r ->
  kr_complete_path_count r
  = List.length (complete_paths start_event end_event max_steps user_paths
                   user_times)
  /\ (1 <= kr_complete_path_count r <= List.length user_paths)%nat
  /\ (List.length (kr_top_paths r) <= 10)%nat
  /\ Sorted (fun a b => (ps_count b <= ps_count a)%nat) (kr_top_paths r)
  /\ Forall (fun t => (1 <= ps_count t)%nat) (kr_top_paths r)
  /\ (list_sum (map ps_count (kr_top_paths r))
      <= kr_complete_path_count r)%nat.
Proof.
  unfold key_path_of_paths.
  assert (Hle : (List.length (complete_paths start_event end_event max_steps
                                user_paths user_times)
                 <= List.length user_paths)%nat).
  { unfold complete_paths. induction user_paths as [| up ups IH];
      cbn [flat_map List.length]; [lia |].
    rewrite length_app.
    destruct (complete_path _ _ _ _ up); cbn [List.length]; lia. }
  destruct (complete_paths start_event end_event max_steps user_paths
              user_times) as [| first rest]; [discriminate |].
  intros H. injection H as <-.
  cbn [kr_complete_path_count kr_top_paths].
  match goal with
  | |- context [most_common 10 ?c] => set (pc := c)
  end.
  split; [reflexivity |].
  split; [cbn [List.length] in *; lia |].
  split; [rewrite length_map; unfold most_common; rewrite length_firstn; lia |].
  split; [| split].
  - apply Sorted_map. cbn [ps_count]. unfold most_common.
    apply Sorted_firstn.
    apply (sort_desc_sorted _ (fun a : list Cell * nat => snd a)).
  - apply Forall_map. cbn [ps_count]. apply Forall_forall.
    intros kv Hkv. unfold most_common in Hkv.
    apply firstn_In in Hkv. apply sort_In in Hkv.
    pose proof (fold_upd_positive _ path_eqb _ cp_path (first :: rest) []
                  (Forall_nil _)) as Hp.
    rewrite Forall_forall in Hp. apply Hp. exact Hkv.
  - rewrite map_map. cbn [ps_count]. unfold most_common.
    rewrite <- firstn_map.
    etransitivity; [apply list_sum_firstn |].
    rewrite <- (list_sum_perm _ _
                  (Permutation_map snd (sort_perm _ pc))).
    unfold pc. rewrite (fold_upd_sum _ path_eqb _ cp_path). cbn. lia.
Qed.

(** The two complete paths from A to C of the three visitors. *)
Lemma key_path_counts_witness :
  exists r,
    PathAnalysisService.key_path_of_paths (VStr "A") (VStr "C") 10
      Examples.visit_paths Examples.visit_times
    = PathAnalysisService.KeyPaths r
    /\ PathAnalysisService.kr_complete_path_count r = 2%nat
    /\ (1 <= PathAnalysisService.kr_complete_path_count r
        <= List.length Examples.visit_paths)%nat
    /\ (list_sum (map PathAnalysisService.ps_count
                    (PathAnalysisService.kr_top_paths r))
        <= PathAnalysisService.kr_complete_path_count r)%nat.
Proof.
  assert (H : PathAnalysisService.key_path_of_paths (VStr "A") (VStr "C") 10
                Examples.visit_paths Examples.visit_times
              = PathAnalysisService.KeyPaths _) by (vm_compute; reflexivity).
  eexists. split; [exact H |]. split; [reflexivity |].
  pose proof (key_path_counts _ _ _ _ _ _ H) as (_ & H1 & _ & _ & _ & H2).
  split; [exact H1 | exact H2].
Defined.
End KeyPathCounts.

(* ================================================================== *)
(** ** Rounding is monotone and leaves integers alone *)

Lemma round_half_even_bounds (x : Q) :
  (Qfloor x <= Py.round_half_even x <= Qfloor x + 1)%Z.
Proof.
  unfold Py.round_half_even.
  destruct (Qcompare (x - inject_Z (Qfloor x)) (1 # 2));
    [destruct (Z.even (Qfloor x)) | |]; lia.
Qed.

Lemma round_half_even_mono (x y : Q) :
  x <= y -> (Py.round_half_even x <= Py.round_half_even y)%Z.
Proof.
  intros Hxy.
  pose proof (Qfloor_resp_le _ _ Hxy) as Hf.
  pose proof (round_half_even_bounds x) as Bx.
  pose proof (round_half_even_bounds y) as By_.
  destruct (Z.eq_dec (Qfloor x) (Qfloor y)) as [E | N]; [| lia].
  unfold Py.round_half_even in *. rewrite <- E in *.
  destruct (Qcompare_spec (x - inject_Z (Qfloor x)) (1 # 2)) as [Cx | Cx | Cx];
    destruct (Qcompare_spec (y - inject_Z (Qfloor x)) (1 # 2))
      as [Cy | Cy | Cy];
    try destruct (Z.even (Qfloor x)); try lia; exfalso; lra.
Qed.

Lemma round_mono (x y : Q) (n : nat) :
  x <= y -> Py.round x n <= Py.round y n.
Proof.
  intros Hxy. unfold Py.round.
  set (p := inject_Z (10 ^ Z.of_nat n)).
  assert (Hp : 0 < p) by apply pow10_pos.
  unfold Qdiv. apply Qmult_le_compat_r.
  - rewrite <- Zle_Qle. apply round_half_even_mono.
    apply Qmult_le_compat_r; [exact Hxy | apply Qlt_le_weak; exact Hp].
  - apply Qlt_le_weak, Qinv_lt_0_compat. exact Hp.
Qed.

Lemma round_half_even_integer (k : Z) :
  Py.round_half_even (inject_Z k) = k.
Proof.
  unfold Py.round_half_even. rewrite Qfloor_Z.
  destruct (Qcompare_spec (inject_Z k - inject_Z k) (1 # 2)) as [C | C | C];
    try reflexivity; exfalso; lra.
Qed.

Lemma round_integer (k : Z) (n : nat) : Py.round (inject_Z k) n == inject_Z k.
Proof.
  unfold Py.round.
  set (p := (10 ^ Z.of_nat n)%Z).
  assert (Hp : 0 < inject_Z p) by apply pow10_pos.
  assert (E : Py.round_half_even (inject_Z k * inject_Z p) = (k * p)%Z).
  { rewrite <- round_half_even_integer.
    unfold Py.round_half_even.
    assert (E' : inject_Z k * inject_Z p == inject_Z (k * p))
      by (rewrite inject_Z_mult; reflexivity).
    rewrite (Qfloor_comp _ _ E').
    rewrite (Qcompare_comp _ _ (Qminus_comp _ _ E' _ _ (Qeq_refl _))
               _ _ (Qeq_refl (1 # 2))).
    reflexivity. }
  rewrite E, inject_Z_mult. field.
  intro Hz. rewrite Hz in Hp. apply (Qlt_irrefl 0). exact Hp.
Qed.

Lemma round_nonneg (x : Q) (n : nat) : 0 <= x -> 0 <= Py.round x n.
Proof.
  intros H. rewrite <- (round_integer 0 n). apply round_mono. exact H.
Qed.

(* ================================================================== *)
(** ** The groups of groupby: one per user, in increasing order *)

Section Groups.
Import Pandas Spec.

Lemma cell_leb_antisym (a b : Cell) :
  cell_leb a b = true -> cell_leb b a = true -> cell_eqb a b = true.
Proof.
  destruct a as [x | s | x], b as [y | t | y];
    unfold cell_leb, cell_eqb; cbn [cell_num]; intros H1 H2;
    try discriminate;
    try (apply Qle_bool_iff in H1, H2; apply Qeq_bool_iff;
         apply Qle_antisym; assumption).
  apply string_leb_iff in H1, H2. apply String.eqb_eq.
  destruct H1 as [E | L1]; [exact E |].
  destruct H2 as [E | L2]; [symmetry; exact E |].
  exfalso. apply (String_as_OT.lt_not_eq s s); [| reflexivity].
  eapply String_as_OT.lt_trans; eassumption.
Qed.

Lemma group_insert_keys (k : Cell) (r : Row) (gs : list (Cell * list Row))
    (g : Cell * list Row) :
  In g (group_insert k r gs) ->
  fst g = k \/ exists g', In g' gs /\ fst g' = fst g.
Proof.
  induction gs as [| [k' rs] gs IH]; cbn [group_insert].
  - intros [<- | []]. left. reflexivity.
  - destruct (cell_eqb k' k).
    + intros [<- | Hin]; right.
      * exists (k', rs). split; [left |]; reflexivity.
      * exists g. split; [right; exact Hin | reflexivity].
    + destruct (cell_leb k k').
      * intros [<- | Hin]; [left; reflexivity |].
        right. exists g. split; [exact Hin | reflexivity].
      * intros [<- | Hin].
        -- right. exists (k', rs). split; [left |]; reflexivity.
        -- destruct (IH Hin) as [E | (g' & Hg' & E)]; [left; exact E |].
           right. exists g'. split; [right; exact Hg' | exact E].
Qed.

(** The keys of the groups stay in strictly increasing order. *)
Lemma group_insert_increasing (k : Cell) (r : Row)
    (gs : list (Cell * list Row)) :
  StronglySorted (fun g1 g2 => cell_leb (fst g2) (fst g1) = false) gs ->
  StronglySorted (fun g1 g2 => cell_leb (fst g2) (fst g1) = false)
    (group_insert k r gs).
Proof.
  induction 1 as [| [k' rs] gs Hs IH Hk]; cbn [group_insert].
  - constructor; constructor.
  - destruct (cell_eqb k' k) eqn:Ek.
    + constructor; [exact Hs | exact Hk].
    + destruct (cell_leb k k') eqn:El.
      * assert (Hlt : cell_leb k' k = false).
        { destruct (cell_leb k' k) eqn:E; [| reflexivity].
          rewrite (cell_leb_antisym _ _ E El) in Ek. discriminate. }
        constructor; [constructor; assumption |].
        constructor; [exact Hlt |].
        rewrite Forall_forall in *. intros g Hg. cbn [fst].
        specialize (Hk g Hg). cbn [fst] in Hk.
        destruct (cell_leb (fst g) k) eqn:E; [| reflexivity].
        rewrite (cell_leb_trans _ _ _ E El) in Hk. discriminate.
      * constructor; [exact IH |].
        rewrite Forall_forall in *. intros g Hg. cbn [fst].
        destruct (group_insert_keys _ _ _ _ Hg) as [-> | (g' & Hg' & <-)].
        -- exact El.
        -- apply (Hk g' Hg').
Qed.

Lemma groups_increasing (i : nat) (rows : list Row) :
  StronglySorted (fun g1 g2 => cell_leb (fst g2) (fst g1) = false)
    (fold_left (fun gs r => group_insert (cell r i) r gs) rows []).
Proof.
  generalize (SSorted_nil
                (fun g1 g2 : Cell * list Row =>
                   cell_leb (fst g2) (fst g1) = false)).
  generalize (@nil (Cell * list Row)).
  induction rows as [| r rows IH]; intros gs Hgs; cbn [fold_left].
  - exact Hgs.
  - apply IH, group_insert_increasing, Hgs.
Qed.

(** Looking a user up finds the group of that user. *)
Lemma get_group (X : Type) (f : Cell * list Row -> X)
    (gs : list (Cell * list Row)) (g : Cell * list Row) :
  StronglySorted (fun g1 g2 => cell_leb (fst g2) (fst g1) = false) gs ->
  In g gs ->
  Dict.get cell_eqb (map (fun g0 => (fst g0, f g0)) gs) (fst g) = Some (f g).
Proof.
  induction 1 as [| g0 gs Hs IH Hk]; intros Hin; [destruct Hin |].
  cbn [map Dict.get]. destruct Hin as [-> | Hin].
  - rewrite cell_eqb_refl. reflexivity.
  - rewrite Forall_forall in Hk. specialize (Hk g Hin).
    destruct (cell_eqb (fst g0) (fst g)) eqn:E.
    + rewrite cell_eqb_sym in E. apply cell_eqb_leb in E. congruence.
    + apply IH. exact Hin.
Qed.

(** What user_lists returns: for every user, in increasing order of the
    user ids, the events and the instants of the user's rows, the instants
    in non-decreasing order. *)
Lemma user_lists_groups (df : DataFrame)
    (user_id_col event_col timestamp_col : string)
    (user_paths user_timestamps : list (Cell * list Cell)) :
  PathAnalysisService.user_lists df user_id_col event_col timestamp_col
  = Ok (user_paths, user_timestamps) ->
  exists (ie it : nat) (gs : list (Cell * list Row)),
    user_paths = map (fun g => (fst g, map (fun r => cell r ie) (snd g))) gs
    /\ user_timestamps
       = map (fun g => (fst g, map (fun r => cell r it) (snd g))) gs
    /\ StronglySorted (fun g1 g2 => cell_leb (fst g2) (fst g1) = false) gs
    /\ Forall (fun g => sorted_cells (map (fun r => cell r it) (snd g))
                        /\ Forall (fun r => is_instant (cell r it) = true)
                             (snd g)) gs.
Proof.
  unfold PathAnalysisService.user_lists, to_datetime. intros H.
  destruct (column_index df timestamp_col) as [it0 |] eqn:Eit0;
    [| discriminate H].
  cbn [bind] in H.
  destruct (forallb is_instant (column df it0)) eqn:Einst;
    [| discriminate H].
  cbn [bind] in H.
  inv_bind H. rename a into df2, E into Esort.
  inv_bind H. rename a into ups, E into Eup.
  inv_bind H. rename a into uts, E into Eut.
  injection H as <- <-.
  unfold sort_values in Esort. cbn [mapM] in Esort.
  destruct (column_index df user_id_col) as [iu |] eqn:Eiu;
    [| discriminate Esort].
  rewrite Eit0 in Esort. cbn [bind] in Esort.
  destruct (sortable _ [iu; it0]); [| discriminate Esort].
  injection Esort as <-.
  unfold groupby_lists, groupby in Eup, Eut.
  unfold column_index in *. cbn [columns data] in Eup, Eut.
  destruct (get_loc (columns df) user_id_col) as [iu' |];
    [| discriminate Eiu].
  injection Eiu as ->.
  destruct (get_loc (columns df) timestamp_col) as [it |];
    [| discriminate Eit0].
  injection Eit0 as ->.
  cbn [bind] in Eup, Eut. injection Eut as <-.
  destruct (get_loc (columns df) event_col) as [ie |]; [| discriminate Eup].
  cbn [bind] in Eup. injection Eup as <-.
  exists ie, it0,
    (fold_left (fun gs r => group_insert (cell r iu) r gs)
       (Py.sort (row_leb [iu; it0]) (data df)) []).
  split; [rewrite map_map; reflexivity |].
  split; [rewrite map_map; reflexivity |].
  split; [apply groups_increasing |].
  pose proof (sort_sorted (row_leb [iu; it0]) (row_leb_total [iu; it0])
                (data df)) as Hsorted.
  apply Sorted_StronglySorted in Hsorted.
  2:{ intros r1 r2 r3. apply row_leb_trans. }
  pose proof (groups_sorted _ iu _ Hsorted) as Hg.
  eapply Forall_impl; [| exact Hg].
  intros g [Hs Hm]. split.
  - apply group_times_sorted with (iu := iu).
    + exact Hs.
    + intros x Hx. apply (Hm x Hx).
  - apply Forall_forall. intros x Hx.
    destruct (Hm x Hx) as [Hin _]. apply sort_In in Hin.
    rewrite forallb_forall in Einst. apply Einst.
    unfold column. apply in_map_iff. exists x.
    split; [reflexivity | exact Hin].
Qed.

Lemma sorted_cells_nth (l : list Cell) (i j : nat) (d : Cell) :
  sorted_cells l -> (i <= j < List.length l)%nat ->
  cell_leb (nth i l d) (nth j l d) = true.
Proof.
  unfold sorted_cells. intros Hs.
  apply Sorted_StronglySorted in Hs.
  2:{ intros a b c. apply cell_leb_trans. }
  revert i j. induction Hs as [| a l Hs IH Ha]; intros i j Hij.
  - cbn [List.length] in Hij. lia.
  - destruct i as [| i], j as [| j]; cbn [nth List.length] in *.
    + apply cell_eqb_leb, cell_eqb_refl.
    + rewrite Forall_forall in Ha. apply Ha. apply nth_In. lia.
    + lia.
    + apply IH. lia.
Qed.
End Groups.

Section KeyPathDurations.
Import Pandas Spec PathAnalysisService.

Lemma instant_leb (a b : Cell) :
  is_instant a = true -> is_instant b = true -> cell_leb a b = true ->
  (instant a <= instant b)%Z.
Proof.
  destruct a as [x | |], b as [y | |]; try discriminate.
  intros _ _. unfold cell_leb. cbn [cell_num instant].
  intros H. apply Qle_bool_iff in H. rewrite <- Zle_Qle in H. exact H.
Qed.

Lemma qsum_nonneg (l : list Q) : Forall (fun x => 0 <= x) l -> 0 <= Py.qsum l.
Proof.
  induction 1 as [| x l Hx _ IH]; [apply Qle_refl |].
  rewrite qsum_cons. lra.
Qed.

Lemma mean_nonneg (l : list Q) : Forall (fun x => 0 <= x) l -> 0 <= mean l.
Proof.
  intros H. unfold mean, Qdiv.
  apply Qmult_le_0_compat; [apply qsum_nonneg; exact H |].
  apply Qinv_le_0_compat. unfold qnat.
  change 0 with (inject_Z 0). rewrite <- Zle_Qle. lia.
Qed.

(** In the lists of a dataset, the end of a complete path is never earlier
    than its start. *)
Lemma complete_path_duration (df : DataFrame)
    (user_id_col event_col timestamp_col : string)
    (user_paths user_timestamps : list (Cell * list Cell))
    (start_event end_event : Cell) (max_steps : Z) (p : CompletePath) :
  user_lists df user_id_col event_col timestamp_col
  = Ok (user_paths, user_timestamps) ->
  In p (complete_paths start_event end_event max_steps user_paths
          user_timestamps) ->
  0 <= cp_duration_seconds p.
Proof.
  intros Hul Hin. apply user_lists_groups in Hul.
  destruct Hul as (ie & it & gs & -> & -> & Hinc & Hgs).
  apply complete_paths_In in Hin. destruct Hin as (up & Hup & Hp).
  apply in_map_iff in Hup. destruct Hup as (g & <- & Hg).
  unfold complete_path in Hp. cbn [fst snd] in Hp.
  destruct (Py.index start_event _) as [s |] eqn:Es; [| discriminate].
  destruct (Py.index end_event _) as [e |] eqn:Ee; [| discriminate].
  destruct (s <? e)%nat eqn:Elt; [| discriminate]. cbn [andb] in Hp.
  destruct (_ <=? max_steps)%Z; [| discriminate].
  rewrite (get_group _ (fun g0 => map (fun r => cell r it) (snd g0))
             gs g Hinc Hg) in Hp.
  injection Hp as <-. cbn [cp_duration_seconds].
  apply Nat.ltb_lt in Elt.
  pose proof (index_lt _ _ _ Ee) as Hlen. rewrite length_map in Hlen.
  rewrite Forall_forall in Hgs. destruct (Hgs g Hg) as [Hsorted Hinst].
  set (times := map (fun r => cell r it) (snd g)) in *.
  assert (Hlt : List.length times = List.length (snd g))
    by (unfold times; apply length_map).
  assert (Hi : forall k, (k < List.length times)%nat ->
                 is_instant (nth k times (VInt 0)) = true).
  { intros k Hk. rewrite Forall_forall in Hinst.
    assert (Hn : In (nth k times (VInt 0)) times) by (apply nth_In; exact Hk).
    unfold times in Hn. apply in_map_iff in Hn.
    destruct Hn as (r & Er & Hr). fold times in Er. rewrite <- Er.
    apply Hinst. exact Hr. }
  rewrite hd_nth, last_nth, slice_length by lia.
  rewrite !slice_nth by lia.
  replace (s + (e + 1 - s - 1))%nat with e by lia.
  rewrite Nat.add_0_r.
  change 0 with (inject_Z 0). rewrite <- Zle_Qle.
  assert (instant (nth s times (VInt 0)) <= instant (nth e times (VInt 0)))%Z;
    [| lia].
  apply instant_leb; [apply Hi; lia | apply Hi; lia |].
  apply sorted_cells_nth; [exact Hsorted | lia].
Qed.
End KeyPathDurations.

(** X5.  On any dataset, the durations key_path_analysis reports are not
    negative: the two optimal paths and the average duration. *)
Theorem key_path_durations_not_negative (df : Pandas.DataFrame)
    (user_id_col event_col timestamp_col : string)
    (start_event end_event : Cell) (max_steps : Z)
    (r : PathAnalysisService.KeyPathResult) :
  PathAnalysisService.key_path_analysis df user_id_col event_col
    timestamp_col start_event end_event max_steps
  = Ok (PathAnalysisService.KeyPaths r) ->
  0 <= PathAnalysisService.op_duration_seconds
         (PathAnalysisService.kr_min_steps r)
  /\ 0 <= PathAnalysisService.op_duration_seconds
            (PathAnalysisService.kr_min_duration r)
  /\ 0 <= PathAnalysisService.kr_avg_duration_seconds r.
Proof.
  unfold PathAnalysisService.key_path_analysis. intros H.
  inv_bind H. destruct a as [user_paths user_timestamps].
  cbn [fst snd] in H. injection H as H.
  pose proof (fun p => complete_path_duration _ _ _ _ _ _ start_event
                         end_event max_steps p E) as Hd.
  unfold PathAnalysisService.key_path_of_paths in H.
  destruct (PathAnalysisService.complete_paths start_event end_event
              max_steps user_paths user_timestamps) as [| first rest];
    [discriminate |].
  injection H as <-.
  cbn [PathAnalysisService.kr_min_steps PathAnalysisService.kr_min_duration
       PathAnalysisService.kr_avg_duration_seconds
       PathAnalysisService.optimal PathAnalysisService.op_duration_seconds].
  split; [apply Hd, min_by_In |].
  split; [apply Hd, min_by_In |].
  apply round_nonneg, mean_nonneg.
  change (Forall (fun x => 0 <= x)
            (map PathAnalysisService.cp_duration_seconds (first :: rest))).
  rewrite Forall_map. apply Forall_forall. exact Hd.
Qed.

(** The key paths from A to C in the [visits] dataset. *)
Lemma key_path_durations_not_negative_witness :
  exists r,
    PathAnalysisService.key_path_analysis Examples.visits
      "user" "event" "ts" (VStr "A") (VStr "C") 10
    = Ok (PathAnalysisService.KeyPaths r)
    /\ 0 <= PathAnalysisService.op_duration_seconds
              (PathAnalysisService.kr_min_steps r)
    /\ 0 <= PathAnalysisService.op_duration_seconds
              (PathAnalysisService.kr_min_duration r)
    /\ 0 <= PathAnalysisService.kr_avg_duration_seconds r.
Proof.
  eexists. split; [vm_compute; reflexivity |].
  apply (key_path_durations_not_negative Examples.visits
           "user" "event" "ts" (VStr "A") (VStr "C") 10).
  vm_compute. reflexivity.
Defined.

(* ================================================================== *)
(** ** Funnels: what the steps report *)

Section FunnelShape.
Import PathAnalysisService.

Lemma map_fst_combine (X Y : Type) (l1 : list X) (l2 : list Y) :
  List.length l1 = List.length l2 -> map fst (combine l1 l2) = l1.
Proof.
  revert l2. induction l1 as [| x l1 IH]; intros [| y l2]; simpl;
    intros H; try reflexivity; try discriminate.
  f_equal. apply IH. congruence.
Qed.

Lemma Forall2_map_same (X Y Z : Type) (R : Y -> Z -> Prop)
    (f : X -> Y) (g : X -> Z) (l : list X) :
  (forall x, In x l -> R (f x) (g x)) -> Forall2 R (map f l) (map g l).
Proof.
  induction l as [| x l IH]; intros H; cbn [map]; constructor.
  - apply H. left. reflexivity.
  - apply IH. intros y Hy. apply H. right. exact Hy.
Qed.

(** A step never holds more users than there are. *)
Lemma step_users_length funnel_steps time_window user_paths user_timestamps
    (i : nat) :
  (List.length
     (step_users funnel_steps time_window user_paths user_timestamps i)
   <= List.length user_paths)%nat.
Proof.
  unfold step_users.
  destruct (nth_error funnel_steps i) as [step |]; [| cbn; lia].
  rewrite length_map. unfold step_scan.
  induction user_paths as [| up ups IH]; cbn [flat_map List.length]; [lia |].
  rewrite length_app.
  destruct (fst (funnel_user _ _ _ _ _ _)); cbn [List.length]; lia.
Qed.

(** A time window only takes users away from a step. *)
Lemma step_users_window_le funnel_steps time_window user_paths
    user_timestamps (i : nat) :
  (List.length
     (step_users funnel_steps time_window user_paths user_timestamps i)
   <= List.length
        (step_users funnel_steps None user_paths user_timestamps i))%nat.
Proof.
  unfold step_users.
  destruct (nth_error funnel_steps i) as [step |]; [| cbn; lia].
  rewrite !length_map. unfold step_scan.
  induction user_paths as [| up ups IH]; cbn [flat_map List.length]; [lia |].
  rewrite !length_app.
  match goal with
  | |- context [funnel_user _ time_window _ _ _ ?ts] =>
      assert (Hf : fst (funnel_user funnel_steps time_window i step
                          (snd up) ts) = true ->
                   fst (funnel_user funnel_steps None i step (snd up) ts)
                   = true)
  end.
  { unfold funnel_user.
    destruct (Py.index step (snd up)); [| discriminate].
    intros _. reflexivity. }
  destruct (fst (funnel_user funnel_steps time_window _ _ _ _)).
  - rewrite (Hf eq_refl). cbn [List.length]. lia.
  - destruct (fst (funnel_user funnel_steps None _ _ _ _));
      cbn [List.length]; lia.
Qed.
End FunnelShape.

(** X6.  The funnel reports one entry per configured step, numbered from 1 and
    named after the step, in the configured order; no step holds more
    users than the dataset has. *)
Theorem funnel_reports_every_step (df : Pandas.DataFrame)
    (user_id_col event_col timestamp_col : string)
    (funnel_steps : list Cell) (time_window : option Z)
    (r : PathAnalysisService.FunnelResult) :
  PathAnalysisService.funnel_analysis df user_id_col event_col timestamp_col
    funnel_steps time_window = Ok r ->
  map PathAnalysisService.fs_name (PathAnalysisService.fr_funnel_steps r)
  = funnel_steps
  /\ map PathAnalysisService.fs_step (PathAnalysisService.fr_funnel_steps r)
     = seq 1 (List.length funnel_steps)
  /\ Forall (fun s => (PathAnalysisService.fs_users s
                       <= PathAnalysisService.fr_total_users r)%nat)
       (PathAnalysisService.fr_funnel_steps r).
Proof.
  unfold PathAnalysisService.funnel_analysis. intros H.
  inv_bind H. injection H as <-.
  unfold PathAnalysisService.funnel_of_paths.
  cbn [PathAnalysisService.fr_funnel_steps
       PathAnalysisService.fr_total_users].
  unfold enumerate.
  split; [| split].
  - rewrite map_map. cbn [PathAnalysisService.funnel_step_result
                          PathAnalysisService.fs_name].
    change (map (fun x : nat * Cell => snd x)
              (combine (seq 0 (List.length funnel_steps)) funnel_steps)
            = funnel_steps).
    apply map_snd_combine. apply length_seq.
  - rewrite map_map. cbn [PathAnalysisService.funnel_step_result
                          PathAnalysisService.fs_step].
    rewrite <- seq_shift.
    rewrite <- (map_fst_combine _ _ (seq 0 (List.length funnel_steps))
                  funnel_steps) at 2 by apply length_seq.
    rewrite map_map. apply map_ext. intros [i s]. cbn [fst]. lia.
  - apply Forall_map, Forall_forall. intros [i s] _.
    cbn [PathAnalysisService.funnel_step_result PathAnalysisService.fs_users
         fst snd].
    apply step_users_length.
Qed.

Lemma funnel_reports_every_step_witness :
  exists r,
    PathAnalysisService.funnel_analysis Examples.out_of_order
      "user" "event" "ts" [VStr "view"; VStr "pay"] (Some 24%Z) = Ok r
    /\ map PathAnalysisService.fs_name
         (PathAnalysisService.fr_funnel_steps r)
       = [VStr "view"; VStr "pay"]
    /\ map PathAnalysisService.fs_step
         (PathAnalysisService.fr_funnel_steps r)
       = seq 1 2
    /\ Forall (fun s => (PathAnalysisService.fs_users s
                         <= PathAnalysisService.fr_total_users r)%nat)
         (PathAnalysisService.fr_funnel_steps r).
Proof.
  eexists. split; [vm_compute; reflexivity |].
  apply (funnel_reports_every_step Examples.out_of_order
           "user" "event" "ts" [VStr "view"; VStr "pay"] (Some 24%Z)).
  vm_compute. reflexivity.
Defined.

(** X7.  Setting a time window never adds users to a step: when the funnel with
    a window can be computed, so can the funnel without one, and step by
    step the first reports at most the users the second reports. *)
Theorem funnel_window_never_adds_users (df : Pandas.DataFrame)
    (user_id_col event_col timestamp_col : string)
    (funnel_steps : list Cell) (time_window : option Z)
    (r : PathAnalysisService.FunnelResult) :
  PathAnalysisService.funnel_analysis df user_id_col event_col timestamp_col
    funnel_steps time_window = Ok r ->
  exists r0,
    PathAnalysisService.funnel_analysis df user_id_col event_col
      timestamp_col funnel_steps None = Ok r0
    /\ Forall2
         (fun a b =>
            PathAnalysisService.fs_name a = PathAnalysisService.fs_name b
            /\ (PathAnalysisService.fs_users a
                <= PathAnalysisService.fs_users b)%nat)
         (PathAnalysisService.fr_funnel_steps r)
         (PathAnalysisService.fr_funnel_steps r0).
Proof.
  unfold PathAnalysisService.funnel_analysis. intros H.
  inv_bind H. injection H as <-.
  eexists. split; [reflexivity |].
  unfold PathAnalysisService.funnel_of_paths.
  cbn [PathAnalysisService.fr_funnel_steps].
  apply Forall2_map_same. intros [i s] _.
  cbn [PathAnalysisService.funnel_step_result PathAnalysisService.fs_users
       PathAnalysisService.fs_name fst snd].
  split; [reflexivity | apply step_users_window_le].
Qed.

Lemma funnel_window_never_adds_users_witness :
  exists r r0,
    PathAnalysisService.funnel_analysis Examples.out_of_order
      "user" "event" "ts" [VStr "view"; VStr "pay"] (Some 24%Z) = Ok r
    /\ PathAnalysisService.funnel_analysis Examples.out_of_order
         "user" "event" "ts" [VStr "view"; VStr "pay"] None = Ok r0
    /\ Forall2
         (fun a b =>
            PathAnalysisService.fs_name a = PathAnalysisService.fs_name b
            /\ (PathAnalysisService.fs_users a
                <= PathAnalysisService.fs_users b)%nat)
         (PathAnalysisService.fr_funnel_steps r)
         (PathAnalysisService.fr_funnel_steps r0).
Proof.
  eexists.
  assert (H : PathAnalysisService.funnel_analysis Examples.out_of_order
                "user" "event" "ts" [VStr "view"; VStr "pay"] (Some 24%Z)
              = Ok _) by (vm_compute; reflexivity).
  destruct (funnel_window_never_adds_users _ _ _ _ _ _ _ H) as (r0 & H0 & HF).
  exists r0. split; [exact H |]. split; [exact H0 | exact HF].
Defined.

Section FunnelTimes.
Import Pandas Spec PathAnalysisService.

(** A time is recorded for a user only between the first occurrence of the
    previous step and a later first occurrence of the step, and under a
    window only when it fits the window. *)
Lemma funnel_user_time funnel_steps time_window (i : nat) (step : Cell)
    (events ts : list Cell) (t : Q) :
  snd (funnel_user funnel_steps time_window i step events ts) = Some t ->
  exists event_idx prev_idx,
    Py.index step events = Some event_idx
    /\ (prev_idx < event_idx)%nat
    /\ t = hours_between ts event_idx prev_idx
    /\ forall w, time_window = Some w -> (w <> 0)%Z -> t <= inject_Z w.
Proof.
  unfold funnel_user.
  destruct (Py.index step events) as [e |]; [| discriminate].
  destruct (window_on time_window && (0 <? i)%nat) eqn:Ew.
  - destruct (Py.index (nth (i - 1) funnel_steps (VInt 0)) events)
      as [p |]; [| discriminate].
    destruct time_window as [w |]; [| discriminate].
    destruct (p <? e)%nat eqn:El; [| discriminate].
    destruct (Qle_bool (hours_between ts e p) (inject_Z w)) eqn:Eq;
      [| discriminate].
    cbn [snd]. intros H. injection H as <-.
    exists e, p. apply Nat.ltb_lt in El. apply Qle_bool_iff in Eq.
    repeat split; try assumption.
    intros w' Hw' _. injection Hw' as <-. exact Eq.
  - cbn [snd]. destruct (0 <? i)%nat eqn:Ei; [| discriminate].
    destruct (Py.index (nth (i - 1) funnel_steps (VInt 0)) events)
      as [p |]; [| discriminate].
    destruct (p <? e)%nat eqn:El; [| discriminate].
    intros H. injection H as <-.
    exists e, p. apply Nat.ltb_lt in El.
    repeat split; try assumption.
    intros w Hw Hnz. subst time_window. cbn [window_on] in Ew.
    apply Z.eqb_neq in Hnz. rewrite Hnz in Ew. discriminate.
Qed.

Lemma mean_le (l : list Q) (c : Q) :
  l <> [] -> Forall (fun x => x <= c) l -> mean l <= c.
Proof.
  intros Hne H. unfold mean.
  assert (Hn : 0 < qnat (List.length l)).
  { unfold qnat. change 0 with (inject_Z 0). rewrite <- Zlt_Qlt.
    destruct l; [congruence | cbn [List.length]; lia]. }
  apply Qle_shift_div_r; [exact Hn |].
  clear Hne Hn. induction H as [| x l Hx _ IH].
  - unfold qnat. cbn [List.length Z.of_nat Py.qsum fold_right].
    change (inject_Z 0) with 0. rewrite Qmult_0_r. apply Qle_refl.
  - rewrite qsum_cons. cbn [List.length]. unfold qnat in *.
    rewrite Nat2Z.inj_succ, <- Z.add_1_r, inject_Z_plus.
    change (inject_Z 1) with 1. rewrite Qmult_plus_distr_r.
    set (m := c * inject_Z (Z.of_nat (List.length l))) in *. lra.
Qed.

(** The times recorded at a step of a funnel over a dataset. *)
Lemma step_times_bounds (df : DataFrame)
    (user_id_col event_col timestamp_col : string)
    (user_paths user_timestamps : list (Cell * list Cell))
    funnel_steps time_window (i : nat) :
  user_lists df user_id_col event_col timestamp_col
  = Ok (user_paths, user_timestamps) ->
  Forall (fun t => 0 <= t
                   /\ forall w, time_window = Some w -> (w <> 0)%Z ->
                        t <= inject_Z w)
    (step_times funnel_steps time_window user_paths user_timestamps i).
Proof.
  intros Hul. apply user_lists_groups in Hul.
  destruct Hul as (ie & it & gs & -> & -> & Hinc & Hgs).
  unfold step_times.
  destruct (nth_error funnel_steps i) as [step |]; [| constructor].
  apply Forall_forall. intros t Ht.
  apply in_flat_map in Ht. destruct Ht as ([u o] & Hscan & Ht).
  cbn [snd] in Ht. destruct o as [t' |]; [| destruct Ht].
  destruct Ht as [-> | []].
  unfold step_scan in Hscan. apply in_flat_map in Hscan.
  destruct Hscan as (up & Hup & Hscan).
  apply in_map_iff in Hup. destruct Hup as (g & <- & Hg).
  cbn [fst snd] in Hscan.
  rewrite (get_group _ (fun g0 => map (fun r => cell r it) (snd g0))
             gs g Hinc Hg) in Hscan.
  destruct (fst (funnel_user _ _ _ _ _ _)); [| destruct Hscan].
  destruct Hscan as [Hscan | []]. injection Hscan as _ Hsnd.
  apply funnel_user_time in Hsnd.
  destruct Hsnd as (e & p & He & Hlt & -> & Hw).
  split; [| exact Hw].
  pose proof (index_lt _ _ _ He) as Hlen. rewrite length_map in Hlen.
  rewrite Forall_forall in Hgs. destruct (Hgs g Hg) as [Hsorted Hinst].
  set (times := map (fun r => cell r it) (snd g)) in *.
  assert (Hl : List.length times = List.length (snd g))
    by (unfold times; apply length_map).
  assert (Hi : forall k, (k < List.length times)%nat ->
                 is_instant (nth k times (VInt 0)) = true).
  { intros k Hk. rewrite Forall_forall in Hinst.
    assert (Hn : In (nth k times (VInt 0)) times) by (apply nth_In; exact Hk).
    unfold times in Hn. apply in_map_iff in Hn.
    destruct Hn as (r & Er & Hr). fold times in Er. rewrite <- Er.
    apply Hinst. exact Hr. }
  unfold hours_between.
  assert (Hle : (instant (nth p times (VInt 0))
                 <= instant (nth e times (VInt 0)))%Z).
  { apply instant_leb; [apply Hi; lia | apply Hi; lia |].
    apply sorted_cells_nth; [exact Hsorted | lia]. }
  unfold Qdiv. apply Qmult_le_0_compat; [| discriminate].
  change 0 with (inject_Z 0). rewrite <- Zle_Qle. lia.
Qed.
End FunnelTimes.

(** X8.  The average time a funnel reports for a step is never negative, and
    under a time window of [w > 0] hours it is at most [w]. *)
Theorem funnel_average_time_within_window (df : Pandas.DataFrame)
    (user_id_col event_col timestamp_col : string)
    (funnel_steps : list Cell) (time_window : option Z)
    (r : PathAnalysisService.FunnelResult) :
  PathAnalysisService.funnel_analysis df user_id_col event_col timestamp_col
    funnel_steps time_window = Ok r ->
  Forall
    (fun s =>
       0 <= PathAnalysisService.fs_avg_time_from_prev s
       /\ forall w, time_window = Some w -> (0 < w)%Z ->
            PathAnalysisService.fs_avg_time_from_prev s <= inject_Z w)
    (PathAnalysisService.fr_funnel_steps r).
Proof.
  unfold PathAnalysisService.funnel_analysis. intros H.
  inv_bind H. destruct a as [user_paths user_timestamps].
  cbn [fst snd] in H. injection H as <-.
  unfold PathAnalysisService.funnel_of_paths.
  cbn [PathAnalysisService.fr_funnel_steps].
  apply Forall_map, Forall_forall. intros [i s] _.
  cbn [PathAnalysisService.funnel_step_result
       PathAnalysisService.fs_avg_time_from_prev fst snd].
  pose proof (step_times_bounds _ _ _ _ _ _ funnel_steps time_window i E)
    as Hb.
  destruct (PathAnalysisService.step_times funnel_steps time_window
              user_paths user_timestamps i) as [| t ts] eqn:Et.
  - split.
    + apply round_nonneg. apply Qle_refl.
    + intros w _ Hw. rewrite (round_integer 0 2).
      change 0 with (inject_Z 0). rewrite <- Zle_Qle. lia.
  - split.
    + apply round_nonneg, mean_nonneg.
      eapply Forall_impl; [| exact Hb]. intros x [Hx _]. exact Hx.
    + intros w Hw Hpos. rewrite <- (round_integer w 2).
      apply round_mono. apply mean_le; [discriminate |].
      eapply Forall_impl; [| exact Hb]. intros x [_ Hx].
      apply (Hx w Hw). lia.
Qed.

(** The funnel A, C over the [visits] dataset with a window of one hour. *)
Lemma funnel_average_time_within_window_witness :
  exists r,
    PathAnalysisService.funnel_analysis Examples.visits
      "user" "event" "ts" [VStr "A"; VStr "C"] (Some 1%Z) = Ok r
    /\ Forall
         (fun s =>
            0 <= PathAnalysisService.fs_avg_time_from_prev s
            /\ forall w, Some 1%Z = Some w -> (0 < w)%Z ->
                 PathAnalysisService.fs_avg_time_from_prev s <= inject_Z w)
         (PathAnalysisService.fr_funnel_steps r).
Proof.
  eexists. split; [vm_compute; reflexivity |].
  apply (funnel_average_time_within_window Examples.visits
           "user" "event" "ts" [VStr "A"; VStr "C"] (Some 1%Z)).
  vm_compute. reflexivity.
Defined.

(* ================================================================== *)
(** ** Path analysis: counts, top paths and links *)

Section DictInvariant.
Variables K V : Type.
Variable eqb : K -> K -> bool.

(** A property of the entries that an update keeps. *)
Lemma upd_Forall (P : K * V -> Prop) (dflt : V) (f : V -> V) (k : K)
    (d : Dict.t K V) :
  Forall P d ->
  (forall k' v, P (k', v) -> P (k', f v)) ->
  P (k, f dflt) ->
  Forall P (Dict.upd eqb dflt f k d).
Proof.
  intros Hd Hf Hk. induction Hd as [| [k' v] d Hv Hd IH]; cbn [Dict.upd].
  - constructor; [exact Hk | constructor].
  - destruct (eqb k' k); constructor; try assumption.
    apply Hf. exact Hv.
Qed.
End DictInvariant.

Lemma StronglySorted_filter (X : Type) (R : X -> X -> Prop)
    (f : X -> bool) (l : list X) :
  StronglySorted R l -> StronglySorted R (filter f l).
Proof.
  induction 1 as [| a l Hs IH Ha]; cbn [filter]; [constructor |].
  destruct (f a); [| exact IH].
  constructor; [exact IH |].
  rewrite Forall_forall in *. intros x Hx. apply filter_In in Hx.
  apply Ha. apply Hx.
Qed.

Lemma StronglySorted_map (X Y : Type) (f : X -> Y) (R : Y -> Y -> Prop)
    (l : list X) :
  StronglySorted (fun a b => R (f a) (f b)) l -> StronglySorted R (map f l).
Proof.
  induction 1 as [| a l Hs IH Ha]; cbn [map]; constructor.
  - exact IH.
  - apply Forall_map. exact Ha.
Qed.

Lemma length_le_sum (X : Type) (l : list (X * nat)) :
  Forall (fun kv => (1 <= snd kv)%nat) l ->
  (List.length l <= list_sum (map snd l))%nat.
Proof.
  induction 1 as [| kv l Hk _ IH]; cbn [List.length map]; [cbn; lia |].
  rewrite list_sum_cons. lia.
Qed.

Lemma slice_to_length (X : Type) (n : Z) (l : list X) :
  (0 <= n)%Z -> (Z.of_nat (List.length (Py.slice_to n l)) <= n)%Z.
Proof.
  intros H. unfold Py.slice_to.
  apply Z.leb_le in H. rewrite H. apply Z.leb_le in H.
  rewrite length_firstn. lia.
Qed.

Section PathCounts.
Import PathAnalysisService.

Lemma count_paths_sum (user_paths : list (Cell * list Cell)) (n : Z) :
  list_sum (map snd (count_paths user_paths n)) = List.length user_paths.
Proof.
  unfold count_paths.
  rewrite (fold_upd_sum _ path_eqb _
             (fun up : Cell * list Cell => Py.slice_to n (snd up))).
  reflexivity.
Qed.

Lemma count_paths_positive (user_paths : list (Cell * list Cell)) (n : Z) :
  Forall (fun kv => (1 <= snd kv)%nat) (count_paths user_paths n).
Proof.
  unfold count_paths.
  apply (fold_upd_positive _ path_eqb _
           (fun up : Cell * list Cell => Py.slice_to n (snd up))).
  constructor.
Qed.

Lemma count_paths_keys (user_paths : list (Cell * list Cell)) (n : Z)
    (kv : list Cell * nat) :
  In kv (count_paths user_paths n) ->
  exists up, In up user_paths /\ fst kv = Py.slice_to n (snd up).
Proof.
  unfold count_paths. intros H.
  destruct (fold_upd_keys _ path_eqb _
              (fun up : Cell * list Cell => Py.slice_to n (snd up))
              _ _ _ H) as [Hx | (v & [])].
  exact Hx.
Qed.

(** The top paths are the frequent ones among the 20 most common. *)
Lemma top_paths_filter (pc : PathCounter) (min_user_count : Z)
    (n_users : nat) :
  top_paths pc min_user_count n_users
  = map (fun p => {| tp_path := fst p; tp_user_count := snd p;
                     tp_percentage :=
                       Py.round (qnat (snd p) / qnat n_users * 100) 2 |})
      (filter (fun p => frequent min_user_count (snd p))
         (most_common 20 pc)).
Proof.
  unfold top_paths. induction (most_common 20 pc) as [| p l IH];
    cbn [flat_map filter map]; [reflexivity |].
  rewrite IH. destruct (frequent min_user_count (snd p)); reflexivity.
Qed.

Lemma list_sum_filter (X : Type) (f : X -> bool) (g : X -> nat)
    (l : list X) :
  (list_sum (map g (filter f l)) <= list_sum (map g l))%nat.
Proof.
  induction l as [| x l IH]; cbn [filter map]; [lia |].
  destruct (f x); cbn [map]; rewrite ?list_sum_cons; lia.
Qed.
End PathCounts.

(** X9.  Path analysis counts every user once.  There are at most as many
    distinct paths as users; the top paths are at most 20, listed by
    decreasing user count, none longer than [max_path_length], and their
    user counts add up to no more than the number of users. *)
Theorem path_analysis_counts_every_user_once (df : Pandas.DataFrame)
    (user_id_col event_col timestamp_col : string)
    (max_path_length min_user_count : Z)
    (r : PathAnalysisService.PathResult) :
  PathAnalysisService.path_analysis df user_id_col event_col timestamp_col
    max_path_length min_user_count = Ok r ->
  (PathAnalysisService.pr_total_paths r
   <= PathAnalysisService.pr_total_users r)%nat
  /\ (List.length (PathAnalysisService.pr_top_paths r) <= 20)%nat
  /\ StronglySorted
       (fun a b => (PathAnalysisService.tp_user_count b
                    <= PathAnalysisService.tp_user_count a)%nat)
       (PathAnalysisService.pr_top_paths r)
  /\ (list_sum (map PathAnalysisService.tp_user_count
                  (PathAnalysisService.pr_top_paths r))
      <= PathAnalysisService.pr_total_users r)%nat
  /\ Forall
       (fun t =>
          (0 <= max_path_length)%Z ->
          (Z.of_nat (List.length (PathAnalysisService.tp_path t))
           <= max_path_length)%Z)
       (PathAnalysisService.pr_top_paths r).
Proof.
  unfold PathAnalysisService.path_analysis. intros H.
  inv_bind H. destruct a as [user_paths user_timestamps].
  cbn [fst] in H. injection H as <-.
  unfold PathAnalysisService.path_of_paths.
  cbn [PathAnalysisService.pr_total_paths PathAnalysisService.pr_total_users
       PathAnalysisService.pr_top_paths].
  rewrite top_paths_filter.
  set (pc := PathAnalysisService.count_paths user_paths max_path_length).
  split; [| split; [| split; [| split]]].
  - rewrite <- (count_paths_sum user_paths max_path_length).
    apply length_le_sum, count_paths_positive.
  - rewrite length_map.
    etransitivity; [apply filter_length_le |].
    unfold PathAnalysisService.most_common. rewrite length_firstn. lia.
  - apply StronglySorted_map. cbn [PathAnalysisService.tp_user_count].
    apply StronglySorted_filter.
    unfold PathAnalysisService.most_common.
    apply Sorted_StronglySorted; [intros a b c; lia |].
    apply Sorted_firstn.
    apply (sort_desc_sorted _ (fun a : list Cell * nat => snd a)).
  - rewrite map_map. cbn [PathAnalysisService.tp_user_count].
    etransitivity; [apply list_sum_filter |].
    unfold PathAnalysisService.most_common. rewrite <- firstn_map.
    etransitivity; [apply list_sum_firstn |].
    rewrite <- (list_sum_perm _ _ (Permutation_map snd (sort_perm _ pc))).
    unfold pc. rewrite count_paths_sum. lia.
  - apply Forall_map, Forall_forall. intros kv Hkv Hmax.
    cbn [PathAnalysisService.tp_path].
    apply filter_In in Hkv. destruct Hkv as [Hkv _].
    unfold PathAnalysisService.most_common in Hkv.
    apply firstn_In, sort_In in Hkv.
    destruct (count_paths_keys _ _ _ Hkv) as (up & _ & ->).
    apply slice_to_length. exact Hmax.
Qed.

(** Path analysis of the [visits] dataset with paths of at most two events. *)
Lemma path_analysis_counts_every_user_once_witness :
  exists r,
    PathAnalysisService.path_analysis Examples.visits
      "user" "event" "ts" 2 1 = Ok r
    /\ (PathAnalysisService.pr_total_paths r
        <= PathAnalysisService.pr_total_users r)%nat
    /\ (List.length (PathAnalysisService.pr_top_paths r) <= 20)%nat
    /\ StronglySorted
         (fun a b => (PathAnalysisService.tp_user_count b
                      <= PathAnalysisService.tp_user_count a)%nat)
         (PathAnalysisService.pr_top_paths r)
    /\ (list_sum (map PathAnalysisService.tp_user_count
                    (PathAnalysisService.pr_top_paths r))
        <= PathAnalysisService.pr_total_users r)%nat
    /\ Forall
         (fun t =>
            (0 <= 2)%Z ->
            (Z.of_nat (List.length (PathAnalysisService.tp_path t)) <= 2)%Z)
         (PathAnalysisService.pr_top_paths r).
Proof.
  eexists. split; [vm_compute; reflexivity |].
  apply (path_analysis_counts_every_user_once Examples.visits
           "user" "event" "ts" 2 1).
  vm_compute. reflexivity.
Defined.

Section Links.
Import PathAnalysisService.

Lemma sankey_path_Forall (P : nat * nat * nat -> Prop) (nodes : list Cell)
    (n : nat) (path seen : list Cell) (lc : LinkCounter) :
  (forall k v, P (k, v) -> P (k, (v + n)%nat)) ->
  (forall s t, (s < List.length nodes)%nat -> (t < List.length nodes)%nat ->
               s <> t -> P ((s, t), (0 + n)%nat)) ->
  Forall P lc -> Forall P (sankey_path nodes n seen path lc).
Proof.
  intros Hold Hnew. revert seen lc.
  induction path as [| x path IH]; intros seen lc Hlc; [exact Hlc |].
  destruct path as [| y rest]; [exact Hlc |].
  cbn [sankey_path].
  destruct (Py.mem y seen); [apply IH; exact Hlc |].
  apply IH.
  destruct (Py.index x nodes) as [s |] eqn:Es; [| exact Hlc].
  destruct (Py.index y nodes) as [t |] eqn:Et; [| exact Hlc].
  destruct (s =? t)%nat eqn:Est; cbn [negb]; [exact Hlc |].
  apply upd_Forall; [exact Hlc | exact Hold |].
  apply Hnew.
  - eapply index_lt; eassumption.
  - eapply index_lt; eassumption.
  - apply Nat.eqb_neq. exact Est.
Qed.

Lemma sankey_links_Forall (pc : PathCounter) (min_user_count : Z)
    (nodes : list Cell) :
  Forall
    (fun l : nat * nat * nat =>
       fst (fst l) <> snd (fst l)
       /\ (fst (fst l) < List.length nodes)%nat
       /\ (snd (fst l) < List.length nodes)%nat
       /\ (min_user_count <= Z.of_nat (snd l))%Z)
    (sankey_links pc min_user_count nodes).
Proof.
  unfold sankey_links.
  generalize (@Forall_nil (nat * nat * nat)
                (fun l => fst (fst l) <> snd (fst l)
                          /\ (fst (fst l) < List.length nodes)%nat
                          /\ (snd (fst l) < List.length nodes)%nat
                          /\ (min_user_count <= Z.of_nat (snd l))%Z)).
  generalize (@nil (nat * nat * nat)).
  induction pc as [| p pc' IH]; intros lc Hlc; cbn [fold_left];
    [exact Hlc |].
  apply IH.
  destruct (frequent min_user_count (snd p)) eqn:Ef; [| exact Hlc].
  unfold frequent in Ef. apply Z.leb_le in Ef.
  apply sankey_path_Forall; [| | exact Hlc].
  - intros k v (H1 & H2 & H3 & H4). cbn [fst snd] in *.
    repeat split; try assumption; lia.
  - intros s t Hs Ht Hne. cbn [fst snd].
    repeat split; try assumption; lia.
Qed.

Lemma mem_app (x : Cell) (l1 l2 : list Cell) :
  Py.mem x (l1 ++ l2) = Py.mem x l1 || Py.mem x l2.
Proof. unfold Py.mem. apply existsb_app. Qed.

Lemma mem_In (x : Cell) (l : list Cell) : In x l -> Py.mem x l = true.
Proof.
  intros H. unfold Py.mem. apply existsb_exists. exists x.
  split; [exact H | apply cell_eqb_refl].
Qed.

Lemma add_nodes_keeps (x : Cell) (path nodes : list Cell) :
  Py.mem x nodes = true -> Py.mem x (add_nodes nodes path) = true.
Proof.
  unfold add_nodes. revert nodes.
  induction path as [| ev path IH]; intros nodes H; cbn [fold_left];
    [exact H |].
  apply IH. destruct (Py.mem ev nodes); [exact H |].
  rewrite mem_app, H. reflexivity.
Qed.

Lemma add_nodes_adds (x : Cell) (path nodes : list Cell) :
  In x path -> Py.mem x (add_nodes nodes path) = true.
Proof.
  revert nodes. induction path as [| ev path IH]; intros nodes H;
    [destruct H |]. destruct H as [<- | H].
  - unfold add_nodes. cbn [fold_left]. apply add_nodes_keeps.
    destruct (Py.mem ev nodes) eqn:E; [exact E |].
    rewrite mem_app. cbn [Py.mem existsb].
    rewrite cell_eqb_refl, orb_true_r. reflexivity.
  - unfold add_nodes. cbn [fold_left]. apply IH. exact H.
Qed.

(** Every event of a frequent path is a node. *)
Lemma build_nodes_has (pc : PathCounter) (min_user_count : Z)
    (p : list Cell * nat) (x : Cell) :
  In p pc -> frequent min_user_count (snd p) = true -> In x (fst p) ->
  Py.mem x (build_nodes pc min_user_count) = true.
Proof.
  unfold build_nodes. generalize (@nil Cell).
  induction pc as [| q pc IH]; intros nodes Hp Hf Hx; [destruct Hp |].
  cbn [fold_left]. destruct Hp as [-> | Hp].
  - rewrite Hf.
    assert (G : forall l ns, Py.mem x ns = true ->
                  Py.mem x
                    (fold_left
                       (fun ns0 p0 => if frequent min_user_count (snd p0)
                                      then add_nodes ns0 (fst p0) else ns0)
                       l ns) = true).
    { induction l as [| q l IHl]; intros ns Hns; cbn [fold_left];
        [exact Hns |].
      apply IHl. destruct (frequent min_user_count (snd q)); [| exact Hns].
      apply add_nodes_keeps. exact Hns. }
    apply G. apply add_nodes_adds. exact Hx.
  - apply IH; assumption.
Qed.

Lemma graph_path_In (n : nat) (path : list Cell) (s t : Cell) (c : nat) :
  In (s, t, c) (graph_path n path) ->
  c = n /\ cell_eqb s t = false /\ In s path /\ In t path.
Proof.
  induction path as [| x path IH]; [intros [] |].
  destruct path as [| y rest]; [intros [] |].
  cbn [graph_path]. intros H. apply in_app_or in H. destruct H as [H | H].
  - destruct (cell_eqb x y) eqn:E; [destruct H |].
    destruct H as [H | []]. injection H as <- <- <-.
    repeat split; [exact E | left; reflexivity | right; left; reflexivity].
  - destruct (IH H) as (Hc & He & Hs & Ht).
    repeat split; try assumption; right; assumption.
Qed.
End Links.

(** X10.  The links of the two graphs of path analysis join two different nodes
    of the graph, and each carries at least [min_user_count] users.  A
    flow link names its ends by their positions in the node list; a link
    of the force graph names them by the events. *)
Theorem path_links_join_different_nodes (df : Pandas.DataFrame)
    (user_id_col event_col timestamp_col : string)
    (max_path_length min_user_count : Z)
    (r : PathAnalysisService.PathResult) :
  PathAnalysisService.path_analysis df user_id_col event_col timestamp_col
    max_path_length min_user_count = Ok r ->
  Forall
    (fun l : nat * nat * nat =>
       fst (fst l) <> snd (fst l)
       /\ (fst (fst l)
           < List.length (PathAnalysisService.pr_sankey_nodes r))%nat
       /\ (snd (fst l)
           < List.length (PathAnalysisService.pr_sankey_nodes r))%nat
       /\ (min_user_count <= Z.of_nat (snd l))%Z)
    (PathAnalysisService.pr_sankey_links r)
  /\ Forall
       (fun l : Cell * Cell * nat =>
          cell_eqb (fst (fst l)) (snd (fst l)) = false
          /\ Py.mem (fst (fst l)) (PathAnalysisService.pr_graph_nodes r)
             = true
          /\ Py.mem (snd (fst l)) (PathAnalysisService.pr_graph_nodes r)
             = true
          /\ (min_user_count <= Z.of_nat (snd l))%Z)
       (PathAnalysisService.pr_graph_links r).
Proof.
  unfold PathAnalysisService.path_analysis. intros H.
  inv_bind H. destruct a as [user_paths user_timestamps].
  cbn [fst] in H. injection H as <-.
  unfold PathAnalysisService.path_of_paths.
  cbn [PathAnalysisService.pr_sankey_links PathAnalysisService.pr_sankey_nodes
       PathAnalysisService.pr_graph_links PathAnalysisService.pr_graph_nodes].
  set (pc := PathAnalysisService.count_paths user_paths max_path_length).
  set (nodes := PathAnalysisService.build_nodes pc min_user_count).
  split.
  - apply sankey_links_Forall.
  - unfold PathAnalysisService.graph_links.
    apply Forall_forall. intros [[s t] c] Hin.
    apply in_flat_map in Hin. destruct Hin as (p & Hp & Hin).
    destruct (PathAnalysisService.frequent min_user_count (snd p)) eqn:Ef;
      [| destruct Hin].
    apply graph_path_In in Hin. destruct Hin as (-> & He & Hs & Ht).
    cbn [fst snd]. split; [exact He |].
    split; [eapply build_nodes_has; eassumption |].
    split; [eapply build_nodes_has; eassumption |].
    unfold PathAnalysisService.frequent in Ef. apply Z.leb_le in Ef.
    exact Ef.
Qed.

(** Path analysis of the [round_trip] dataset. *)
Lemma path_links_join_different_nodes_witness :
  exists r,
    PathAnalysisService.path_analysis Examples.round_trip
      "user" "event" "ts" 10 1 = Ok r
    /\ Forall
         (fun l : nat * nat * nat =>
            fst (fst l) <> snd (fst l)
            /\ (fst (fst l)
                < List.length (PathAnalysisService.pr_sankey_nodes r))%nat
            /\ (snd (fst l)
                < List.length (PathAnalysisService.pr_sankey_nodes r))%nat
            /\ (1 <= Z.of_nat (snd l))%Z)
         (PathAnalysisService.pr_sankey_links r)
    /\ Forall
         (fun l : Cell * Cell * nat =>
            cell_eqb (fst (fst l)) (snd (fst l)) = false
            /\ Py.mem (fst (fst l)) (PathAnalysisService.pr_graph_nodes r)
               = true
            /\ Py.mem (snd (fst l)) (PathAnalysisService.pr_graph_nodes r)
               = true
            /\ (1 <= Z.of_nat (snd l))%Z)
         (PathAnalysisService.pr_graph_links r).
Proof.
  eexists. split; [vm_compute; reflexivity |].
  apply (path_links_join_different_nodes Examples.round_trip
           "user" "event" "ts" 10 1).
  vm_compute. reflexivity.
Defined.

Section Cycles.
Import PathAnalysisService Spec.

Lemma count_of_cons (x e : Cell) (l : list Cell) :
  count_of x (e :: l)
  = ((if cell_eqb e x then 1 else 0) + count_of x l)%nat.
Proof.
  unfold count_of. cbn [filter]. destruct (cell_eqb e x); reflexivity.
Qed.

Lemma mem_count (x : Cell) (l : list Cell) :
  Py.mem x l = true <-> (1 <= count_of x l)%nat.
Proof.
  unfold Py.mem. induction l as [| e l IH]; cbn [existsb].
  - unfold count_of. cbn. split; [discriminate | lia].
  - rewrite count_of_cons, (cell_eqb_sym x e).
    destruct (cell_eqb e x); cbn [orb]; [split; [lia | reflexivity] |].
    rewrite IH. split; lia.
Qed.

(** A node is listed as a cycle node only if it is visited twice. *)
Lemma cycle_nodes_repeated (path seen acc : list Cell) (x : Cell) :
  In x (cycle_nodes seen acc path) ->
  In x acc \/ (2 <= count_of x seen + count_of x path)%nat.
Proof.
  revert seen acc. induction path as [| node rest IH]; intros seen acc;
    cbn [cycle_nodes]; [left; assumption |].
  intros H. apply IH in H. rewrite !count_of_cons in *.
  destruct H as [H | H]; [| right; lia].
  destruct (Py.mem node seen && negb (Py.mem node acc)) eqn:E;
    [| left; exact H].
  apply in_app_or in H. destruct H as [H | [<- | []]]; [left; exact H |].
  right. apply andb_true_iff in E. destruct E as [E _].
  apply mem_count in E. rewrite cell_eqb_refl. lia.
Qed.

Lemma cycle_nodes_grows (path seen acc : list Cell) :
  cycle_nodes seen acc path = [] -> acc = [].
Proof.
  revert seen acc. induction path as [| node rest IH]; intros seen acc;
    cbn [cycle_nodes]; [trivial |].
  intros H. apply IH in H.
  destruct (Py.mem node seen && negb (Py.mem node acc)); [| exact H].
  apply app_eq_nil in H. destruct H as [_ H]. discriminate.
Qed.

(** A path without cycle nodes visits no event twice. *)
Lemma cycle_nodes_none (path seen : list Cell) :
  cycle_nodes seen [] path = [] ->
  forall x, (Py.mem x seen = true -> count_of x path = 0%nat)
            /\ (count_of x path <= 1)%nat.
Proof.
  revert seen. induction path as [| node rest IH]; intros seen H x.
  - unfold count_of. cbn. split; [reflexivity | lia].
  - cbn [cycle_nodes] in H.
    destruct (Py.mem node seen) eqn:Em; cbn [andb negb Py.mem existsb] in H.
    + apply cycle_nodes_grows in H. discriminate.
    + destruct (IH _ H x) as [H0 H1]. rewrite count_of_cons.
      destruct (cell_eqb node x) eqn:Ex.
      * assert (Hx : Py.mem x (node :: seen) = true).
        { cbn [Py.mem existsb]. rewrite cell_eqb_sym, Ex. reflexivity. }
        rewrite (H0 Hx). split; [| lia].
        intros Hs. exfalso.
        assert (Py.mem node seen = true); [| congruence].
        unfold Py.mem in *. apply existsb_exists in Hs.
        destruct Hs as (y & Hy & Exy). apply existsb_exists. exists y.
        split; [exact Hy |]. apply cell_eqb_trans with x; assumption.
      * split; [| lia]. intros Hs. cbn [Nat.add]. apply H0.
        cbn [Py.mem existsb]. unfold Py.mem in Hs. rewrite Hs.
        apply orb_true_r.
Qed.
End Cycles.

Section CountedKeys.
Variable K : Type.
Variable eqb : K -> K -> bool.
Hypothesis eqb_refl : forall k, eqb k k = true.

Lemma upd_has (k k0 : K) (c : list (K * nat)) :
  (exists kv, In kv c /\ eqb (fst kv) k0 = true) ->
  exists kv, In kv (Dict.upd eqb 0%nat S k c) /\ eqb (fst kv) k0 = true.
Proof.
  induction c as [| [k' v] c IH]; intros (kv & Hin & Hk); [destruct Hin |].
  cbn [Dict.upd]. destruct Hin as [<- | Hin].
  - destruct (eqb k' k); eexists; (split; [left; reflexivity | exact Hk]).
  - destruct (eqb k' k).
    + exists kv. split; [right; exact Hin | exact Hk].
    + destruct IH as (kv' & Hin' & Hk'); [exists kv; auto |].
      exists kv'. split; [right; exact Hin' | exact Hk'].
Qed.

Lemma upd_has_new (k : K) (c : list (K * nat)) :
  exists kv, In kv (Dict.upd eqb 0%nat S k c) /\ eqb (fst kv) k = true.
Proof.
  induction c as [| [k' v] c IH]; cbn [Dict.upd].
  - eexists. split; [left; reflexivity | apply eqb_refl].
  - destruct (eqb k' k) eqn:E.
    + eexists. split; [left; reflexivity | exact E].
    + destruct IH as (kv & Hin & Hk).
      exists kv. split; [right; exact Hin | exact Hk].
Qed.

(** Every counted element has an entry under a key equal to its own. *)
Lemma fold_upd_has (X : Type) (key : X -> K) (l : list X)
    (c : list (K * nat)) (x : X) :
  In x l ->
  exists kv,
    In kv (fold_left (fun c' y => Dict.upd eqb 0%nat S (key y) c') l c)
    /\ eqb (fst kv) (key x) = true.
Proof.
  assert (G : forall l0 c0 k0,
             (exists kv, In kv c0 /\ eqb (fst kv) k0 = true) ->
             exists kv,
               In kv (fold_left
                        (fun c' y => Dict.upd eqb 0%nat S (key y) c') l0 c0)
               /\ eqb (fst kv) k0 = true).
  { induction l0 as [| y l0 IH]; intros c0 k0 H; cbn [fold_left];
      [exact H |].
    apply IH. apply upd_has. exact H. }
  revert c. induction l as [| y l IH]; intros c Hin; [destruct Hin |].
  cbn [fold_left]. destruct Hin as [-> | Hin].
  - apply G. apply upd_has_new.
  - apply IH. exact Hin.
Qed.
End CountedKeys.

Lemma path_eqb_refl (p : list Cell) : path_eqb p p = true.
Proof.
  induction p as [| a p IH]; cbn [path_eqb]; [reflexivity |].
  rewrite cell_eqb_refl, IH. reflexivity.
Qed.

Lemma count_of_path_eqb (x : Cell) (p q : list Cell) :
  path_eqb p q = true -> Spec.count_of x p = Spec.count_of x q.
Proof.
  revert q. induction p as [| a p IH]; intros [| b q]; cbn [path_eqb];
    try discriminate; [reflexivity |].
  intros H. apply andb_true_iff in H. destruct H as [Hab Hpq].
  rewrite !count_of_cons, (IH q Hpq). f_equal.
  destruct (cell_eqb a x) eqn:Ea, (cell_eqb b x) eqn:Eb; try reflexivity.
  - assert (cell_eqb b x = true).
    { apply cell_eqb_trans with a; [rewrite cell_eqb_sym |]; assumption. }
    congruence.
  - assert (cell_eqb a x = true)
      by (apply cell_eqb_trans with b; assumption).
    congruence.
Qed.

(** X11.  The cycle flag of path analysis is exact.  Every path reported with
    cycle nodes visits each of them at least twice, at most ten such paths
    are reported, and when the flag is off no user's path visits any event
    twice. *)
Theorem cycle_flag_means_repeated_event
    (user_paths : list (Cell * list Cell))
    (max_path_length min_user_count : Z) :
  let r := PathAnalysisService.path_of_paths user_paths max_path_length
             min_user_count in
  (List.length (PathAnalysisService.pr_cycle_details r) <= 10)%nat
  /\ Forall
       (fun d =>
          PathAnalysisService.cd_cycle_nodes d <> []
          /\ Forall
               (fun x => (2 <= Spec.count_of x
                                 (PathAnalysisService.cd_path d))%nat)
               (PathAnalysisService.cd_cycle_nodes d))
       (PathAnalysisService.pr_cycle_details r)
  /\ (PathAnalysisService.pr_has_cycle_in_data r = false ->
      PathAnalysisService.pr_cycle_details r = []
      /\ forall u events x,
           In (u, events) user_paths ->
           (Spec.count_of x (Py.slice_to max_path_length events) <= 1)%nat).
Proof.
  cbv zeta. unfold PathAnalysisService.path_of_paths.
  cbn [PathAnalysisService.pr_cycle_details
       PathAnalysisService.pr_has_cycle_in_data].
  set (pc := PathAnalysisService.count_paths user_paths max_path_length).
  set (cycles := PathAnalysisService.cycles_detected pc).
  assert (Hc : Forall
                 (fun d =>
                    PathAnalysisService.cd_cycle_nodes d <> []
                    /\ Forall
                         (fun x =>
                            (2 <= Spec.count_of x
                                    (PathAnalysisService.cd_path d))%nat)
                         (PathAnalysisService.cd_cycle_nodes d))
                 cycles).
  { apply Forall_forall. intros d Hd.
    unfold cycles, PathAnalysisService.cycles_detected in Hd.
    apply in_flat_map in Hd. destruct Hd as (p & _ & Hd).
    destruct (PathAnalysisService.cycle_nodes [] [] (fst p)) as [| c cn]
      eqn:Ecn; [destruct Hd |].
    destruct Hd as [<- | []].
    cbn [PathAnalysisService.cd_cycle_nodes PathAnalysisService.cd_path].
    split; [discriminate |].
    apply Forall_forall. intros x Hx. rewrite <- Ecn in Hx.
    apply cycle_nodes_repeated in Hx. destruct Hx as [[] | Hx].
    unfold Spec.count_of in Hx at 1. cbn in Hx. exact Hx. }
  split; [| split].
  - destruct (0 <? List.length cycles)%nat; [| cbn; lia].
    rewrite length_firstn. lia.
  - destruct (0 <? List.length cycles)%nat; [| constructor].
    apply Forall_forall. intros d Hd. apply firstn_In in Hd.
    rewrite Forall_forall in Hc. apply Hc. exact Hd.
  - intros Hflag. rewrite Hflag. split; [reflexivity |].
    intros u events x Hin.
    apply Nat.ltb_ge in Hflag.
    assert (Hnil : cycles = []) by (destruct cycles; [reflexivity | cbn in Hflag; lia]).
    destruct (fold_upd_has _ path_eqb path_eqb_refl _
                (fun up : Cell * list Cell =>
                   Py.slice_to max_path_length (snd up))
                user_paths [] (u, events) Hin) as (kv & Hkv & Heq).
    cbn [snd] in Heq.
    rewrite <- (count_of_path_eqb x _ _ Heq).
    assert (Hcn : PathAnalysisService.cycle_nodes [] [] (fst kv) = []).
    { destruct (PathAnalysisService.cycle_nodes [] [] (fst kv)) as [| c cn]
        eqn:Ecn; [reflexivity | exfalso].
      assert (Hd : In {| PathAnalysisService.cd_path := fst kv;
                         PathAnalysisService.cd_user_count := snd kv;
                         PathAnalysisService.cd_cycle_nodes := c :: cn |}
                     cycles).
      { unfold cycles, PathAnalysisService.cycles_detected.
        apply in_flat_map. exists kv. split; [exact Hkv |].
        rewrite Ecn. left. reflexivity. }
      rewrite Hnil in Hd. destruct Hd. }
    apply (cycle_nodes_none _ _ Hcn x).
Qed.

(* ================================================================== *)
(** ** Attribution: the order of the result, the rows, the models *)

Section NormalisedOrder.
Import AttributionService Spec.

Lemma sort_by_value_sorted (a : Attribution) :
  StronglySorted (fun x y : Cell * Q => snd y <= snd x)
    (Py.sort (fun x y : Cell * Q => Qle_bool (snd y) (snd x)) a).
Proof.
  apply Sorted_StronglySorted.
  - intros x y z H1 H2. eapply Qle_trans; eassumption.
  - pose proof (@sort_sorted (Cell * Q)
                  (fun x y => Qle_bool (snd y) (snd x))) as H.
    assert (Ht : forall x y : Cell * Q,
               Qle_bool (snd y) (snd x) = false ->
               Qle_bool (snd x) (snd y) = true).
    { intros x y E. apply Qle_bool_iff.
      destruct (Qlt_le_dec (snd x) (snd y)) as [L | L].
      - apply Qlt_le_weak. exact L.
      - apply Qle_bool_iff in L. congruence. }
    specialize (H Ht a). revert H. apply Sorted_weaken.
    intros x y E. apply Qle_bool_iff. exact E.
Qed.
End NormalisedOrder.

(** X12.  _normalize_attribution lists the touchpoints by decreasing credit: the
    reported values never increase down the list, nor do the percentages
    when the total is positive.  No touchpoint is lost on the way: unless
    the total is zero (and the result empty), the touchpoints of the result
    are those of the dictionary. *)
Theorem normalized_attribution_is_ranked
    (attribution : AttributionService.Attribution) :
  let r := AttributionService._normalize_attribution attribution in
  StronglySorted
    (fun x y => AttributionService.value (snd y)
                <= AttributionService.value (snd x)) r
  /\ (0 < Spec.total attribution ->
      StronglySorted
        (fun x y => AttributionService.percentage (snd y)
                    <= AttributionService.percentage (snd x)) r)
  /\ (~ Spec.total attribution == 0 ->
      Permutation (map fst attribution) (map fst r)).
Proof.
  cbv zeta. unfold AttributionService._normalize_attribution, Spec.total.
  set (total := Py.qsum (Dict.values attribution)).
  destruct (Qeq_bool total 0) eqn:Ez.
  - split; [constructor |]. split; [intros _; constructor |].
    intros Hnz. exfalso. apply Hnz. apply Qeq_bool_iff. exact Ez.
  - pose proof (sort_by_value_sorted attribution) as Hs.
    split; [| split].
    + apply StronglySorted_map. cbn [snd AttributionService.value].
      revert Hs. generalize (Py.sort
                    (fun a b : Cell * Q => Qle_bool (snd b) (snd a))
                    attribution).
      induction 1 as [| x l Hl IH Hx]; constructor; [exact IH |].
      eapply Forall_impl; [| exact Hx].
      intros y Hy. apply round_mono. exact Hy.
    + intros Hpos.
      apply StronglySorted_map. cbn [snd AttributionService.percentage].
      revert Hs. generalize (Py.sort
                    (fun a b : Cell * Q => Qle_bool (snd b) (snd a))
                    attribution).
      induction 1 as [| x l Hl IH Hx]; constructor; [exact IH |].
      eapply Forall_impl; [| exact Hx].
      intros y Hy. apply round_mono.
      apply Qmult_le_compat_r; [| discriminate].
      unfold Qdiv. apply Qmult_le_compat_r; [exact Hy |].
      apply Qlt_le_weak, Qinv_lt_0_compat. exact Hpos.
    + intros _. rewrite map_map. cbn [fst].
      apply Permutation_map. apply sort_perm.
Qed.

Section JourneyRows.
Import Pandas AttributionService Spec.

Lemma group_insert_rows (k : Cell) (r : Row) (gs : list (Cell * list Row)) :
  list_sum (map (fun g => List.length (snd g)) (group_insert k r gs))
  = S (list_sum (map (fun g => List.length (snd g)) gs)).
Proof.
  induction gs as [| [k' rs] gs IH]; cbn [group_insert map snd].
  - reflexivity.
  - destruct (cell_eqb k' k); [| destruct (cell_leb k k')];
      cbn [map snd]; rewrite ?list_sum_cons.
    + rewrite length_app. cbn [List.length]. lia.
    + cbn [List.length]. lia.
    + rewrite IH. lia.
Qed.

(** The groups of [groupby] share out the rows of the frame. *)
Lemma groupby_rows (df : DataFrame) (c : string)
    (gs : list (Cell * DataFrame)) :
  groupby df c = Ok gs ->
  list_sum (map (fun g => len (snd g)) gs) = len df.
Proof.
  unfold groupby. intros H. inv_bind H. injection H as <-.
  rewrite map_map. cbn [snd len data]. unfold len.
  assert (G : forall rows gs0,
             list_sum (map (fun g : Cell * list Row => List.length (snd g))
                         (fold_left (fun gs1 r => group_insert (cell r a) r gs1)
                            rows gs0))
             = (list_sum (map (fun g : Cell * list Row =>
                                 List.length (snd g)) gs0)
                + List.length rows)%nat).
  { induction rows as [| r rows IH]; intros gs0;
      cbn [fold_left List.length]; [lia |].
    rewrite IH, group_insert_rows. lia. }
  rewrite G. reflexivity.
Qed.

Lemma sort_values_len (df df' : DataFrame) (by_ : list string) :
  sort_values df by_ = Ok df' -> len df' = len df.
Proof.
  unfold sort_values. intros H. inv_bind H.
  destruct (sortable _ a); [| discriminate H].
  injection H as <-. unfold len. cbn [data]. apply sort_length.
Qed.

(** A journey holds one touchpoint and one timestamp per row of its user;
    a user without rows gets no journey. *)
Lemma build_journey_rows touchpoint_col timestamp_col conversion_col
    conversion_value_col (g : Cell * DataFrame) (o : option Journey) :
  build_journey touchpoint_col timestamp_col conversion_col
    conversion_value_col g = Ok o ->
  match o with
  | Some j => touchpoint_count j = len (snd g)
              /\ List.length (touchpoints j) = len (snd g)
              /\ List.length (timestamps j) = len (snd g)
              /\ user_id j = fst g
  | None => len (snd g) = 0%nat
  end.
Proof.
  unfold build_journey. intros H.
  inv_bind H. apply sort_values_len in E.
  inv_bind H. inv_bind H. inv_bind H.
  assert (Hl : forall i, List.length (column a i) = len (snd g)).
  { intros i. unfold column. rewrite length_map. exact E. }
  destruct (column a a0) as [| c cs] eqn:Ec; injection H as <-.
  - rewrite <- (Hl a0), Ec. reflexivity.
  - unfold touchpoint_count, touchpoints, timestamps, user_id.
    rewrite <- Ec, !Hl. repeat split.
    rewrite <- (Hl a0), Ec. reflexivity.
Qed.

Lemma mapM_Forall2 (A B : Type) (f : A -> Result B) (l : list A)
    (l' : list B) :
  mapM f l = Ok l' -> Forall2 (fun a b => f a = Ok b) l l'.
Proof.
  revert l'. induction l as [| a l IH]; intros l' H; cbn [mapM] in H.
  - injection H as <-. constructor.
  - inv_bind H. inv_bind H. injection H as <-.
    constructor; [assumption | apply IH; reflexivity].
Qed.
End JourneyRows.

(** X13.  On a dataset in which no user id is missing (a frame has no
    missing cell here; pandas would leave the rows without a user id out of
    every group), _build_user_journeys loses no row and invents none: every
    journey has one touchpoint and one timestamp for each row of its user,
    and the touchpoint counts of the journeys add up to the number of rows
    of the dataset. *)
Theorem journeys_share_out_the_rows (df : Pandas.DataFrame)
    (user_id_col touchpoint_col timestamp_col : string)
    (conversion_col conversion_value_col : option string)
    (js : list AttributionService.Journey) :
  AttributionService._build_user_journeys df user_id_col touchpoint_col
    timestamp_col conversion_col conversion_value_col = Ok js ->
  list_sum (map AttributionService.touchpoint_count js) = Pandas.len df
  /\ Forall
       (fun j =>
          List.length (AttributionService.touchpoints j)
          = AttributionService.touchpoint_count j
          /\ List.length (AttributionService.timestamps j)
             = AttributionService.touchpoint_count j
          /\ (1 <= AttributionService.touchpoint_count j)%nat)
       js.
Proof.
  unfold AttributionService._build_user_journeys. intros H.
  inv_bind H. rename a into gs, E into Eg.
  inv_bind H. rename a into os, E into Eo.
  injection H as <-.
  apply groupby_rows in Eg. rewrite <- Eg. clear Eg.
  apply mapM_Forall2 in Eo.
  induction Eo as [| g o gs os Hgo _ IH]; [split; [reflexivity | constructor] |].
  destruct IH as [IH1 IH2].
  apply build_journey_rows in Hgo as Hrows.
  cbn [flat_map map]. rewrite list_sum_cons.
  destruct o as [j |].
  - destruct Hrows as (H1 & H2 & H3 & _).
    cbn [app map]. rewrite list_sum_cons, IH1, H1.
    split; [reflexivity |].
    constructor; [| exact IH2].
    rewrite H2, H3, H1. repeat split.
    pose proof (@build_journey_wf _ _ _ _ _ _ Hgo) as (Hne & _).
    rewrite <- H2. destruct (AttributionService.touchpoints j);
      [congruence | cbn; lia].
  - cbn [app]. rewrite Hrows, IH1. split; [reflexivity | exact IH2].
Qed.

(** The four rows of the [channels] dataset make three journeys. *)
Lemma journeys_share_out_the_rows_witness :
  exists js,
    AttributionService._build_user_journeys Examples.channels
      "user" "channel" "ts" (Some "converted"%string) (Some "revenue"%string)
    = Ok js
    /\ list_sum (map AttributionService.touchpoint_count js) = 4%nat.
Proof.
  eexists. split; [vm_compute; reflexivity |].
  apply (journeys_share_out_the_rows Examples.channels
           "user" "channel" "ts" (Some "converted"%string)
           (Some "revenue"%string)).
  vm_compute. reflexivity.
Defined.

Section Models.
Import Pandas AttributionService Spec.

(** Every name of ATTRIBUTION_MODELS is a model. *)
Lemma run_model_known (ln2 : Q) (exp : Q -> Q) (half_life : Z)
    (js : list Journey) (m : string) :
  In m ATTRIBUTION_MODELS ->
  run_model ln2 exp half_life js m <> Ok None.
Proof.
  intros H. unfold ATTRIBUTION_MODELS in H. cbn [In] in H.
  destruct H as [<- | [<- | [<- | [<- | [<- | [<- | []]]]]]];
    try discriminate.
  unfold run_model. cbn [String.eqb Ascii.eqb Bool.eqb].
  destruct (_time_decay_attribution ln2 exp js half_life); discriminate.
Qed.

Lemma run_models_names (ln2 : Q) (exp : Q -> Q) (half_life : Z)
    (js : list Journey) (models names : list string)
    (out : list (string * AttributionResult)) :
  (forall m, In m names -> run_model ln2 exp half_life js m <> Ok None) ->
  run_models ln2 exp half_life js models names = Ok out ->
  map fst out = filter (requested models) names.
Proof.
  revert out. induction names as [| n names IH]; intros out Hk H;
    cbn [run_models filter] in *.
  - injection H as <-. reflexivity.
  - destruct (requested models n).
    + inv_bind H. inv_bind H. injection H as <-.
      destruct a as [r |].
      * cbn [map fst]. f_equal. apply IH; [| reflexivity].
        intros m Hm. apply Hk. right. exact Hm.
      * exfalso. apply (Hk n); [left; reflexivity | exact E].
    + apply IH; [| exact H]. intros m Hm. apply Hk. right. exact Hm.
Qed.

Lemma run_models_zero_half_life (ln2 : Q) (exp : Q -> Q)
    (js : list Journey) (models : list string) :
  requested models "time_decay" = true ->
  run_models ln2 exp 0 js models ATTRIBUTION_MODELS = Err ZeroDivisionError.
Proof.
  intros Hr. unfold ATTRIBUTION_MODELS.
  assert (Htd : run_models ln2 exp 0 js models
                  ["time_decay"; "position_based"; "shapley"]%string
                = Err ZeroDivisionError).
  { cbn [run_models]. rewrite Hr. reflexivity. }
  assert (Hstep : forall m names a,
             run_model ln2 exp 0 js m = Ok (Some a) ->
             run_models ln2 exp 0 js models names = Err ZeroDivisionError ->
             run_models ln2 exp 0 js models (m :: names)
             = Err ZeroDivisionError).
  { intros m names a Hm Hn. cbn [run_models].
    destruct (requested models m); [| exact Hn].
    rewrite Hm, Hn. reflexivity. }
  eapply Hstep; [reflexivity |].
  eapply Hstep; [reflexivity |].
  eapply Hstep; [reflexivity |].
  exact Htd.
Qed.
End Models.

(** X14.  attribution_analysis reports exactly the requested models among
    the six it knows, each once and in the order of ATTRIBUTION_MODELS,
    whatever the order of the request; a name it does not know is ignored. *)
Theorem attribution_reports_requested_models (ln2 : Q) (exp : Q -> Q)
    (df : Pandas.DataFrame)
    (user_id_col touchpoint_col timestamp_col : string)
    (conversion_col conversion_value_col : option string)
    (models : option (list string)) (half_life : Z)
    (out : list (string * AttributionService.AttributionResult))
    (summary : AttributionService.Summary) (n conversions : nat)
    (value : Q) :
  AttributionService.attribution_analysis ln2 exp df user_id_col
    touchpoint_col timestamp_col conversion_col conversion_value_col models
    half_life
  = Ok (AttributionService.Analysis out summary n conversions value) ->
  map fst out
  = filter
      (AttributionService.requested
         (match models with
          | Some ms => ms
          | None => AttributionService.ATTRIBUTION_MODELS
          end))
      AttributionService.ATTRIBUTION_MODELS
  /\ map fst (AttributionService.model_comparison summary) = map fst out
  /\ (conversions <= n)%nat.
Proof.
  unfold AttributionService.attribution_analysis. intros H.
  inv_bind H. inv_bind H. rename a0 into js.
  destruct js as [| j js']; [discriminate H |].
  inv_bind H. injection H as <- <- <- <- _.
  split; [| split].
  - eapply run_models_names; [| exact E1].
    intros m Hm. apply run_model_known. exact Hm.
  - cbn [AttributionService._generate_summary
         AttributionService.model_comparison].
    rewrite map_map. reflexivity.
  - unfold AttributionService.count_converted. apply filter_length_le.
Qed.

(** A request that names Shapley twice, first-touch after it and a model
    that does not exist. *)
Lemma attribution_reports_requested_models_witness :
  exists out summary n conversions value,
    AttributionService.attribution_analysis (7 # 10) (fun _ => 1)
      Examples.channels "user" "channel" "ts" (Some "converted"%string)
      (Some "revenue"%string)
      (Some ["shapley"; "unknown"; "first_touch"; "shapley"]%string) 7
    = Ok (AttributionService.Analysis out summary n conversions value)
    /\ map fst out = ["first_touch"; "shapley"]%string.
Proof.
  do 5 eexists. split; [vm_compute; reflexivity |].
  eapply (attribution_reports_requested_models (7 # 10) (fun _ => 1)
            Examples.channels "user" "channel" "ts"
            (Some "converted"%string) (Some "revenue"%string)
            (Some ["shapley"; "unknown"; "first_touch"; "shapley"]%string) 7).
  vm_compute. reflexivity.
Defined.

(** X15.  A half-life of zero days cannot be used: whenever the analysis of a
    dataset returns results and the time-decay model is requested, the same
    analysis with [time_decay_half_life = 0] raises ZeroDivisionError. *)
Theorem zero_half_life_raises (ln2 : Q) (exp : Q -> Q)
    (df : Pandas.DataFrame)
    (user_id_col touchpoint_col timestamp_col : string)
    (conversion_col conversion_value_col : option string)
    (models : option (list string)) (half_life : Z)
    (out : list (string * AttributionService.AttributionResult))
    (summary : AttributionService.Summary) (n conversions : nat)
    (value : Q) :
  AttributionService.attribution_analysis ln2 exp df user_id_col
    touchpoint_col timestamp_col conversion_col conversion_value_col models
    half_life
  = Ok (AttributionService.Analysis out summary n conversions value) ->
  In "time_decay"%string (map fst out) ->
  AttributionService.attribution_analysis ln2 exp df user_id_col
    touchpoint_col timestamp_col conversion_col conversion_value_col models
    0
  = Err ZeroDivisionError.
Proof.
  unfold AttributionService.attribution_analysis. intros H Hin.
  inv_bind H. inv_bind H. rename a0 into js.
  destruct js as [| j js']; [discriminate H |].
  inv_bind H. injection H as <- _ _ _ _.
  cbn [bind].
  erewrite run_models_names in Hin; [| | exact E1].
  2:{ intros m Hm. apply run_model_known. exact Hm. }
  apply filter_In in Hin. destruct Hin as [_ Hr].
  rewrite E0. cbn [bind].
  rewrite (run_models_zero_half_life _ _ _ _ Hr). reflexivity.
Qed.

(** The [channels] dataset with all models and a half-life of zero days. *)
Lemma zero_half_life_raises_witness :
  AttributionService.attribution_analysis (7 # 10) (fun _ => 1)
    Examples.channels "user" "channel" "ts" (Some "converted"%string)
    (Some "revenue"%string) None 0
  = Err ZeroDivisionError.
Proof.
  eapply (zero_half_life_raises (7 # 10) (fun _ => 1) Examples.channels
            "user" "channel" "ts" (Some "converted"%string)
            (Some "revenue"%string) None 7).
  - vm_compute. reflexivity.
  - vm_compute. right. right. right. left. reflexivity.
Defined.

Section CreditedKeys.
Import AttributionService Spec.

Lemma upd_key_In (K V : Type) (eqb : K -> K -> bool) (dflt : V)
    (f : V -> V) (k : K) (d : Dict.t K V) (kv : K * V) :
  In kv (Dict.upd eqb dflt f k d) -> fst kv = k \/ In (fst kv) (map fst d).
Proof.
  induction d as [| [k' v] d IH]; cbn [Dict.upd map fst].
  - intros [<- | []]. left. reflexivity.
  - destruct (eqb k' k).
    + intros [<- | Hin]; right; [left; reflexivity |].
      right. apply in_map. exact Hin.
    + intros [<- | Hin]; [right; left; reflexivity |].
      destruct (IH Hin) as [E | H]; [left; exact E | right; right; exact H].
Qed.

(** The keys of a dictionary filled journey by journey come from the
    journeys. *)
Lemma fold_keys (V : Type) (P : Journey -> Cell -> Prop)
    (step : list (Cell * V) -> Journey -> list (Cell * V))
    (js : list Journey) :
  (forall c j k, In k (map fst (step c j)) ->
                 In k (map fst c) \/ P j k) ->
  forall c k, In k (map fst (fold_left step js c)) ->
              In k (map fst c) \/ exists j, In j js /\ P j k.
Proof.
  intros Hstep. induction js as [| j js IH]; intros c k H;
    cbn [fold_left] in H; [left; exact H |].
  destruct (IH _ _ H) as [Hc | (j' & Hj' & HP)].
  - destruct (Hstep _ _ _ Hc) as [Hc' | HP]; [left; exact Hc' |].
    right. exists j. split; [left; reflexivity | exact HP].
  - right. exists j'. split; [right; exact Hj' | exact HP].
Qed.

Lemma credit_keys (k t : Cell) (v : Q) (a : Attribution) :
  In k (map fst (credit t v a)) -> k = t \/ In k (map fst a).
Proof.
  intros H. apply in_map_iff in H. destruct H as (kv & <- & Hin).
  unfold credit in Hin. apply upd_key_In in Hin. exact Hin.
Qed.

Lemma contribute_fold_keys (k : Cell) (v : Q) (tps : list Cell)
    (c : list (Cell * list Q)) :
  In k (map fst (fold_left (fun c' t => contribute t v c') tps c)) ->
  In k tps \/ In k (map fst c).
Proof.
  revert c. induction tps as [| t tps IH]; intros c H; cbn [fold_left] in H;
    [right; exact H |].
  destruct (IH _ H) as [Ht | Hc]; [left; right; exact Ht |].
  apply in_map_iff in Hc. destruct Hc as (kv & <- & Hin).
  unfold contribute in Hin. apply upd_key_In in Hin.
  destruct Hin as [-> | Hin]; [left; left; reflexivity | right; exact Hin].
Qed.

Lemma normalize_keys (a : Attribution) (k : Cell) :
  In k (map fst (_normalize_attribution a)) -> In k (map fst a).
Proof.
  unfold _normalize_attribution.
  destruct (Qeq_bool (Py.qsum (Dict.values a)) 0); [intros [] |].
  rewrite map_map. cbn [fst]. intros H.
  apply in_map_iff in H. destruct H as (kv & <- & Hin).
  apply sort_In in Hin. apply in_map. exact Hin.
Qed.

Lemma eligible_converted (j : Journey) :
  eligible j = true -> converted j = true /\ touchpoints j <> [].
Proof.
  unfold eligible. intros H. apply andb_true_iff in H.
  destruct H as [Hc Ht]. split; [exact Hc |].
  destruct (touchpoints j); [discriminate | discriminate].
Qed.
End CreditedKeys.

(** X16.  The first-touch, last-touch and Shapley models credit only the
    touchpoints their rule names, and only of converted journeys:
    first-touch a first touchpoint, last-touch a last touchpoint, and the
    Shapley model one of the first [max_touchpoints] touchpoints. *)
Theorem models_credit_only_named_touchpoints
    (js : list AttributionService.Journey) (max_touchpoints : Z) :
  Forall
    (fun k => exists j,
       In j js /\ AttributionService.converted j = true
       /\ AttributionService.touchpoints j <> []
       /\ k = hd (VInt 0) (AttributionService.touchpoints j))
    (map fst (AttributionService._first_touch_attribution js))
  /\ Forall
       (fun k => exists j,
          In j js /\ AttributionService.converted j = true
          /\ AttributionService.touchpoints j <> []
          /\ k = last (AttributionService.touchpoints j) (VInt 0))
       (map fst (AttributionService._last_touch_attribution js))
  /\ Forall
       (fun k => exists j,
          In j js /\ AttributionService.converted j = true
          /\ In k (Py.slice_to max_touchpoints
                     (AttributionService.touchpoints j)))
       (map fst (AttributionService._shapley_attribution js
                   max_touchpoints)).
Proof.
  split; [| split]; apply Forall_forall; intros k Hk;
    apply normalize_keys in Hk.
  - unfold AttributionService.first_touch_raw in Hk.
    apply (fold_keys _
             (fun j k => AttributionService.converted j = true
                         /\ AttributionService.touchpoints j <> []
                         /\ k = hd (VInt 0)
                                  (AttributionService.touchpoints j)))
      in Hk.
    + destruct Hk as [[] | (j & Hj & HP)]. exists j. tauto.
    + intros c j k' H.
      destruct (AttributionService.eligible j) eqn:Ee; [| left; exact H].
      apply credit_keys in H. destruct H as [-> | H]; [| left; exact H].
      right. apply eligible_converted in Ee. tauto.
  - unfold AttributionService.last_touch_raw in Hk.
    apply (fold_keys _
             (fun j k => AttributionService.converted j = true
                         /\ AttributionService.touchpoints j <> []
                         /\ k = last (AttributionService.touchpoints j)
                                  (VInt 0)))
      in Hk.
    + destruct Hk as [[] | (j & Hj & HP)]. exists j. tauto.
    + intros c j k' H.
      destruct (AttributionService.eligible j) eqn:Ee; [| left; exact H].
      apply credit_keys in H. destruct H as [-> | H]; [| left; exact H].
      right. apply eligible_converted in Ee. tauto.
  - unfold AttributionService.shapley_raw in Hk.
    rewrite map_map in Hk. cbn [fst] in Hk.
    unfold AttributionService.shapley_contributions in Hk.
    apply (fold_keys _
             (fun j k => AttributionService.converted j = true
                         /\ In k (Py.slice_to max_touchpoints
                                    (AttributionService.touchpoints j))))
      in Hk.
    + destruct Hk as [[] | (j & Hj & HP)]. exists j. tauto.
    + intros c j k' H.
      destruct (AttributionService.eligible j) eqn:Ee; [| left; exact H].
      apply eligible_converted in Ee. destruct Ee as [Hc _].
      destruct (Py.slice_to max_touchpoints
                  (AttributionService.touchpoints j)) as [| t ts] eqn:Es;
        [left; exact H |].
      apply contribute_fold_keys in H.
      destruct H as [H | H]; [right | left; exact H].
      split; [exact Hc | exact H].
Qed.

(* ================================================================== *)
(** ** Sequence mining: the shape of what is returned *)

Section PatternShape.
Import SequenceMiningService Spec.






Lemma key_leb_total (a b : Q * Q) : key_leb a b = false -> key_leb b a = true.
Proof.
  unfold key_leb.
  destruct (Qle_bool (fst a) (fst b)) eqn:E1,
           (Qle_bool (fst b) (fst a)) eqn:E2; try discriminate;
    try reflexivity.
  - intros H. apply Qle_bool_iff.
    destruct (Qlt_le_dec (snd b) (snd a)) as [L | L].
    + apply Qlt_le_weak. exact L.
    + apply Qle_bool_iff in L. congruence.
  - intros _. exfalso.
    destruct (Qlt_le_dec (fst a) (fst b)) as [L | L].
    + apply Qlt_le_weak, Qle_bool_iff in L. congruence.
    + apply Qle_bool_iff in L. congruence.
Qed.

Lemma key_leb_fst (a b : Q * Q) : key_leb a b = true -> fst a <= fst b.
Proof.
  unfold key_leb. destruct (Qle_bool (fst a) (fst b)) eqn:E; [| discriminate].
  intros _. apply Qle_bool_iff. exact E.
Qed.

(** A list sorted by a key pair, largest first, is sorted by the first
    component. *)
Lemma sort_by_key_sorted (X : Type) (key : X -> Q * Q) (l : list X) :
  StronglySorted (fun a b => fst (key b) <= fst (key a))
    (Py.sort (fun a b => key_leb (key b) (key a)) l).
Proof.
  apply Sorted_StronglySorted.
  - intros x y z H1 H2. eapply Qle_trans; eassumption.
  - pose proof (@sort_sorted X (fun a b => key_leb (key b) (key a))) as H.
    assert (Ht : forall a b : X, key_leb (key b) (key a) = false ->
                                 key_leb (key a) (key b) = true)
      by (intros a b; apply key_leb_total).
    specialize (H Ht l). revert H. apply Sorted_weaken.
    intros a b. apply key_leb_fst.
Qed.

Lemma StronglySorted_firstn (X : Type) (R : X -> X -> Prop) (n : nat)
    (l : list X) :
  StronglySorted R l -> StronglySorted R (firstn n l).
Proof.
  intros H. revert n. induction H as [| a l Hs IH Ha]; intros n.
  - rewrite firstn_nil. constructor.
  - destruct n as [| n]; cbn [firstn]; constructor; [apply IH |].
    rewrite Forall_forall in *. intros x Hx. apply Ha.
    eapply firstn_In. exact Hx.
Qed.
End PatternShape.


(** X18.  _find_high_conversion_patterns returns at most 20 of the frequent
    patterns, each with a conversion rate of at least [min_confidence],
    by decreasing conversion rate. *)
Theorem high_conversion_patterns_pass_the_threshold
    (sequences : list SequenceMiningService.Sequence)
    (frequent_patterns : list SequenceMiningService.Pattern)
    (min_confidence : Q) :
  let hs := SequenceMiningService._find_high_conversion_patterns sequences
              frequent_patterns min_confidence in
  (List.length hs <= 20)%nat
  /\ StronglySorted
       (fun p q => SequenceMiningService.rate q
                   <= SequenceMiningService.rate p) hs
  /\ Forall
       (fun p =>
          In p frequent_patterns
          /\ exists cr,
               SequenceMiningService.conversion p = Some cr
               /\ min_confidence <= snd cr)
       hs.
Proof.
  cbv zeta. unfold SequenceMiningService._find_high_conversion_patterns.
  split; [rewrite length_firstn; lia |]. split.
  - apply StronglySorted_firstn.
    apply Sorted_StronglySorted.
    + intros x y z H1 H2. eapply Qle_trans; eassumption.
    + pose proof (@sort_sorted SequenceMiningService.Pattern
                    (fun a b => Qle_bool (SequenceMiningService.rate b)
                                  (SequenceMiningService.rate a))) as H.
      match goal with
      | |- Sorted _ (Py.sort _ ?l) => specialize (fun Ht => H Ht l)
      end.
      assert (Ht : forall a b : SequenceMiningService.Pattern,
                 Qle_bool (SequenceMiningService.rate b)
                   (SequenceMiningService.rate a) = false ->
                 Qle_bool (SequenceMiningService.rate a)
                   (SequenceMiningService.rate b) = true).
      { intros a b E. apply Qle_bool_iff.
        destruct (Qlt_le_dec (SequenceMiningService.rate a)
                    (SequenceMiningService.rate b)) as [L | L].
        - apply Qlt_le_weak. exact L.
        - apply Qle_bool_iff in L. congruence. }
      specialize (H Ht). revert H. apply Sorted_weaken.
      intros a b E. apply Qle_bool_iff. exact E.
  - apply Forall_forall. intros p Hp.
    apply firstn_In, sort_In, filter_In in Hp. destruct Hp as [Hin Hc].
    split; [exact Hin |].
    destruct (SequenceMiningService.conversion p) as [cr |];
      [| discriminate].
    exists cr. split; [reflexivity |]. apply Qle_bool_iff. exact Hc.
Qed.

Lemma round_le_integer (x : Q) (k : Z) (n : nat) :
  x <= inject_Z k -> Py.round x n <= inject_Z k.
Proof.
  intros H. apply Qle_trans with (Py.round (inject_Z k) n).
  - apply round_mono. exact H.
  - rewrite round_integer. apply Qle_refl.
Qed.

Lemma round_ge_integer (x : Q) (k : Z) (n : nat) :
  inject_Z k <= x -> inject_Z k <= Py.round x n.
Proof.
  intros H. apply Qle_trans with (Py.round (inject_Z k) n).
  - rewrite round_integer. apply Qle_refl.
  - apply round_mono. exact H.
Qed.

Section Stats.
Import SequenceMiningService Spec.

Lemma max_of_ge (l : list nat) (x : nat) :
  In x l -> (x <= Py.max_of l)%nat.
Proof.
  unfold Py.max_of. induction l as [| y l IH]; intros H; [destruct H |].
  cbn [fold_right]. destruct H as [-> | H]; [lia |].
  specialize (IH H). lia.
Qed.

Lemma fold_min_le (l : list nat) (a x : nat) :
  x = a \/ In x l -> (fold_left Nat.min l a <= x)%nat.
Proof.
  revert a x. induction l as [| y l IH]; intros a x H; cbn [fold_left].
  - destruct H as [-> | []]. lia.
  - destruct H as [-> | [-> | H]].
    + etransitivity; [apply (IH _ (Nat.min a y)); left; reflexivity | lia].
    + etransitivity; [apply (IH _ (Nat.min a x)); left; reflexivity | lia].
    + apply IH. right. exact H.
Qed.

Lemma min_of_le (l : list nat) (x : nat) :
  In x l -> (Py.min_of l <= x)%nat.
Proof.
  unfold Py.min_of. destruct l as [| y l]; intros H; [destruct H |].
  apply fold_min_le. destruct H as [-> | H]; [left; reflexivity | right; exact H].
Qed.

Lemma sum_between (l : list nat) (lo hi : nat) :
  (forall x, In x l -> lo <= x <= hi)%nat ->
  (lo * List.length l <= list_sum l <= hi * List.length l)%nat.
Proof.
  induction l as [| y l IH]; intros H; cbn [List.length]; [cbn; lia |].
  rewrite list_sum_cons.
  assert (Hy : (lo <= y <= hi)%nat) by (apply H; left; reflexivity).
  assert (Hl : (lo * List.length l <= list_sum l <= hi * List.length l)%nat).
  { apply IH. intros x Hx. apply H. right. exact Hx. }
  nia.
Qed.

(** A quotient of two counts lies between two integers when the numerator
    lies between their multiples of the denominator. *)
Lemma ratio_between (s n lo hi : nat) :
  (0 < n)%nat -> (lo * n <= s <= hi * n)%nat ->
  inject_Z (Z.of_nat lo)
  <= PathAnalysisService.qnat s / PathAnalysisService.qnat n
  <= inject_Z (Z.of_nat hi).
Proof.
  intros Hn [H1 H2]. unfold PathAnalysisService.qnat.
  assert (Hp : 0 < inject_Z (Z.of_nat n)).
  { change 0 with (inject_Z 0). rewrite <- Zlt_Qlt. lia. }
  split.
  - apply Qle_shift_div_l; [exact Hp |].
    rewrite <- inject_Z_mult, <- Zle_Qle. lia.
  - apply Qle_shift_div_r; [exact Hp |].
    rewrite <- inject_Z_mult, <- Zle_Qle. lia.
Qed.

Lemma fold_flat_map (X Y C : Type) (step : C -> Y -> C)
    (items : X -> list Y) (l : list X) (c : C) :
  fold_left (fun c0 s => fold_left step (items s) c0) l c
  = fold_left step (flat_map items l) c.
Proof.
  revert c. induction l as [| s l IH]; intros c; cbn [fold_left flat_map];
    [reflexivity |].
  rewrite fold_left_app. apply IH.
Qed.

Lemma length_flat_map_sum (X Y : Type) (f : X -> list Y) (l : list X) :
  List.length (flat_map f l)
  = list_sum (map (fun x => List.length (f x)) l).
Proof.
  induction l as [| x l IH]; cbn [flat_map map]; [reflexivity |].
  rewrite length_app, list_sum_cons, IH. reflexivity.
Qed.

Lemma event_freq_sum (sequences : list Sequence) :
  list_sum (map snd (event_freq sequences))
  = list_sum (map (fun s => List.length (events s)) sequences).
Proof.
  unfold event_freq. rewrite fold_flat_map. unfold bump.
  rewrite (fold_upd_sum _ cell_eqb _ (fun x : Cell => x)).
  cbn [map list_sum]. apply length_flat_map_sum.
Qed.

Lemma event_freq_positive (sequences : list Sequence) :
  Forall (fun kv => (1 <= snd kv)%nat) (event_freq sequences).
Proof.
  unfold event_freq. rewrite fold_flat_map. unfold bump.
  apply (fold_upd_positive _ cell_eqb _ (fun x : Cell => x)). constructor.
Qed.
End Stats.

(** X19.  The statistics of a sequence database are consistent: the average
    length lies between the shortest and the longest length, the
    conversion rate between 0 and 100, there are no more distinct events
    than events, and at most ten events are listed, by decreasing count. *)
Theorem sequence_stats_are_consistent
    (sequences : list SequenceMiningService.Sequence)
    (st : SequenceMiningService.SequenceStats) :
  SequenceMiningService._calculate_sequence_stats sequences = Some st ->
  SequenceMiningService.st_total_sequences st = List.length sequences
  /\ (SequenceMiningService.st_min_length st
      <= SequenceMiningService.st_max_length st)%nat
  /\ inject_Z (Z.of_nat (SequenceMiningService.st_min_length st))
     <= SequenceMiningService.st_avg_length st
  /\ SequenceMiningService.st_avg_length st
     <= inject_Z (Z.of_nat (SequenceMiningService.st_max_length st))
  /\ 0 <= SequenceMiningService.st_conversion_rate st
  /\ SequenceMiningService.st_conversion_rate st <= 100
  /\ (SequenceMiningService.st_unique_events st
      <= list_sum (map (fun s => List.length
                                   (SequenceMiningService.events s))
                     sequences))%nat
  /\ (List.length (SequenceMiningService.st_most_common_events st)
      <= 10)%nat
  /\ Sorted (fun a b => (SequenceMiningService.es_count b
                         <= SequenceMiningService.es_count a)%nat)
       (SequenceMiningService.st_most_common_events st).
Proof.
  unfold SequenceMiningService._calculate_sequence_stats.
  destruct sequences as [| s ss]; [discriminate |].
  intros H.
  match type of H with
  | Some ?a = Some _ => assert (E : a = st) by congruence
  end.
  clear H. subst st.
  cbn [SequenceMiningService.st_total_sequences
       SequenceMiningService.st_min_length
       SequenceMiningService.st_max_length
       SequenceMiningService.st_avg_length
       SequenceMiningService.st_conversion_rate
       SequenceMiningService.st_unique_events
       SequenceMiningService.st_most_common_events].
  set (sequences := s :: ss).
  set (lengths := map (fun s0 => List.length
                                   (SequenceMiningService.events s0))
                    sequences).
  assert (Hn : (0 < List.length lengths)%nat) by (cbn; lia).
  assert (Hin : In (List.length (SequenceMiningService.events s)) lengths)
    by (left; reflexivity).
  assert (Hb : forall x, In x lengths ->
                 (Py.min_of lengths <= x <= Py.max_of lengths)%nat).
  { intros x Hx. split; [apply min_of_le | apply max_of_ge]; exact Hx. }
  pose proof (sum_between lengths _ _ Hb) as Hsum.
  pose proof (ratio_between _ _ _ _ Hn Hsum) as [Hlo Hhi].
  split; [reflexivity |].
  split; [specialize (Hb _ Hin); lia |].
  split; [apply round_ge_integer; exact Hlo |].
  split; [apply round_le_integer; exact Hhi |].
  assert (Hc : (0 * List.length sequences
                <= List.length (filter SequenceMiningService.converted
                                  sequences)
                <= 1 * List.length sequences)%nat).
  { pose proof (filter_length_le SequenceMiningService.converted sequences).
    lia. }
  assert (Hs : (0 < List.length sequences)%nat) by (cbn; lia).
  pose proof (ratio_between _ _ _ _ Hs Hc) as [Hc0 Hc1].
  change (inject_Z (Z.of_nat 0)) with 0 in Hc0.
  change (inject_Z (Z.of_nat 1)) with 1 in Hc1.
  set (q := PathAnalysisService.qnat _ / PathAnalysisService.qnat _) in Hc0, Hc1.
  fold q.
  split; [apply round_nonneg; lra |].
  split; [apply (round_le_integer _ 100); change (inject_Z 100) with 100;
          lra |].
  split.
  { fold lengths. unfold lengths. rewrite <- event_freq_sum.
    apply length_le_sum, event_freq_positive. }
  split; [rewrite length_map, length_firstn; lia |].
  apply Sorted_map. cbn [SequenceMiningService.es_count].
  apply Sorted_firstn.
  apply (sort_desc_sorted _ (fun a : Cell * nat => snd a)).
Qed.

(** The statistics of the [ten_users] sequences. *)
Lemma sequence_stats_are_consistent_witness :
  exists st,
    SequenceMiningService._calculate_sequence_stats Examples.ten_users
    = Some st
    /\ SequenceMiningService.st_total_sequences st = 10%nat
    /\ (SequenceMiningService.st_min_length st
        <= SequenceMiningService.st_max_length st)%nat.
Proof.
  eexists. split; [vm_compute; reflexivity |].
  assert (H : SequenceMiningService._calculate_sequence_stats
                Examples.ten_users = Some _) by (vm_compute; reflexivity).
  pose proof (sequence_stats_are_consistent _ _ H) as (H1 & H2 & _).
  split; [exact H1 | exact H2].
Defined.

Section Classes.
Import SequenceMiningService Spec.

Lemma filter_split_length (X : Type) (f : X -> bool) (l : list X) :
  (List.length (filter f l) + List.length (filter (fun x => negb (f x)) l)
   = List.length l)%nat.
Proof.
  induction l as [| x l IH]; cbn [filter List.length]; [reflexivity |].
  destruct (f x); cbn [negb List.length]; lia.
Qed.

Lemma path_eqb_sym (p q : list Cell) : path_eqb p q = path_eqb q p.
Proof.
  revert q. induction p as [| a p IH]; intros [| b q]; cbn [path_eqb];
    try reflexivity.
  rewrite IH, cell_eqb_sym. reflexivity.
Qed.

Lemma not_among_spec (patterns : list Pattern) (p q : Pattern) :
  not_among patterns p = true -> In q patterns ->
  path_eqb (pattern p) (pattern q) = false.
Proof.
  unfold not_among. intros H Hq. apply negb_true_iff in H.
  destruct (path_eqb (pattern p) (pattern q)) eqn:E; [| reflexivity].
  assert (Hex : existsb (fun q0 => path_eqb (pattern q0) (pattern p))
                  patterns = true).
  { apply existsb_exists. exists q. split; [exact Hq |].
    rewrite path_eqb_sym. exact E. }
  congruence.
Qed.

Lemma mined_support_le (sequences : list Sequence) (min_support : Q)
    (max_length : Z) (p : Pattern) :
  In p (_prefixspan_mining sequences min_support max_length) ->
  (support_count p <= List.length sequences)%nat.
Proof.
  intros Hp. apply prefixspan_mined in Hp.
  destruct (mined_patterns_spec _ _ _ _ Hp)
    as (_ & _ & [(item & _ & ->) | (prefix & x & _ & _ & ->)]).
  - unfold containing. apply filter_length_le.
  - unfold immediate_count. apply filter_length_le.
Qed.
End Classes.

(** X20.  sequence_classification splits the users into those whose last target
    value is true and the others, and needs both.  It reports at most ten
    distinctive patterns a side, each mined from the sequences of its side
    only, and no pattern is reported on both sides. *)
Theorem classification_separates_the_patterns (df : Pandas.DataFrame)
    (user_id_col event_col timestamp_col target_col : string)
    (r : SequenceMiningService.ClassificationResult) :
  SequenceMiningService.sequence_classification df user_id_col event_col
    timestamp_col target_col
  = Ok (SequenceMiningService.Classified r) ->
  (SequenceMiningService.cl_positive_samples r
   + SequenceMiningService.cl_negative_samples r
   = SequenceMiningService.cl_total_samples r)%nat
  /\ (1 <= SequenceMiningService.cl_positive_samples r)%nat
  /\ (1 <= SequenceMiningService.cl_negative_samples r)%nat
  /\ (List.length (SequenceMiningService.cl_distinctive_positive_patterns r)
      <= 10)%nat
  /\ (List.length (SequenceMiningService.cl_distinctive_negative_patterns r)
      <= 10)%nat
  /\ Forall
       (fun p => (SequenceMiningService.support_count p
                  <= SequenceMiningService.cl_positive_samples r)%nat)
       (SequenceMiningService.cl_distinctive_positive_patterns r)
  /\ Forall
       (fun q => (SequenceMiningService.support_count q
                  <= SequenceMiningService.cl_negative_samples r)%nat)
       (SequenceMiningService.cl_distinctive_negative_patterns r)
  /\ Forall
       (fun p =>
          Forall
            (fun q => path_eqb (SequenceMiningService.pattern p)
                        (SequenceMiningService.pattern q) = false)
            (SequenceMiningService.cl_distinctive_negative_patterns r))
       (SequenceMiningService.cl_distinctive_positive_patterns r).
Proof.
  unfold SequenceMiningService.sequence_classification. intros H.
  inv_bind H. inv_bind H. rename a0 into sequences.
  assert (Hc : SequenceMiningService.classify sequences
               = SequenceMiningService.Classified r) by congruence.
  clear H. unfold SequenceMiningService.classify in Hc.
  destruct sequences as [| s0 ss0] eqn:Eseq; [discriminate |].
  rewrite <- Eseq in *. clear Eseq s0 ss0.
  pose proof (filter_split_length _ SequenceMiningService.converted
                sequences) as Hsplit.
  destruct (filter SequenceMiningService.converted sequences)
    as [| p ps] eqn:Epos; [discriminate |].
  destruct (filter (fun s => negb (SequenceMiningService.converted s))
              sequences) as [| n ns] eqn:Eneg; [discriminate |].
  assert (Hr : {| SequenceMiningService.cl_total_samples :=
                    List.length sequences;
                  SequenceMiningService.cl_positive_samples :=
                    List.length (p :: ps);
                  SequenceMiningService.cl_negative_samples :=
                    List.length (n :: ns);
                  SequenceMiningService.cl_distinctive_positive_patterns :=
                    firstn 10
                      (filter
                         (SequenceMiningService.not_among
                            (SequenceMiningService._prefixspan_mining
                               (n :: ns) (1 # 10) 3))
                         (SequenceMiningService._prefixspan_mining
                            (p :: ps) (1 # 10) 3));
                  SequenceMiningService.cl_distinctive_negative_patterns :=
                    firstn 10
                      (filter
                         (SequenceMiningService.not_among
                            (SequenceMiningService._prefixspan_mining
                               (p :: ps) (1 # 10) 3))
                         (SequenceMiningService._prefixspan_mining
                            (n :: ns) (1 # 10) 3));
                  SequenceMiningService.cl_avg_length_positive :=
                    SequenceMiningService.avg_length (p :: ps);
                  SequenceMiningService.cl_avg_length_negative :=
                    SequenceMiningService.avg_length (n :: ns) |} = r)
    by congruence.
  clear Hc. subst r.
  cbn [SequenceMiningService.cl_total_samples
       SequenceMiningService.cl_positive_samples
       SequenceMiningService.cl_negative_samples
       SequenceMiningService.cl_distinctive_positive_patterns
       SequenceMiningService.cl_distinctive_negative_patterns].
  split; [exact Hsplit |].
  split; [cbn [List.length]; lia |].
  split; [cbn [List.length]; lia |].
  split; [rewrite length_firstn; lia |].
  split; [rewrite length_firstn; lia |].
  split; [| split].
  - apply Forall_forall. intros x Hx.
    apply firstn_In, filter_In in Hx. destruct Hx as [Hx _].
    eapply mined_support_le. exact Hx.
  - apply Forall_forall. intros x Hx.
    apply firstn_In, filter_In in Hx. destruct Hx as [Hx _].
    eapply mined_support_le. exact Hx.
  - apply Forall_forall. intros x Hx. apply Forall_forall. intros y Hy.
    apply firstn_In, filter_In in Hx. destruct Hx as [_ Hx].
    apply firstn_In, filter_In in Hy. destruct Hy as [Hy _].
    eapply not_among_spec; eassumption.
Qed.

(** The [visits] dataset classified by its conversion flag. *)
Lemma classification_separates_the_patterns_witness :
  exists r,
    SequenceMiningService.sequence_classification Examples.visits
      "user" "event" "ts" "conv" = Ok (SequenceMiningService.Classified r)
    /\ (SequenceMiningService.cl_positive_samples r
        + SequenceMiningService.cl_negative_samples r
        = SequenceMiningService.cl_total_samples r)%nat
    /\ Forall
         (fun p =>
            Forall
              (fun q => path_eqb (SequenceMiningService.pattern p)
                          (SequenceMiningService.pattern q) = false)
              (SequenceMiningService.cl_distinctive_negative_patterns r))
         (SequenceMiningService.cl_distinctive_positive_patterns r).
Proof.
  assert (H : SequenceMiningService.sequence_classification Examples.visits
                "user" "event" "ts" "conv"
              = Ok (SequenceMiningService.Classified _))
    by (vm_compute; reflexivity).
  eexists. split; [exact H |].
  pose proof (classification_separates_the_patterns _ _ _ _ _ _ H)
    as (H1 & _ & _ & _ & _ & _ & _ & H2).
  split; [exact H1 | exact H2].
Defined.

Section Unflagged.
Import Pandas SequenceMiningService Spec.

Lemma build_sequences_unflagged (df : DataFrame)
    (user_id_col event_col : string) (ss : list Sequence) :
  _build_sequences df user_id_col event_col None = Ok ss ->
  Forall (fun s => converted s = false) ss.
Proof.
  unfold _build_sequences. intros H.
  inv_bind H. inv_bind H.
  assert (Ess : flat_map (fun o => match o with Some s => [s] | None => [] end)
                  a0 = ss) by congruence.
  rewrite <- Ess.
  apply flat_map_some_Forall.
  eapply mapM_Forall; [eassumption |].
  intros g [s |] _ Hg; [| exact I].
  unfold build_sequence in Hg.
  inv_bind Hg. inv_bind Hg.
  destruct (column a1 a2); [discriminate |].
  assert (Es : {| user_id := fst g; events := c :: l;
                  converted :=
                    if AttributionService.column_given a1 None
                    then (if (0 <? len a1)%nat
                          then truthy
                                 (last_cell a1
                                    (AttributionService.loc_or_zero a1 None))
                          else false)
                    else false |} = s) by congruence.
  rewrite <- Es. reflexivity.
Qed.

Lemma project_database_unflagged (sequences : list Sequence)
    (prefix : list Cell) :
  Forall (fun s => converted s = false) sequences ->
  Forall (fun s => converted s = false) (project_database sequences prefix).
Proof.
  intros H. unfold project_database. apply Forall_flat_map.
  eapply Forall_impl; [| exact H]. intros s Hs.
  destruct (suffix_after prefix (events s)) as [[| e r] |];
    constructor; [exact Hs | constructor].
Qed.

Lemma project_first_unflagged (sequences : list Sequence) (item : Cell) :
  Forall (fun s => converted s = false) sequences ->
  Forall (fun s => converted s = false) (project_first sequences item).
Proof.
  intros H. unfold project_first. apply Forall_flat_map.
  eapply Forall_impl; [| exact H]. intros s Hs.
  destruct (Py.index item (events s)) as [idx |]; [| constructor].
  destruct (idx + 1 <? List.length (events s))%nat;
    constructor; [exact Hs | constructor].
Qed.

Lemma none_converted (f : Sequence -> bool) (sequences : list Sequence) :
  Forall (fun s => converted s = false) sequences ->
  (forall s, converted s = false -> f s = false) ->
  List.length (filter f sequences) = 0%nat.
Proof.
  intros H Hf. induction H as [| s ss Hs _ IH]; [reflexivity |].
  cbn [filter]. rewrite (Hf s Hs). exact IH.
Qed.

Lemma mine_recursive_unflagged (total : nat) (min_count : Z) (fuel : nat) :
  forall (sequences : list Sequence) (prefix : list Cell),
    Forall (fun s => converted s = false) sequences ->
    Forall (fun p => conversion p = None)
      (mine_recursive total min_count fuel sequences prefix).
Proof.
  induction fuel as [| fuel IH]; intros sequences prefix H;
    cbn [mine_recursive]; [constructor |].
  apply Forall_flat_map. apply Forall_forall. intros [item n] _.
  cbn [fst snd].
  destruct (min_count <=? Z.of_nat n)%Z; [| constructor].
  constructor.
  - cbn [conversion]. rewrite (none_converted _ _ H); [reflexivity |].
    intros s Hs. rewrite Hs. destruct (events s); [reflexivity |].
    apply andb_false_r.
  - pose proof (project_database_unflagged _ [item] H) as Hp.
    destruct (project_database sequences [item]) as [| s ss];
      [constructor |].
    apply IH. exact Hp.
Qed.

Lemma prefixspan_unflagged (sequences : list Sequence) (min_support : Q)
    (max_length : Z) :
  Forall (fun s => converted s = false) sequences ->
  Forall (fun p => conversion p = None)
    (_prefixspan_mining sequences min_support max_length).
Proof.
  intros H. apply Forall_forall. intros p Hp.
  apply prefixspan_mined in Hp. revert p Hp. apply Forall_forall.
  unfold mined_patterns. apply Forall_flat_map.
  apply Forall_forall. intros [item n] _. unfold mine_item. cbn [fst snd].
  constructor.
  - cbn [conversion]. rewrite (none_converted _ _ H); [reflexivity |].
    intros s Hs. rewrite Hs. apply andb_false_r.
  - pose proof (project_first_unflagged _ item H) as Hp.
    destruct (project_first sequences item) as [| s ss]; [constructor |].
    apply mine_recursive_unflagged. exact Hp.
Qed.
End Unflagged.

(** X21.  Without a conversion column nobody counts as converted: no frequent
    pattern carries a conversion count or rate, no high-conversion pattern
    is reported, and the conversion rate of the statistics is 0. *)
Theorem mining_without_conversion_column (df : Pandas.DataFrame)
    (user_id_col event_col timestamp_col : string)
    (min_support : Q) (max_pattern_length : Z) (min_confidence : Q)
    (r : SequenceMiningService.MiningResult) :
  SequenceMiningService.sequence_pattern_mining_all df user_id_col event_col
    timestamp_col min_support max_pattern_length None min_confidence
  = Ok (SequenceMiningService.Mined r) ->
  Forall (fun p => SequenceMiningService.conversion p = None)
    (SequenceMiningService.mr_frequent_patterns r)
  /\ SequenceMiningService.mr_high_conversion_patterns r = []
  /\ exists st,
       SequenceMiningService.mr_sequence_stats r = Some st
       /\ SequenceMiningService.st_conversion_rate st == 0.
Proof.
  unfold SequenceMiningService.sequence_pattern_mining_all. intros H.
  inv_bind H. inv_bind H. inv_bind H. rename a1 into sequences.
  apply build_sequences_unflagged in E1.
  destruct sequences as [| s0 ss0] eqn:Eseq; [discriminate |].
  rewrite <- Eseq in *.
  inv_bind H.
  match type of H with
  | Ok (SequenceMiningService.Mined ?x) = _ => assert (Hr : x = r) by congruence
  end.
  clear H. subst r.
  cbn [SequenceMiningService.mr_frequent_patterns
       SequenceMiningService.mr_high_conversion_patterns
       SequenceMiningService.mr_sequence_stats
       AttributionService.column_given].
  split; [apply prefixspan_unflagged; exact E1 |].
  split; [reflexivity |].
  rewrite Eseq. unfold SequenceMiningService._calculate_sequence_stats.
  eexists. split; [reflexivity |].
  cbn [SequenceMiningService.st_conversion_rate].
  rewrite <- Eseq.
  rewrite (none_converted SequenceMiningService.converted sequences E1)
    by (intros s Hs; exact Hs).
  apply Qeq_trans with (Py.round (inject_Z 0) 2);
    [| apply (round_integer 0 2)].
  apply round_comp.
  unfold PathAnalysisService.qnat. cbn [Z.of_nat].
  change (inject_Z 0) with 0. unfold Qdiv. rewrite !Qmult_0_l. reflexivity.
Qed.

(** The [visits] dataset mined without its conversion column. *)
Lemma mining_without_conversion_column_witness :
  exists r,
    SequenceMiningService.sequence_pattern_mining_all Examples.visits
      "user" "event" "ts" (1 # 10) 5 None (1 # 2)
    = Ok (SequenceMiningService.Mined r)
    /\ Forall (fun p => SequenceMiningService.conversion p = None)
         (SequenceMiningService.mr_frequent_patterns r)
    /\ SequenceMiningService.mr_high_conversion_patterns r = []
    /\ exists st,
         SequenceMiningService.mr_sequence_stats r = Some st
         /\ SequenceMiningService.st_conversion_rate st == 0.
Proof.
  eexists. split; [vm_compute; reflexivity |].
  apply (mining_without_conversion_column Examples.visits
           "user" "event" "ts" (1 # 10) 5 (1 # 2)).
  vm_compute. reflexivity.
Defined.

(* ================================================================== *)
(** ** Association rules *)

(** *** What a Counter holds, for keys compared by an equivalence *)

Section CounterValues.
Import SequenceMiningService Spec.
Variable K : Type.
Variable eqb : K -> K -> bool.
Hypothesis eqb_refl : forall a, eqb a a = true.
Hypothesis eqb_sym : forall a b, eqb a b = eqb b a.
Hypothesis eqb_trans :
  forall a b c, eqb a b = true -> eqb b c = true -> eqb a c = true.

Lemma eqb_left (a b x : K) : eqb a b = true -> eqb a x = eqb b x.
Proof.
  intros H. destruct (eqb a x) eqn:Ea, (eqb b x) eqn:Eb; try reflexivity.
  - rewrite eqb_sym in H. rewrite (eqb_trans _ _ _ H Ea) in Eb. discriminate.
  - rewrite (eqb_trans _ _ _ H Eb) in Ea. discriminate.
Qed.

Lemma counted_upd (e x : K) (c : list (K * nat)) :
  counted eqb (Dict.upd eqb 0%nat S e c) x
  = if eqb e x then S (counted eqb c x) else counted eqb c x.
Proof.
  unfold counted.
  induction c as [| [k v] c IH]; cbn [Dict.upd Dict.get].
  - destruct (eqb e x); reflexivity.
  - destruct (eqb k e) eqn:Eke; cbn [Dict.get].
    + rewrite <- (eqb_left _ _ x Eke). destruct (eqb k x); reflexivity.
    + destruct (eqb k x) eqn:Ekx; [| exact IH].
      destruct (eqb e x) eqn:Eex; [| reflexivity].
      rewrite eqb_sym in Eex. rewrite (eqb_trans _ _ _ Ekx Eex) in Eke.
      discriminate.
Qed.

Lemma counted_fold (X : Type) (key : X -> K) (l : list X)
    (c : list (K * nat)) (x : K) :
  counted eqb
    (fold_left (fun c' y => Dict.upd eqb 0%nat S (key y) c') l c) x
  = (counted eqb c x + count_where (fun y => eqb (key y) x) l)%nat.
Proof.
  revert c. unfold count_where.
  induction l as [| y l IH]; intros c; cbn [fold_left filter].
  - cbn. lia.
  - rewrite IH, counted_upd.
    destruct (eqb (key y) x); cbn [List.length]; lia.
Qed.

Lemma upd_distinct (e : K) (c : list (K * nat)) :
  ForallOrdPairs (fun kv kv' => eqb (fst kv) (fst kv') = false) c ->
  ForallOrdPairs (fun kv kv' => eqb (fst kv) (fst kv') = false)
    (Dict.upd eqb 0%nat S e c).
Proof.
  induction 1 as [| [k v] c Hk Hc IH]; cbn [Dict.upd].
  - constructor; constructor.
  - destruct (eqb k e) eqn:Eke; constructor; try assumption.
    rewrite Forall_forall in *. intros kv Hin. cbn [fst].
    destruct (upd_keys _ eqb _ _ _ Hin) as [-> | (v' & Hv')].
    + exact Eke.
    + apply (Hk _ Hv').
Qed.

Lemma fold_distinct (X : Type) (key : X -> K) (l : list X)
    (c : list (K * nat)) :
  ForallOrdPairs (fun kv kv' => eqb (fst kv) (fst kv') = false) c ->
  ForallOrdPairs (fun kv kv' => eqb (fst kv) (fst kv') = false)
    (fold_left (fun c' y => Dict.upd eqb 0%nat S (key y) c') l c).
Proof.
  revert c. induction l as [| y l IH]; intros c Hc; cbn [fold_left].
  - exact Hc.
  - apply IH, upd_distinct, Hc.
Qed.

Lemma distinct_counted (c : list (K * nat)) (k : K) (n : nat) :
  ForallOrdPairs (fun kv kv' => eqb (fst kv) (fst kv') = false) c ->
  In (k, n) c -> counted eqb c k = n.
Proof.
  unfold counted.
  induction 1 as [| [k' v] c Hk Hc IH]; cbn [Dict.get]; [intros [] |].
  intros [E | Hin].
  - injection E as -> ->. rewrite eqb_refl. reflexivity.
  - rewrite Forall_forall in Hk. specialize (Hk _ Hin). cbn [fst] in Hk.
    rewrite Hk. apply IH. exact Hin.
Qed.

(** An entry of a Counter filled from a list holds the number of elements
    of the list whose key equals its own. *)
Lemma counter_holds (X : Type) (key : X -> K) (l : list X) (k : K)
    (n : nat) :
  In (k, n) (fold_left (fun c' y => Dict.upd eqb 0%nat S (key y) c') l []) ->
  n = count_where (fun y => eqb (key y) k) l
  /\ counted eqb
       (fold_left (fun c' y => Dict.upd eqb 0%nat S (key y) c') l []) k = n.
Proof.
  intros Hin.
  pose proof (fold_distinct _ key l [] (FOP_nil _)) as Hd.
  pose proof (distinct_counted _ _ _ Hd Hin) as Hc.
  split; [| exact Hc].
  rewrite counted_fold in Hc. cbn in Hc. symmetry. exact Hc.
Qed.
End CounterValues.

(** *** Pairs and triples of the distinct events of a sequence *)

Section Tuples.
Import SequenceMiningService Spec.

Lemma pair_eqb_refl (p : Cell * Cell) : pair_eqb p p = true.
Proof. unfold pair_eqb. rewrite !cell_eqb_refl. reflexivity. Qed.

Lemma pair_eqb_sym (p q : Cell * Cell) : pair_eqb p q = pair_eqb q p.
Proof.
  unfold pair_eqb.
  rewrite (cell_eqb_sym (fst p)), (cell_eqb_sym (snd p)). reflexivity.
Qed.

Lemma pair_eqb_trans (p q r : Cell * Cell) :
  pair_eqb p q = true -> pair_eqb q r = true -> pair_eqb p r = true.
Proof.
  unfold pair_eqb. intros H1 H2.
  apply andb_true_iff in H1, H2. destruct H1 as [A1 B1], H2 as [A2 B2].
  rewrite (cell_eqb_trans _ _ _ A1 A2), (cell_eqb_trans _ _ _ B1 B2).
  reflexivity.
Qed.

Lemma triple_eqb_refl (t : Cell * Cell * Cell) : triple_eqb t t = true.
Proof. unfold triple_eqb. rewrite pair_eqb_refl, cell_eqb_refl. reflexivity. Qed.

Lemma triple_eqb_sym (t u : Cell * Cell * Cell) :
  triple_eqb t u = triple_eqb u t.
Proof.
  unfold triple_eqb.
  rewrite (pair_eqb_sym (fst t)), (cell_eqb_sym (snd t)). reflexivity.
Qed.

Lemma triple_eqb_trans (t u v : Cell * Cell * Cell) :
  triple_eqb t u = true -> triple_eqb u v = true -> triple_eqb t v = true.
Proof.
  unfold triple_eqb. intros H1 H2.
  apply andb_true_iff in H1, H2. destruct H1 as [A1 B1], H2 as [A2 B2].
  rewrite (pair_eqb_trans _ _ _ A1 A2), (cell_eqb_trans _ _ _ B1 B2).
  reflexivity.
Qed.

Lemma count_where_app (X : Type) (f : X -> bool) (l1 l2 : list X) :
  count_where f (l1 ++ l2) = (count_where f l1 + count_where f l2)%nat.
Proof. unfold count_where. rewrite filter_app, length_app. reflexivity. Qed.

Lemma count_where_map (X Y : Type) (f : Y -> bool) (g : X -> Y)
    (l : list X) :
  count_where f (map g l) = count_where (fun x => f (g x)) l.
Proof.
  unfold count_where. induction l as [| x l IH]; cbn [map filter];
    [reflexivity |].
  destruct (f (g x)); cbn [List.length]; rewrite IH; reflexivity.
Qed.

Lemma count_where_false (X : Type) (l : list X) :
  count_where (fun _ => false) l = 0%nat.
Proof. unfold count_where. induction l; cbn; auto. Qed.

Lemma count_where_ext (X : Type) (f g : X -> bool) (l : list X) :
  (forall x, f x = g x) -> count_where f l = count_where g l.
Proof.
  intros H. unfold count_where. f_equal. apply filter_ext. exact H.
Qed.

Lemma count_of_where (x : Cell) (l : list Cell) :
  count_of x l = count_where (fun e => cell_eqb e x) l.
Proof. reflexivity. Qed.

(** The pairs headed by [x]. *)
Lemma count_headed (x a b : Cell) (l : list Cell) :
  count_where (fun p => pair_eqb p (a, b)) (map (fun y => (x, y)) l)
  = if cell_eqb x a then count_of b l else 0%nat.
Proof.
  rewrite count_where_map. unfold pair_eqb. cbn [fst snd].
  destruct (cell_eqb x a); cbn [andb].
  - reflexivity.
  - apply count_where_false.
Qed.

Lemma count_pairs_le (a b : Cell) (u : list Cell) :
  (count_where (fun p => pair_eqb p (a, b)) (pairs u)
   <= count_of a u * count_of b u)%nat.
Proof.
  induction u as [| x u IH]; cbn [pairs]; [cbn; lia |].
  rewrite count_where_app, count_headed, !count_of_cons.
  destruct (cell_eqb x a), (cell_eqb x b); nia.
Qed.

Lemma count_triples_le (a b c : Cell) (u : list Cell) :
  (count_where (fun t => triple_eqb t (a, b, c)) (triples u)
   <= count_where (fun p => pair_eqb p (a, b)) (pairs u) * count_of c u)%nat.
Proof.
  induction u as [| x u IH]; cbn [triples pairs]; [cbn; lia |].
  rewrite !count_where_app, count_headed, count_where_map, count_of_cons.
  assert (E : count_where
                (fun bc : Cell * Cell =>
                   triple_eqb (x, fst bc, snd bc) (a, b, c)) (pairs u)
              = if cell_eqb x a
                then count_where (fun p => pair_eqb p (b, c)) (pairs u)
                else 0%nat).
  { destruct (cell_eqb x a) eqn:Ex.
    - apply count_where_ext. intros [y z].
      unfold triple_eqb, pair_eqb. cbn [fst snd]. rewrite Ex. reflexivity.
    - rewrite <- (count_where_false _ (pairs u)).
      apply count_where_ext. intros [y z].
      unfold triple_eqb, pair_eqb. cbn [fst snd]. rewrite Ex. reflexivity. }
  rewrite E. pose proof (count_pairs_le b c u) as Hbc.
  destruct (cell_eqb x a), (cell_eqb x c); nia.
Qed.

Lemma unique_count_le (k : Cell) (l : list Cell) :
  (count_of k (unique l) <= 1)%nat.
Proof.
  rewrite unique_count. destruct (existsb _ l); lia.
Qed.

Lemma unique_count_subseq (k : Cell) (l : list Cell) :
  count_of k (unique l) = if is_subseq [k] l then 1%nat else 0%nat.
Proof. rewrite unique_count, is_subseq_single. reflexivity. Qed.

Lemma count_where_flat_map (X Y : Type) (f : Y -> bool) (g : X -> list Y)
    (l : list X) :
  count_where f (flat_map g l)
  = list_sum (map (fun x => count_where f (g x)) l).
Proof.
  induction l as [| x l IH]; cbn [flat_map map]; [reflexivity |].
  rewrite count_where_app, list_sum_cons, IH. reflexivity.
Qed.

Lemma list_sum_le (X : Type) (f g : X -> nat) (l : list X) :
  (forall x, In x l -> f x <= g x)%nat ->
  (list_sum (map f l) <= list_sum (map g l))%nat.
Proof.
  induction l as [| x l IH]; intros H; cbn [map]; [lia |].
  rewrite !list_sum_cons.
  assert (f x <= g x)%nat by (apply H; left; reflexivity).
  assert (list_sum (map f l) <= list_sum (map g l))%nat.
  { apply IH. intros y Hy. apply H. right. exact Hy. }
  lia.
Qed.

Lemma containing_sum (k : Cell) (sequences : list Sequence) :
  containing [k] sequences
  = list_sum (map (fun s => count_of k (unique (events s))) sequences).
Proof.
  unfold containing.
  induction sequences as [| s ss IH]; cbn [filter map]; [reflexivity |].
  rewrite list_sum_cons, unique_count_subseq.
  destruct (is_subseq [k] (events s)); cbn [List.length]; rewrite IH; lia.
Qed.

Lemma pair_counts_flat (sequences : list Sequence) :
  pair_counts sequences
  = fold_left (fun c' p => Dict.upd pair_eqb 0%nat S p c')
      (flat_map (fun s => pairs (unique (events s))) sequences) [].
Proof. unfold pair_counts. apply fold_flat_map. Qed.

Lemma triple_counts_flat (sequences : list Sequence) :
  triple_counts sequences
  = fold_left (fun c' t => Dict.upd triple_eqb 0%nat S t c')
      (flat_map (fun s => triples (unique (events s))) sequences) [].
Proof. unfold triple_counts. apply fold_flat_map. Qed.

(** How often a pair is counted: once for every sequence in which the two
    events occur, the first of them first. *)
Lemma counted_pairs (sequences : list Sequence) (a b : Cell) :
  counted pair_eqb (pair_counts sequences) (a, b)
  = list_sum
      (map (fun s => count_where (fun p => pair_eqb p (a, b))
                       (pairs (unique (events s))))
         sequences).
Proof.
  rewrite pair_counts_flat.
  rewrite (counted_fold _ pair_eqb pair_eqb_sym pair_eqb_trans _
             (fun p : Cell * Cell => p)).
  cbn [counted Dict.get Nat.add]. apply count_where_flat_map.
Qed.

(** The count of a pair is at most the count of each of its events. *)
Lemma pair_counts_entry (sequences : list Sequence) (a b : Cell) (n : nat) :
  In ((a, b), n) (pair_counts sequences) ->
  (1 <= n)%nat
  /\ counted pair_eqb (pair_counts sequences) (a, b) = n
  /\ (n <= containing [a] sequences)%nat
  /\ (n <= containing [b] sequences)%nat.
Proof.
  intros Hin.
  assert (Hpos : (1 <= n)%nat).
  { pose proof (fold_upd_positive _ pair_eqb _ (fun p : Cell * Cell => p)
                  (flat_map (fun s => pairs (unique (events s))) sequences)
                  [] (Forall_nil _)) as Hp.
    rewrite <- pair_counts_flat in Hp. rewrite Forall_forall in Hp.
    apply (Hp _ Hin). }
  assert (Hc : counted pair_eqb (pair_counts sequences) (a, b) = n).
  { rewrite pair_counts_flat in *.
    apply (counter_holds _ pair_eqb pair_eqb_refl pair_eqb_sym
             pair_eqb_trans _ (fun p : Cell * Cell => p) _ _ _ Hin). }
  split; [exact Hpos |]. split; [exact Hc |].
  rewrite <- Hc, counted_pairs, !containing_sum.
  split; apply list_sum_le; intros s _;
    pose proof (count_pairs_le a b (unique (events s)));
    pose proof (unique_count_le a (events s));
    pose proof (unique_count_le b (events s)); nia.
Qed.

(** The count of a triple is at most the count of the pair of its first
    two events, and at most the count of its last event. *)
Lemma triple_counts_entry (sequences : list Sequence) (a b c : Cell)
    (n : nat) :
  In ((a, b, c), n) (triple_counts sequences) ->
  (1 <= n)%nat
  /\ (n <= counted pair_eqb (pair_counts sequences) (a, b))%nat
  /\ (n <= containing [c] sequences)%nat.
Proof.
  intros Hin.
  assert (Hpos : (1 <= n)%nat).
  { pose proof (fold_upd_positive _ triple_eqb _
                  (fun t : Cell * Cell * Cell => t)
                  (flat_map (fun s => triples (unique (events s))) sequences)
                  [] (Forall_nil _)) as Hp.
    rewrite <- triple_counts_flat in Hp. rewrite Forall_forall in Hp.
    apply (Hp _ Hin). }
  assert (Hc : n = count_where (fun t => triple_eqb t (a, b, c))
                     (flat_map (fun s => triples (unique (events s)))
                        sequences)).
  { rewrite triple_counts_flat in Hin.
    apply (counter_holds _ triple_eqb triple_eqb_refl triple_eqb_sym
             triple_eqb_trans _ (fun t : Cell * Cell * Cell => t) _ _ _ Hin). }
  split; [exact Hpos |].
  rewrite Hc, count_where_flat_map, counted_pairs, containing_sum.
  split; apply list_sum_le; intros s _;
    pose proof (count_triples_le a b c (unique (events s))) as HT;
    pose proof (count_pairs_le a b (unique (events s))) as HP;
    pose proof (unique_count_le a (events s)) as Ha;
    pose proof (unique_count_le b (events s)) as Hb;
    pose proof (unique_count_le c (events s)) as Hcc;
    set (T := count_where _ (triples _)) in *;
    set (P := count_where _ (pairs _)) in *;
    set (ca := count_of a _) in *; set (cb := count_of b _) in *;
    set (cc := count_of c _) in *;
    assert (HP1 : (P <= 1)%nat) by nia; nia.
Qed.
End Tuples.

(** *** The rules *)

Section Rules.
Import SequenceMiningService Spec.

Lemma count_of_In (a b : Cell) (l : list Cell) :
  In b l -> cell_eqb b a = true -> (1 <= count_of a l)%nat.
Proof.
  induction l as [| x l IH]; intros H E; [destruct H |].
  rewrite count_of_cons. destruct H as [-> | H].
  - rewrite E. lia.
  - specialize (IH H E). lia.
Qed.

Lemma pairs_members (a b : Cell) (u : list Cell) :
  In (a, b) (pairs u) -> In a u /\ In b u.
Proof.
  induction u as [| x u IH]; cbn [pairs]; [intros [] |].
  intros H. apply in_app_or in H. destruct H as [H | H].
  - apply in_map_iff in H. destruct H as (y & E & Hy).
    injection E as <- <-. split; [left; reflexivity | right; exact Hy].
  - destruct (IH H) as [Ha Hb]. split; right; assumption.
Qed.

(** Two equal events in a pair mean an event listed twice. *)
Lemma pairs_differ (a b : Cell) (u : list Cell) :
  In (a, b) (pairs u) -> cell_eqb a b = true -> (2 <= count_of a u)%nat.
Proof.
  induction u as [| x u IH]; cbn [pairs]; [intros [] |].
  intros H E. rewrite count_of_cons.
  apply in_app_or in H. destruct H as [H | H].
  - apply in_map_iff in H. destruct H as (y & Ey & Hy).
    injection Ey as <- <-. rewrite cell_eqb_refl.
    rewrite cell_eqb_sym in E. pose proof (count_of_In _ _ _ Hy E). lia.
  - specialize (IH H E). lia.
Qed.

Lemma triples_pairs (a b c : Cell) (u : list Cell) :
  In (a, b, c) (triples u) ->
  In (a, b) (pairs u) /\ In (a, c) (pairs u) /\ In (b, c) (pairs u).
Proof.
  induction u as [| x u IH]; cbn [triples pairs]; [intros [] |].
  intros H. apply in_app_or in H. destruct H as [H | H].
  - apply in_map_iff in H. destruct H as ([y z] & E & Hyz).
    cbn [fst snd] in E. injection E as <- <- <-.
    destruct (pairs_members _ _ _ Hyz) as [Hy Hz].
    split; [| split]; apply in_or_app.
    + left. apply in_map. exact Hy.
    + left. apply in_map. exact Hz.
    + right. exact Hyz.
  - destruct (IH H) as (H1 & H2 & H3).
    split; [| split]; apply in_or_app; right; assumption.
Qed.

Lemma unique_pairs_differ (a b : Cell) (l : list Cell) :
  In (a, b) (pairs (unique l)) -> cell_eqb a b = false.
Proof.
  intros H. destruct (cell_eqb a b) eqn:E; [| reflexivity].
  pose proof (pairs_differ _ _ _ H E).
  pose proof (unique_count_le a l). lia.
Qed.

Lemma pair_counts_key (sequences : list Sequence) (a b : Cell) (n : nat) :
  In ((a, b), n) (pair_counts sequences) ->
  exists s, In s sequences /\ In (a, b) (pairs (unique (events s))).
Proof.
  rewrite pair_counts_flat. intros H.
  destruct (fold_upd_keys _ pair_eqb _ (fun p : Cell * Cell => p) _ _ _ H)
    as [(p & Hp & E) | (v & [])].
  cbn [fst] in E. subst p. apply in_flat_map in Hp. exact Hp.
Qed.

Lemma triple_counts_key (sequences : list Sequence) (a b c : Cell)
    (n : nat) :
  In ((a, b, c), n) (triple_counts sequences) ->
  exists s, In s sequences /\ In (a, b, c) (triples (unique (events s))).
Proof.
  rewrite triple_counts_flat. intros H.
  destruct (fold_upd_keys _ triple_eqb _ (fun t : Cell * Cell * Cell => t)
              _ _ _ H) as [(t & Ht & E) | (v & [])].
  cbn [fst] in E. subst t. apply in_flat_map in Ht. exact Ht.
Qed.

Lemma qnat_pos (n : nat) : (0 < n)%nat -> 0 < PathAnalysisService.qnat n.
Proof.
  intros H. unfold PathAnalysisService.qnat.
  change 0 with (inject_Z 0). rewrite <- Zlt_Qlt. lia.
Qed.

Lemma divide_ok (x y : Q) : 0 < y -> divide x y = Ok (x / y).
Proof.
  intros H. unfold divide.
  destruct (Qeq_bool y 0) eqn:E; [| reflexivity].
  apply Qeq_bool_iff in E. rewrite E in H.
  exfalso. apply (Qlt_irrefl 0). exact H.
Qed.

Lemma qnat_ratio_le_1 (n m : nat) :
  (0 < m)%nat -> (n <= m)%nat ->
  0 <= PathAnalysisService.qnat n / PathAnalysisService.qnat m <= 1.
Proof.
  intros Hm Hn.
  pose proof (ratio_between n m 0 1 Hm) as H.
  change (inject_Z (Z.of_nat 0)) with 0 in H.
  change (inject_Z (Z.of_nat 1)) with 1 in H.
  apply H. lia.
Qed.

(** What the loop body makes of a tuple that was counted [n] times, its
    antecedent at least as often and its consequent at least once. *)
Lemma make_rule_spec (total_sequences : nat) (min_count : Z)
    (min_confidence : Q) (items : list (Cell * nat))
    (ante : list Cell) (cons : Cell) (type : string)
    (antecedent_count n : nat) :
  (0 < total_sequences)%nat ->
  (0 < counted cell_eqb items cons)%nat ->
  (1 <= n <= antecedent_count)%nat ->
  (n <= total_sequences)%nat ->
  exists rs,
    make_rule total_sequences min_count min_confidence items ante cons type
      antecedent_count n = Ok rs
    /\ Forall
         (fun r =>
            antecedent r = ante /\ consequent r = cons /\ count r = n
            /\ (min_count <= Z.of_nat n)%Z
            /\ (exists conf, confidence r = Py.round conf 4
                             /\ min_confidence <= conf /\ conf <= 1)
            /\ 0 <= rule_support r <= 1
            /\ 0 <= lift r)
         rs.
Proof.
  intros Ht Hc Hn Hle. unfold make_rule.
  destruct (min_count <=? Z.of_nat n)%Z eqn:Emin;
    [| eexists; split; [reflexivity | constructor]].
  rewrite (divide_ok _ _ (qnat_pos _ Ht)). cbn [bind].
  assert (Hac : (0 <? antecedent_count)%nat = true)
    by (apply Nat.ltb_lt; lia).
  rewrite Hac. rewrite divide_ok by (apply qnat_pos; lia). cbn [bind].
  set (conf := PathAnalysisService.qnat n
               / PathAnalysisService.qnat antecedent_count).
  destruct (Qle_bool min_confidence conf) eqn:Econf;
    [| eexists; split; [reflexivity | constructor]].
  assert (Htt : (0 <? total_sequences)%nat = true)
    by (apply Nat.ltb_lt; lia).
  rewrite Htt. rewrite (divide_ok _ _ (qnat_pos _ Ht)). cbn [bind].
  set (share := PathAnalysisService.qnat (counted cell_eqb items cons)
                / PathAnalysisService.qnat total_sequences).
  assert (Hshare : 0 < share).
  { unfold share, Qdiv. apply Qmult_lt_0_compat; [apply qnat_pos; exact Hc |].
    apply Qinv_lt_0_compat, qnat_pos. exact Ht. }
  rewrite (divide_ok _ _ Hshare). cbn [bind].
  eexists. split; [reflexivity |].
  constructor; [| constructor].
  cbn [antecedent consequent count confidence rule_support lift].
  assert (Hconf : 0 <= conf <= 1)
    by (apply qnat_ratio_le_1; lia).
  split; [reflexivity |]. split; [reflexivity |]. split; [reflexivity |].
  split; [apply Z.leb_le; exact Emin |].
  split; [exists conf; split; [reflexivity |];
          split; [apply Qle_bool_iff; exact Econf | apply Hconf] |].
  split.
  - pose proof (qnat_ratio_le_1 n total_sequences Ht Hle) as [H0 H1].
    split; [apply round_nonneg; exact H0 |].
    apply (round_le_integer _ 1). exact H1.
  - apply round_nonneg. unfold Qdiv. apply Qmult_le_0_compat; [apply Hconf |].
    apply Qlt_le_weak, Qinv_lt_0_compat. exact Hshare.
Qed.

Lemma mapM_concat (X Y : Type) (f : X -> Result (list Y)) (P : Y -> Prop)
    (l : list X) :
  (forall x, In x l -> exists ys, f x = Ok ys /\ Forall P ys) ->
  exists yss, mapM f l = Ok yss /\ Forall P (List.concat yss).
Proof.
  induction l as [| x l IH]; intros H; cbn [mapM].
  - exists []. split; [reflexivity | constructor].
  - destruct (H x (or_introl eq_refl)) as (ys & Ey & Hys).
    destruct IH as (yss & Eyss & Hyss);
      [intros y Hy; apply H; right; exact Hy |].
    rewrite Ey, Eyss. cbn [bind]. eexists. split; [reflexivity |].
    cbn [List.concat]. apply Forall_app. split; assumption.
Qed.

Lemma containing_le (p : list Cell) (sequences : list Sequence) :
  (containing p sequences <= List.length sequences)%nat.
Proof. unfold containing. apply filter_length_le. Qed.

Lemma counted_items (sequences : list Sequence) (k : Cell) :
  counted cell_eqb (item_counts sequences) k = containing [k] sequences.
Proof. apply item_counts_get. Qed.

(** What _mine_association_rules returns. *)
Lemma mine_rules_spec (sequences : list Sequence)
    (min_support min_confidence : Q) (max_antecedent_len : Z) :
  exists rules,
    _mine_association_rules sequences min_support min_confidence
      max_antecedent_len = Ok rules
    /\ (List.length rules <= 40)%nat
    /\ StronglySorted (fun p q => confidence q <= confidence p) rules
    /\ Forall
         (fun r =>
            (List.length (antecedent r) = 1%nat
             \/ (List.length (antecedent r) = 2%nat
                 /\ (2 <= max_antecedent_len)%Z))
            /\ Forall (fun a => cell_eqb a (consequent r) = false)
                 (antecedent r)
            /\ (min_count_of min_support (List.length sequences)
                <= Z.of_nat (count r))%Z
            /\ (1 <= count r <= List.length sequences)%nat
            /\ (exists conf, confidence r = Py.round conf 4
                             /\ min_confidence <= conf /\ conf <= 1)
            /\ 0 <= rule_support r <= 1
            /\ 0 <= lift r)
         rules.
Proof.
  unfold _mine_association_rules.
  set (total := List.length sequences).
  set (min_count := min_count_of min_support total).
  set (Q0 := fun r : Rule =>
               (List.length (antecedent r) = 1%nat
                \/ (List.length (antecedent r) = 2%nat
                    /\ (2 <= max_antecedent_len)%Z))
               /\ Forall (fun a => cell_eqb a (consequent r) = false)
                    (antecedent r)
               /\ (min_count <= Z.of_nat (count r))%Z
               /\ (1 <= count r <= total)%nat
               /\ (exists conf, confidence r = Py.round conf 4
                                /\ min_confidence <= conf /\ conf <= 1)
               /\ 0 <= rule_support r <= 1
               /\ 0 <= lift r).
  assert (Hsingle : exists rs,
             pair_rules total min_count min_confidence
               (item_counts sequences) (pair_counts sequences) = Ok rs
             /\ Forall Q0 rs).
  { unfold pair_rules.
    destruct (mapM_concat _ _
                (fun e : Cell * Cell * nat =>
                   make_rule total min_count min_confidence
                     (item_counts sequences) [fst (fst e)] (snd (fst e))
                     "单前项"
                     (counted cell_eqb (item_counts sequences) (fst (fst e)))
                     (snd e))
                Q0 (pair_counts sequences)) as (yss & Ey & Hy).
    - intros [[a b] n] Hin. cbn [fst snd].
      destruct (pair_counts_entry _ _ _ _ Hin) as (Hpos & _ & Ha & Hb).
      destruct (pair_counts_key _ _ _ _ Hin) as (s & _ & Hs).
      pose proof (containing_le [a] sequences) as Hla. fold total in Hla.
      destruct (make_rule_spec total min_count min_confidence
                  (item_counts sequences) [a] b "单前项"
                  (counted cell_eqb (item_counts sequences) a) n)
        as (rs & Ers & Hrs).
      + lia.
      + rewrite counted_items. lia.
      + rewrite counted_items. lia.
      + lia.
      + exists rs. split; [exact Ers |].
        eapply Forall_impl; [| exact Hrs].
        intros r (H1 & H2 & H3 & H4 & H5 & H6 & H7). unfold Q0.
        rewrite H1, H2, H3.
        split; [left; reflexivity |].
        split; [constructor; [| constructor];
                eapply unique_pairs_differ; exact Hs |].
        split; [exact H4 |]. split; [lia |].
        split; [exact H5 |]. split; [exact H6 | exact H7].
    - rewrite Ey. cbn [bind]. eexists. split; [reflexivity | exact Hy]. }
  assert (Hmulti : exists rs,
             triple_rules total min_count min_confidence
               (item_counts sequences) (pair_counts sequences)
               (triple_counts sequences) = Ok rs
             /\ Forall (fun r => (2 <= max_antecedent_len)%Z -> Q0 r) rs).
  { unfold triple_rules.
    destruct (mapM_concat _ _
                (fun e : Cell * Cell * Cell * nat =>
                   make_rule total min_count min_confidence
                     (item_counts sequences)
                     [fst (fst (fst e)); snd (fst (fst e))] (snd (fst e))
                     "多前项"
                     (counted pair_eqb (pair_counts sequences)
                        (fst (fst (fst e)), snd (fst (fst e))))
                     (snd e))
                (fun r => (2 <= max_antecedent_len)%Z -> Q0 r)
                (triple_counts sequences)) as (yss & Ey & Hy).
    - intros [[[a b] c] n] Hin. cbn [fst snd].
      destruct (triple_counts_entry _ _ _ _ _ Hin) as (Hpos & Hab & Hc).
      destruct (triple_counts_key _ _ _ _ _ Hin) as (s & _ & Hs).
      apply triples_pairs in Hs. destruct Hs as (_ & Hac & Hbc).
      pose proof (containing_le [c] sequences) as Hlc. fold total in Hlc.
      destruct (make_rule_spec total min_count min_confidence
                  (item_counts sequences) [a; b] c "多前项"
                  (counted pair_eqb (pair_counts sequences) (a, b)) n)
        as (rs & Ers & Hrs).
      + lia.
      + rewrite counted_items. lia.
      + lia.
      + lia.
      + exists rs. split; [exact Ers |].
        eapply Forall_impl; [| exact Hrs].
        intros r (H1 & H2 & H3 & H4 & H5 & H6 & H7) Hmax. unfold Q0.
        rewrite H1, H2, H3.
        split; [right; split; [reflexivity | exact Hmax] |].
        split; [constructor; [| constructor; [| constructor]];
                eapply unique_pairs_differ; eassumption |].
        split; [exact H4 |]. split; [lia |].
        split; [exact H5 |]. split; [exact H6 | exact H7].
    - rewrite Ey. cbn [bind]. eexists. split; [reflexivity | exact Hy]. }
  destruct Hsingle as (single & Es & Hs).
  destruct Hmulti as (multi0 & Em & Hm).
  rewrite Es. cbn [bind].
  assert (Hmul : exists multi,
             (if (2 <=? max_antecedent_len)%Z
              then triple_rules total min_count min_confidence
                     (item_counts sequences) (pair_counts sequences)
                     (triple_counts sequences)
              else Ok []) = Ok multi
             /\ Forall Q0 multi).
  { destruct (2 <=? max_antecedent_len)%Z eqn:E.
    - exists multi0. split; [exact Em |].
      eapply Forall_impl; [| exact Hm].
      intros r Hr. apply Hr. apply Z.leb_le. exact E.
    - exists []. split; [reflexivity | constructor]. }
  destruct Hmul as (multi & Emul & Hmul). rewrite Emul. cbn [bind].
  eexists. split; [reflexivity |].
  split; [rewrite length_firstn; lia |].
  split.
  - apply StronglySorted_firstn.
    apply (sort_by_key_sorted _ rule_key).
  - apply Forall_forall. intros r Hr.
    apply firstn_In, sort_In in Hr.
    assert (Hall : Forall Q0 (single ++ multi))
      by (apply Forall_app; split; assumption).
    rewrite Forall_forall in Hall. apply (Hall r Hr).
Qed.
End Rules.

(** X22.  _mine_association_rules never divides by zero: whatever the sequences
    and the thresholds, it returns a list of at most 40 rules, by
    decreasing confidence. *)
Theorem association_rules_never_divide_by_zero
    (sequences : list SequenceMiningService.Sequence)
    (min_support min_confidence : Q) (max_antecedent_len : Z) :
  exists rules,
    SequenceMiningService._mine_association_rules sequences min_support
      min_confidence max_antecedent_len = Ok rules
    /\ (List.length rules <= 40)%nat
    /\ StronglySorted
         (fun p q => SequenceMiningService.confidence q
                     <= SequenceMiningService.confidence p) rules.
Proof.
  destruct (mine_rules_spec sequences min_support min_confidence
              max_antecedent_len) as (rules & E & Hl & Hs & _).
  exists rules. auto.
Qed.

(** X23.  Every association rule is sound.  It has one or two antecedent
    events and a consequent different from them; it was counted in at least
    [int(min_support * N)] sequences, the product being the float that
    Python computes, and in at least one of the N sequences; its confidence
    is the rounding of a number between [min_confidence] and 1; its support
    lies between 0 and 1 and its lift is not negative. *)
Theorem association_rules_are_sound
    (sequences : list SequenceMiningService.Sequence)
    (min_support min_confidence : Q) (max_antecedent_len : Z)
    (rules : list SequenceMiningService.Rule) :
  SequenceMiningService._mine_association_rules sequences min_support
    min_confidence max_antecedent_len = Ok rules ->
  Forall
    (fun r =>
       (List.length (SequenceMiningService.antecedent r) = 1%nat
        \/ (List.length (SequenceMiningService.antecedent r) = 2%nat
            /\ (2 <= max_antecedent_len)%Z))
       /\ Forall (fun a => cell_eqb a (SequenceMiningService.consequent r)
                           = false)
            (SequenceMiningService.antecedent r)
       /\ (SequenceMiningService.min_count_of min_support
             (List.length sequences)
           <= Z.of_nat (SequenceMiningService.count r))%Z
       /\ (1 <= SequenceMiningService.count r <= List.length sequences)%nat
       /\ (exists conf,
             SequenceMiningService.confidence r = Py.round conf 4
             /\ min_confidence <= conf /\ conf <= 1)
       /\ 0 <= SequenceMiningService.rule_support r <= 1
       /\ 0 <= SequenceMiningService.lift r)
    rules.
Proof.
  intros H.
  destruct (mine_rules_spec sequences min_support min_confidence
              max_antecedent_len) as (rules' & E & _ & _ & HF).
  assert (rules' = rules) by congruence. subst rules'. exact HF.
Qed.

Lemma association_rules_are_sound_witness :
  exists rules,
    SequenceMiningService._mine_association_rules Examples.visit_sequences
      (1 # 10) (1 # 2) 2 = Ok rules
    /\ List.length rules = 3%nat
    /\ Forall
         (fun r =>
            (List.length (SequenceMiningService.antecedent r) = 1%nat
             \/ (List.length (SequenceMiningService.antecedent r) = 2%nat
                 /\ (2 <= 2)%Z))
            /\ Forall (fun a => cell_eqb a (SequenceMiningService.consequent r)
                                = false)
                 (SequenceMiningService.antecedent r)
            /\ (SequenceMiningService.min_count_of (1 # 10)
                  (List.length Examples.visit_sequences)
                <= Z.of_nat (SequenceMiningService.count r))%Z
            /\ (1 <= SequenceMiningService.count r
                <= List.length Examples.visit_sequences)%nat
            /\ (exists conf,
                  SequenceMiningService.confidence r = Py.round conf 4
                  /\ (1 # 2) <= conf /\ conf <= 1)
            /\ 0 <= SequenceMiningService.rule_support r <= 1
            /\ 0 <= SequenceMiningService.lift r)
         rules.
Proof.
  eexists. split; [vm_compute; reflexivity |].
  split; [reflexivity |].
  apply (association_rules_are_sound Examples.visit_sequences (1 # 10)
           (1 # 2) 2).
  vm_compute. reflexivity.
Defined.

(** X24.  The full report of sequence_pattern_mining never fails where the
    mining of the frequent patterns succeeds, and it holds the same
    frequent patterns: an empty list with the message when there is no
    sequence, and otherwise the patterns with the number of sequences. *)
Theorem mining_report_holds_the_frequent_patterns (df : Pandas.DataFrame)
    (user_id_col event_col timestamp_col : string)
    (min_support : Q) (max_pattern_length : Z)
    (conversion_col : option string) (min_confidence : Q)
    (patterns : list SequenceMiningService.Pattern) :
  SequenceMiningService.sequence_pattern_mining df user_id_col event_col
    timestamp_col min_support max_pattern_length conversion_col
  = Ok patterns ->
  exists out,
    SequenceMiningService.sequence_pattern_mining_all df user_id_col
      event_col timestamp_col min_support max_pattern_length conversion_col
      min_confidence = Ok out
    /\ match out with
       | SequenceMiningService.NoSequences => patterns = []
       | SequenceMiningService.Mined r =>
           SequenceMiningService.mr_frequent_patterns r = patterns
           /\ (1 <= SequenceMiningService.mr_total_sequences r)%nat
           /\ Forall (fun p => In p patterns)
                (SequenceMiningService.mr_high_conversion_patterns r)
       end.
Proof.
  unfold SequenceMiningService.sequence_pattern_mining,
    SequenceMiningService.sequence_database,
    SequenceMiningService.sequence_pattern_mining_all.
  intros H.
  destruct (Pandas.to_datetime df timestamp_col) as [df1 |];
    [| discriminate H].
  cbn [bind] in *.
  destruct (Pandas.sort_values df1 [user_id_col; timestamp_col])
    as [df2 |]; [| discriminate H].
  cbn [bind] in *.
  destruct (SequenceMiningService._build_sequences df2 user_id_col event_col
              conversion_col) as [sequences |]; [| discriminate H].
  cbn [bind] in *.
  assert (Hp : SequenceMiningService._prefixspan_mining sequences min_support
                 max_pattern_length = patterns) by congruence.
  clear H.
  destruct sequences as [| s ss] eqn:Eseq.
  - eexists. split; [reflexivity |]. symmetry. exact Hp.
  - rewrite <- Eseq in *.
    destruct (mine_rules_spec sequences min_support min_confidence 2)
      as (rules & E & _).
    rewrite E. cbn [bind]. eexists. split; [reflexivity |].
    cbn [SequenceMiningService.mr_frequent_patterns
         SequenceMiningService.mr_total_sequences
         SequenceMiningService.mr_high_conversion_patterns].
    split; [exact Hp |].
    split; [rewrite Eseq; cbn [List.length]; lia |].
    destruct (AttributionService.column_given df2 conversion_col);
      [| constructor].
    rewrite Hp. apply Forall_forall. intros p Hin.
    unfold SequenceMiningService._find_high_conversion_patterns in Hin.
    apply firstn_In, sort_In, filter_In in Hin. apply Hin.
Qed.

Lemma mining_report_holds_the_frequent_patterns_witness :
  exists patterns out,
    SequenceMiningService.sequence_pattern_mining Examples.visits
      "user" "event" "ts" (1 # 10) 5 (Some "conv"%string) = Ok patterns
    /\ SequenceMiningService.sequence_pattern_mining_all Examples.visits
         "user" "event" "ts" (1 # 10) 5 (Some "conv"%string) (1 # 2)
       = Ok out
    /\ match out with
       | SequenceMiningService.NoSequences => patterns = []
       | SequenceMiningService.Mined r =>
           SequenceMiningService.mr_frequent_patterns r = patterns
           /\ (1 <= SequenceMiningService.mr_total_sequences r)%nat
           /\ Forall (fun p => In p patterns)
                (SequenceMiningService.mr_high_conversion_patterns r)
       end.
Proof.
  eexists.
  assert (H : SequenceMiningService.sequence_pattern_mining Examples.visits
                "user" "event" "ts" (1 # 10) 5 (Some "conv"%string)
              = Ok _) by (vm_compute; reflexivity).
  destruct (mining_report_holds_the_frequent_patterns _ _ _ _ _ _ _
              (1 # 2) _ H) as (out & Ho & Hm).
  exists out. split; [exact H |]. split; [exact Ho | exact Hm].
Defined.

(* ================================================================== *)
(** ** Absent columns *)

Section AbsentColumns.
Import Pandas Spec.

Lemma to_datetime_absent (df : DataFrame) (t : string) :
  has_column df t = false -> to_datetime df t = Err (KeyError t).
Proof.
  intros H. unfold to_datetime. rewrite (column_index_missing _ _ H).
  reflexivity.
Qed.

(** On a column that is there, parsing is all that can fail. *)
Lemma to_datetime_raises (df : DataFrame) (t : string) (err : PyError) :
  has_column df t = true ->
  to_datetime df t = Err err ->
  err = ValueError "unable to parse the timestamps".
Proof.
  intros H. unfold to_datetime.
  destruct (column_index_present _ _ H) as [i ->]. cbn [bind].
  destruct (forallb is_instant (column df i)); [discriminate |].
  intros E. injection E as <-. reflexivity.
Qed.

Lemma to_datetime_parsed (df df1 : DataFrame) (t : string) :
  to_datetime df t = Ok df1 ->
  df1 = df
  /\ exists i, column_index df t = Ok i
               /\ forallb is_instant (column df i) = true.
Proof.
  intros H. split; [exact (to_datetime_columns _ _ _ H) |].
  unfold to_datetime in H.
  destruct (column_index df t) as [i |]; [| discriminate H].
  cbn [bind] in H. exists i. split; [reflexivity |].
  destruct (forallb is_instant (column df i)); [reflexivity | discriminate].
Qed.

Lemma has_column_parsed (df df1 : DataFrame) (t : string) :
  to_datetime df t = Ok df1 -> has_column df t = true.
Proof.
  intros H. destruct (has_column df t) eqn:E; [reflexivity |].
  rewrite (to_datetime_absent _ _ E) in H. discriminate.
Qed.

(** A sort on two keys raises for an absent key only. *)
Lemma sort_values_two (df : DataFrame) (u t : string) :
  has_column df u = true -> has_column df t = true ->
  exists df2,
    sort_values df [u; t] = Ok df2
    /\ columns df2 = columns df
    /\ forall r, In r (data df2) <-> In r (data df).
Proof.
  intros Hu Ht. unfold sort_values. cbn [mapM].
  destruct (column_index_present _ _ Hu) as [i ->].
  destruct (column_index_present _ _ Ht) as [k ->].
  cbn [bind sortable]. eexists. split; [reflexivity |].
  cbn [columns data]. split; [reflexivity |].
  intros r. apply sort_In.
Qed.

Lemma sort_values_absent (df : DataFrame) (u : string) (rest : list string) :
  has_column df u = false ->
  sort_values df (u :: rest) = Err (KeyError u).
Proof.
  intros Hu. unfold sort_values. cbn [mapM].
  rewrite (column_index_missing _ _ Hu). reflexivity.
Qed.

(** *** The preprocessing of funnel_analysis, path_analysis and
    key_path_analysis *)

Lemma user_lists_no_timestamp (df : DataFrame) (u e t : string) :
  has_column df t = false ->
  PathAnalysisService.user_lists df u e t = Err (KeyError t).
Proof.
  intros H. unfold PathAnalysisService.user_lists.
  rewrite (to_datetime_absent _ _ H). reflexivity.
Qed.

Lemma user_lists_unparsed (df : DataFrame) (u e t : string) (err : PyError) :
  to_datetime df t = Err err ->
  PathAnalysisService.user_lists df u e t = Err err.
Proof.
  intros H. unfold PathAnalysisService.user_lists. rewrite H. reflexivity.
Qed.

Lemma user_lists_no_user (df : DataFrame) (u e t : string) :
  to_datetime df t = Ok df ->
  has_column df u = false ->
  PathAnalysisService.user_lists df u e t = Err (KeyError u).
Proof.
  intros H Hu. unfold PathAnalysisService.user_lists. rewrite H.
  cbn [bind]. rewrite (sort_values_absent _ _ _ Hu). reflexivity.
Qed.

Lemma user_lists_no_event (df : DataFrame) (u e t : string) :
  to_datetime df t = Ok df ->
  has_column df u = true ->
  has_column df e = false ->
  PathAnalysisService.user_lists df u e t
  = Err (KeyError ("Column not found: " ++ e)).
Proof.
  intros H Hu He. unfold PathAnalysisService.user_lists. rewrite H.
  cbn [bind].
  destruct (sort_values_two df u t Hu (has_column_parsed _ _ _ H))
    as (df2 & -> & Hc & _).
  cbn [bind]. unfold groupby_lists, groupby.
  assert (Hu2 : has_column df2 u = true)
    by (unfold has_column; rewrite Hc; exact Hu).
  destruct (column_index_present _ _ Hu2) as [i ->]. cbn [bind].
  assert (He2 : existsb (String.eqb e) (columns df2) = false)
    by (rewrite Hc; exact He).
  rewrite (get_loc_missing _ _ He2). reflexivity.
Qed.

(** *** The groups of a frame *)

Lemma group_insert_incl (k : Cell) (r : Row) (gs : list (Cell * list Row))
    (rows : list Row) :
  Forall (fun g => incl (snd g) rows) gs ->
  In r rows ->
  Forall (fun g => incl (snd g) rows) (group_insert k r gs).
Proof.
  intros Hgs Hr. induction Hgs as [| [k' rs] gs Hg Hgs IH];
    cbn [group_insert].
  - constructor; [| constructor]. cbn [snd]. intros x [<- | []]. exact Hr.
  - destruct (cell_eqb k' k); [| destruct (cell_leb k k')].
    + constructor; [| exact Hgs]. cbn [snd] in *.
      intros x Hx. apply in_app_or in Hx.
      destruct Hx as [Hx | [<- | []]]; [apply Hg; exact Hx | exact Hr].
    + constructor; [| constructor; assumption].
      cbn [snd]. intros x [<- | []]. exact Hr.
    + constructor; assumption.
Qed.

Lemma group_insert_cons (k : Cell) (r : Row) (gs : list (Cell * list Row)) :
  group_insert k r gs <> [].
Proof.
  destruct gs as [| [k' rs] gs]; cbn [group_insert]; [discriminate |].
  destruct (cell_eqb k' k); [| destruct (cell_leb k k')]; discriminate.
Qed.

Lemma fold_group_insert_cons (i : nat) (rows : list Row)
    (gs : list (Cell * list Row)) :
  gs <> [] ->
  fold_left (fun gs0 r => group_insert (cell r i) r gs0) rows gs <> [].
Proof.
  revert gs. induction rows as [| r rows IH]; intros gs H; cbn [fold_left].
  - exact H.
  - apply IH, group_insert_cons.
Qed.

Lemma fold_group_insert_incl (i : nat) (all rows : list Row)
    (gs : list (Cell * list Row)) :
  incl rows all ->
  Forall (fun g => incl (snd g) all) gs ->
  Forall (fun g => incl (snd g) all)
    (fold_left (fun gs0 r => group_insert (cell r i) r gs0) rows gs).
Proof.
  revert gs. induction rows as [| r rows IH]; intros gs Hr Hgs;
    cbn [fold_left].
  - exact Hgs.
  - apply IH.
    + intros x Hx. apply Hr. right. exact Hx.
    + apply group_insert_incl; [exact Hgs | apply Hr; left; reflexivity].
Qed.

Lemma groupby_absent (df : DataFrame) (u : string) :
  has_column df u = false -> groupby df u = Err (KeyError u).
Proof.
  intros H. unfold groupby. rewrite (column_index_missing _ _ H).
  reflexivity.
Qed.

(** The groups have the columns of the frame and rows of the frame; there
    is a group as soon as there is a row. *)
Lemma groupby_groups (df : DataFrame) (u : string) :
  has_column df u = true ->
  exists gs,
    groupby df u = Ok gs
    /\ Forall (fun g => columns (snd g) = columns df
                        /\ incl (data (snd g)) (data df)) gs
    /\ (data df = [] -> gs = [])
    /\ (data df <> [] -> gs <> []).
Proof.
  intros H. unfold groupby.
  destruct (column_index_present _ _ H) as [i ->]. cbn [bind].
  eexists. split; [reflexivity |]. split; [| split].
  - apply Forall_map. cbn [snd columns data].
    eapply Forall_impl;
      [| apply (fold_group_insert_incl i (data df) (data df) []);
         [apply incl_refl | constructor]].
    intros g Hg. split; [reflexivity | exact Hg].
  - intros ->. reflexivity.
  - intros Hd Hnil. apply map_eq_nil in Hnil.
    destruct (data df) as [| r rows]; [apply Hd; reflexivity |].
    cbn [fold_left] in Hnil. revert Hnil.
    apply fold_group_insert_cons, group_insert_cons.
Qed.

Lemma forallb_incl (X : Type) (f : X -> bool) (l l' : list X) :
  incl l' l -> forallb f l = true -> forallb f l' = true.
Proof.
  intros Hi H. apply forallb_forall. intros x Hx.
  rewrite forallb_forall in H. apply H, Hi, Hx.
Qed.

Lemma column_incl (df g : DataFrame) (i : nat) :
  incl (data g) (data df) -> incl (column g i) (column df i).
Proof.
  intros Hi c Hc. unfold column in *. apply in_map_iff in Hc.
  destruct Hc as (r & <- & Hr).
  apply in_map_iff. exists r. split; [reflexivity | apply Hi, Hr].
Qed.

Lemma comparable_incl (l l' : list Cell) :
  incl l' l -> comparable l = true -> comparable l' = true.
Proof.
  unfold comparable. intros Hi H. apply orb_true_iff in H.
  apply orb_true_iff. destruct H as [H | H]; [left | right];
    eapply forallb_incl; eassumption.
Qed.

Lemma instants_comparable (l : list Cell) :
  forallb is_instant l = true -> comparable l = true.
Proof.
  intros H. unfold comparable. apply orb_true_iff. left.
  apply forallb_forall. intros c Hc. rewrite forallb_forall in H.
  specialize (H c Hc). destruct c; [reflexivity | discriminate..].
Qed.

Lemma mapM_first_error (A B : Type) (f : A -> Result B) (a : A)
    (l : list A) (e : PyError) :
  f a = Err e -> mapM f (a :: l) = Err e.
Proof. intros H. cbn [mapM]. rewrite H. reflexivity. Qed.

End AbsentColumns.

Section AbsentEventColumn.
Import Pandas Spec.

(** *** Sequences without the event column *)

Lemma has_first_column (df : DataFrame) (c : string) (cs : list string) :
  columns df = c :: cs -> has_column df c = true.
Proof.
  intros H. unfold has_column. rewrite H. cbn [existsb].
  rewrite String.eqb_refl. reflexivity.
Qed.

Lemma sort_column_present (df : DataFrame) (u : string) :
  has_column df u = true ->
  has_column df (SequenceMiningService.sort_column df) = true.
Proof.
  intros Hu. unfold SequenceMiningService.sort_column.
  destruct (has_column df "event_time") eqn:E; [exact E |].
  destruct (columns df) as [| c cs] eqn:Ec.
  - unfold has_column in Hu. rewrite Ec in Hu. discriminate.
  - cbn [nth]. apply (has_first_column df c cs Ec).
Qed.

Lemma has_column_same (df g : DataFrame) (c : string) :
  columns g = columns df -> has_column g c = has_column df c.
Proof. intros H. unfold has_column. rewrite H. reflexivity. Qed.

Lemma column_index_same (df g : DataFrame) (c : string) :
  columns g = columns df -> column_index g c = column_index df c.
Proof. intros H. unfold column_index. rewrite H. reflexivity. Qed.

Lemma sort_column_same (df g : DataFrame) :
  columns g = columns df ->
  SequenceMiningService.sort_column g = SequenceMiningService.sort_column df.
Proof.
  intros H. unfold SequenceMiningService.sort_column.
  rewrite (has_column_same df g _ H), H. reflexivity.
Qed.

(** The loop body on a group of a frame without the event column: the sort
    of the group comes first, the event column is read next. *)
Lemma build_sequence_no_event (df : DataFrame) (e : string)
    (conv : option string) (g : Cell * DataFrame) (i : nat) :
  columns (snd g) = columns df ->
  column_index df (SequenceMiningService.sort_column df) = Ok i ->
  has_column df e = false ->
  SequenceMiningService.build_sequence df e conv g
  = if comparable (column (snd g) i) then Err (KeyError e)
    else Err TypeError.
Proof.
  intros Hc Hi He. unfold SequenceMiningService.build_sequence, sort_values.
  cbn [mapM]. rewrite (column_index_same df (snd g) _ Hc), Hi.
  cbn [bind sortable].
  destruct (comparable (column (snd g) i)); [| reflexivity].
  cbn [bind]. unfold column_index at 1. cbn [columns]. rewrite Hc.
  unfold has_column in He. rewrite (get_loc_missing _ _ He). reflexivity.
Qed.

Lemma build_sequences_no_user (df : DataFrame) (u e : string)
    (conv : option string) :
  has_column df u = false ->
  SequenceMiningService._build_sequences df u e conv = Err (KeyError u).
Proof.
  intros H. unfold SequenceMiningService._build_sequences.
  rewrite (groupby_absent _ _ H). reflexivity.
Qed.

Lemma build_sequences_no_rows (df : DataFrame) (u e : string)
    (conv : option string) :
  has_column df u = true -> data df = [] ->
  SequenceMiningService._build_sequences df u e conv = Ok [].
Proof.
  intros Hu Hd. unfold SequenceMiningService._build_sequences.
  destruct (groupby_groups df u Hu) as (gs & -> & _ & Hnil & _).
  rewrite (Hnil Hd). reflexivity.
Qed.

Lemma build_sequences_no_event (df : DataFrame) (u e : string)
    (conv : option string) :
  has_column df u = true -> has_column df e = false -> data df <> [] ->
  (SequenceMiningService._build_sequences df u e conv = Err (KeyError e)
   \/ SequenceMiningService._build_sequences df u e conv = Err TypeError)
  /\ forall i,
       column_index df (SequenceMiningService.sort_column df) = Ok i ->
       comparable (column df i) = true ->
       SequenceMiningService._build_sequences df u e conv
       = Err (KeyError e).
Proof.
  intros Hu He Hd. unfold SequenceMiningService._build_sequences.
  destruct (groupby_groups df u Hu) as (gs & -> & HF & _ & Hne).
  cbn [bind]. destruct gs as [| g gs]; [exfalso; apply (Hne Hd); reflexivity |].
  inversion HF as [| ? ? [Hc Hi] _]; subst.
  destruct (column_index_present _ _ (sort_column_present df u Hu))
    as [i Ei].
  cbn [mapM].
  rewrite (build_sequence_no_event df e conv g i Hc Ei He).
  split.
  - destruct (comparable (column (snd g) i)); [left | right]; reflexivity.
  - intros i' Ei' Hcmp. assert (i' = i) by congruence. subst i'.
    rewrite (comparable_incl (column df i) (column (snd g) i));
      [reflexivity | apply column_incl; exact Hi | exact Hcmp].
Qed.

(** *** Journeys without the touchpoint column *)

Lemma build_journey_no_touchpoint (df : DataFrame) (tp t : string)
    (conv val : option string) (g : Cell * DataFrame) (i : nat) :
  columns (snd g) = columns df ->
  incl (data (snd g)) (data df) ->
  column_index df t = Ok i ->
  forallb is_instant (column df i) = true ->
  has_column df tp = false ->
  AttributionService.build_journey tp t conv val g = Err (KeyError tp).
Proof.
  intros Hc Hi Ei Hinst Htp.
  unfold AttributionService.build_journey, sort_values. cbn [mapM].
  rewrite (column_index_same df (snd g) _ Hc), Ei. cbn [bind sortable].
  rewrite (instants_comparable (column (snd g) i)).
  2:{ eapply forallb_incl; [| exact Hinst]. apply column_incl. exact Hi. }
  cbn [bind]. unfold column_index at 1. cbn [columns]. rewrite Hc.
  unfold has_column in Htp. rewrite (get_loc_missing _ _ Htp). reflexivity.
Qed.

Lemma build_user_journeys_no_user (df : DataFrame) (u tp t : string)
    (conv val : option string) :
  has_column df u = false ->
  AttributionService._build_user_journeys df u tp t conv val
  = Err (KeyError u).
Proof.
  intros H. unfold AttributionService._build_user_journeys.
  rewrite (groupby_absent _ _ H). reflexivity.
Qed.

Lemma build_user_journeys_no_rows (df : DataFrame) (u tp t : string)
    (conv val : option string) :
  has_column df u = true -> data df = [] ->
  AttributionService._build_user_journeys df u tp t conv val = Ok [].
Proof.
  intros Hu Hd. unfold AttributionService._build_user_journeys.
  destruct (groupby_groups df u Hu) as (gs & -> & _ & Hnil & _).
  rewrite (Hnil Hd). reflexivity.
Qed.

Lemma build_user_journeys_no_touchpoint (df : DataFrame) (u tp t : string)
    (conv val : option string) :
  to_datetime df t = Ok df ->
  has_column df u = true -> has_column df tp = false -> data df <> [] ->
  AttributionService._build_user_journeys df u tp t conv val
  = Err (KeyError tp).
Proof.
  intros Ht Hu Htp Hd. unfold AttributionService._build_user_journeys.
  destruct (groupby_groups df u Hu) as (gs & -> & HF & _ & Hne).
  cbn [bind]. destruct gs as [| g gs]; [exfalso; apply (Hne Hd); reflexivity |].
  inversion HF as [| ? ? [Hc Hi] _]; subst.
  destruct (to_datetime_parsed _ _ _ Ht) as (_ & i & Ei & Hinst).
  cbn [mapM].
  rewrite (build_journey_no_touchpoint df tp t conv val g i Hc Hi Ei Hinst
             Htp).
  reflexivity.
Qed.

End AbsentEventColumn.

Section AbsentColumnServices.
Import Pandas Spec.

Variables (df : DataFrame) (u e t : string).

(** *** Sequence mining, classification and attribution *)

Lemma mining_no_timestamp min_support max_pattern_length conversion_col
    min_confidence :
  has_column df t = false ->
  SequenceMiningService.sequence_pattern_mining_all df u e t min_support
    max_pattern_length conversion_col min_confidence = Err (KeyError t).
Proof.
  intros H. unfold SequenceMiningService.sequence_pattern_mining_all.
  rewrite (to_datetime_absent _ _ H). reflexivity.
Qed.

Lemma mining_unparsed min_support max_pattern_length conversion_col
    min_confidence (err : PyError) :
  to_datetime df t = Err err ->
  SequenceMiningService.sequence_pattern_mining_all df u e t min_support
    max_pattern_length conversion_col min_confidence = Err err.
Proof.
  intros H. unfold SequenceMiningService.sequence_pattern_mining_all.
  rewrite H. reflexivity.
Qed.

Lemma mining_no_user min_support max_pattern_length conversion_col
    min_confidence :
  to_datetime df t = Ok df -> has_column df u = false ->
  SequenceMiningService.sequence_pattern_mining_all df u e t min_support
    max_pattern_length conversion_col min_confidence = Err (KeyError u).
Proof.
  intros H Hu. unfold SequenceMiningService.sequence_pattern_mining_all.
  rewrite H. cbn [bind]. rewrite (sort_values_absent _ _ _ Hu). reflexivity.
Qed.

Lemma mining_no_event min_support max_pattern_length conversion_col
    min_confidence :
  to_datetime df t = Ok df -> has_column df u = true ->
  has_column df e = false ->
  let mining :=
    SequenceMiningService.sequence_pattern_mining_all df u e t min_support
      max_pattern_length conversion_col min_confidence in
  (data df = [] -> mining = Ok SequenceMiningService.NoSequences)
  /\ (data df <> [] ->
      (mining = Err (KeyError e) \/ mining = Err TypeError)
      /\ forall i,
           column_index df (SequenceMiningService.sort_column df) = Ok i ->
           comparable (column df i) = true ->
           mining = Err (KeyError e)).
Proof.
  intros H Hu He mining. subst mining.
  unfold SequenceMiningService.sequence_pattern_mining_all.
  rewrite H. cbn [bind].
  destruct (sort_values_two df u t Hu (has_column_parsed _ _ _ H))
    as (df2 & -> & Hc & Hin).
  cbn [bind].
  assert (Hu2 : has_column df2 u = true)
    by (rewrite (has_column_same df df2 _ Hc); exact Hu).
  assert (He2 : has_column df2 e = false)
    by (rewrite (has_column_same df df2 _ Hc); exact He).
  split.
  - intros Hd. rewrite (build_sequences_no_rows df2 u e conversion_col Hu2).
    + reflexivity.
    + destruct (data df2) as [| r rows] eqn:E2; [reflexivity |].
      exfalso. assert (Hr : In r (data df)) by (apply Hin; left; reflexivity).
      rewrite Hd in Hr. destruct Hr.
  - intros Hd.
    assert (Hd2 : data df2 <> []).
    { intros E2. destruct (data df) as [| r rows] eqn:Ed;
        [apply Hd; reflexivity |].
      assert (Hr : In r (data df2)) by (apply Hin; left; reflexivity).
      rewrite E2 in Hr. destruct Hr. }
    destruct (build_sequences_no_event df2 u e conversion_col Hu2 He2 Hd2)
      as [Hor Hex].
    split.
    + destruct Hor as [-> | ->]; [left | right]; reflexivity.
    + intros i Ei Hcmp. rewrite (Hex i); [reflexivity | |].
      * rewrite (sort_column_same df df2 Hc),
          (column_index_same df df2 _ Hc). exact Ei.
      * apply (comparable_incl (column df i)); [| exact Hcmp].
        apply column_incl. intros r Hr. apply Hin. exact Hr.
Qed.

Lemma classification_no_event (target_col : string) :
  to_datetime df t = Ok df -> has_column df u = true ->
  has_column df e = false ->
  let classification :=
    SequenceMiningService.sequence_classification df u e t target_col in
  (data df = [] ->
   classification = Ok SequenceMiningService.NotEnoughData)
  /\ (data df <> [] ->
      (classification = Err (KeyError e) \/ classification = Err TypeError)
      /\ forall i,
           column_index df (SequenceMiningService.sort_column df) = Ok i ->
           comparable (column df i) = true ->
           classification = Err (KeyError e)).
Proof.
  intros H Hu He classification. subst classification.
  unfold SequenceMiningService.sequence_classification.
  rewrite H. cbn [bind]. split.
  - intros Hd.
    rewrite (build_sequences_no_rows df u e (Some target_col) Hu Hd).
    reflexivity.
  - intros Hd.
    destruct (build_sequences_no_event df u e (Some target_col) Hu He Hd)
      as [Hor Hex].
    split.
    + destruct Hor as [-> | ->]; [left | right]; reflexivity.
    + intros i Ei Hcmp. rewrite (Hex i Ei Hcmp). reflexivity.
Qed.

Lemma attribution_no_touchpoint (ln2 : Q) (exp : Q -> Q)
    (conversion_col conversion_value_col : option string)
    (models : option (list string)) (half_life : Z) :
  to_datetime df t = Ok df -> has_column df u = true ->
  has_column df e = false ->
  let attribution :=
    AttributionService.attribution_analysis ln2 exp df u e t conversion_col
      conversion_value_col models half_life in
  (data df = [] -> attribution = Ok AttributionService.NoJourneys)
  /\ (data df <> [] -> attribution = Err (KeyError e)).
Proof.
  intros H Hu He attribution. subst attribution.
  unfold AttributionService.attribution_analysis.
  rewrite H. cbn [bind]. split.
  - intros Hd.
    rewrite (build_user_journeys_no_rows df u e t conversion_col
               conversion_value_col Hu Hd).
    reflexivity.
  - intros Hd.
    rewrite (build_user_journeys_no_touchpoint df u e t conversion_col
               conversion_value_col H Hu He Hd).
    reflexivity.
Qed.

End AbsentColumnServices.

Section QuickPath.
Import Pandas Spec.

Lemma check_columns_missing (df : DataFrame) (cols : list string)
    (c : string) :
  first_missing df cols = Some c ->
  Endpoints.check_columns df cols
  = Err (HTTPException 400 (Endpoints.missing_detail c)).
Proof.
  induction cols as [| c' cols IH]; simpl; [discriminate |].
  destruct (has_column df c'); [exact IH |].
  intros H. injection H as <-. reflexivity.
Qed.

Lemma first_missing_absent (df : DataFrame) (cols : list string)
    (c : string) :
  first_missing df cols = Some c -> has_column df c = false /\ In c cols.
Proof.
  induction cols as [| c' cols IH]; cbn [first_missing]; [discriminate |].
  destruct (has_column df c') eqn:E.
  - intros H. destruct (IH H) as [H1 H2]. split; [exact H1 | right; exact H2].
  - intros H. injection H as <-. split; [exact E | left; reflexivity].
Qed.

Lemma check_columns_ok (df : DataFrame) (cols : list string) :
  first_missing df cols = None -> Endpoints.check_columns df cols = Ok tt.
Proof.
  induction cols as [| c cols IH]; cbn [first_missing Endpoints.check_columns];
    [reflexivity |].
  destruct (has_column df c); [exact IH | discriminate].
Qed.

Lemma first_missing_has (df : DataFrame) (cols : list string) (c : string) :
  first_missing df cols = None -> In c cols -> has_column df c = true.
Proof.
  induction cols as [| c' cols IH]; cbn [first_missing]; [intros _ [] |].
  destruct (has_column df c') eqn:E; [| discriminate].
  intros H [<- | Hin]; [exact E | apply IH; assumption].
Qed.

(** With its three columns in the frame, the preprocessing fails only on
    timestamps that cannot be parsed. *)
Lemma user_lists_errors (df : DataFrame)
    (user_id_col event_col timestamp_col : string) (err : PyError) :
  has_column df user_id_col = true ->
  has_column df event_col = true ->
  has_column df timestamp_col = true ->
  PathAnalysisService.user_lists df user_id_col event_col timestamp_col
  = Err err ->
  to_datetime df timestamp_col = Err err
  /\ err = ValueError "unable to parse the timestamps".
Proof.
  intros Hu He Ht. unfold PathAnalysisService.user_lists.
  destruct (to_datetime df timestamp_col) as [df1 | e0] eqn:E1.
  2:{ cbn [bind]. intros H. injection H as <-.
      split; [reflexivity | apply (to_datetime_raises _ _ _ Ht E1)]. }
  pose proof (to_datetime_columns _ _ _ E1) as ->. cbn [bind].
  destruct (sort_values_two df user_id_col timestamp_col Hu Ht)
    as (df2 & -> & Hc & _).
  cbn [bind]. unfold groupby_lists, groupby.
  rewrite (column_index_same df df2 _ Hc).
  destruct (column_index_present _ _ Hu) as [iu ->]. cbn [bind].
  rewrite Hc.
  destruct (get_loc_has _ _ He) as [ie ->].
  destruct (get_loc_has _ _ Ht) as [it ->].
  cbn [bind]. discriminate.
Qed.
End QuickPath.

(** C8, as amended.  There is no [MissingColumnError] in the code: an absent
    column shows as the [KeyError] pandas raises where the column is first
    read, and what is raised follows the order of the reads.

    - Without the timestamp column, the six services raise [KeyError] with
      the name of the timestamp column.
    - With it, timestamps that cannot be parsed raise the [ValueError] of
      [pd.to_datetime] in all six, whatever other column is absent.
    - With timestamps that parse and no user column, the six raise
      [KeyError] with the name of the user column.
    - With the event (touchpoint) column alone absent, funnel_analysis,
      path_analysis and key_path_analysis raise [KeyError] with the text
      "Column not found: " before the name.  The other three read the column
      while they go through the users: on a dataset without rows they do not
      fail and answer that there is not enough data; on a dataset with rows
      attribution_analysis raises [KeyError] with the name, and so do
      sequence_pattern_mining and sequence_classification unless the sort
      of the first user's rows has raised [TypeError] before, which needs a
      sort column (event_time, or the first column) that mixes numbers and
      strings.

    The path task records the status "failed" with the text of the
    exception its service raised, and the quick path endpoint, once it has
    read the dataset, answers for every path type with status 400 and a
    detail that holds the name of the first absent column among user, event
    and timestamp. *)
Theorem missing_column_raises_key_error
    (ln2 : Q) (exp : Q -> Q) (Clusters : Type)
    (path_clustering :
       Pandas.DataFrame -> string -> string -> string -> Result Clusters)
    (df : Pandas.DataFrame)
    (user_id_col event_col timestamp_col : string)
    (funnel_steps : list Cell) (time_window : option Z)
    (max_path_length min_user_count : Z)
    (start_event end_event : Cell) (max_steps : Z)
    (min_support : Q) (max_pattern_length : Z)
    (conversion_col conversion_value_col : option string)
    (min_confidence : Q) (target_col : string)
    (models : option (list string)) (half_life : Z) :
  let funnel :=
    PathAnalysisService.funnel_analysis df user_id_col event_col
      timestamp_col funnel_steps time_window in
  let path :=
    PathAnalysisService.path_analysis df user_id_col event_col
      timestamp_col max_path_length min_user_count in
  let key_path :=
    PathAnalysisService.key_path_analysis df user_id_col event_col
      timestamp_col start_event end_event max_steps in
  let mining :=
    SequenceMiningService.sequence_pattern_mining_all df user_id_col
      event_col timestamp_col min_support max_pattern_length conversion_col
      min_confidence in
  let classification :=
    SequenceMiningService.sequence_classification df user_id_col event_col
      timestamp_col target_col in
  let attribution :=
    AttributionService.attribution_analysis ln2 exp df user_id_col
      event_col timestamp_col conversion_col conversion_value_col models
      half_life in
  let all_raise := fun err : PyError =>
    funnel = Err err /\ path = Err err /\ key_path = Err err
    /\ mining = Err err /\ classification = Err err
    /\ attribution = Err err in
  (Pandas.has_column df timestamp_col = false ->
   all_raise (KeyError timestamp_col))
  /\ (forall err,
        Pandas.has_column df timestamp_col = true ->
        Pandas.to_datetime df timestamp_col = Err err ->
        exc_class err = "ValueError"%string /\ all_raise err)
  /\ (Pandas.to_datetime df timestamp_col = Ok df ->
      Pandas.has_column df user_id_col = false ->
      all_raise (KeyError user_id_col))
  /\ (Pandas.to_datetime df timestamp_col = Ok df ->
      Pandas.has_column df user_id_col = true ->
      Pandas.has_column df event_col = false ->
      funnel = Err (KeyError ("Column not found: " ++ event_col))
      /\ path = Err (KeyError ("Column not found: " ++ event_col))
      /\ key_path = Err (KeyError ("Column not found: " ++ event_col))
      /\ (Pandas.data df = [] ->
          mining = Ok SequenceMiningService.NoSequences
          /\ classification = Ok SequenceMiningService.NotEnoughData
          /\ attribution = Ok AttributionService.NoJourneys)
      /\ (Pandas.data df <> [] ->
          attribution = Err (KeyError event_col)
          /\ (mining = Err (KeyError event_col) \/ mining = Err TypeError)
          /\ (classification = Err (KeyError event_col)
              \/ classification = Err TypeError)
          /\ forall i,
               Pandas.column_index df (SequenceMiningService.sort_column df)
               = Ok i ->
               Pandas.comparable (Pandas.column df i) = true ->
               mining = Err (KeyError event_col)
               /\ classification = Err (KeyError event_col)))
  /\ (forall params err,
        Endpoints.p_user_id_col params = Some user_id_col ->
        Endpoints.p_event_col params = Some event_col ->
        Endpoints.p_timestamp_col params = Some timestamp_col ->
        user_id_col <> EmptyString -> event_col <> EmptyString ->
        timestamp_col <> EmptyString ->
        let status :=
          Endpoints.execute_analysis_task path_clustering df params in
        let recorded :=
          Endpoints.failed Clusters ("分析执行失败: " ++ exc_str err) in
        (Endpoints.p_path_type params = "funnel"%string ->
         Endpoints.p_funnel_steps params <> [] ->
         PathAnalysisService.funnel_analysis df user_id_col event_col
           timestamp_col (Endpoints.p_funnel_steps params)
           (Endpoints.p_time_window params) = Err err ->
         status = recorded)
        /\ (Endpoints.p_path_type params = "path"%string ->
            PathAnalysisService.path_analysis df user_id_col event_col
              timestamp_col (Endpoints.p_max_path_length params)
              (Endpoints.p_min_user_count params) = Err err ->
            status = recorded)
        /\ (Endpoints.p_path_type params = "key_path"%string ->
            Endpoints.present (Endpoints.p_start_event params) = true ->
            Endpoints.present (Endpoints.p_end_event params) = true ->
            PathAnalysisService.key_path_analysis df user_id_col event_col
              timestamp_col
              (Endpoints.event_of (Endpoints.p_start_event params))
              (Endpoints.event_of (Endpoints.p_end_event params))
              (Endpoints.p_max_steps params) = Err err ->
            status = recorded))
  /\ (forall c,
        Spec.first_missing df [user_id_col; event_col; timestamp_col]
        = Some c ->
        Pandas.has_column df c = false
        /\ forall path_type steps window length count first last_ most,
             Endpoints.quick_path_analysis path_clustering df path_type
               user_id_col event_col timestamp_col steps window length
               count first last_ most
             = Err (HTTPException 400 (Endpoints.missing_detail c))).
Proof.
  intros funnel path key_path mining classification attribution all_raise.
  assert (Hall : forall err,
             PathAnalysisService.user_lists df user_id_col event_col
               timestamp_col = Err err ->
             funnel = Err err /\ path = Err err /\ key_path = Err err).
  { intros err Hul. subst funnel path key_path.
    unfold PathAnalysisService.funnel_analysis,
      PathAnalysisService.path_analysis,
      PathAnalysisService.key_path_analysis.
    rewrite Hul. repeat split; reflexivity. }
  split; [| split; [| split; [| split; [| split]]]].
  - intros Ht. subst all_raise. cbv beta.
    destruct (Hall _ (user_lists_no_timestamp df user_id_col event_col
                        timestamp_col Ht)) as (H1 & H2 & H3).
    split; [exact H1 |]. split; [exact H2 |]. split; [exact H3 |].
    split; [apply mining_no_timestamp; exact Ht |].
    split.
    + subst classification.
      unfold SequenceMiningService.sequence_classification.
      rewrite (to_datetime_absent _ _ Ht). reflexivity.
    + subst attribution. unfold AttributionService.attribution_analysis.
      rewrite (to_datetime_absent _ _ Ht). reflexivity.
  - intros err Ht Herr. split.
    + rewrite (to_datetime_raises _ _ _ Ht Herr). reflexivity.
    + subst all_raise. cbv beta.
      destruct (Hall _ (user_lists_unparsed df user_id_col event_col
                          timestamp_col err Herr)) as (H1 & H2 & H3).
      split; [exact H1 |]. split; [exact H2 |]. split; [exact H3 |].
      split; [apply mining_unparsed; exact Herr |].
      split.
      * subst classification.
        unfold SequenceMiningService.sequence_classification.
        rewrite Herr. reflexivity.
      * subst attribution. unfold AttributionService.attribution_analysis.
        rewrite Herr. reflexivity.
  - intros Ht Hu. subst all_raise. cbv beta.
    destruct (Hall _ (user_lists_no_user df user_id_col event_col
                        timestamp_col Ht Hu)) as (H1 & H2 & H3).
    split; [exact H1 |]. split; [exact H2 |]. split; [exact H3 |].
    split; [apply mining_no_user; assumption |].
    split.
    + subst classification.
      unfold SequenceMiningService.sequence_classification.
      rewrite Ht. cbn [bind].
      rewrite (build_sequences_no_user _ _ _ _ Hu). reflexivity.
    + subst attribution. unfold AttributionService.attribution_analysis.
      rewrite Ht. cbn [bind].
      rewrite (build_user_journeys_no_user _ _ _ _ _ _ Hu). reflexivity.
  - intros Ht Hu He.
    destruct (Hall _ (user_lists_no_event df user_id_col event_col
                        timestamp_col Ht Hu He)) as (H1 & H2 & H3).
    split; [exact H1 |]. split; [exact H2 |]. split; [exact H3 |].
    destruct (mining_no_event df user_id_col event_col timestamp_col
                min_support max_pattern_length conversion_col
                min_confidence Ht Hu He) as [Hm0 Hm1].
    destruct (classification_no_event df user_id_col event_col
                timestamp_col target_col Ht Hu He) as [Hc0 Hc1].
    destruct (attribution_no_touchpoint df user_id_col event_col
                timestamp_col ln2 exp conversion_col conversion_value_col
                models half_life Ht Hu He) as [Ha0 Ha1].
    split.
    + intros Hd. split; [apply Hm0; exact Hd |].
      split; [apply Hc0; exact Hd | apply Ha0; exact Hd].
    + intros Hd. destruct (Hm1 Hd) as [Hm Hm']. destruct (Hc1 Hd) as [Hc Hc'].
      split; [apply Ha1; exact Hd |]. split; [exact Hm |].
      split; [exact Hc |].
      intros i Ei Hcmp. split; [apply (Hm' i) | apply (Hc' i)]; assumption.
  - intros params err Eu Ee Et Hu He Ht status recorded.
    subst status recorded.
    unfold Endpoints.execute_analysis_task, Endpoints.dispatch_path.
    rewrite Eu, Ee, Et.
    destruct user_id_col as [| a1 r1]; [congruence |].
    destruct event_col as [| a2 r2]; [congruence |].
    destruct timestamp_col as [| a3 r3]; [congruence |].
    split; [| split].
    + intros -> Hsteps Hf. cbn [String.eqb Ascii.eqb Bool.eqb].
      destruct (Endpoints.p_funnel_steps params) as [| s steps];
        [exfalso; apply Hsteps; reflexivity |].
      rewrite Hf. reflexivity.
    + intros -> Hp. cbn [String.eqb Ascii.eqb Bool.eqb].
      rewrite Hp. reflexivity.
    + intros -> Hs Hl Hk. cbn [String.eqb Ascii.eqb Bool.eqb].
      rewrite Hs, Hl. cbn [andb]. rewrite Hk. reflexivity.
  - intros c Hc. split; [apply (first_missing_absent _ _ _ Hc) |].
    intros. unfold Endpoints.quick_path_analysis.
    rewrite (check_columns_missing _ _ _ Hc). reflexivity.
Qed.

(** The cases of [missing_column_raises_key_error] on the example datasets.
    The [out_of_order] dataset has the columns user, event and ts and two
    rows: asked for a timestamp column "time", a user column "uid" or an
    event column "page", the services raise [KeyError] with that name (after
    "Column not found: " for the event column of a funnel), the path task
    records the text ['time'] and the quick endpoint answers 400.  The
    timestamp "noon" of [spoken_time] raises [ValueError].  The [no_rows]
    dataset has no touchpoint column and no rows, and neither attribution
    nor sequence mining fails on it. *)
Lemma missing_column_raises_key_error_witness :
  let nothing : Pandas.DataFrame -> string -> string -> string -> Result unit
    := fun _ _ _ _ => Err TypeError in
  (PathAnalysisService.funnel_analysis Examples.out_of_order
     "user" "event" "time" [VStr "view"] None = Err (KeyError "time")
   /\ AttributionService.attribution_analysis (7 # 10) (fun _ => 1)
        Examples.out_of_order "user" "event" "time" None None None 7
      = Err (KeyError "time"))
  /\ (exists msg,
        PathAnalysisService.key_path_analysis Examples.spoken_time
          "user" "event" "ts" (VStr "A") (VStr "B") 10
        = Err (ValueError msg))
  /\ SequenceMiningService.sequence_pattern_mining_all Examples.out_of_order
       "uid" "event" "ts" (1 # 10) 5 None (1 # 2) = Err (KeyError "uid")
  /\ (PathAnalysisService.path_analysis Examples.out_of_order
        "user" "page" "ts" 10 5 = Err (KeyError "Column not found: page")
      /\ AttributionService.attribution_analysis (7 # 10) (fun _ => 1)
           Examples.out_of_order "user" "page" "ts" None None None 7
         = Err (KeyError "page")
      /\ SequenceMiningService.sequence_pattern_mining_all
           Examples.out_of_order "user" "page" "ts" (1 # 10) 5 None (1 # 2)
         = Err (KeyError "page"))
  /\ (AttributionService.attribution_analysis (7 # 10) (fun _ => 1)
        Examples.no_rows "user" "channel" "ts" None None None 7
      = Ok AttributionService.NoJourneys
      /\ SequenceMiningService.sequence_pattern_mining_all Examples.no_rows
           "user" "channel" "ts" (1 # 10) 5 None (1 # 2)
         = Ok SequenceMiningService.NoSequences)
  /\ Endpoints.execute_analysis_task nothing Examples.out_of_order
       {| Endpoints.p_path_type := "funnel";
          Endpoints.p_user_id_col := Some "user"%string;
          Endpoints.p_event_col := Some "event"%string;
          Endpoints.p_timestamp_col := Some "time"%string;
          Endpoints.p_funnel_steps := [VStr "view"];
          Endpoints.p_time_window := None;
          Endpoints.p_max_path_length := 10;
          Endpoints.p_min_user_count := 5;
          Endpoints.p_start_event := None;
          Endpoints.p_end_event := None;
          Endpoints.p_max_steps := 10 |}
     = Endpoints.failed unit ("分析执行失败: " ++ "'time'")
  /\ Endpoints.quick_path_analysis nothing Examples.out_of_order "key_path"
       "user" "event" "time" [] None 10 5 None None 10
     = Err (HTTPException 400 (Endpoints.missing_detail "time")).
Proof.
  intros nothing.
  pose proof (fun df u e t =>
                missing_column_raises_key_error (7 # 10) (fun _ => 1) unit
                  nothing df u e t [VStr "view"] None 10 5 (VStr "A")
                  (VStr "B") 10 (1 # 10) 5 None None (1 # 2) "conv" None 7)
    as T.
  cbv zeta in T.
  split; [| split; [| split; [| split; [| split; [| split]]]]].
  - destruct (T Examples.out_of_order "user"%string "event"%string "time"%string)
      as (H & _).
    destruct (H eq_refl) as (Hf & _ & _ & _ & _ & Ha).
    split; [exact Hf | exact Ha].
  - destruct (T Examples.spoken_time "user"%string "event"%string "ts"%string)
      as (_ & H & _).
    eexists.
    destruct (H (ValueError _) eq_refl eq_refl) as (_ & _ & _ & Hk & _).
    exact Hk.
  - destruct (T Examples.out_of_order "uid"%string "event"%string "ts"%string)
      as (_ & _ & H & _).
    destruct (H eq_refl eq_refl) as (_ & _ & _ & Hm & _).
    exact Hm.
  - destruct (T Examples.out_of_order "user"%string "page"%string "ts"%string)
      as (_ & _ & _ & H & _).
    destruct (H eq_refl eq_refl eq_refl) as (_ & Hp & _ & _ & Hrows).
    destruct (Hrows ltac:(discriminate)) as (Ha & _ & _ & Hsort).
    destruct (Hsort 0%nat eq_refl eq_refl) as (Hm & _).
    split; [exact Hp |]. split; [exact Ha | exact Hm].
  - destruct (T Examples.no_rows "user"%string "channel"%string "ts"%string)
      as (_ & _ & _ & H & _).
    destruct (H eq_refl eq_refl eq_refl) as (_ & _ & _ & Hempty & _).
    destruct (Hempty eq_refl) as (Hm & _ & Ha).
    split; [exact Ha | exact Hm].
  - destruct (T Examples.out_of_order "user"%string "event"%string "time"%string)
      as (H & _ & _ & _ & Htask & _).
    destruct (H eq_refl) as (Hf & _).
    match goal with
    | |- Endpoints.execute_analysis_task _ _ ?p = _ =>
        refine (proj1 (Htask p (KeyError "time") eq_refl eq_refl eq_refl
                         ltac:(discriminate) ltac:(discriminate)
                         ltac:(discriminate)) eq_refl ltac:(discriminate) Hf)
    end.
  - destruct (T Examples.out_of_order "user"%string "event"%string "time"%string)
      as (_ & _ & _ & _ & _ & Hq).
    destruct (Hq "time"%string eq_refl) as (_ & Hq').
    apply Hq'.
Defined.

(** C8 as stated fails.  (a) funnel_analysis without its timestamp column
    raises a [KeyError], not a [MissingColumnError].  (b) attribution
    analysis of a dataset without rows and without the touchpoint column
    does not fail at all: it returns the result for no journeys. *)
Lemma missing_column_counterexample :
  (exists err,
     PathAnalysisService.funnel_analysis Examples.out_of_order
       "user" "event" "time" [VStr "view"] None = Err err
     /\ exc_class err = "KeyError"%string
     /\ exc_class err <> "MissingColumnError"%string)
  /\ Pandas.has_column Examples.no_rows "channel" = false
  /\ AttributionService.attribution_analysis (7 # 10) (fun _ => 1)
       Examples.no_rows "user" "channel" "ts" None None None 7
     = Ok AttributionService.NoJourneys.
Proof.
  split.
  - exists (KeyError "time"). split; [vm_compute; reflexivity |].
    split; [reflexivity | discriminate].
  - split; vm_compute; reflexivity.
Qed.

Section QuickPathFailures.
Import Pandas Spec.

(** What the handler makes of the failure of a service whose three columns
    are in the frame. *)
Lemma reraise_user_lists (A B : Type) (df : DataFrame) (u e t : string)
    (k : list (Cell * list Cell) * list (Cell * list Cell) -> Result A)
    (f : A -> B) (err : PyError) :
  has_column df u = true -> has_column df e = true ->
  has_column df t = true ->
  Endpoints.reraise
    (r <- (ul <- PathAnalysisService.user_lists df u e t ;; k ul) ;;
     Ok (f r)) = Err err ->
  (forall ul, exists a, k ul = Ok a) ->
  exists e0,
    to_datetime df t = Err e0
    /\ exc_class e0 = "ValueError"%string
    /\ err = HTTPException 500 ("分析失败: " ++ exc_str e0).
Proof.
  intros Hu He Ht H Hk.
  destruct (PathAnalysisService.user_lists df u e t) as [ul | e0] eqn:Eul.
  - cbn [bind] in H. destruct (Hk ul) as [a Ha]. rewrite Ha in H.
    cbn [bind Endpoints.reraise] in H. discriminate H.
  - destruct (user_lists_errors df u e t e0 Hu He Ht Eul) as [Hd ->].
    cbn [bind Endpoints.reraise] in H. injection H as <-.
    eexists. split; [exact Hd |]. split; reflexivity.
Qed.

End QuickPathFailures.

(** X25.  Once the dataset is read and has the three columns,
    quick_path_analysis fails in these ways only: with status 400 for a funnel without steps, for a
    key path without its start or end event, and for a path type it does
    not know; with status 500 and the text of the [ValueError] when a
    funnel, a path or a key path analysis meets timestamps that cannot be
    parsed; and, for a clustering, with what path_clustering raises, an
    [HTTPException] as it is and anything else under status 500. *)
Theorem quick_path_analysis_failures (Clusters : Type)
    (path_clustering :
       Pandas.DataFrame -> string -> string -> string -> Result Clusters)
    (df : Pandas.DataFrame) (path_type : string)
    (user_id_col event_col timestamp_col : string)
    (funnel_steps : list Cell) (time_window : option Z)
    (max_path_length min_user_count : Z)
    (start_event end_event : option string) (max_steps : Z)
    (err : PyError) :
  Spec.first_missing df [user_id_col; event_col; timestamp_col] = None ->
  Endpoints.quick_path_analysis path_clustering df path_type user_id_col
    event_col timestamp_col funnel_steps time_window max_path_length
    min_user_count start_event end_event max_steps
  = Err err ->
  (path_type = "funnel"%string /\ funnel_steps = []
   /\ err = HTTPException 400 "漏斗分析需要提供 funnel_steps")
  \/ (path_type = "key_path"%string
      /\ Endpoints.given start_event && Endpoints.given end_event = false
      /\ err = HTTPException 400
                 "关键路径分析需要提供 start_event 和 end_event")
  \/ (~ In path_type ["funnel"; "path"; "clustering"; "key_path"]%string
      /\ err = HTTPException 400 ("未知的路径分析类型: " ++ path_type))
  \/ (In path_type ["funnel"; "path"; "key_path"]%string
      /\ exists e0,
           Pandas.to_datetime df timestamp_col = Err e0
           /\ exc_class e0 = "ValueError"%string
           /\ err = HTTPException 500 ("分析失败: " ++ exc_str e0))
  \/ (path_type = "clustering"%string
      /\ exists e0,
           path_clustering df user_id_col event_col timestamp_col = Err e0
           /\ Endpoints.reraise (@Err Clusters e0) = Err err).
Proof.
  intros Hm. unfold Endpoints.quick_path_analysis.
  rewrite (check_columns_ok _ _ Hm). cbn [bind].
  assert (Hu : Pandas.has_column df user_id_col = true)
    by (apply (first_missing_has _ _ _ Hm); left; reflexivity).
  assert (He : Pandas.has_column df event_col = true)
    by (apply (first_missing_has _ _ _ Hm); right; left; reflexivity).
  assert (Ht : Pandas.has_column df timestamp_col = true)
    by (apply (first_missing_has _ _ _ Hm); right; right; left; reflexivity).
  destruct (String.eqb path_type "funnel") eqn:E1.
  { apply String.eqb_eq in E1. subst path_type.
    destruct funnel_steps as [| s steps].
    - cbn [Endpoints.reraise]. intros H. injection H as <-. left. auto.
    - unfold PathAnalysisService.funnel_analysis. intros H.
      right. right. right. left. split; [left; reflexivity |].
      apply (reraise_user_lists _ _ df user_id_col event_col timestamp_col
               _ _ err Hu He Ht H).
      intros ul. eexists. reflexivity. }
  destruct (String.eqb path_type "path") eqn:E2.
  { apply String.eqb_eq in E2. subst path_type.
    unfold PathAnalysisService.path_analysis. intros H.
    right. right. right. left. split; [right; left; reflexivity |].
    apply (reraise_user_lists _ _ df user_id_col event_col timestamp_col
             _ _ err Hu He Ht H).
    intros ul. eexists. reflexivity. }
  destruct (String.eqb path_type "clustering") eqn:E3.
  { apply String.eqb_eq in E3. subst path_type. intros H.
    right. right. right. right. split; [reflexivity |].
    destruct (path_clustering df user_id_col event_col timestamp_col)
      as [r | e0]; [discriminate H |].
    exists e0. split; [reflexivity |]. cbn [bind] in H.
    destruct e0; cbn [Endpoints.reraise] in *; injection H as <-;
      reflexivity. }
  destruct (String.eqb path_type "key_path") eqn:E4.
  { apply String.eqb_eq in E4. subst path_type.
    destruct (Endpoints.given start_event && Endpoints.given end_event)
      eqn:Eg.
    - unfold PathAnalysisService.key_path_analysis. intros H.
      right. right. right. left.
      split; [right; right; left; reflexivity |].
      apply (reraise_user_lists _ _ df user_id_col event_col timestamp_col
               _ _ err Hu He Ht H).
      intros ul. eexists. reflexivity.
    - cbn [Endpoints.reraise]. intros H. injection H as <-.
      right. left. auto. }
  cbn [Endpoints.reraise]. intros H. injection H as <-.
  right. right. left. split; [| reflexivity].
  apply String.eqb_neq in E1, E2, E3, E4.
  intros [<- | [<- | [<- | [<- | []]]]]; congruence.
Qed.

(** The timestamp of [spoken_time] is the word "noon": a path analysis of
    it fails with status 500 and the text of the [ValueError]. *)
Lemma quick_path_analysis_failures_witness :
  let nothing : Pandas.DataFrame -> string -> string -> string -> Result unit
    := fun _ _ _ _ => Err TypeError in
  exists e0,
    Pandas.to_datetime Examples.spoken_time "ts" = Err e0
    /\ exc_class e0 = "ValueError"%string
    /\ Endpoints.quick_path_analysis nothing Examples.spoken_time "path"
         "user" "event" "ts" [] None 10 5 None None 10
       = Err (HTTPException 500 ("分析失败: " ++ exc_str e0)).
Proof.
  intros nothing.
  destruct (quick_path_analysis_failures unit nothing Examples.spoken_time
              "path" "user" "event" "ts" [] None 10 5 None None 10
              (HTTPException 500 "分析失败: unable to parse the timestamps")
              eq_refl eq_refl)
    as [(H & _) | [(H & _) | [(H & _) | [(_ & e0 & H1 & H2 & H3)
                                         | (H & _)]]]];
    try discriminate H.
  - exfalso. apply H. right. left. reflexivity.
  - exists e0. split; [exact H1 |]. split; [exact H2 |].
    rewrite <- H3. reflexivity.
Defined.

(* ================================================================== *)
(** ** The time order of journeys and paths on the example datasets *)

(** The journeys of the [channels] dataset are in time order. *)
Lemma journeys_sorted_by_time_witness :
  exists js,
    AttributionService._build_user_journeys Examples.channels
      "user" "channel" "ts" (Some "converted"%string) (Some "revenue"%string)
    = Ok js
    /\ Forall (fun j => Spec.sorted_cells (AttributionService.timestamps j)
                        /\ AttributionService.touchpoints j <> []) js.
Proof.
  eexists. split; [vm_compute; reflexivity |].
  apply (journeys_sorted_by_time Examples.channels "user" "channel" "ts"
           (Some "converted"%string) (Some "revenue"%string)).
  vm_compute. reflexivity.
Defined.

(** The lists of the [events_first] dataset are in time order. *)
Lemma user_lists_sorted_witness :
  exists user_paths user_timestamps,
    PathAnalysisService.user_lists Examples.events_first "user" "event" "ts"
    = Ok (user_paths, user_timestamps)
    /\ Forall (fun ut => Spec.sorted_cells (snd ut)) user_timestamps
    /\ map fst user_paths = map fst user_timestamps.
Proof.
  do 2 eexists. split; [vm_compute; reflexivity |].
  apply (user_lists_sorted Examples.events_first "user" "event" "ts").
  vm_compute. reflexivity.
Defined.
